(** * Sage: provider adapters, pricing, factory and review orchestration

    A shallow embedding of the JavaScript sources
    [scripts/providers/{base,anthropic,openai,google,factory}.js] and
    [scripts/review.js], with the properties the specification states
    about them.

    Conventions of the embedding.
    - A JavaScript string is the list of its UTF-16 code units, each an [N].
    - An object used as a map (a pricing table, [SEVERITY_LEVELS]) is a
      [gmap] of its own properties; a property read also consults
      [Object.prototype], as the [obj[key]] expression of the source does.
    - A [throw] is the [Throw] case of [completion]; [try]/[catch] is a
      match on it.
    - Numbers that are only counted with are [nat]; money amounts are kept
      generic over the arithmetic ([JsNum]) and instantiated with exact
      rationals and with binary64 floats. *)

From Stdlib Require Import ZArith NArith QArith Qcanon Floats.
From Stdlib Require Import String Ascii List Bool Lia DecimalString.
From stdpp Require Import gmap list.
Import ListNotations.

Local Open Scope N_scope.
Local Open Scope list_scope.
Set Warnings "-register-all".

(** ** JavaScript strings *)

Module Js.

(** A string literal of the source, as code units. *)
Definition lit (s : string) : list N :=
  List.map N_of_ascii (list_ascii_of_string s).
Arguments lit s%_string.

(** One code unit, written as a character. *)
Definition cu (c : ascii) : N := N_of_ascii c.
Arguments cu c%_char.

Definition strEq (a b : list N) : bool := bool_decide (a = b).

(** [s.startsWith(p)]. *)
Fixpoint startsWith (s p : list N) {struct p} : bool :=
  match p with
  | [] => true
  | c :: p' =>
      match s with
      | [] => false
      | d :: s' => (c =? d) && startsWith s' p'
      end
  end.

(** [s.endsWith(p)]. *)
Definition endsWith (s p : list N) : bool :=
  startsWith (List.rev s) (List.rev p).

(** [s.includes(sub)]: [sub] occurs at some position of [s]. *)
Fixpoint includes (s sub : list N) : bool :=
  startsWith s sub ||
  match s with
  | [] => false
  | _ :: s' => includes s' sub
  end.

(** [s.split(sep)[0]] for a one-character separator: the part of [s]
    before the first [sep], all of [s] when there is none. *)
Fixpoint splitHead (sep : N) (s : list N) : list N :=
  match s with
  | [] => []
  | c :: s' => if c =? sep then [] else c :: splitHead sep s'
  end.

(** Lower case of an ASCII letter; every other code unit is kept. *)
Definition asciiLower (c : N) : N :=
  if (65 <=? c) && (c <=? 90) then c + 32 else c.

(** [s.toLowerCase()].  ASCII letters are lowered; U+212A (Kelvin sign)
    becomes [k] and U+0130 becomes [i] followed by U+0307, the two code
    units outside ASCII whose lower case contains an ASCII letter.  Other
    code units outside ASCII are kept as they are: their lower-case forms
    are again outside ASCII, so a comparison of the result with an ASCII
    literal is decided as in the source. *)
Fixpoint toLowerCase (s : list N) : list N :=
  match s with
  | [] => []
  | c :: s' =>
      (if c =? 8490 then [107]
       else if c =? 304 then [105; 775]
       else [asciiLower c]) ++ toLowerCase s'
  end.

(** Matching under the [i] flag of a regular expression without the [u]
    flag: code units are compared after canonicalisation, which never maps
    a code unit outside ASCII to an ASCII one. *)
Definition foldCase (s : list N) : list N := List.map asciiLower s.

(** [/sub/i.test(s)] for a literal, lower-case [sub]. *)
Definition includesCI (s sub : list N) : bool := includes (foldCase s) sub.

(** Truthiness of a string: the empty string is falsy. *)
Definition truthyStr (s : list N) : bool :=
  match s with [] => false | _ => true end.

(** A string that may be [undefined], when it is truthy. *)
Definition whenTruthy (s : option (list N)) : option (list N) :=
  match s with
  | Some t => if truthyStr t then Some t else None
  | None => None
  end.

(** [a || b] on strings that may be [undefined]. *)
Definition orElse (a : option (list N)) (b : list N) : list N :=
  match a with
  | Some t => if truthyStr t then t else b
  | None => b
  end.

(** The decimal text of a natural number, as [String(n)] gives it for an
    integer below 10^21. *)
Definition ofNat (n : nat) : list N :=
  lit (NilEmpty.string_of_uint (Nat.to_uint n)).

(** *** Property reads

    [obj[key]] finds an own property first and a property of
    [Object.prototype] otherwise.  The names below are the properties of
    [Object.prototype]; each holds a function, except [__proto__], which
    yields the prototype object itself. *)
Definition OBJECT_PROTOTYPE : list (list N) :=
  [ lit "constructor"; lit "__defineGetter__"; lit "__defineSetter__";
    lit "hasOwnProperty"; lit "__lookupGetter__"; lit "__lookupSetter__";
    lit "isPrototypeOf"; lit "propertyIsEnumerable"; lit "toString";
    lit "valueOf"; lit "__proto__"; lit "toLocaleString" ].

Inductive prop (A : Type) : Type :=
| Own (a : A)        (* an own property of the object *)
| Inherited          (* a member of Object.prototype: a truthy object *)
| Undefined.         (* no such property *)
Arguments Own {A} a.
Arguments Inherited {A}.
Arguments Undefined {A}.

Definition get {A : Type} (o : gmap (list N) A) (k : list N) : prop A :=
  match o !! k with
  | Some v => Own v
  | None => if bool_decide (k ∈ OBJECT_PROTOTYPE) then Inherited else Undefined
  end.

(** The primitive value of the member of [Object.prototype] named [name],
    as a comparison or a template takes it: the member is not a primitive
    and its [valueOf] returns the member itself, so the value is its
    [toString()].  For a function that is the text of a built-in function;
    [constructor] holds the function [Object]; [__proto__] yields the
    prototype object, whose text is [[object Object]]. *)
Definition memberText (name : list N) : list N :=
  if strEq name (lit "__proto__") then lit "[object Object]"
  else
    lit "function "
    ++ (if strEq name (lit "constructor") then lit "Object" else name)
    ++ lit "() { [native code] }".

(** [a < b] on strings: the order of the code units at the first position
    where the two differ; a proper prefix is smaller. *)
Fixpoint strLt (a b : list N) : bool :=
  match a, b with
  | _, [] => false
  | [], _ :: _ => true
  | x :: a', y :: b' =>
      if x <? y then true else if y <? x then false else strLt a' b'
  end.

(** *** Completions: a returned value or a thrown error *)

Inductive completion (A : Type) : Type :=
| Normal (a : A)
| Throw (message : list N).
Arguments Normal {A} a.
Arguments Throw {A} message.

#[global] Instance completion_ret : MRet completion := fun A a => Normal a.

#[global] Instance completion_bind : MBind completion :=
  fun A B k c =>
    match c with
    | Normal a => k a
    | Throw m => Throw m
    end.

End Js.

(** ** Numbers

    The arithmetic the cost computation needs, so that one definition of
    the source's expression can be read in exact rationals and in the
    binary64 floats JavaScript computes with. *)

Class JsNum (num : Type) : Type := {
  ofZ : Z -> num;
  add : num -> num -> num;
  mul : num -> num -> num;
  div : num -> num -> num;
  (** truthiness of a number: neither zero nor NaN *)
  truthyNum : num -> bool
}.

(** Exact rationals. *)
#[global] Instance JsNum_Qc : JsNum Qc := {
  ofZ := fun z => Q2Qc (inject_Z z);
  add := Qcplus;
  mul := Qcmult;
  div := Qcdiv;
  truthyNum := fun x => if Qc_eq_dec x (Q2Qc 0) then false else true
}.

(** IEEE 754 binary64, round to nearest even: the numbers of the source.
    [ofZ] is exact for the integers below 2^53 in absolute value. *)
#[global] Instance JsNum_float : JsNum float := {
  ofZ := fun z =>
    if (z <? 0)%Z
    then PrimFloat.opp (PrimFloat.of_uint63 (Uint63.of_Z (- z)))
    else PrimFloat.of_uint63 (Uint63.of_Z z);
  add := PrimFloat.add;
  mul := PrimFloat.mul;
  div := PrimFloat.div;
  truthyNum := fun x =>
    negb (PrimFloat.eqb x PrimFloat.zero) && negb (PrimFloat.is_nan x)
}.

(** ** Pricing entries, usage counters, responses *)

Section Data.
Context {num : Type} `{JsNum num}.

(** A decimal literal of the source with [places] digits after the point:
    [dec 300 2] is [3.00].  Both operands are integers the arithmetic
    represents exactly, so in binary64 the quotient is the double nearest to
    the decimal, which is what the literal denotes. *)
Definition dec (digits : Z) (places : nat) : num :=
  div (ofZ digits) (ofZ (10 ^ Z.of_nat places)).

(** USD per million tokens; the cache rates are absent from the OpenAI and
    Gemini tables. *)
Record PricingEntry : Type := {
  input : num;
  output : num;
  cache_write : option num;
  cache_read : option num
}.

(** The common usage shape; a field the vendor did not send is [None]. *)
Record Usage : Type := {
  input_tokens : option num;
  output_tokens : option num;
  cache_creation_input_tokens : option num;
  cache_read_input_tokens : option num;
  total_tokens : option num
}.

Record Response : Type := {
  text : list N;
  usage : Usage;
  model : list N
}.

(** [x || 0] for a counter that may be absent. *)
Definition orZero (x : option num) : num :=
  match x with
  | Some v => if truthyNum v then v else ofZ 0
  | None => ofZ 0
  end.

(** [rate / 1_000_000]. *)
Definition perToken (rate : num) : num := div rate (ofZ 1000000).

End Data.

Arguments PricingEntry num : clear implicits.
Arguments Usage num : clear implicits.
Arguments Response num : clear implicits.

(** ** The retry loop of [review]

    The three adapters run the same loop and differ in the label of the
    final error.  One attempt is the whole [try] block: the vendor call and
    the normalisation of its answer; it returns a response or throws.  The
    trace records the calls made and the back-off sleeps awaited. *)

Module Retry.

Inductive event : Type :=
| Call (attempt : nat)
| Sleep (milliseconds : nat).

(** How the promise of [review] settles.  [ResolvedUndefined] is the
    function body running off its end without a [return]. *)
Inductive settled (A : Type) : Type :=
| Resolved (response : A)
| ResolvedUndefined
| Rejected (message : list N).
Arguments Resolved {A} response.
Arguments ResolvedUndefined {A}.
Arguments Rejected {A} message.

Record ReviewOptions : Type := {
  maxTokens : option nat;
  thinkingBudget : option nat;
  guidelines : option (list N);
  retries : option nat
}.

(** The destructuring default [retries = 3]. *)
Definition retriesOf (options : ReviewOptions) : nat :=
  match retries options with
  | Some n => n
  | None => 3%nat
  end.

Definition failure (label : list N) (retries : nat) (message : list N)
  : list N :=
  label ++ Js.lit " API failed after " ++ Js.ofNat retries
        ++ Js.lit " attempts: " ++ message.

(** [for (let attempt = 1; attempt <= retries; attempt++) { try ... }],
    entered at [attempt]; [fuel] bounds the iterations and is never the
    reason the loop ends when it is at least [retries + 2 - attempt]
    (lemma [loop_fuel]). *)
Fixpoint loop {A : Type} (label : list N) (api : nat -> Js.completion A)
    (retries fuel attempt : nat) : list event * settled A :=
  match fuel with
  | O => ([], ResolvedUndefined)
  | S fuel' =>
      if (attempt <=? retries)%nat then
        match api attempt with
        | Js.Normal response => ([Call attempt], Resolved response)
        | Js.Throw message =>
            if (attempt =? retries)%nat
            then ([Call attempt], Rejected (failure label retries message))
            else
              let delay := (2 ^ attempt * 1000)%nat in
              let rest := loop label api retries fuel' (S attempt) in
              (Call attempt :: Sleep delay :: fst rest, snd rest)
        end
      else ([], ResolvedUndefined)
  end.

Definition run {A : Type} (label : list N) (options : ReviewOptions)
    (api : nat -> Js.completion A) : list event * settled A :=
  let retries := retriesOf options in
  loop label api retries (S retries) 1.

(** The calls of a trace. *)
Definition calls (trace : list event) : list nat :=
  List.flat_map
    (fun e => match e with Call n => [n] | Sleep _ => [] end) trace.

(** The sleeps of a trace, in milliseconds. *)
Definition sleeps (trace : list event) : list nat :=
  List.flat_map
    (fun e => match e with Sleep d => [d] | Call _ => [] end) trace.

End Retry.

(** ** Anthropic adapter *)

Module AnthropicProvider.
Section WithNum.
Context {num : Type} `{JsNum num}.

Definition entry (i o w r : num) : PricingEntry num :=
  {| input := i; output := o; cache_write := Some w; cache_read := Some r |}.

Definition SONNET_4_5 := entry (dec 300 2) (dec 1500 2) (dec 600 2) (dec 30 2).
Definition OPUS_4_5 := entry (dec 1500 2) (dec 7500 2) (dec 3000 2) (dec 150 2).
Definition HAIKU_4_5 := entry (dec 80 2) (dec 400 2) (dec 160 2) (dec 8 2).

Definition PRICING_TABLE : gmap (list N) (PricingEntry num) :=
  <[ Js.lit "claude-sonnet-4-5-20250929" := SONNET_4_5 ]>
  (<[ Js.lit "claude-opus-4-5-20251101" := OPUS_4_5 ]>
  (<[ Js.lit "claude-haiku-4-5-20250101" := HAIKU_4_5 ]>
  (<[ Js.lit "claude-3-5-sonnet-20241022" := SONNET_4_5 ]>
  (<[ Js.lit "claude-3-5-haiku-20241022" := HAIKU_4_5 ]> ∅)))).

Definition getModelPricing (modelName : list N)
  : Js.prop (PricingEntry num) :=
  let normalizedName := Js.splitHead (Js.cu ":") modelName in
  match Js.get PRICING_TABLE normalizedName with
  | Js.Own p => Js.Own p
  | Js.Inherited => Js.Inherited
  | Js.Undefined =>
      if Js.includes normalizedName (Js.lit "opus") then
        Js.get PRICING_TABLE (Js.lit "claude-opus-4-5-20251101")
      else if Js.includes normalizedName (Js.lit "haiku") then
        Js.get PRICING_TABLE (Js.lit "claude-haiku-4-5-20250101")
      else if Js.includes normalizedName (Js.lit "sonnet") then
        Js.get PRICING_TABLE (Js.lit "claude-sonnet-4-5-20250929")
      else
        (* Unknown model - use Sonnet as safe default *)
        Js.get PRICING_TABLE (Js.lit "claude-sonnet-4-5-20250929")
  end.

(** The body of [calculateCost] once the prices are known.  [None] is NaN:
    a cache counter is charged at a rate the entry does not have. *)
Definition costWith (prices : PricingEntry num) (usage : Usage num)
  : option num :=
  let cost := ofZ 0 in
  let cost := add cost (mul (orZero (input_tokens usage))
                            (perToken (input prices))) in
  let cost := add cost (mul (orZero (output_tokens usage))
                            (perToken (output prices))) in
  cost ←
    (match cache_creation_input_tokens usage with
     | Some n =>
         if truthyNum n
         then rate ← cache_write prices;
              Some (add cost (mul n (perToken rate)))
         else Some cost
     | None => Some cost
     end);
  match cache_read_input_tokens usage with
  | Some n =>
      if truthyNum n
      then rate ← cache_read prices;
           Some (add cost (mul n (perToken rate)))
      else Some cost
  | None => Some cost
  end.

(** [calculateCost(usage, modelName)] of an adapter configured with
    [thisModel].  [None] is NaN, which is also what the arithmetic gives
    when the price lookup lands on a member of [Object.prototype]. *)
Definition calculateCost (thisModel : list N) (usage : Usage num)
    (modelName : option (list N)) : option num :=
  let model := Js.orElse modelName thisModel in
  match getModelPricing model with
  | Js.Own prices => costWith prices usage
  | _ => None
  end.

End WithNum.

Definition getName : list N := Js.lit "Anthropic Claude".
Definition supportsPromptCaching : bool := true.
Definition supportsExtendedThinking : bool := true.

Definition review {A : Type} (options : Retry.ReviewOptions)
    (api : nat -> Js.completion A) : list Retry.event * Retry.settled A :=
  Retry.run (Js.lit "Anthropic") options api.

End AnthropicProvider.

(** ** OpenAI adapter *)

Module OpenAIProvider.
Section WithNum.
Context {num : Type} `{JsNum num}.

Definition entry (i o : num) : PricingEntry num :=
  {| input := i; output := o; cache_write := None; cache_read := None |}.

Definition GPT_4_TURBO := entry (dec 1000 2) (dec 3000 2).
Definition GPT_4 := entry (dec 3000 2) (dec 6000 2).
Definition GPT_3_5_TURBO := entry (dec 50 2) (dec 150 2).

Definition PRICING_TABLE : gmap (list N) (PricingEntry num) :=
  <[ Js.lit "gpt-4-turbo-preview" := GPT_4_TURBO ]>
  (<[ Js.lit "gpt-4-turbo" := GPT_4_TURBO ]>
  (<[ Js.lit "gpt-4" := GPT_4 ]>
  (<[ Js.lit "gpt-3.5-turbo" := GPT_3_5_TURBO ]> ∅))).

(** No normalisation here: the table is read at [modelName] as given. *)
Definition getModelPricing (modelName : list N)
  : Js.prop (PricingEntry num) :=
  match Js.get PRICING_TABLE modelName with
  | Js.Own p => Js.Own p
  | Js.Inherited => Js.Inherited
  | Js.Undefined =>
      if Js.includes modelName (Js.lit "gpt-4-turbo") then
        Js.get PRICING_TABLE (Js.lit "gpt-4-turbo")
      else if Js.includes modelName (Js.lit "gpt-4") then
        Js.get PRICING_TABLE (Js.lit "gpt-4")
      else if Js.includes modelName (Js.lit "gpt-3.5") then
        Js.get PRICING_TABLE (Js.lit "gpt-3.5-turbo")
      else
        (* Unknown model - use GPT-4 Turbo as safe default *)
        Js.get PRICING_TABLE (Js.lit "gpt-4-turbo")
  end.

Definition costWith (prices : PricingEntry num) (usage : Usage num) : num :=
  let cost := ofZ 0 in
  let cost := add cost (mul (orZero (input_tokens usage))
                            (perToken (input prices))) in
  let cost := add cost (mul (orZero (output_tokens usage))
                            (perToken (output prices))) in
  cost.

Definition calculateCost (thisModel : list N) (usage : Usage num)
    (modelName : option (list N)) : option num :=
  let model := Js.orElse modelName thisModel in
  match getModelPricing model with
  | Js.Own prices => Some (costWith prices usage)
  | _ => None
  end.

End WithNum.

Definition getName : list N := Js.lit "OpenAI".
Definition supportsPromptCaching : bool := false.
Definition supportsExtendedThinking : bool := false.

Definition review {A : Type} (options : Retry.ReviewOptions)
    (api : nat -> Js.completion A) : list Retry.event * Retry.settled A :=
  Retry.run (Js.lit "OpenAI") options api.

End OpenAIProvider.

(** ** Google Gemini adapter *)

Module GoogleProvider.
Section WithNum.
Context {num : Type} `{JsNum num}.

Definition entry (i o : num) : PricingEntry num :=
  {| input := i; output := o; cache_write := None; cache_read := None |}.

Definition GEMINI_1_5_PRO := entry (dec 350 2) (dec 1050 2).
Definition GEMINI_1_5_FLASH := entry (dec 35 2) (dec 105 2).
Definition GEMINI_PRO := entry (dec 50 2) (dec 150 2).

Definition PRICING_TABLE : gmap (list N) (PricingEntry num) :=
  <[ Js.lit "gemini-1.5-pro" := GEMINI_1_5_PRO ]>
  (<[ Js.lit "gemini-1.5-flash" := GEMINI_1_5_FLASH ]>
  (<[ Js.lit "gemini-pro" := GEMINI_PRO ]> ∅)).

(** No normalisation here either. *)
Definition getModelPricing (modelName : list N)
  : Js.prop (PricingEntry num) :=
  match Js.get PRICING_TABLE modelName with
  | Js.Own p => Js.Own p
  | Js.Inherited => Js.Inherited
  | Js.Undefined =>
      if Js.includes modelName (Js.lit "flash") then
        Js.get PRICING_TABLE (Js.lit "gemini-1.5-flash")
      else if Js.includes modelName (Js.lit "1.5-pro") then
        Js.get PRICING_TABLE (Js.lit "gemini-1.5-pro")
      else if Js.includes modelName (Js.lit "pro") then
        Js.get PRICING_TABLE (Js.lit "gemini-pro")
      else
        (* Unknown model - use Gemini 1.5 Pro as safe default *)
        Js.get PRICING_TABLE (Js.lit "gemini-1.5-pro")
  end.

Definition costWith (prices : PricingEntry num) (usage : Usage num) : num :=
  let cost := ofZ 0 in
  let cost := add cost (mul (orZero (input_tokens usage))
                            (perToken (input prices))) in
  let cost := add cost (mul (orZero (output_tokens usage))
                            (perToken (output prices))) in
  cost.

Definition calculateCost (thisModel : list N) (usage : Usage num)
    (modelName : option (list N)) : option num :=
  let model := Js.orElse modelName thisModel in
  match getModelPricing model with
  | Js.Own prices => Some (costWith prices usage)
  | _ => None
  end.

End WithNum.

Definition getName : list N := Js.lit "Google Gemini".
Definition supportsPromptCaching : bool := false.
Definition supportsExtendedThinking : bool := false.

Definition review {A : Type} (options : Retry.ReviewOptions)
    (api : nat -> Js.completion A) : list Retry.event * Retry.settled A :=
  Retry.run (Js.lit "Google Gemini") options api.

End GoogleProvider.

(** ** Provider factory *)

Module ProviderFactory.

(** An adapter as its constructor stores it.  The vendor clients the
    constructors create are not part of the model. *)
Inductive provider : Type :=
| Anthropic (apiKey model : list N)
| OpenAI (apiKey model : list N)
| Google (apiKey model projectId location : list N).

Record FactoryOptions : Type := {
  projectId : option (list N);
  location : option (list N)
}.

Definition noOptions : FactoryOptions :=
  {| projectId := None; location := None |}.

(** [createProvider(providerName, apiKey, model, options)].  [apiKey] and
    [model] may be [undefined] or empty; [providerName] is a string. *)
Definition createProvider (providerName : list N)
    (apiKey model : option (list N)) (options : FactoryOptions)
  : Js.completion provider :=
  match Js.whenTruthy apiKey with
  | None =>
      Js.Throw (Js.lit "API key is required for provider: " ++ providerName)
  | Some key =>
      let provider := Js.toLowerCase providerName in
      if Js.strEq provider (Js.lit "anthropic")
         || Js.strEq provider (Js.lit "claude") then
        Js.Normal
          (Anthropic key (Js.orElse model (Js.lit "claude-sonnet-4-5-20250929")))
      else if Js.strEq provider (Js.lit "openai")
              || Js.strEq provider (Js.lit "gpt") then
        Js.Normal (OpenAI key (Js.orElse model (Js.lit "gpt-4-turbo-preview")))
      else if Js.strEq provider (Js.lit "google")
              || Js.strEq provider (Js.lit "gemini") then
        match Js.whenTruthy (projectId options) with
        | None =>
            Js.Throw (Js.lit "Google provider requires projectId option")
        | Some project =>
            Js.Normal
              (Google key
                 (Js.orElse model (Js.lit "gemini-1.5-pro"))
                 project
                 (Js.orElse (location options) (Js.lit "us-central1")))
        end
      else
        Js.Throw (Js.lit "Unknown provider: " ++ providerName
                  ++ Js.lit ". Supported: anthropic, openai, google")
  end.

Definition getSupportedProviders : list (list N) :=
  [Js.lit "anthropic"; Js.lit "openai"; Js.lit "google"].

Definition getDefaultModels : gmap (list N) (list N) :=
  <[ Js.lit "anthropic" := Js.lit "claude-sonnet-4-5-20250929" ]>
  (<[ Js.lit "openai" := Js.lit "gpt-4-turbo-preview" ]>
  (<[ Js.lit "google" := Js.lit "gemini-1.5-pro" ]> ∅)).

Definition getName (p : provider) : list N :=
  match p with
  | Anthropic _ _ => AnthropicProvider.getName
  | OpenAI _ _ => OpenAIProvider.getName
  | Google _ _ _ _ => GoogleProvider.getName
  end.

Definition review {A : Type} (p : provider) (options : Retry.ReviewOptions)
    (api : nat -> Js.completion A) : list Retry.event * Retry.settled A :=
  match p with
  | Anthropic _ _ => AnthropicProvider.review options api
  | OpenAI _ _ => OpenAIProvider.review options api
  | Google _ _ _ _ => GoogleProvider.review options api
  end.

End ProviderFactory.

(** ** JSON values and [JSON.parse] *)

Module Json.

(** A parsed JSON value.  [Num m e] is the number written in the text, the
    decimal [m * 10^e]; the double the parser produces is that decimal
    rounded to nearest.  [Obj] keeps the members in the order of the text;
    a key written twice is read at its last occurrence, which is the value
    the parsed object holds. *)
Inductive value : Type :=
| Null
| Bool (b : bool)
| Num (mantissa exponent : Z)
| Str (s : list N)
| Arr (items : list value)
| Obj (members : list (list N * value)).

(** Whether the double nearest to [m * 10^e] is zero: the decimal is zero,
    or at most [2^-1075], half the least positive double. *)
Definition roundsToZero (m e : Z) : bool :=
  if (m =? 0)%Z then true
  else if (0 <=? e)%Z then false
  else (Z.abs m * 2 ^ 1075 <=? 10 ^ (- e))%Z.

(** Truthiness of a parsed value. *)
Definition truthy (v : value) : bool :=
  match v with
  | Null => false
  | Bool b => b
  | Num m e => negb (roundsToZero m e)
  | Str s => Js.truthyStr s
  | Arr _ => true
  | Obj _ => true
  end.

Fixpoint lookupLast (k : list N) (members : list (list N * value))
  : option value :=
  match members with
  | [] => None
  | (k', v) :: rest =>
      match lookupLast k rest with
      | Some later => Some later
      | None => if Js.strEq k' k then Some v else None
      end
  end.

(** [v.k] for a key [k] that names no built-in property of objects, arrays,
    strings, numbers or booleans, as [severity], [file], [line] and [title]
    are: [None] is [undefined], and reading a property of [null] throws. *)
Definition field (k : list N) (v : value) : Js.completion (option value) :=
  match v with
  | Null =>
      Js.Throw (Js.lit "Cannot read properties of null (reading '"
                ++ k ++ Js.lit "')")
  | Obj members => Js.Normal (lookupLast k members)
  | _ => Js.Normal None
  end.

(** Truthiness of a property that may be [undefined]. *)
Definition truthyField (v : option value) : bool :=
  match v with
  | Some x => truthy x
  | None => false
  end.

(** Joining the texts of array elements with [","].  [None] stands for a
    text that was not computed (see [toString]); a conversion that throws
    ends the join. *)
Definition joinComma (parts : list (Js.completion (option (list N))))
  : Js.completion (option (list N)) :=
  match parts with
  | [] => Js.Normal (Some [])
  | first :: rest =>
      List.fold_left
        (fun acc part =>
           a ← acc;
           p ← part;
           Js.Normal (x ← a; y ← p; Some (x ++ Js.cu "," :: y)))
        rest first
  end.

(** [String(v)], the text a value has when it is used as a property key.
    An array is the comma-joined text of its elements, [null] elements
    giving the empty text.  An object is [[object Object]], unless it has
    an own property [toString]: a parsed value is never callable, so the
    conversion finds no method that yields a primitive and throws a
    [TypeError].  The text of a number is not computed ([None]): it holds
    a digit or is [Infinity] or [-Infinity], so no text containing it is a
    name of [SEVERITY_LEVELS] or of [Object.prototype]. *)
Fixpoint toString (v : value) : Js.completion (option (list N)) :=
  match v with
  | Null => Js.Normal (Some (Js.lit "null"))
  | Bool true => Js.Normal (Some (Js.lit "true"))
  | Bool false => Js.Normal (Some (Js.lit "false"))
  | Num _ _ => Js.Normal None
  | Str s => Js.Normal (Some s)
  | Arr items =>
      joinComma
        (List.map
           (fun item =>
              match item with
              | Null => Js.Normal (Some [])
              | _ => toString item
              end) items)
  | Obj members =>
      match lookupLast (Js.lit "toString") members with
      | Some _ =>
          Js.Throw (Js.lit "Cannot convert object to primitive value")
      | None => Js.Normal (Some (Js.lit "[object Object]"))
      end
  end.

(** *** The parser

    [JSON.parse] as a machine that reads the text one code unit at a time:
    a lexer mode for the token being read, and a stack of the arrays and
    objects that are open. *)

Inductive token : Type :=
| TLBracket | TRBracket | TLBrace | TRBrace | TComma | TColon
| TScalar (v : value).

Inductive frame : Type :=
| InArr (done : list value)
| InObj (done : list (list N * value)) (key : option (list N)).

Inductive expect : Type :=
| XValue          (* a value must start *)
| XValueOrClose   (* just after [ *)
| XKeyOrClose     (* just after { *)
| XKey            (* after a comma in an object *)
| XColon          (* after a key *)
| XCommaOrClose   (* after an element or a member *)
| XEnd.           (* the top-level value is complete *)

Record pda : Type := {
  stack : list frame;
  expecting : expect;
  result : option value
}.

Definition start : pda :=
  {| stack := []; expecting := XValue; result := None |}.

(** A complete value goes to the innermost open container, or is the
    result. *)
Definition deliver (v : value) (frames : list frame) : option pda :=
  match frames with
  | [] => Some {| stack := []; expecting := XEnd; result := Some v |}
  | InArr done :: rest =>
      Some {| stack := InArr (v :: done) :: rest;
              expecting := XCommaOrClose; result := None |}
  | InObj done (Some k) :: rest =>
      Some {| stack := InObj ((k, v) :: done) None :: rest;
              expecting := XCommaOrClose; result := None |}
  | InObj _ None :: _ => None
  end.

Definition wantsValue (e : expect) : bool :=
  match e with XValue | XValueOrClose => true | _ => false end.

Definition feed (st : pda) (t : token) : option pda :=
  match t with
  | TScalar v =>
      match expecting st, v, stack st with
      | (XKeyOrClose | XKey), Str k, InObj done None :: rest =>
          Some {| stack := InObj done (Some k) :: rest;
                  expecting := XColon; result := None |}
      | e, _, frames => if wantsValue e then deliver v frames else None
      end
  | TLBracket =>
      if wantsValue (expecting st)
      then Some {| stack := InArr [] :: stack st;
                   expecting := XValueOrClose; result := None |}
      else None
  | TLBrace =>
      if wantsValue (expecting st)
      then Some {| stack := InObj [] None :: stack st;
                   expecting := XKeyOrClose; result := None |}
      else None
  | TRBracket =>
      match expecting st, stack st with
      | (XValueOrClose | XCommaOrClose), InArr done :: rest =>
          deliver (Arr (List.rev done)) rest
      | _, _ => None
      end
  | TRBrace =>
      match expecting st, stack st with
      | (XKeyOrClose | XCommaOrClose), InObj done None :: rest =>
          deliver (Obj (List.rev done)) rest
      | _, _ => None
      end
  | TComma =>
      match expecting st, stack st with
      | XCommaOrClose, InArr done :: rest =>
          Some {| stack := InArr done :: rest;
                  expecting := XValue; result := None |}
      | XCommaOrClose, InObj done None :: rest =>
          Some {| stack := InObj done None :: rest;
                  expecting := XKey; result := None |}
      | _, _ => None
      end
  | TColon =>
      match expecting st with
      | XColon =>
          Some {| stack := stack st; expecting := XValue; result := None |}
      | _ => None
      end
  end.

(** Number literals: an optional minus sign; then 0, or a digit 1-9 followed
    by any digits; then optionally a point and one or more digits; then
    optionally e or E, an optional sign, and one or more digits. *)

Definition isDigit (c : N) : bool := (48 <=? c) && (c <=? 57).

Fixpoint spanDigits (s : list N) : list N * list N :=
  match s with
  | [] => ([], [])
  | c :: s' =>
      if isDigit c
      then let r := spanDigits s' in (c :: fst r, snd r)
      else ([], s)
  end.

Definition digitsToZ (ds : list N) : Z :=
  List.fold_left (fun acc c => (acc * 10 + Z.of_N (c - 48))%Z) ds 0%Z.

Definition parseExponent (s : list N) : option Z :=
  match s with
  | [] => Some 0%Z
  | c :: s1 =>
      if (c =? Js.cu "e") || (c =? Js.cu "E") then
        let signed :=
          match s1 with
          | d :: s2 =>
              if d =? Js.cu "-" then (true, s2)
              else if d =? Js.cu "+" then (false, s2)
              else (false, s1)
          | [] => (false, s1)
          end in
        let r := spanDigits (snd signed) in
        match fst r, snd r with
        | _ :: _, [] =>
            Some (if fst signed then (- digitsToZ (fst r))%Z
                  else digitsToZ (fst r))
        | _, _ => None
        end
      else None
  end.

Definition parseNumber (s : list N) : option value :=
  let signed :=
    match s with
    | c :: s' => if c =? Js.cu "-" then (true, s') else (false, s)
    | [] => (false, s)
    end in
  let int := spanDigits (snd signed) in
  match fst int with
  | [] => None
  | d :: more =>
      if (d =? Js.cu "0") && negb (Js.strEq more []) then None
      else
        let frac :=
          match snd int with
          | c :: s' =>
              if c =? Js.cu "." then
                let r := spanDigits s' in
                match fst r with
                | [] => None
                | _ => Some r
                end
              else Some ([], snd int)
          | [] => Some ([], [])
          end in
        fr ← frac;
        ex ← parseExponent (snd fr);
        let digits := digitsToZ (fst int ++ fst fr) in
        Some (Num (if fst signed then (- digits)%Z else digits)
                  (ex - Z.of_nat (List.length (fst fr)))%Z)
  end.

Definition parseWord (s : list N) : option value :=
  if Js.strEq s (Js.lit "true") then Some (Bool true)
  else if Js.strEq s (Js.lit "false") then Some (Bool false)
  else if Js.strEq s (Js.lit "null") then Some Null
  else None.

Definition hexValue (c : N) : option N :=
  if isDigit c then Some (c - 48)
  else if (97 <=? c) && (c <=? 102) then Some (c - 87)
  else if (65 <=? c) && (c <=? 70) then Some (c - 55)
  else None.

(** What the lexer is in the middle of; accumulated text is kept
    reversed. *)
Inductive mode : Type :=
| MIdle
| MStr (acc : list N)
| MEsc (acc : list N)
| MHex (acc : list N) (read : nat) (code : N)
| MNum (acc : list N)
| MWord (acc : list N).

Definition isSpace (c : N) : bool :=
  (c =? 32) || (c =? 9) || (c =? 10) || (c =? 13).

Definition isNumberChar (c : N) : bool :=
  isDigit c || (c =? Js.cu "-") || (c =? Js.cu "+") || (c =? Js.cu ".")
  || (c =? Js.cu "e") || (c =? Js.cu "E").

Definition isLower (c : N) : bool := (97 <=? c) && (c <=? 122).

(** A code unit read between tokens. *)
Definition idle (st : pda) (c : N) : option (mode * pda) :=
  if isSpace c then Some (MIdle, st)
  else if c =? 34 then Some (MStr [], st)
  else if c =? Js.cu "[" then st' ← feed st TLBracket; Some (MIdle, st')
  else if c =? Js.cu "]" then st' ← feed st TRBracket; Some (MIdle, st')
  else if c =? Js.cu "{" then st' ← feed st TLBrace; Some (MIdle, st')
  else if c =? Js.cu "}" then st' ← feed st TRBrace; Some (MIdle, st')
  else if c =? Js.cu "," then st' ← feed st TComma; Some (MIdle, st')
  else if c =? Js.cu ":" then st' ← feed st TColon; Some (MIdle, st')
  else if isDigit c || (c =? Js.cu "-") then Some (MNum [c], st)
  else if isLower c then Some (MWord [c], st)
  else None.

Definition step (s : mode * pda) (c : N) : option (mode * pda) :=
  let st := snd s in
  match fst s with
  | MIdle => idle st c
  | MStr acc =>
      if c =? 34 then
        st' ← feed st (TScalar (Str (List.rev acc))); Some (MIdle, st')
      else if c =? 92 then Some (MEsc acc, st)
      else if c <? 32 then None
      else Some (MStr (c :: acc), st)
  | MEsc acc =>
      if (c =? 34) || (c =? 92) || (c =? Js.cu "/")
      then Some (MStr (c :: acc), st)
      else if c =? Js.cu "b" then Some (MStr (8 :: acc), st)
      else if c =? Js.cu "f" then Some (MStr (12 :: acc), st)
      else if c =? Js.cu "n" then Some (MStr (10 :: acc), st)
      else if c =? Js.cu "r" then Some (MStr (13 :: acc), st)
      else if c =? Js.cu "t" then Some (MStr (9 :: acc), st)
      else if c =? Js.cu "u" then Some (MHex acc 0 0, st)
      else None
  | MHex acc read code =>
      h ← hexValue c;
      let code' := code * 16 + h in
      if (read =? 3)%nat
      then Some (MStr (code' :: acc), st)
      else Some (MHex acc (S read) code', st)
  | MNum acc =>
      if isNumberChar c then Some (MNum (c :: acc), st)
      else
        v ← parseNumber (List.rev acc);
        st' ← feed st (TScalar v);
        idle st' c
  | MWord acc =>
      if isLower c then Some (MWord (c :: acc), st)
      else
        v ← parseWord (List.rev acc);
        st' ← feed st (TScalar v);
        idle st' c
  end.

Definition steps (text : list N) (s : mode * pda) : option (mode * pda) :=
  List.fold_left (fun acc c => s' ← acc; step s' c) text (Some s).

(** The end of the text closes a number or a word; an open string is an
    error, and so is an open array or object. *)
Definition finish (s : mode * pda) : option value :=
  st ←
    (match fst s with
     | MIdle => Some (snd s)
     | MNum acc =>
         v ← parseNumber (List.rev acc); feed (snd s) (TScalar v)
     | MWord acc =>
         v ← parseWord (List.rev acc); feed (snd s) (TScalar v)
     | _ => None
     end);
  match expecting st with
  | XEnd => result st
  | _ => None
  end.

(** [JSON.parse(text)]; [None] is the [SyntaxError] it throws. *)
Definition parse (text : list N) : option value :=
  s ← steps text (MIdle, start); finish s.

Definition isArray (v : value) : bool :=
  match v with Arr _ => true | _ => false end.

End Json.

(** ** The review engine ([scripts/review.js]) *)

Module Review.

(** *** Findings *)

(** [text.match(/\[[\s\S]*\]/)]: the text from the first [[] to the last
    []] after it. *)
Fixpoint fromFirst (c : N) (s : list N) : option (list N) :=
  match s with
  | [] => None
  | d :: s' => if d =? c then Some s else fromFirst c s'
  end.

Fixpoint uptoLast (c : N) (s : list N) : option (list N) :=
  match s with
  | [] => None
  | d :: s' =>
      match uptoLast c s' with
      | Some p => Some (d :: p)
      | None => if d =? c then Some [d] else None
      end
  end.

Definition matchArray (text : list N) : option (list N) :=
  s ← fromFirst (Js.cu "[") text;
  match s with
  | bracket :: rest => p ← uptoLast (Js.cu "]") rest; Some (bracket :: p)
  | [] => None
  end.

(** The callback of [findings.filter] in [parseFindings]:
    [!f.severity || !f.file || !f.line || !f.title] drops the element. *)
Definition validFinding (f : Json.value) : Js.completion bool :=
  severity ← Json.field (Js.lit "severity") f;
  if negb (Json.truthyField severity) then Js.Normal false else
  file ← Json.field (Js.lit "file") f;
  if negb (Json.truthyField file) then Js.Normal false else
  line ← Json.field (Js.lit "line") f;
  if negb (Json.truthyField line) then Js.Normal false else
  title ← Json.field (Js.lit "title") f;
  if negb (Json.truthyField title) then Js.Normal false else
  Js.Normal true.

(** [array.filter(callback)] for a callback that may throw. *)
Fixpoint filterC {A : Type} (keep : A -> Js.completion bool) (l : list A)
  : Js.completion (list A) :=
  match l with
  | [] => Js.Normal []
  | x :: rest =>
      b ← keep x;
      kept ← filterC keep rest;
      Js.Normal (if (b : bool) then x :: kept else kept)
  end.

(** What [parseFindings] writes to the log.  The text of a skipped element
    ([JSON.stringify(f)]) is kept as the element itself. *)
Inductive diagnostic : Type :=
| NoStructuredFindings               (* [INFO] No structured findings found *)
| NotAnArray                         (* ::warning::Response is not an array *)
| SkippingInvalid (f : Json.value)   (* ::warning::Skipping invalid finding *)
| Parsed (valid : nat)               (* [OK] Parsed n valid findings *)
| FailedToParse (message : list N).  (* ::warning::Failed to parse findings *)

(** [findings.filter(f => ...)] in [parseFindings], with what it logs: an
    element that fails the test is reported and dropped; a throw ends the
    filter, and what was logged before it stays logged. *)
Fixpoint filterFindings (findings : list Json.value)
  : list diagnostic * Js.completion (list Json.value) :=
  match findings with
  | [] => ([], Js.Normal [])
  | f :: rest =>
      match validFinding f with
      | Js.Throw m => ([], Js.Throw m)
      | Js.Normal true =>
          let r := filterFindings rest in
          (fst r, kept ← snd r; Js.Normal (f :: kept))
      | Js.Normal false =>
          let r := filterFindings rest in
          (SkippingInvalid f :: fst r, snd r)
      end
  end.

(** The [try] block of [parseFindings]. *)
Definition parseFindingsTry (responseText : list N)
  : list diagnostic * Js.completion (list Json.value) :=
  match matchArray responseText with
  | None => ([NoStructuredFindings], Js.Normal [])
  | Some json =>
      match Json.parse json with
      | None => ([], Js.Throw (Js.lit "SyntaxError"))
      | Some findings =>
          match findings with
          | Json.Arr items =>
              let r := filterFindings items in
              match snd r with
              | Js.Normal validFindings =>
                  (fst r ++ [Parsed (List.length validFindings)],
                   Js.Normal validFindings)
              | Js.Throw m => (fst r, Js.Throw m)
              end
          | _ => ([NotAnArray], Js.Normal [])
          end
      end
  end.

(** [parseFindings(responseText)] with its log: the [catch] reports the
    failure and returns the empty list. *)
Definition parseFindingsLogged (responseText : list N)
  : list diagnostic * list Json.value :=
  let r := parseFindingsTry responseText in
  match snd r with
  | Js.Normal validFindings => (fst r, validFindings)
  | Js.Throw m => (fst r ++ [FailedToParse m], [])
  end.

(** The value [parseFindings(responseText)] returns. *)
Definition parseFindings (responseText : list N) : list Json.value :=
  snd (parseFindingsLogged responseText).

(** *** Severity *)

Definition SEVERITY_LEVELS : gmap (list N) nat :=
  <[ Js.lit "CRITICAL" := 4%nat ]>
  (<[ Js.lit "HIGH" := 3%nat ]>
  (<[ Js.lit "MEDIUM" := 2%nat ]>
  (<[ Js.lit "LOW" := 1%nat ]> ∅))).

(** What a read of [SEVERITY_LEVELS] gives, as the comparison [>=] takes
    it: a number; a member of [Object.prototype], which the comparison turns
    into its text; or [undefined], which it turns into NaN. *)
Inductive operand : Type :=
| Number (n : nat)
| Member (name : list N)
| NaN.

(** The operand that the read at key [k] gives. *)
Definition toPrimitive (k : list N) (p : Js.prop nat) : operand :=
  match p with
  | Js.Own n => Number n
  | Js.Inherited => Member k
  | Js.Undefined => NaN
  end.

(** [p || 0]: [undefined] (and zero) give zero, anything truthy stays. *)
Definition orZeroLevel (p : Js.prop nat) : Js.prop nat :=
  match p with
  | Js.Own n => Js.Own n
  | Js.Inherited => Js.Inherited
  | Js.Undefined => Js.Own O
  end.

(** [a >= b].  Two numbers are compared as numbers.  Two members of
    [Object.prototype] are both strings once made primitive, and are
    compared as strings.  A member against a number is its text read as a
    number, which is NaN, and a comparison with NaN is false. *)
Definition geq (a b : operand) : bool :=
  match a, b with
  | Number x, Number y => (y <=? x)%nat
  | Member x, Member y => negb (Js.strLt (Js.memberText x) (Js.memberText y))
  | _, _ => false
  end.

(** The property key that [v] is turned into; turning it may throw.
    [None] is the text of a number, which is not computed: it names no
    property of [SEVERITY_LEVELS] or of [Object.prototype]. *)
Definition keyAt (v : option Json.value)
  : Js.completion (option (list N)) :=
  match v with
  | None => Js.Normal (Some (Js.lit "undefined"))
  | Some x => Json.toString x
  end.

(** [SEVERITY_LEVELS[v] || 0] as an operand of [>=]. *)
Definition levelAt (v : option Json.value) : Js.completion operand :=
  key ← keyAt v;
  Js.Normal
    match key with
    | Some k => toPrimitive k (orZeroLevel (Js.get SEVERITY_LEVELS k))
    | None => Number O
    end.

(** The callback of [findings.filter] in [filterBySeverity], for the
    configured threshold text. *)
Definition meetsThreshold (severityThreshold : list N) (f : Json.value)
  : Js.completion bool :=
  let threshold :=
    toPrimitive severityThreshold
      (Js.get SEVERITY_LEVELS severityThreshold) in
  fseverity ← Json.field (Js.lit "severity") f;
  severity ← levelAt fseverity;
  Js.Normal (geq severity threshold).

Definition filterBySeverity (severityThreshold : list N)
    (findings : list Json.value) : Js.completion (list Json.value) :=
  filterC (meetsThreshold severityThreshold) findings.

Record Counts : Type := {
  CRITICAL : nat;
  HIGH : nat;
  MEDIUM : nat;
  LOW : nat
}.

(** [f.severity === name]. *)
Definition severityIs (name : list N) (f : Json.value)
  : Js.completion bool :=
  fseverity ← Json.field (Js.lit "severity") f;
  Js.Normal
    match fseverity with
    | Some (Json.Str s) => Js.strEq s name
    | _ => false
    end.

Definition countBySeverity (findings : list Json.value)
  : Js.completion Counts :=
  c ← filterC (severityIs (Js.lit "CRITICAL")) findings;
  h ← filterC (severityIs (Js.lit "HIGH")) findings;
  m ← filterC (severityIs (Js.lit "MEDIUM")) findings;
  l ← filterC (severityIs (Js.lit "LOW")) findings;
  Js.Normal {| CRITICAL := List.length c; HIGH := List.length h;
               MEDIUM := List.length m; LOW := List.length l |}.

(** *** Cost *)

Section Cost.
Context {num : Type} `{JsNum num}.

(** The three tables of [getModelPricing] repeat the adapters' tables
    entry by entry. *)
Definition ANTHROPIC_PRICING : gmap (list N) (PricingEntry num) :=
  AnthropicProvider.PRICING_TABLE.
Definition OPENAI_PRICING : gmap (list N) (PricingEntry num) :=
  OpenAIProvider.PRICING_TABLE.
Definition GOOGLE_PRICING : gmap (list N) (PricingEntry num) :=
  GoogleProvider.PRICING_TABLE.

(** A table read used as a condition: truthy unless [undefined]. *)
Definition found {A : Type} (p : Js.prop A) : bool :=
  match p with Js.Undefined => false | _ => true end.

Definition getModelPricing (modelName : list N)
  : Js.prop (PricingEntry num) :=
  let normalizedName := Js.splitHead (Js.cu ":") modelName in
  let has := Js.includes normalizedName in
  if found (Js.get ANTHROPIC_PRICING normalizedName) then
    Js.get ANTHROPIC_PRICING normalizedName
  else if found (Js.get OPENAI_PRICING normalizedName) then
    Js.get OPENAI_PRICING normalizedName
  else if found (Js.get GOOGLE_PRICING normalizedName) then
    Js.get GOOGLE_PRICING normalizedName
  else if has (Js.lit "claude") || has (Js.lit "opus")
          || has (Js.lit "sonnet") || has (Js.lit "haiku") then
    if has (Js.lit "opus") then
      Js.get ANTHROPIC_PRICING (Js.lit "claude-opus-4-5-20251101")
    else if has (Js.lit "haiku") then
      Js.get ANTHROPIC_PRICING (Js.lit "claude-haiku-4-5-20250101")
    else
      Js.get ANTHROPIC_PRICING (Js.lit "claude-sonnet-4-5-20250929")
  else if has (Js.lit "gpt") then
    if has (Js.lit "gpt-4-turbo") then
      Js.get OPENAI_PRICING (Js.lit "gpt-4-turbo")
    else if has (Js.lit "gpt-4") then
      Js.get OPENAI_PRICING (Js.lit "gpt-4")
    else
      Js.get OPENAI_PRICING (Js.lit "gpt-3.5-turbo")
  else if has (Js.lit "gemini") then
    if has (Js.lit "flash") then
      Js.get GOOGLE_PRICING (Js.lit "gemini-1.5-flash")
    else
      Js.get GOOGLE_PRICING (Js.lit "gemini-1.5-pro")
  else
    (* Unknown model - use Claude Sonnet as safe default *)
    Js.get ANTHROPIC_PRICING (Js.lit "claude-sonnet-4-5-20250929").

(** The body of [calculateCost] once the prices are known: a cache term
    is added when the counter and the rate are both truthy. *)
Definition costWith (prices : PricingEntry num) (usage : Usage num) : num :=
  let cost := ofZ 0 in
  let cost := add cost (mul (orZero (input_tokens usage))
                            (perToken (input prices))) in
  let cost := add cost (mul (orZero (output_tokens usage))
                            (perToken (output prices))) in
  let cost :=
    match cache_creation_input_tokens usage, cache_write prices with
    | Some n, Some rate =>
        if truthyNum n && truthyNum rate
        then add cost (mul n (perToken rate))
        else cost
    | _, _ => cost
    end in
  let cost :=
    match cache_read_input_tokens usage, cache_read prices with
    | Some n, Some rate =>
        if truthyNum n && truthyNum rate
        then add cost (mul n (perToken rate))
        else cost
    | _, _ => cost
    end in
  cost.

(** [calculateCost(usage, modelName)]; [None] is NaN, the result when the
    price lookup lands on a member of [Object.prototype]. *)
Definition calculateCost (usage : Usage num) (modelName : list N)
  : option num :=
  match getModelPricing modelName with
  | Js.Own prices => Some (costWith prices usage)
  | _ => None
  end.

End Cost.

(** *** Reviewable files *)

(** The shapes the patterns of [filterFiles] have; a regular expression
    there is an alternative of them. *)
Inductive shape : Type :=
| Ends (suffix : list N)       (* /suffix$/ *)
| Has (part : list N)          (* /part/ *)
| HasCI (part : list N)        (* /part/i, part in lower case *)
| Starts (prefix : list N).    (* /^prefix/ *)

Definition shapeTest (file : list N) (p : shape) : bool :=
  match p with
  | Ends suffix => Js.endsWith file suffix
  | Has part => Js.includes file part
  | HasCI part => Js.includesCI file part
  | Starts prefix => Js.startsWith file prefix
  end.

(** [pattern.test(file)]. *)
Definition test (pattern : list shape) (file : list N) : bool :=
  List.existsb (shapeTest file) pattern.

Definition ends (s : string) : shape := Ends (Js.lit s).
Definition has (s : string) : shape := Has (Js.lit s).
Definition hasCI (s : string) : shape := HasCI (Js.lit s).
Arguments ends s%_string.
Arguments has s%_string.
Arguments hasCI s%_string.

Definition excludePatterns : list (list shape) :=
  [ [ends ".lock"];
    [ends "package-lock.json"];
    [ends "yarn.lock"];
    [ends "Gemfile.lock"];
    [ends "poetry.lock"];
    [ends "go.sum"];
    [ends ".min.js"; ends ".min.css"];
    [has "dist/"];
    [has "build/"];
    [has "target/"];
    [has "node_modules/"];
    [has "vendor/"];
    [has ".generated."];
    [ends "_pb2.py"];
    [ends "_pb2_grpc.py"];
    [ends ".pb.go"];
    [ends ".png"; ends ".jpg"; ends ".jpeg"; ends ".gif"; ends ".svg";
     ends ".ico"; ends ".pdf"; ends ".woff"; ends ".woff2"; ends ".ttf";
     ends ".eot"];
    [has "__snapshots__/"];
    [ends ".snap"];
    [has "migration/"; has "migrations/"];
    [Starts (Js.lit ".github/workflows/")] ].

Definition sensitivePatterns : list (list shape) :=
  [ [ends ".env"];
    [has ".env."];
    [hasCI "credentials"];
    [hasCI "secrets"];
    [ends ".pem"];
    [ends ".key"];
    [ends ".p12"];
    [ends ".pfx"];
    [has "id_rsa"];
    [has "id_dsa"];
    [has "id_ecdsa"];
    [has "id_ed25519"];
    [ends ".ppk"];
    [ends ".keystore"];
    [ends ".jks"];
    [hasCI "token"];
    [hasCI "password"];
    [hasCI "apikey"; hasCI "api-key"; hasCI "api_key"] ].

Definition isSensitive (file : list N) : bool :=
  List.existsb (fun pattern => test pattern file) sensitivePatterns.

Definition isExcluded (file : list N) : bool :=
  List.existsb (fun pattern => test pattern file) excludePatterns.

(** The files reported in the warning. *)
Definition sensitiveFiles (files : list (list N)) : list (list N) :=
  List.filter isSensitive files.

Definition filterFiles (files : list (list N)) : list (list N) :=
  List.filter
    (fun file => if isSensitive file then false else negb (isExcluded file))
    files.

(** *** The run *)

(** The fields of [CONFIG] the run reads after validation. *)
Module CONFIG.
Record t : Type := {
  provider : list N;
  apiKey : option (list N);
  model : option (list N);
  severityThreshold : list N;
  failOnErrors : bool;
  dryRun : bool;
  googleProjectId : option (list N);
  googleLocation : list N
}.
End CONFIG.

Section Run.
Context {num : Type} `{JsNum num}.

(** A value of the record handed to [setOutputs]. *)
Inductive outValue : Type :=
| OBool (b : bool)
| OCount (n : nat)
| OFixed4 (cost : option num).   (* costEstimate.toFixed(4) *)

(** What the collaborators of one run do: the value each returns or the
    error it throws.  [validateConfig] stands for the outcome of the
    configuration checks, [api] for the vendor call of each attempt,
    [appendFileSync] for [fs.appendFileSync] called with the named file and
    the [key=value] lines of a record, the record standing for its lines.
    Writing to the console is taken to succeed. *)
Record World : Type := {
  GITHUB_OUTPUT : option (list N);
  validateConfig : Js.completion unit;
  chdir : Js.completion unit;
  getPRChanges : Js.completion (list N * list (list N));
  readGuidelines : Js.completion (list N);
  api : nat -> Js.completion (Response num);
  printFindings : Js.completion unit;
  postReviewComments : Js.completion unit;
  postSummaryComment : Js.completion unit;
  appendFileSync :
    list N -> list (list N * outValue) -> Js.completion unit
}.

(** What a run does that the outside can observe. *)
Inductive action : Type :=
| PostNoFilesComment
| CreateProvider (p : ProviderFactory.provider)
| ProviderCall (attempt : nat)
| ProviderSleep (milliseconds : nat)
| PrintFindings
| PostReviewComments
| PostSummaryComment
| PostErrorComment
| SetOutputs (outputs : list (list N * outValue))
| AppendFile (file : list N) (outputs : list (list N * outValue))
| Exit (code : nat).

(** A computation with the actions it performed before it returned or
    threw. *)
Record traced (A : Type) : Type := {
  log : list action;
  outcome : Js.completion A
}.
Arguments log {A} t.
Arguments outcome {A} t.

Definition pure {A : Type} (a : A) : traced A :=
  {| log := []; outcome := Js.Normal a |}.

Definition andThen {A B : Type} (t : traced A) (k : A -> traced B)
  : traced B :=
  match outcome t with
  | Js.Normal a =>
      {| log := log t ++ log (k a); outcome := outcome (k a) |}
  | Js.Throw m => {| log := log t; outcome := Js.Throw m |}
  end.

(** A collaborator's outcome, with no action recorded. *)
Definition quiet {A : Type} (c : Js.completion A) : traced A :=
  {| log := []; outcome := c |}.

(** An action followed by its outcome. *)
Definition perform {A : Type} (a : action) (c : Js.completion A)
  : traced A :=
  {| log := [a]; outcome := c |}.

Definition providerAction (e : Retry.event) : action :=
  match e with
  | Retry.Call n => ProviderCall n
  | Retry.Sleep d => ProviderSleep d
  end.

(** [callLLM]: the adapter's [review] with [maxTokens], [thinkingBudget]
    and [guidelines], so with the default number of retries. *)
Definition callLLM (w : World) (p : ProviderFactory.provider)
  : traced (Response num) :=
  let options :=
    {| Retry.maxTokens := None; Retry.thinkingBudget := None;
       Retry.guidelines := None; Retry.retries := None |} in
  let r := ProviderFactory.review p options (api w) in
  {| log := List.map providerAction (fst r);
     outcome :=
       match snd r with
       | Retry.Resolved response => Js.Normal response
       | Retry.ResolvedUndefined =>
           Js.Throw
             (Js.lit "Cannot read properties of undefined (reading 'usage')")
       | Retry.Rejected m => Js.Throw m
       end |}.

Definition noFilesOutputs : list (list N * outValue) :=
  [ (Js.lit "completed", OBool true);
    (Js.lit "findings_count", OCount 0);
    (Js.lit "critical_count", OCount 0);
    (Js.lit "high_count", OCount 0) ].

Definition successOutputs (findings : list Json.value) (counts : Counts)
    (costEstimate : option num) : list (list N * outValue) :=
  [ (Js.lit "completed", OBool true);
    (Js.lit "findings_count", OCount (List.length findings));
    (Js.lit "critical_count", OCount (CRITICAL counts));
    (Js.lit "high_count", OCount (HIGH counts));
    (Js.lit "cost_estimate", OFixed4 costEstimate) ].

Definition errorOutputs : list (list N * outValue) :=
  [ (Js.lit "completed", OBool false) ].

(** [setOutputs(outputs)].  The call is recorded with the record it is
    given.  When [GITHUB_OUTPUT] names a file, [fs.appendFileSync] is called
    with that file and the lines of the record, and the call is recorded;
    it returns or throws as the file system decides.  Without
    [GITHUB_OUTPUT] nothing is written. *)
Definition setOutputs (w : World) (outputs : list (list N * outValue))
  : traced unit :=
  match Js.whenTruthy (GITHUB_OUTPUT w) with
  | Some outputFile =>
      {| log := [SetOutputs outputs; AppendFile outputFile outputs];
         outcome := appendFileSync w outputFile outputs |}
  | None => perform (SetOutputs outputs) (Js.Normal tt)
  end.

(** The [try] block of [main]. *)
Definition mainTry (w : World) (c : CONFIG.t) : traced unit :=
  andThen (quiet (validateConfig w)) (fun _ =>
  andThen (quiet (chdir w)) (fun _ =>
  andThen (quiet (getPRChanges w)) (fun changes =>
  let changedFiles := snd changes in
  let reviewableFiles := filterFiles changedFiles in
  if (List.length reviewableFiles =? 0)%nat then
    andThen (perform PostNoFilesComment (Js.Normal tt)) (fun _ =>
    setOutputs w noFilesOutputs)
  else
    andThen (quiet (readGuidelines w)) (fun guidelines =>
    andThen
      (match ProviderFactory.createProvider
               (CONFIG.provider c) (CONFIG.apiKey c) (CONFIG.model c)
               {| ProviderFactory.projectId := CONFIG.googleProjectId c;
                  ProviderFactory.location :=
                    Some (CONFIG.googleLocation c) |} with
       | Js.Normal p => perform (CreateProvider p) (Js.Normal p)
       | Js.Throw m => quiet (Js.Throw m)
       end) (fun llmProvider =>
    andThen (callLLM w llmProvider) (fun response =>
    let allFindings := parseFindings (text response) in
    andThen
      (quiet (filterBySeverity (CONFIG.severityThreshold c) allFindings))
      (fun findings =>
    andThen (quiet (countBySeverity findings)) (fun counts =>
    let costEstimate := calculateCost (usage response) (model response) in
    andThen
      (if CONFIG.dryRun c then perform PrintFindings (printFindings w)
       else
         andThen
           (if (0 <? List.length findings)%nat
            then perform PostReviewComments (postReviewComments w)
            else pure tt) (fun _ =>
         perform PostSummaryComment (postSummaryComment w))) (fun _ =>
    setOutputs w (successOutputs findings counts costEstimate)))))))))).

(** [main()]: the [catch] posts the error comment (a failure of that post
    is itself caught), sets [completed=false] and exits when configured
    to.  When the write of [completed=false] fails, the error leaves
    [main] and the exit is not reached. *)
Definition main (w : World) (c : CONFIG.t) : list action :=
  let t := mainTry w c in
  match outcome t with
  | Js.Normal _ => log t
  | Js.Throw _ =>
      let written := setOutputs w errorOutputs in
      log t ++ [PostErrorComment] ++ log written
        ++ match outcome written with
           | Js.Normal _ =>
               if CONFIG.failOnErrors c then [Exit 1%nat] else []
           | Js.Throw _ => []
           end
  end.

(** The calls of [fs.appendFileSync] in a run, in order: the file and the
    record of each. *)
Definition appendsOf (trace : list action)
  : list (list N * list (list N * outValue)) :=
  List.flat_map
    (fun a => match a with AppendFile f o => [(f, o)] | _ => [] end) trace.

(** What the output file received: the appends that returned. *)
Definition writtenOf (w : World) (trace : list action)
  : list (list N * list (list N * outValue)) :=
  List.filter
    (fun append =>
       match appendFileSync w (fst append) (snd append) with
       | Js.Normal _ => true
       | Js.Throw _ => false
       end)
    (appendsOf trace).

(** The records handed to [setOutputs] during a run, in order. *)
Definition outputsOf (trace : list action)
  : list (list (list N * outValue)) :=
  List.flat_map
    (fun a => match a with SetOutputs o => [o] | _ => [] end) trace.

(** Whether an action constructs or calls a provider. *)
Definition touchesProvider (a : action) : bool :=
  match a with
  | CreateProvider _ | ProviderCall _ | ProviderSleep _ => true
  | _ => false
  end.

Definition hasKey (k : list N) (outputs : list (list N * outValue)) : bool :=
  List.existsb (fun kv => Js.strEq (fst kv) k) outputs.

Definition valueOf (k : list N) (outputs : list (list N * outValue))
  : option outValue :=
  match List.find (fun kv => Js.strEq (fst kv) k) outputs with
  | Some kv => Some (snd kv)
  | None => None
  end.

End Run.

Arguments World num : clear implicits.
Arguments outValue num : clear implicits.
Arguments action num : clear implicits.
Arguments traced num A : clear implicits.
Arguments log {num A} t.
Arguments outcome {num A} t.

End Review.

(** ** The adapter object

    What [BaseLLMProvider]'s constructor stores and the method calls that
    depend on the adapter's class. *)

Module ProviderMethods.

(** [provider.model]. *)
Definition modelOf (p : ProviderFactory.provider) : list N :=
  match p with
  | ProviderFactory.Anthropic _ m => m
  | ProviderFactory.OpenAI _ m => m
  | ProviderFactory.Google _ m _ _ => m
  end.

(** [provider.apiKey]. *)
Definition apiKeyOf (p : ProviderFactory.provider) : list N :=
  match p with
  | ProviderFactory.Anthropic k _ => k
  | ProviderFactory.OpenAI k _ => k
  | ProviderFactory.Google k _ _ _ => k
  end.

(** [provider.getModelPricing(modelName)]. *)
Definition getModelPricing {num : Type} `{JsNum num}
    (p : ProviderFactory.provider) (modelName : list N)
  : Js.prop (PricingEntry num) :=
  match p with
  | ProviderFactory.Anthropic _ _ => AnthropicProvider.getModelPricing modelName
  | ProviderFactory.OpenAI _ _ => OpenAIProvider.getModelPricing modelName
  | ProviderFactory.Google _ _ _ _ => GoogleProvider.getModelPricing modelName
  end.

End ProviderMethods.

(** ** More of the string library

    The built-ins that [scripts/review.js] calls on its configuration and
    on the output of [git]. *)

Module JsString.

(** The code units that [trim], [parseInt] and the class [\s] of a regular
    expression treat as white space: the white-space characters and the
    line terminators. *)
Definition isWhiteSpace (c : N) : bool :=
  (c =? 9) || (c =? 10) || (c =? 11) || (c =? 12) || (c =? 13) || (c =? 32)
  || (c =? 160) || (c =? 5760) || ((8192 <=? c) && (c <=? 8202))
  || (c =? 8232) || (c =? 8233) || (c =? 8239) || (c =? 8287)
  || (c =? 12288) || (c =? 65279).

Fixpoint trimStart (s : list N) : list N :=
  match s with
  | [] => []
  | c :: s' => if isWhiteSpace c then trimStart s' else s
  end.

Definition trimEnd (s : list N) : list N :=
  List.rev (trimStart (List.rev s)).

(** [s.trim()]. *)
Definition trim (s : list N) : list N := trimEnd (trimStart s).

(** [s.split(sep)] for a one-character separator: the pieces between the
    separators, in order; there is always at least one piece. *)
Fixpoint split (sep : N) (s : list N) : list (list N) :=
  match s with
  | [] => [[]]
  | c :: s' =>
      if c =? sep then [] :: split sep s'
      else
        match split sep s' with
        | piece :: pieces => (c :: piece) :: pieces
        | [] => [[c]]
        end
  end.

(** [pieces.join(sep)] for a one-character separator. *)
Fixpoint join (sep : N) (pieces : list (list N)) : list N :=
  match pieces with
  | [] => []
  | [piece] => piece
  | piece :: rest => piece ++ sep :: join sep rest
  end.

(** Upper case of an ASCII letter; every other code unit is kept. *)
Definition asciiUpper (c : N) : N :=
  if (97 <=? c) && (c <=? 122) then c - 32 else c.

(** [s.toUpperCase()].  ASCII letters are raised.  The code units outside
    ASCII whose upper case holds an ASCII letter are mapped as Unicode
    maps them: sharp s to SS, dotless i to I, long s to S, the ligatures
    ff, fi, fl, ffi, ffl and st to their letters, and six letters to a
    letter followed by a combining mark.  Every other code unit outside
    ASCII is kept as it is: its upper case is again outside ASCII, so a
    comparison of the result with an ASCII literal is decided as in the
    source. *)
Definition upperOf (c : N) : list N :=
  if c =? 223 then [83; 83]
  else if c =? 305 then [73]
  else if c =? 329 then [700; 78]
  else if c =? 383 then [83]
  else if c =? 496 then [74; 780]
  else if c =? 7830 then [72; 817]
  else if c =? 7831 then [84; 776]
  else if c =? 7832 then [87; 778]
  else if c =? 7833 then [89; 778]
  else if c =? 7834 then [65; 702]
  else if c =? 64256 then [70; 70]
  else if c =? 64257 then [70; 73]
  else if c =? 64258 then [70; 76]
  else if c =? 64259 then [70; 70; 73]
  else if c =? 64260 then [70; 70; 76]
  else if (c =? 64261) || (c =? 64262) then [83; 84]
  else [asciiUpper c].

Definition toUpperCase (s : list N) : list N := List.flat_map upperOf s.

(** The result of [parseInt]: NaN, or the double nearest to an integer.
    [Integer z] is infinite when [z] is beyond the largest double; minus
    zero is [Integer 0]. *)
Inductive int : Type :=
| NotANumber
| Integer (z : Z).

Definition digitValue (c : N) : option Z :=
  if (48 <=? c) && (c <=? 57) then Some (Z.of_N (c - 48))
  else if (97 <=? c) && (c <=? 122) then Some (Z.of_N (c - 87))
  else if (65 <=? c) && (c <=? 90) then Some (Z.of_N (c - 55))
  else None.

(** The digits of radix [radix] that [s] starts with, as a number so far
    [acc]; [None] when there is none. *)
Fixpoint digits (radix : Z) (s : list N) (acc : option Z) : option Z :=
  match s with
  | [] => acc
  | c :: s' =>
      match digitValue c with
      | Some d =>
          if (d <? radix)%Z
          then digits radix s'
                 (Some (match acc with Some a => a | None => 0 end
                        * radix + d)%Z)
          else acc
      | None => acc
      end
  end.

(** [parseInt(s)] without a radix: leading white space is skipped, a sign
    is read, a prefix [0x] or [0X] selects radix 16, and the longest run of
    digits is the value; what follows the digits is ignored. *)
Definition parseIntString (s : list N) : int :=
  let s := trimStart s in
  let signed :=
    match s with
    | c :: s' =>
        if c =? Js.cu "-" then (true, s')
        else if c =? Js.cu "+" then (false, s')
        else (false, s)
    | [] => (false, s)
    end in
  let based :=
    match snd signed with
    | zero :: x :: s' =>
        if (zero =? Js.cu "0") && ((x =? Js.cu "x") || (x =? Js.cu "X"))
        then (16%Z, s')
        else (10%Z, snd signed)
    | _ => (10%Z, snd signed)
    end in
  match digits (fst based) (snd based) None with
  | Some z => Integer (if fst signed then (- z)%Z else z)
  | None => NotANumber
  end.

(** [parseInt(v)] for a value that may be [undefined]: the text of
    [undefined] holds no digit. *)
Definition parseInt (v : option (list N)) : int :=
  match v with
  | Some s => parseIntString s
  | None => NotANumber
  end.

Definition isNaN (n : int) : bool :=
  match n with
  | NotANumber => true
  | Integer _ => false
  end.

(** Truthiness of a number: neither zero nor NaN. *)
Definition truthyInt (n : int) : bool :=
  match n with
  | NotANumber => false
  | Integer z => negb (z =? 0)%Z
  end.

(** [Number.isInteger(n)]: the double is finite.  The double nearest to
    [z] is infinite from [2^1024 - 2^970] on. *)
Definition isInteger (n : int) : bool :=
  match n with
  | NotANumber => false
  | Integer z => (Z.abs z <? 2 ^ 1024 - 2 ^ 970)%Z
  end.

(** [n < k] and [n > k] for an integer [k] that is a double: false on NaN,
    and decided on the integer itself, since rounding to the nearest double
    keeps the order and keeps [k]. *)
Definition ltInt (n : int) (k : Z) : bool :=
  match n with
  | NotANumber => false
  | Integer z => (z <? k)%Z
  end.

Definition gtInt (n : int) (k : Z) : bool :=
  match n with
  | NotANumber => false
  | Integer z => (k <? z)%Z
  end.

Definition leInt (n : int) (k : Z) : bool :=
  match n with
  | NotANumber => false
  | Integer z => (z <=? k)%Z
  end.

(** Character classes of the regular expressions. *)
Definition isAsciiLetter (c : N) : bool :=
  ((97 <=? c) && (c <=? 122)) || ((65 <=? c) && (c <=? 90)).

Definition isAsciiDigit (c : N) : bool := (48 <=? c) && (c <=? 57).

Definition isLowerLetter (c : N) : bool := (97 <=? c) && (c <=? 122).

(** The longest prefix of [s] in the class, and what follows it: a
    quantified class of a regular expression, read greedily. *)
Fixpoint span (class : N -> bool) (s : list N) : list N * list N :=
  match s with
  | [] => ([], [])
  | c :: s' =>
      if class c
      then let r := span class s' in (c :: fst r, snd r)
      else ([], s)
  end.

End JsString.

(** ** Configuration and its validation ([scripts/review.js])

    [CONFIG] is read from the environment when the script is loaded;
    [validateConfig] checks it before anything else runs. *)

Module Validation.

(** [process.env]: the variables that are set, by name. *)
Definition Env : Type := gmap (list N) (list N).

Definition getenv (env : Env) (name : string) : option (list N) :=
  env !! Js.lit name.
Arguments getenv env name%_string.

Record t : Type := {
  provider : list N;
  apiKey : option (list N);
  model : option (list N);
  githubToken : option (list N);
  repository : option (list N);
  prNumber : JsString.int;
  baseBranch : option (list N);
  headSha : option (list N);
  workspace : option (list N);
  thinkingBudget : JsString.int;
  maxTokens : JsString.int;
  guidelinesPath : list N;
  severityThreshold : list N;
  failOnErrors : bool;
  dryRun : bool;
  googleProjectId : option (list N);
  googleLocation : list N
}.

(** [v === 'true']. *)
Definition isTrue (v : option (list N)) : bool :=
  match v with
  | Some s => Js.strEq s (Js.lit "true")
  | None => false
  end.

(** The object [CONFIG]. *)
Definition CONFIG (env : Env) : t :=
  {| provider := Js.orElse (getenv env "LLM_PROVIDER") (Js.lit "anthropic");
     apiKey := getenv env "LLM_API_KEY";
     model := getenv env "LLM_MODEL";
     githubToken := getenv env "GITHUB_TOKEN";
     repository := getenv env "GITHUB_REPOSITORY";
     prNumber := JsString.parseInt (getenv env "PR_NUMBER");
     baseBranch := getenv env "BASE_REF";
     headSha := getenv env "HEAD_SHA";
     workspace := getenv env "WORKSPACE";
     thinkingBudget :=
       JsString.parseInt
         (Some (Js.orElse (getenv env "THINKING_BUDGET") (Js.lit "10000")));
     maxTokens :=
       JsString.parseInt
         (Some (Js.orElse (getenv env "MAX_TOKENS") (Js.lit "50000")));
     guidelinesPath :=
       Js.orElse (getenv env "GUIDELINES_PATH") (Js.lit "SAGE.md");
     severityThreshold :=
       Js.orElse (getenv env "SEVERITY_THRESHOLD") (Js.lit "LOW");
     failOnErrors := isTrue (getenv env "FAIL_ON_ERRORS");
     dryRun := isTrue (getenv env "DRY_RUN");
     googleProjectId := getenv env "GOOGLE_PROJECT_ID";
     googleLocation :=
       Js.orElse (getenv env "GOOGLE_LOCATION") (Js.lit "us-central1") |}.

(** The errors [validateConfig] throws, each with the values its message
    interpolates. *)
Inductive configError : Type :=
| MissingRequired (field : list N)
    (* Missing required configuration: <field> *)
| InvalidPRNumber (got : option (list N))
    (* Invalid PR number: must be a positive integer (got: <PR_NUMBER>) *)
| InvalidRepository (got : list N)
    (* Invalid repository format: must be owner/repo (got: <repository>) *)
| UnsupportedProvider (got : list N) (supported : list (list N))
    (* Unsupported provider: <provider>. Supported: <names, comma-joined> *)
| InvalidSeverityThreshold (got : list N)
    (* Invalid severity threshold: <threshold>. Must be one of: ... *)
| InvalidMaxTokens (got : JsString.int)
    (* Invalid max-tokens: must be between 1000 and 200000 (got: <n>) *)
| InvalidThinkingBudget (got : JsString.int)
    (* Invalid thinking-budget: must be between 0 and 100000 (got: <n>) *)
| ApiKeyTooShort
    (* Invalid API key: too short (minimum 10 characters) *)
| ApiKeyTooLong
    (* Invalid API key: too long (maximum 500 characters) *)
| ApiKeyInvalidCharacters
    (* Invalid API key: contains invalid characters *)
| GitHubTokenTooShort
    (* Invalid GitHub token: too short *)
| InvalidModelName (length : nat)
    (* Invalid model name: must be between 1 and 100 characters (got: ...) *)
| GoogleProjectIdRequired
    (* Google provider requires GOOGLE_PROJECT_ID environment variable *)
| InvalidGoogleProjectId
    (* Invalid Google Project ID format *)
| InvalidWorkspace.
    (* Invalid workspace path: must be absolute and not contain ".." *)

Inductive verdict : Type :=
| Valid
| Invalid (reason : configError).

(** A check that throws when its condition holds; the checks run in
    order and the first that throws ends the validation. *)
Definition throwIf (condition : bool) (reason : configError)
    (rest : verdict) : verdict :=
  if condition then Invalid reason else rest.

(** [!CONFIG[field]] for a field that holds a string or [undefined]. *)
Definition missing (v : option (list N)) : bool :=
  match Js.whenTruthy v with Some _ => false | None => true end.

(** The text of a field that was found truthy. *)
Definition textOf (v : option (list N)) : list N :=
  match v with Some s => s | None => [] end.

(** [/^[a-zA-Z0-9_.-]+\/[a-zA-Z0-9_.-]+$/]. *)
Definition repositoryChar (c : N) : bool :=
  JsString.isAsciiLetter c || JsString.isAsciiDigit c
  || (c =? Js.cu "_") || (c =? Js.cu ".") || (c =? Js.cu "-").

Definition repositoryFormat (s : list N) : bool :=
  let owner := JsString.span repositoryChar s in
  match fst owner, snd owner with
  | _ :: _, slash :: rest =>
      (slash =? Js.cu "/")
      && (let repo := JsString.span repositoryChar rest in
          match fst repo, snd repo with
          | _ :: _, [] => true
          | _, _ => false
          end)
  | _, _ => false
  end.

(** [/^[a-zA-Z0-9_\-:.]+$/]. *)
Definition apiKeyChar (c : N) : bool :=
  JsString.isAsciiLetter c || JsString.isAsciiDigit c
  || (c =? Js.cu "_") || (c =? Js.cu "-") || (c =? Js.cu ":")
  || (c =? Js.cu ".").

Definition apiKeyFormat (s : list N) : bool :=
  match JsString.span apiKeyChar s with
  | (_ :: _, []) => true
  | _ => false
  end.

(** [/^[a-z][a-z0-9-]{4,28}[a-z0-9]$/]: a lower-case letter, then 4 to 28
    letters, digits or hyphens, then a letter or a digit, and nothing
    else. *)
Definition projectIdChar (c : N) : bool :=
  JsString.isLowerLetter c || JsString.isAsciiDigit c || (c =? Js.cu "-").

Definition projectIdFormat (s : list N) : bool :=
  match s with
  | first :: rest =>
      JsString.isLowerLetter first
      && (5 <=? List.length rest)%nat && (List.length rest <=? 29)%nat
      && List.forallb projectIdChar (List.removelast rest)
      && (let final := List.last rest 0 in
          JsString.isLowerLetter final || JsString.isAsciiDigit final)
  | [] => false
  end.

(** [path.isAbsolute(p)], as on POSIX. *)
Definition isAbsolute (p : list N) : bool :=
  match p with
  | c :: _ => c =? Js.cu "/"
  | [] => false
  end.

Definition validSeverities : list (list N) :=
  [Js.lit "CRITICAL"; Js.lit "HIGH"; Js.lit "MEDIUM"; Js.lit "LOW"].

(** [list.includes(s)]. *)
Definition listIncludes (l : list (list N)) (s : list N) : bool :=
  List.existsb (Js.strEq s) l.

(** [validateConfig()]: it reads the object [CONFIG], here [c], and, for
    one message, [process.env]. *)
Definition validateConfig (c : t) (env : Env) : verdict :=
  (* the required fields, in the order of the list *)
  throwIf (negb (Js.truthyStr (provider c)))
    (MissingRequired (Js.lit "provider")) (
  throwIf (missing (apiKey c)) (MissingRequired (Js.lit "apiKey")) (
  throwIf (missing (githubToken c))
    (MissingRequired (Js.lit "githubToken")) (
  throwIf (missing (repository c)) (MissingRequired (Js.lit "repository")) (
  throwIf (negb (JsString.truthyInt (prNumber c)))
    (MissingRequired (Js.lit "prNumber")) (
  throwIf (missing (baseBranch c)) (MissingRequired (Js.lit "baseBranch")) (
  throwIf (missing (workspace c)) (MissingRequired (Js.lit "workspace")) (
  let apiKey := textOf (apiKey c) in
  let githubToken := textOf (githubToken c) in
  let repository := textOf (repository c) in
  let workspace := textOf (workspace c) in
  (* the PR number is a positive integer *)
  throwIf (JsString.isNaN (prNumber c)
           || JsString.leInt (prNumber c) 0
           || negb (JsString.isInteger (prNumber c)))
    (InvalidPRNumber (getenv env "PR_NUMBER")) (
  throwIf (negb (repositoryFormat repository))
    (InvalidRepository repository) (
  (* the provider is on the list of supported ones *)
  let supported := ProviderFactory.getSupportedProviders in
  throwIf (negb (listIncludes supported (Js.toLowerCase (provider c))))
    (UnsupportedProvider (provider c) supported) (
  throwIf (negb (listIncludes validSeverities
                   (JsString.toUpperCase (severityThreshold c))))
    (InvalidSeverityThreshold (severityThreshold c)) (
  (* the token budgets *)
  throwIf (JsString.ltInt (maxTokens c) 1000
           || JsString.gtInt (maxTokens c) 200000)
    (InvalidMaxTokens (maxTokens c)) (
  throwIf (JsString.ltInt (thinkingBudget c) 0
           || JsString.gtInt (thinkingBudget c) 100000)
    (InvalidThinkingBudget (thinkingBudget c)) (
  (* the API key *)
  throwIf (List.length apiKey <? 10)%nat ApiKeyTooShort (
  throwIf (500 <? List.length apiKey)%nat ApiKeyTooLong (
  throwIf (negb (apiKeyFormat apiKey)) ApiKeyInvalidCharacters (
  throwIf (List.length githubToken <? 10)%nat GitHubTokenTooShort (
  (* the model name, when there is one *)
  throwIf (match Js.whenTruthy (model c) with
           | Some m =>
               (100 <? List.length m)%nat || (List.length m =? 0)%nat
           | None => false
           end)
    (InvalidModelName (List.length (textOf (model c)))) (
  (* the Google project *)
  (if Js.strEq (Js.toLowerCase (provider c)) (Js.lit "google")
   then
     fun rest =>
       throwIf (missing (googleProjectId c)) GoogleProjectIdRequired (
       throwIf (negb (projectIdFormat (textOf (googleProjectId c))))
         InvalidGoogleProjectId rest)
   else fun rest => rest) (
  (* the workspace path *)
  throwIf (Js.includes workspace (Js.lit "..") || negb (isAbsolute workspace))
    InvalidWorkspace
  Valid))))))))))))))))))).

End Validation.

(** ** Git and the file system ([scripts/review.js])

    [getPRChanges] and [readGuidelines], over what [child_process], [fs] and
    [path] answer. *)

Module ReviewIO.

(** The text a template literal gives a value that may be [undefined]. *)
Definition template (v : option (list N)) : list N :=
  match v with
  | Some s => s
  | None => Js.lit "undefined"
  end.

(** The two commands of [getPRChanges]. *)
Definition diffCommand (baseBranch : option (list N)) : list N :=
  Js.lit "git diff origin/" ++ template baseBranch ++ Js.lit "...HEAD".

Definition namesCommand (baseBranch : option (list N)) : list N :=
  Js.lit "git diff --name-only origin/" ++ template baseBranch
  ++ Js.lit "...HEAD".

(** [output.trim().split('\n').filter(f => f)]. *)
Definition changedFilesOf (output : list N) : list (list N) :=
  List.filter Js.truthyStr (JsString.split 10 (JsString.trim output)).

(** [getPRChanges()].  [execSync] runs a command through the shell and
    returns its output, or throws; the trace lists the commands run. *)
Definition getPRChanges (baseBranch : option (list N))
    (execSync : list N -> Js.completion (list N))
  : list (list N) * Js.completion (list N * list (list N)) :=
  let failed message :=
    Js.Throw (Js.lit "Failed to get PR changes: " ++ message) in
  match execSync (diffCommand baseBranch) with
  | Js.Throw message => ([diffCommand baseBranch], failed message)
  | Js.Normal diff =>
      match execSync (namesCommand baseBranch) with
      | Js.Throw message =>
          ([diffCommand baseBranch; namesCommand baseBranch], failed message)
      | Js.Normal output =>
          ([diffCommand baseBranch; namesCommand baseBranch],
           Js.Normal (diff, changedFilesOf output))
      end
  end.

(** What [readGuidelines] asks of [path] and [fs]. *)
Record FileSystem : Type := {
  resolve : list N -> list N -> list N;          (* path.resolve(a, b) *)
  realpathSync : list N -> Js.completion (list N);
  existsSync : list N -> bool;
  readFileSync : list N -> Js.completion (list N)
}.

Inductive access : Type :=
| Realpath (path : list N)
| Exists (path : list N)
| ReadFile (path : list N).

(** [readGuidelines()], for a [CONFIG.workspace] that is a string, as it
    is once [validateConfig] has returned; the trace lists the accesses to
    the file system.  A failure of [realpathSync] is not caught here. *)
Definition readGuidelines (guidelinesPath workspace : list N)
    (fs : FileSystem) : list access * Js.completion (list N) :=
  if Js.includes guidelinesPath (Js.lit "..")
     || Validation.isAbsolute guidelinesPath
  then ([], Js.Normal [])
  else
    let resolved := resolve fs workspace guidelinesPath in
    match realpathSync fs workspace with
    | Js.Throw message => ([Realpath workspace], Js.Throw message)
    | Js.Normal workspaceRealPath =>
        if negb (Js.startsWith resolved workspaceRealPath)
        then ([Realpath workspace], Js.Normal [])
        else if existsSync fs resolved then
          match readFileSync fs resolved with
          | Js.Normal guidelines =>
              ([Realpath workspace; Exists resolved; ReadFile resolved],
               Js.Normal
                 (if 50000 <? N.of_nat (List.length guidelines)
                  then List.firstn (N.to_nat 50000) guidelines
                  else guidelines))
          | Js.Throw _ =>
              ([Realpath workspace; Exists resolved; ReadFile resolved],
               Js.Normal [])
          end
        else ([Realpath workspace; Exists resolved], Js.Normal [])
    end.

End ReviewIO.

(** ** Redacting error messages ([scripts/review.js])

    [sanitizeErrorMessage] applies eight global replacements in turn.  Each
    of the first seven looks for a literal marker followed by a run of
    characters of a class, at least so many of them; the run is read
    greedily and nothing follows it in the pattern, so a match takes the
    whole run.  The eighth looks for a run of 40 or more token characters
    between two word boundaries. *)

Module Sanitize.

Record pattern : Type := {
  marker : list N;          (* the literal the pattern starts with *)
  ignoreCase : bool;        (* the flag i; the marker is in lower case *)
  class : N -> bool;        (* the class of the run *)
  atLeast : nat;            (* the least length of the run *)
  replacement : list N
}.

Definition isAlnum (c : N) : bool :=
  JsString.isAsciiLetter c || JsString.isAsciiDigit c.

(** [\w]. *)
Definition isWord (c : N) : bool := isAlnum c || (c =? Js.cu "_").

Definition REDACTED : list N := Js.lit "***REDACTED***".

Definition marked (m : string) (i : bool) (cl : N -> bool) (n : nat)
  : pattern :=
  {| marker := Js.lit m; ignoreCase := i; class := cl; atLeast := n;
     replacement := Js.lit m ++ REDACTED |}.
Arguments marked m%_string i cl n%_nat.

(** The first seven patterns, in the order they are applied. *)
Definition PATTERNS : list pattern :=
  [ (* /sk-[a-zA-Z0-9]{20,}/g *)
    marked "sk-" false isAlnum 20;
    (* /ghp_[a-zA-Z0-9]{36,}/g *)
    marked "ghp_" false isAlnum 36;
    (* /gho_[a-zA-Z0-9]{36,}/g *)
    marked "gho_" false isAlnum 36;
    (* /github_pat_[a-zA-Z0-9_]{82,}/g *)
    marked "github_pat_" false isWord 82;
    (* /Bearer [a-zA-Z0-9_\-\.]{20,}/g *)
    marked "Bearer " false
      (fun c => isWord c || (c =? Js.cu "-") || (c =? Js.cu ".")) 20;
    (* /Authorization: [^\s]+/g *)
    marked "Authorization: " false (fun c => negb (JsString.isWhiteSpace c)) 1;
    (* /x-api-key: [^\s]+/gi *)
    marked "x-api-key: " true (fun c => negb (JsString.isWhiteSpace c)) 1 ].

(** The length of the match that starts at the head of [s], if there is
    one: the marker and the whole run after it. *)
Definition matchLength (p : pattern) (s : list N) : option nat :=
  if Js.startsWith (if ignoreCase p then Js.foldCase s else s) (marker p)
  then
    let run := fst (JsString.span (class p)
                      (List.skipn (List.length (marker p)) s)) in
    if (atLeast p <=? List.length run)%nat
    then Some (List.length (marker p) + List.length run)%nat
    else None
  else None.

(** [s.replace(pattern, replacement)] with the flag g: the text is read
    from left to right; where a match starts, the replacement is written
    and the match skipped ([skip] counts what is left of it to skip);
    elsewhere the code unit is copied. *)
Fixpoint replaceFrom (p : pattern) (s : list N) (skip : nat) : list N :=
  match s with
  | [] => []
  | c :: s' =>
      match skip with
      | S k => replaceFrom p s' k
      | O =>
          match matchLength p s with
          | Some n => replacement p ++ replaceFrom p s' (n - 1)
          | None => c :: replaceFrom p s' 0
          end
      end
  end.

Definition replaceAll (p : pattern) (s : list N) : list N :=
  replaceFrom p s 0.

(** *** The eighth pattern: [/\b[a-zA-Z0-9_\-]{40,}\b/g] *)

Definition isTokenChar (c : N) : bool := isWord c || (c =? Js.cu "-").

Definition wordBefore (c : option N) : bool :=
  match c with
  | Some x => isWord x
  | None => false
  end.

(** [\b] between two positions: exactly one side is a word character. *)
Definition boundary (before after : option N) : bool :=
  xorb (wordBefore before) (wordBefore after).

(** [\b] after the first [k] code units of [s], [k] being at least 1. *)
Definition boundaryAt (s : list N) (k : nat) : bool :=
  boundary (List.nth_error s (k - 1)) (List.nth_error s k).

(** The length of the match that starts at the head of [s], [before]
    being the code unit just before it: there is a boundary at the start,
    and the run is the longest of at least 40 token characters that ends
    at a boundary (the run is read greedily and given back one character
    at a time until a boundary is found). *)
Definition tokenLength (before : option N) (s : list N) : option nat :=
  if boundary before (List.head s) then
    let run := List.length (fst (JsString.span isTokenChar s)) in
    List.find (boundaryAt s) (List.rev (List.seq 40 (run + 1 - 40)))
  else None.

Fixpoint redactFrom (before : option N) (s : list N) (skip : nat)
  : list N :=
  match s with
  | [] => []
  | c :: s' =>
      match skip with
      | S k => redactFrom (Some c) s' k
      | O =>
          match tokenLength before s with
          | Some n => REDACTED ++ redactFrom (Some c) s' (n - 1)
          | None => c :: redactFrom (Some c) s' 0
          end
      end
  end.

Definition redactTokens (s : list N) : list N := redactFrom None s 0.

(** [sanitizeErrorMessage(message)], for a message that is a string or
    [undefined]. *)
Definition sanitizeErrorMessage (message : option (list N)) : list N :=
  match Js.whenTruthy message with
  | None => Js.lit "Unknown error"
  | Some text =>
      redactTokens
        (List.fold_left (fun sanitized p => replaceAll p sanitized)
           PATTERNS text)
  end.

End Sanitize.

(** ** Posting the findings ([scripts/review.js])

    [formatComment] and [postReviewComments], over what the GitHub client
    answers.  The owner, the repository and the number of the pull request
    are the same in every request and are left out of it. *)

Module Comments.

Section Texts.

(** Two texts the engine provides: [String(x)] for the number that
    [Json.Num m e] stands for, and [String(x)] for the member of
    [Object.prototype] of a given name. *)
Variable numberText : Z -> Z -> list N.
Variable memberText : list N -> list N.

(** [parts.join(',')] over the texts of the elements, computed in order. *)
Fixpoint joinTexts (parts : list (Js.completion (list N)))
  : Js.completion (list N) :=
  match parts with
  | [] => Js.Normal []
  | [part] => part
  | part :: rest =>
      x ← part;
      y ← joinTexts rest;
      Js.Normal (x ++ Js.cu "," :: y)
  end.

(** [String(v)], the text of a parsed value in a template literal and as a
    property key (see [Json.toString]). *)
Fixpoint text (v : Json.value) : Js.completion (list N) :=
  match v with
  | Json.Null => Js.Normal (Js.lit "null")
  | Json.Bool true => Js.Normal (Js.lit "true")
  | Json.Bool false => Js.Normal (Js.lit "false")
  | Json.Num m e => Js.Normal (numberText m e)
  | Json.Str s => Js.Normal s
  | Json.Arr items =>
      joinTexts
        (List.map
           (fun item =>
              match item with
              | Json.Null => Js.Normal []
              | _ => text item
              end) items)
  | Json.Obj members =>
      match Json.lookupLast (Js.lit "toString") members with
      | Some _ =>
          Js.Throw (Js.lit "Cannot convert object to primitive value")
      | None => Js.Normal (Js.lit "[object Object]")
      end
  end.

(** The text of a property that may be [undefined]. *)
Definition shown (v : option Json.value) : Js.completion (list N) :=
  match v with
  | Some x => text x
  | None => Js.Normal (Js.lit "undefined")
  end.

(** The labels of [formatComment]. *)
Definition LABELS : gmap (list N) (list N) :=
  <[ Js.lit "CRITICAL" := Js.lit "[CRITICAL]" ]>
  (<[ Js.lit "HIGH" := Js.lit "[HIGH]" ]>
  (<[ Js.lit "MEDIUM" := Js.lit "[MEDIUM]" ]>
  (<[ Js.lit "LOW" := Js.lit "[LOW]" ]> ∅))).

Definition LF : list N := [10].

(** The nested template of [formatComment]: the suggested fix, when the
    finding has a truthy [suggestion]. *)
Definition suggestedFix (suggestion : option Json.value)
  : Js.completion (list N) :=
  if Json.truthyField suggestion
  then
    suggestionText ← shown suggestion;
    Js.Normal (Js.lit "**Suggested fix:**" ++ LF ++ suggestionText)
  else Js.Normal [].

(** [formatComment(finding)], [provider] being [CONFIG.provider]. *)
Definition formatComment (provider : list N) (finding : Json.value)
  : Js.completion (list N) :=
  severity ← Json.field (Js.lit "severity") finding;
  key ← shown severity;
  let emoji :=
    match Js.get LABELS key with
    | Js.Own label => if Js.truthyStr label then label else Js.lit "[INFO]"
    | Js.Inherited => memberText key
    | Js.Undefined => Js.lit "[INFO]"
    end in
  severityText ← shown severity;
  title ← Json.field (Js.lit "title") finding;
  titleText ← shown title;
  description ← Json.field (Js.lit "description") finding;
  descriptionText ← shown description;
  suggestion ← Json.field (Js.lit "suggestion") finding;
  suggested ← suggestedFix suggestion;
  Js.Normal
    (emoji ++ Js.lit " **Sage Review** [" ++ severityText ++ Js.lit "]"
     ++ LF ++ LF
     ++ Js.lit "**" ++ titleText ++ Js.lit "**" ++ LF ++ LF
     ++ descriptionText ++ LF ++ LF
     ++ suggested ++ LF ++ LF
     ++ Js.lit "---" ++ LF
     ++ Js.lit "*Reviewed with Sage using " ++ provider ++ Js.lit "*").

(** An element of [comments]. *)
Record comment : Type := {
  path : option Json.value;
  line : option Json.value;
  body : list N
}.

(** The callback of [fileFindings.map]. *)
Definition toComment (provider : list N) (f : Json.value)
  : Js.completion comment :=
  file ← Json.field (Js.lit "file") f;
  fline ← Json.field (Js.lit "line") f;
  formatted ← formatComment provider f;
  Js.Normal {| path := file; line := fline; body := formatted |}.

(** [array.map(callback)] for a callback that may throw. *)
Fixpoint mapC {A B : Type} (g : A -> Js.completion B) (l : list A)
  : Js.completion (list B) :=
  match l with
  | [] => Js.Normal []
  | x :: rest =>
      y ← g x;
      ys ← mapC g rest;
      Js.Normal (y :: ys)
  end.

(** The body of a fallback comment. *)
Definition fallbackBody (c : comment) : Js.completion (list N) :=
  pathText ← shown (path c);
  lineText ← shown (line c);
  Js.Normal
    (Js.lit "**" ++ pathText ++ Js.lit ":" ++ lineText ++ Js.lit "**"
     ++ LF ++ LF ++ body c).

(** *** Grouping by file

    [byFile] is an object used as a map from the text of [finding.file] to
    an array of findings; it is kept as the list of its own properties in
    the order of their creation. *)

Definition groups : Type := list (list N * list Json.value).

Definition hasOwn (k : list N) (byFile : groups) : bool :=
  List.existsb (fun entry => Js.strEq (fst entry) k) byFile.

(** [byFile[k].push(finding)] for an own property [k]. *)
Fixpoint pushTo (k : list N) (finding : Json.value) (byFile : groups)
  : groups :=
  match byFile with
  | [] => []
  | (k', fileFindings) :: rest =>
      if Js.strEq k' k then (k', fileFindings ++ [finding]) :: rest
      else (k', fileFindings) :: pushTo k finding rest
  end.

(** One turn of the grouping loop.  When [byFile] has no own property of
    that name but [Object.prototype] has a member of it, the read is
    truthy, nothing is assigned, and the member has no [push]. *)
Definition groupStep (byFile : groups) (finding : Json.value)
  : Js.completion groups :=
  file ← Json.field (Js.lit "file") finding;
  key ← shown file;
  if hasOwn key byFile then Js.Normal (pushTo key finding byFile)
  else if bool_decide (key ∈ Js.OBJECT_PROTOTYPE) then
    Js.Throw (Js.lit "byFile[finding.file].push is not a function")
  else Js.Normal (byFile ++ [(key, [finding])]).

Fixpoint groupFindings (byFile : groups) (findings : list Json.value)
  : Js.completion groups :=
  match findings with
  | [] => Js.Normal byFile
  | finding :: rest =>
      grouped ← groupStep byFile finding;
      groupFindings grouped rest
  end.

(** The array index a property name is, if it is one: a decimal numeral
    without a leading zero, at most 2^32 - 2. *)
Definition arrayIndex (k : list N) : option N :=
  match k with
  | [] => None
  | d :: more =>
      if List.forallb JsString.isAsciiDigit k
         && (negb (d =? Js.cu "0") || Js.strEq more [])
      then
        let n := List.fold_left (fun acc c => acc * 10 + (c - 48)) k 0 in
        if n <=? 4294967294 then Some n else None
      else None
  end.

Fixpoint insertByIndex (e : N * (list N * list Json.value))
    (sorted : list (N * (list N * list Json.value)))
  : list (N * (list N * list Json.value)) :=
  match sorted with
  | [] => [e]
  | e' :: rest =>
      if fst e <=? fst e' then e :: sorted else e' :: insertByIndex e rest
  end.

(** [Object.entries(byFile)]: the properties whose names are array indices
    come first, in ascending order of the index, and the others follow in
    the order of their creation. *)
Definition entries (byFile : groups) : groups :=
  let indexed :=
    List.flat_map
      (fun entry =>
         match arrayIndex (fst entry) with
         | Some i => [(i, entry)]
         | None => []
         end) byFile in
  List.map snd (List.fold_right insertByIndex [] indexed)
  ++ List.filter
       (fun entry =>
          match arrayIndex (fst entry) with
          | Some _ => false
          | None => true
          end) byFile.

(** *** The requests *)

Inductive request : Type :=
| ListCommits                                   (* pulls.listCommits *)
| CreateReview (commit_id : list N) (comments : list comment)
                                                (* pulls.createReview *)
| CreateComment (body : list N).                (* issues.createComment *)

(** What the GitHub client answers: the commits of the pull request, each
    given by its [sha], and for a request that posts, after the requests
    made before it, whether it succeeds. *)
Record Octokit : Type := {
  listCommits : Js.completion (list (list N));
  respond : list request -> request -> Js.completion unit
}.

(** The fallback loop: one comment per finding of the file.  A body that
    cannot be built and a request that fails are logged and skipped. *)
Fixpoint fallback (octokit : Octokit) (made : list request)
    (comments : list comment) (posted : nat) : list request * nat :=
  match comments with
  | [] => (made, posted)
  | c :: rest =>
      match fallbackBody c with
      | Js.Throw _ => fallback octokit made rest posted
      | Js.Normal text =>
          let rq := CreateComment text in
          fallback octokit (made ++ [rq]) rest
            match respond octokit made rq with
            | Js.Normal _ => S posted
            | Js.Throw _ => posted
            end
      end
  end.

(** The loop over [Object.entries(byFile)]: the requests made so far and
    the count [posted]. *)
Fixpoint postFiles (octokit : Octokit) (provider commitId : list N)
    (made : list request) (files : groups) (posted : nat)
  : list request * Js.completion nat :=
  match files with
  | [] => (made, Js.Normal posted)
  | (file, fileFindings) :: rest =>
      match mapC (toComment provider) fileFindings with
      | Js.Throw m => (made, Js.Throw m)
      | Js.Normal comments =>
          let rq := CreateReview commitId comments in
          match respond octokit made rq with
          | Js.Normal _ =>
              postFiles octokit provider commitId (made ++ [rq]) rest
                (posted + List.length comments)
          | Js.Throw _ =>
              let r := fallback octokit (made ++ [rq]) comments posted in
              postFiles octokit provider commitId (fst r) rest (snd r)
          end
      end
  end.

(** [CONFIG.headSha || commits[commits.length - 1].sha]. *)
Definition commitIdOf (headSha : option (list N))
    (commits : list (list N)) : Js.completion (list N) :=
  match Js.whenTruthy headSha with
  | Some sha => Js.Normal sha
  | None =>
      match List.last (List.map Some commits) None with
      | Some sha => Js.Normal sha
      | None =>
          Js.Throw
            (Js.lit "Cannot read properties of undefined (reading 'sha')")
      end
  end.

(** [postReviewComments(owner, repo, findings)]: the requests made, and the
    count it logs as posted or the error it throws. *)
Definition postReviewComments (octokit : Octokit)
    (headSha : option (list N)) (provider : list N)
    (findings : list Json.value) : list request * Js.completion nat :=
  let failed m := Js.Throw (Js.lit "Failed to post comments: " ++ m) in
  match listCommits octokit with
  | Js.Throw m => ([ListCommits], failed m)
  | Js.Normal commits =>
      match commitIdOf headSha commits with
      | Js.Throw m => ([ListCommits], failed m)
      | Js.Normal commitId =>
          match groupFindings [] findings with
          | Js.Throw m => ([ListCommits], failed m)
          | Js.Normal byFile =>
              let r :=
                postFiles octokit provider commitId [ListCommits]
                  (entries byFile) 0 in
              (fst r,
               match snd r with
               | Js.Normal posted => Js.Normal posted
               | Js.Throw m => failed m
               end)
          end
      end
  end.

(** *** The dry run

    [printFindings] only writes to the console; what is kept of it is
    whether it returns or throws, for a usage, a cost and a model name of
    the types [main] passes. *)

(** [value.split('\n')], as far as it can fail: only a string has the
    method.  [expr] is the text of the expression in the source. *)
Definition splitLines (expr : string) (v : option Json.value)
  : Js.completion unit :=
  match v with
  | Some (Json.Str _) => Js.Normal tt
  | None =>
      Js.Throw
        (Js.lit "Cannot read properties of undefined (reading 'split')")
  | Some Json.Null =>
      Js.Throw (Js.lit "Cannot read properties of null (reading 'split')")
  | Some _ => Js.Throw (Js.lit expr ++ Js.lit ".split is not a function")
  end.

(** The callback of [items.forEach]. *)
Definition printFinding (finding : Json.value) : Js.completion unit :=
  file ← Json.field (Js.lit "file") finding;
  _ ← shown file;
  fline ← Json.field (Js.lit "line") finding;
  _ ← shown fline;
  title ← Json.field (Js.lit "title") finding;
  _ ← shown title;
  description ← Json.field (Js.lit "description") finding;
  _ ← splitLines "finding.description" description;
  suggestion ← Json.field (Js.lit "suggestion") finding;
  if Json.truthyField suggestion
  then splitLines "finding.suggestion" suggestion
  else Js.Normal tt.

(** [array.forEach(callback)] for a callback that may throw. *)
Fixpoint forEachC {A : Type} (g : A -> Js.completion unit) (l : list A)
  : Js.completion unit :=
  match l with
  | [] => Js.Normal tt
  | x :: rest =>
      _ ← g x;
      forEachC g rest
  end.

(** [printFindings(findings, usage, cost, model)]. *)
Definition printFindings (findings : list Json.value)
  : Js.completion unit :=
  _ ← Review.countBySeverity findings;
  _ ← Review.filterC (Review.severityIs (Js.lit "CRITICAL")) findings;
  _ ← Review.filterC (Review.severityIs (Js.lit "HIGH")) findings;
  if (List.length findings =? 0)%nat then Js.Normal tt
  else
    critical ← Review.filterC (Review.severityIs (Js.lit "CRITICAL")) findings;
    high ← Review.filterC (Review.severityIs (Js.lit "HIGH")) findings;
    medium ← Review.filterC (Review.severityIs (Js.lit "MEDIUM")) findings;
    low ← Review.filterC (Review.severityIs (Js.lit "LOW")) findings;
    forEachC (fun items => forEachC printFinding items)
      [critical; high; medium; low].

End Texts.

End Comments.

(** ** The comment of a failed run ([scripts/review.js]) *)

Module ErrorComment.

(** [pieces.join(sep)]. *)
Fixpoint joinWith (sep : list N) (pieces : list (list N)) : list N :=
  match pieces with
  | [] => []
  | [piece] => piece
  | piece :: rest => piece ++ sep ++ joinWith sep rest
  end.

(** The mage of the comments: U+1F9D9 U+200D U+2642 U+FE0F. *)
Definition MAGE : list N := [55358; 56793; 8205; 9794; 65039].

(** The lines of the template of [postErrorComment] before and after the
    error message. *)
Definition linesBefore : list (list N) :=
  [ MAGE ++ Js.lit " **Sage Review Failed**";
    [];
    Js.lit "The automated code review encountered an error:";
    [];
    Js.lit "```" ].

Definition linesAfter : list (list N) :=
  [ Js.lit "```";
    [];
    Js.lit "### Troubleshooting";
    [];
    Js.lit "1. **Check API key**: Verify `LLM_API_KEY` secret is set "
    ++ Js.lit "correctly";
    Js.lit "2. **Check provider**: Ensure provider is supported ("
    ++ joinWith (Js.lit ", ") ProviderFactory.getSupportedProviders
    ++ Js.lit ")";
    Js.lit "3. **Check workflow logs**: View detailed logs in the Actions "
    ++ Js.lit "tab";
    [];
    Js.lit "If the issue persists, please open an issue on the Sage "
    ++ Js.lit "repository." ].

(** The body [postErrorComment] posts. *)
Definition body (errorMessage : list N) : list N :=
  joinWith [10] (linesBefore ++ [errorMessage] ++ linesAfter).

(** The [catch] of [main]: the message of the error is sanitized, and the
    comment is built from the sanitized text. *)
Definition ofError (message : option (list N)) : list N :=
  body (Sanitize.sanitizeErrorMessage message).

End ErrorComment.

(** * Specification-side definitions and example data *)

(** ** Cost, as the specification words it *)

(** The cost as the specification words it, in exact arithmetic: input and
    output tokens at their rates, plus each cache counter at its rate when
    the pricing entry defines that rate; a counter that is absent counts as
    zero.  Rates are per million tokens. *)
Definition specTokens (counter : option Qc) : Qc :=
  match counter with
  | Some n => n
  | None => Q2Qc 0
  end.

Definition specRate (rate : Qc) : Qc := (rate / Q2Qc (inject_Z 1000000))%Qc.

Definition specCacheTerm (counter rate : option Qc) : Qc :=
  match rate with
  | Some r => (specTokens counter * specRate r)%Qc
  | None => Q2Qc 0
  end.

Definition specCost (prices : PricingEntry Qc) (usage : Usage Qc) : Qc :=
  (specTokens (input_tokens usage) * specRate (input prices)
   + specTokens (output_tokens usage) * specRate (output prices)
   + specCacheTerm (cache_creation_input_tokens usage) (cache_write prices)
   + specCacheTerm (cache_read_input_tokens usage) (cache_read prices))%Qc.

(** The same formula evaluated in the arithmetic of the code: the sum of
    the four products, from left to right, each counter that is absent
    counting as zero and each cache term present when the entry defines
    its rate.  Rates are in USD per million tokens. *)
Section Formula.
Context {num : Type} `{JsNum num}.

Definition formulaTokens (counter : option num) : num :=
  match counter with
  | Some n => n
  | None => ofZ 0
  end.

Definition formulaCacheTerm (counter rate : option num) : num :=
  match rate with
  | Some r => mul (formulaTokens counter) (perToken r)
  | None => ofZ 0
  end.

Definition formulaCost (prices : PricingEntry num) (usage : Usage num) : num :=
  add
    (add
       (add (mul (formulaTokens (input_tokens usage))
               (perToken (input prices)))
          (mul (formulaTokens (output_tokens usage))
             (perToken (output prices))))
       (formulaCacheTerm (cache_creation_input_tokens usage)
          (cache_write prices)))
    (formulaCacheTerm (cache_read_input_tokens usage) (cache_read prices)).

End Formula.

(** The sign of a double, if it is a number. *)
Definition signOf (x : spec_float) : option bool :=
  match x with
  | S754_nan => None
  | S754_zero s | S754_infinity s | S754_finite s _ _ => Some s
  end.

(** A token count as a double: a number, so not NaN, that is not negative,
    so not [-0] either. *)
Definition tokenCount (x : float) : bool :=
  match signOf (Prim2SF x) with
  | Some s => negb s
  | None => false
  end.

Definition counted (counter : option float) : bool :=
  match counter with Some n => tokenCount n | None => true end.

(** The counters of the usage that are present are token counts. *)
Definition tokenCounts (usage : Usage float) : bool :=
  forallb counted
    [ input_tokens usage; output_tokens usage;
      cache_creation_input_tokens usage; cache_read_input_tokens usage ].

(** NaN, or a number that is not negative. *)
Definition notNegative (x : float) : bool :=
  match signOf (Prim2SF x) with
  | Some s => negb s
  | None => true
  end.

(** A rate whose price per token is a positive finite double. *)
Definition positiveRate (rate : float) : bool :=
  match Prim2SF (perToken rate) with
  | S754_finite false _ _ => true
  | _ => false
  end.

Definition cacheRate (rate : option float) : bool :=
  match rate with
  | Some r => truthyNum r && positiveRate r
  | None => true
  end.

Definition pricedEntry (p : PricingEntry float) : bool :=
  positiveRate (input p) && positiveRate (output p)
  && cacheRate (cache_write p) && cacheRate (cache_read p).

(** The entries of the three pricing tables. *)
Definition tableEntries {num : Type} `{JsNum num} : list (PricingEntry num) :=
  [ AnthropicProvider.SONNET_4_5; AnthropicProvider.OPUS_4_5;
    AnthropicProvider.HAIKU_4_5;
    OpenAIProvider.GPT_4_TURBO; OpenAIProvider.GPT_4;
    OpenAIProvider.GPT_3_5_TURBO;
    GoogleProvider.GEMINI_1_5_PRO; GoogleProvider.GEMINI_1_5_FLASH;
    GoogleProvider.GEMINI_PRO ].

(** A usage of seven input tokens and nothing else. *)
Definition sevenTokens {num : Type} `{JsNum num} : Usage num :=
  {| input_tokens := Some (ofZ 7);
     output_tokens := None;
     cache_creation_input_tokens := None;
     cache_read_input_tokens := None;
     total_tokens := None |}.

(** The usage objects of the two scenarios and of the adapter's tests. *)
Definition usageWithCache {num : Type} `{JsNum num} : Usage num :=
  {| input_tokens := Some (ofZ 1000);
     output_tokens := Some (ofZ 500);
     cache_creation_input_tokens := Some (ofZ 200);
     cache_read_input_tokens := Some (ofZ 100);
     total_tokens := None |}.

Definition usageWithoutCache {num : Type} `{JsNum num} : Usage num :=
  {| input_tokens := Some (ofZ 1000);
     output_tokens := Some (ofZ 500);
     cache_creation_input_tokens := None;
     cache_read_input_tokens := None;
     total_tokens := None |}.

Definition SONNET : list N := Js.lit "claude-sonnet-4-5-20250929".

(** ** Provider names and retry traces *)

(** The names [createProvider] recognises, after lowering. *)
Definition recognizedNames : list (list N) :=
  [ Js.lit "anthropic"; Js.lit "claude"; Js.lit "openai"; Js.lit "gpt";
    Js.lit "google"; Js.lit "gemini" ].

(** The label each adapter puts in its final error. *)
Definition errorLabel (p : ProviderFactory.provider) : list N :=
  match p with
  | ProviderFactory.Anthropic _ _ => Js.lit "Anthropic"
  | ProviderFactory.OpenAI _ _ => Js.lit "OpenAI"
  | ProviderFactory.Google _ _ _ _ => Js.lit "Google Gemini"
  end.

Definition withRetries (n : option nat) : Retry.ReviewOptions :=
  {| Retry.maxTokens := None; Retry.thinkingBudget := None;
     Retry.guidelines := None; Retry.retries := n |}.

(** The trace of [k + 1] failing attempts that start at [attempt]. *)
Fixpoint failTrace (attempt k : nat) : list Retry.event :=
  match k with
  | O => [Retry.Call attempt]
  | S k' =>
      Retry.Call attempt :: Retry.Sleep (2 ^ attempt * 1000)
        :: failTrace (S attempt) k'
  end.

(** ** Severity ranks and field validation *)

(** The rank of a severity name under CRITICAL > HIGH > MEDIUM > LOW;
    every other text has rank 0. *)
Definition rankOfName (name : list N) : nat :=
  if Js.strEq name (Js.lit "CRITICAL") then 4
  else if Js.strEq name (Js.lit "HIGH") then 3
  else if Js.strEq name (Js.lit "MEDIUM") then 2
  else if Js.strEq name (Js.lit "LOW") then 1
  else 0.

Definition severityNames : list (list N) :=
  [Js.lit "CRITICAL"; Js.lit "HIGH"; Js.lit "MEDIUM"; Js.lit "LOW"].

(** A property of a value that is not [null]. *)
Definition propertyOf (k : list N) (f : Json.value) : option Json.value :=
  match f with
  | Json.Obj members => Json.lookupLast k members
  | _ => None
  end.

(** The rank of a finding: the rank of the text of its severity. *)
Definition severityRank (f : Json.value) : nat :=
  match propertyOf (Js.lit "severity") f with
  | Some v =>
      match Json.toString v with
      | Js.Normal (Some key) => rankOfName key
      | _ => 0
      end
  | None => 0
  end.

(** The severity of [f], if any, can be used as a property key: it is not
    an object with a [toString] member of its own, and holds none. *)
Definition hasKeyText (f : Json.value) : bool :=
  match propertyOf (Js.lit "severity") f with
  | Some v =>
      match Json.toString v with
      | Js.Normal _ => true
      | Js.Throw _ => false
      end
  | None => true
  end.

(** The four mandatory fields are all truthy. *)
Definition allTruthy (f : Json.value) : bool :=
  Json.truthyField (propertyOf (Js.lit "severity") f)
  && Json.truthyField (propertyOf (Js.lit "file") f)
  && Json.truthyField (propertyOf (Js.lit "line") f)
  && Json.truthyField (propertyOf (Js.lit "title") f).

Definition isNull (f : Json.value) : bool :=
  match f with Json.Null => true | _ => false end.

(** ** Example findings and response texts *)

(** A finding object with the four mandatory fields, for examples. *)
Definition finding (severity : Json.value) (file : string) (line : Z)
    (title : string) : Json.value :=
  Json.Obj [ (Js.lit "severity", severity);
             (Js.lit "file", Json.Str (Js.lit file));
             (Js.lit "line", Json.Num line 0);
             (Js.lit "title", Json.Str (Js.lit title)) ].
Arguments finding severity file%_string line%_Z title%_string.

Definition sev (name : string) : Json.value := Json.Str (Js.lit name).
Arguments sev name%_string.

(** Response texts for the examples.  [quoted s] is [s] between double
    quotes; [10] is a line feed. *)
Definition quoted (s : string) : list N := 34 :: Js.lit s ++ [34].
Arguments quoted s%_string.

Definition member (key : string) (v : list N) : list N :=
  quoted key ++ Js.lit ":" ++ v.
Arguments member key%_string v.

(** The array of scenario 5: one object with severity HIGH, file a.js,
    line 3, title x and description y. *)
Definition scenarioArray : list N :=
  Js.lit "[{" ++ member "severity" (quoted "HIGH") ++ Js.lit ","
  ++ member "file" (quoted "a.js") ++ Js.lit ","
  ++ member "line" (Js.lit "3") ++ Js.lit ","
  ++ member "title" (quoted "x") ++ Js.lit ","
  ++ member "description" (quoted "y") ++ Js.lit "}]".

Definition scenarioBody : list N :=
  Js.lit "Here is the review:" ++ [10] ++ scenarioArray ++ [10]
  ++ Js.lit "Done.".

Definition scenarioFinding : Json.value :=
  Json.Obj [ (Js.lit "severity", sev "HIGH");
             (Js.lit "file", Json.Str (Js.lit "a.js"));
             (Js.lit "line", Json.Num 3 0);
             (Js.lit "title", Json.Str (Js.lit "x"));
             (Js.lit "description", Json.Str (Js.lit "y")) ].

(** The same array without the description and with an empty title. *)
Definition emptyTitleArray : list N :=
  Js.lit "[{" ++ member "severity" (quoted "HIGH") ++ Js.lit ","
  ++ member "file" (quoted "a.js") ++ Js.lit ","
  ++ member "line" (Js.lit "3") ++ Js.lit ","
  ++ member "title" (quoted "") ++ Js.lit "}]".

(** An array of one object whose severity is the array holding the string
    HIGH, with file a.js, line 1 and title t. *)
Definition arraySeverityArray : list N :=
  Js.lit "[{" ++ member "severity" (Js.lit "[" ++ quoted "HIGH" ++ Js.lit "]")
  ++ Js.lit "," ++ member "file" (quoted "a.js") ++ Js.lit ","
  ++ member "line" (Js.lit "1") ++ Js.lit ","
  ++ member "title" (quoted "t") ++ Js.lit "}]".

(** The text of an object with a severity, a file and a line, without and
    with a title. *)
Definition untitledText (severity file line : string) : list N :=
  Js.lit "{" ++ member "severity" (quoted severity) ++ Js.lit ","
  ++ member "file" (quoted file) ++ Js.lit ","
  ++ member "line" (Js.lit line) ++ Js.lit "}".
Arguments untitledText (severity file line)%_string.

Definition findingText (severity file line title : string) : list N :=
  Js.lit "{" ++ member "severity" (quoted severity) ++ Js.lit ","
  ++ member "file" (quoted file) ++ Js.lit ","
  ++ member "line" (Js.lit line) ++ Js.lit ","
  ++ member "title" (quoted title) ++ Js.lit "}".
Arguments findingText (severity file line title)%_string.

(** An array of four objects: the second has no title and the third has
    line 0. *)
Definition mixedArray : list N :=
  Js.lit "[" ++ findingText "HIGH" "a.js" "3" "x" ++ Js.lit ","
  ++ untitledText "LOW" "b.js" "7" ++ Js.lit ","
  ++ findingText "LOW" "c.js" "0" "z" ++ Js.lit ","
  ++ findingText "MEDIUM" "d.js" "9" "w" ++ Js.lit "]".

Definition untitled : Json.value :=
  Json.Obj [ (Js.lit "severity", Json.Str (Js.lit "LOW"));
             (Js.lit "file", Json.Str (Js.lit "b.js"));
             (Js.lit "line", Json.Num 7 0) ].

Definition mixedItems : list Json.value :=
  [ finding (Json.Str (Js.lit "HIGH")) "a.js" 3 "x"; untitled;
    finding (Json.Str (Js.lit "LOW")) "c.js" 0 "z";
    finding (Json.Str (Js.lit "MEDIUM")) "d.js" 9 "w" ].

(** The same array with [null] as its third element. *)
Definition nullInArray : list N :=
  Js.lit "[" ++ findingText "HIGH" "a.js" "3" "x" ++ Js.lit ","
  ++ untitledText "LOW" "b.js" "7" ++ Js.lit ",null,"
  ++ findingText "MEDIUM" "d.js" "9" "w" ++ Js.lit "]".

Definition mandatoryFields : list (list N) :=
  [Js.lit "severity"; Js.lit "file"; Js.lit "line"; Js.lit "title"].

(** The prefixes of [text] that are array-shaped, well-formed JSON: they
    end with []] and parse to an array. *)
Definition arrayPrefixes (text : list N) : list (list N) :=
  List.filter
    (fun prefix =>
       Js.endsWith prefix (Js.lit "]")
       && match Json.parse prefix with
          | Some v => Json.isArray v
          | None => false
          end)
    (List.map (fun n => List.firstn n text)
       (List.seq 0 (S (List.length text)))).

(** ** Runs *)

Section RunSpec.
Context {num : Type} `{JsNum num}.

(** A computation that hands nothing to [setOutputs] and appends nothing
    to the output file. *)
Definition silent {A : Type} (t : Review.traced num A) : Prop :=
  Review.outputsOf (Review.log t) = []
  /\ Review.appendsOf (Review.log t) = [].

(** The records of a run that did not fail. *)
Definition completedRecord (r : list (list N * Review.outValue num)) : Prop :=
  r = Review.noFilesOutputs
  \/ exists findings counts cost,
       r = Review.successOutputs findings counts cost.

(** The no-reviewable-files outcome: validation and the fetch of the
    changes succeeded, and no changed file is reviewable. *)
Definition noFilesOutcome (w : Review.World num) : Prop :=
  Review.validateConfig w = Js.Normal tt
  /\ Review.chdir w = Js.Normal tt
  /\ exists diff changedFiles,
       Review.getPRChanges w = Js.Normal (diff, changedFiles)
       /\ Review.filterFiles changedFiles = [].

(** A successful review: every step of the [try] block up to its call of
    [setOutputs] returned, with these findings after the severity filter,
    these counts and this cost estimate. *)
Definition reviewed (w : Review.World num) (c : Review.CONFIG.t)
    (findings : list Json.value) (counts : Review.Counts)
    (costEstimate : option num) : Prop :=
  exists diff changedFiles guidelines llmProvider response,
    Review.validateConfig w = Js.Normal tt
    /\ Review.chdir w = Js.Normal tt
    /\ Review.getPRChanges w = Js.Normal (diff, changedFiles)
    /\ Review.filterFiles changedFiles <> []
    /\ Review.readGuidelines w = Js.Normal guidelines
    /\ ProviderFactory.createProvider
         (Review.CONFIG.provider c) (Review.CONFIG.apiKey c)
         (Review.CONFIG.model c)
         {| ProviderFactory.projectId := Review.CONFIG.googleProjectId c;
            ProviderFactory.location :=
              Some (Review.CONFIG.googleLocation c) |}
       = Js.Normal llmProvider
    /\ Review.outcome (Review.callLLM w llmProvider) = Js.Normal response
    /\ Review.filterBySeverity (Review.CONFIG.severityThreshold c)
         (Review.parseFindings (text response))
       = Js.Normal findings
    /\ Review.countBySeverity findings = Js.Normal counts
    /\ costEstimate = Review.calculateCost (usage response) (model response)
    /\ (if Review.CONFIG.dryRun c
        then Review.printFindings w = Js.Normal tt
        else ((0 <? List.length findings)%nat = true ->
              Review.postReviewComments w = Js.Normal tt)
             /\ Review.postSummaryComment w = Js.Normal tt).

(** What is handed to [setOutputs] after the record [r] of the [try]
    block: nothing when [r] was written or there is no file to write to,
    [completed=false] when the append of [r] threw. *)
Definition retried (w : Review.World num)
    (r : list (list N * Review.outValue num))
  : list (list (list N * Review.outValue num)) :=
  match Js.whenTruthy (Review.GITHUB_OUTPUT w) with
  | Some outputFile =>
      match Review.appendFileSync w outputFile r with
      | Js.Normal _ => []
      | Js.Throw _ => [Review.errorOutputs]
      end
  | None => []
  end.

(** The [try] block reached its call of [setOutputs] with the record [r],
    having handed over and written nothing before. *)
Definition reaches (w : Review.World num) (t : Review.traced num unit)
    (r : list (list N * Review.outValue num)) : Prop :=
  exists before,
    Review.outputsOf before = [] /\ Review.appendsOf before = []
    /\ Review.log t = before ++ Review.log (Review.setOutputs w r)
    /\ Review.outcome t = Review.outcome (Review.setOutputs w r).

End RunSpec.

Definition returns {A : Type} (c : Js.completion A) : bool :=
  match c with Js.Normal _ => true | Js.Throw _ => false end.

(** A computation that threw before it handed anything to [setOutputs]. *)
Definition failsSilently {num : Type} {A : Type} (t : Review.traced num A)
  : Prop :=
  silent t /\ returns (Review.outcome t) = false.

(** Concrete runs.  In all of them validation succeeds; in these two the
    vendor call fails at every attempt. *)
Definition exampleConfig : Review.CONFIG.t :=
  {| Review.CONFIG.provider := Js.lit "anthropic";
     Review.CONFIG.apiKey := Some (Js.lit "test-key-0123456789");
     Review.CONFIG.model := None;
     Review.CONFIG.severityThreshold := Js.lit "LOW";
     Review.CONFIG.failOnErrors := false;
     Review.CONFIG.dryRun := false;
     Review.CONFIG.googleProjectId := None;
     Review.CONFIG.googleLocation := Js.lit "us-central1" |}.

Definition outputPath : list N := Js.lit "/tmp/github_output".

Definition worldWith (changedFiles : list (list N)) : Review.World Qc :=
  {| Review.GITHUB_OUTPUT := Some outputPath;
     Review.validateConfig := Js.Normal tt;
     Review.chdir := Js.Normal tt;
     Review.getPRChanges := Js.Normal (Js.lit "diff", changedFiles);
     Review.readGuidelines := Js.Normal [];
     Review.api := fun _ => Js.Throw (Js.lit "503");
     Review.printFindings := Js.Normal tt;
     Review.postReviewComments := Js.Normal tt;
     Review.postSummaryComment := Js.Normal tt;
     Review.appendFileSync := fun _ _ => Js.Normal tt |}.

(** The same run without [GITHUB_OUTPUT] in the environment. *)
Definition withoutOutputFile (w : Review.World Qc) : Review.World Qc :=
  {| Review.GITHUB_OUTPUT := None;
     Review.validateConfig := Review.validateConfig w;
     Review.chdir := Review.chdir w;
     Review.getPRChanges := Review.getPRChanges w;
     Review.readGuidelines := Review.readGuidelines w;
     Review.api := Review.api w;
     Review.printFindings := Review.printFindings w;
     Review.postReviewComments := Review.postReviewComments w;
     Review.postSummaryComment := Review.postSummaryComment w;
     Review.appendFileSync := Review.appendFileSync w |}.

(** The same run on a file system where the append of a record with
    [completed=true] fails and the append of [completed=false] succeeds. *)
Definition refusingCompleted (w : Review.World Qc) : Review.World Qc :=
  {| Review.GITHUB_OUTPUT := Review.GITHUB_OUTPUT w;
     Review.validateConfig := Review.validateConfig w;
     Review.chdir := Review.chdir w;
     Review.getPRChanges := Review.getPRChanges w;
     Review.readGuidelines := Review.readGuidelines w;
     Review.api := Review.api w;
     Review.printFindings := Review.printFindings w;
     Review.postReviewComments := Review.postReviewComments w;
     Review.postSummaryComment := Review.postSummaryComment w;
     Review.appendFileSync := fun _ outputs =>
       match Review.valueOf (Js.lit "completed") outputs with
       | Some (Review.OBool false) => Js.Normal tt
       | _ => Js.Throw (Js.lit "ENOSPC: no space left on device, write")
       end |}.

Definition lockfilesOnly : list (list N) :=
  [Js.lit "package-lock.json"; Js.lit ".env"; Js.lit "dist/app.min.js"].

(** ** Reviewable files *)

(** How a path can carry a marker: at its end, anywhere, anywhere in any
    letter case (the marker being in lower case), at its start. *)
Definition endsIn (file suffix : list N) : Prop :=
  exists before, file = before ++ suffix.

Definition holds (file part : list N) : Prop :=
  exists before after, file = before ++ part ++ after.

Definition holdsAnyCase (file word : list N) : Prop :=
  exists before w after,
    file = before ++ w ++ after /\ Js.foldCase w = word.

Definition beginsWith (file prefix : list N) : Prop :=
  exists after, file = prefix ++ after.

(** The markers of the files that are never to be reviewed: secrets. *)
Definition sensitiveSuffixes : list (list N) :=
  List.map Js.lit
    [ ".env"; ".pem"; ".key"; ".p12"; ".pfx"; ".ppk"; ".keystore";
      ".jks" ]%string.

Definition sensitiveParts : list (list N) :=
  List.map Js.lit
    [ ".env."; "id_rsa"; "id_dsa"; "id_ecdsa"; "id_ed25519" ]%string.

Definition sensitiveWords : list (list N) :=
  List.map Js.lit
    [ "credentials"; "secrets"; "token"; "password"; "apikey"; "api-key";
      "api_key" ]%string.

Definition sensitiveMarked (file : list N) : Prop :=
  (exists s, In s sensitiveSuffixes /\ endsIn file s)
  \/ (exists p, In p sensitiveParts /\ holds file p)
  \/ (exists w, In w sensitiveWords /\ holdsAnyCase file w).

(** The markers of lock files, generated code, binaries, snapshots,
    migrations and workflow files. *)
Definition generatedSuffixes : list (list N) :=
  List.map Js.lit
    [ ".lock"; "package-lock.json"; "yarn.lock"; "Gemfile.lock";
      "poetry.lock"; "go.sum"; ".min.js"; ".min.css"; "_pb2.py";
      "_pb2_grpc.py"; ".pb.go"; ".png"; ".jpg"; ".jpeg"; ".gif"; ".svg";
      ".ico"; ".pdf"; ".woff"; ".woff2"; ".ttf"; ".eot"; ".snap" ]%string.

Definition generatedParts : list (list N) :=
  List.map Js.lit
    [ "dist/"; "build/"; "target/"; "node_modules/"; "vendor/";
      ".generated."; "__snapshots__/"; "migration/"; "migrations/" ]%string.

Definition generatedMarked (file : list N) : Prop :=
  (exists s, In s generatedSuffixes /\ endsIn file s)
  \/ (exists p, In p generatedParts /\ holds file p)
  \/ beginsWith file (Js.lit ".github/workflows/").

(** What a shape of a pattern asks of a path. *)
Definition shapeHolds (file : list N) (p : Review.shape) : Prop :=
  match p with
  | Review.Ends suffix => endsIn file suffix
  | Review.Has part => holds file part
  | Review.HasCI part => holdsAnyCase file part
  | Review.Starts prefix => beginsWith file prefix
  end.

(** ** More about retries, runs, counts and prices *)

(** A vendor that fails the first attempt and answers the second. *)
Definition failsOnceThenAnswers (attempt : nat) : Js.completion (list N) :=
  if (attempt =? 1)%nat then Js.Throw (Js.lit "429")
  else Js.Normal (Js.lit "[]").

Section TraceSpec.
Context {num : Type}.

(** The attempts at the vendor that a trace holds, its back-off sleeps,
    and the providers it constructs. *)
Definition providerCalls (trace : list (Review.action num)) : list nat :=
  List.flat_map
    (fun a => match a with Review.ProviderCall n => [n] | _ => [] end) trace.

Definition providerSleeps (trace : list (Review.action num)) : list nat :=
  List.flat_map
    (fun a => match a with Review.ProviderSleep d => [d] | _ => [] end) trace.

Definition providersCreated (trace : list (Review.action num))
  : list ProviderFactory.provider :=
  List.flat_map
    (fun a => match a with Review.CreateProvider p => [p] | _ => [] end) trace.

(** Every action of the computation satisfies [Q]. *)
Definition everyAction (Q : Review.action num -> Prop) {A : Type}
    (t : Review.traced num A) : Prop :=
  Forall Q (Review.log t).

End TraceSpec.

(** The finding's severity is the string [name]. *)
Definition hasSeverity (name : list N) (f : Json.value) : bool :=
  match propertyOf (Js.lit "severity") f with
  | Some (Json.Str s) => Js.strEq s name
  | _ => false
  end.

(** The finding's severity is a string. *)
Definition stringSeverity (f : Json.value) : bool :=
  match propertyOf (Js.lit "severity") f with
  | Some (Json.Str _) => true
  | _ => false
  end.

Definition totalCount (counts : Review.Counts) : nat :=
  Review.CRITICAL counts + Review.HIGH counts
  + Review.MEDIUM counts + Review.LOW counts.

(** The condition under which the engine prices a name that is in no table
    as a Claude model. *)
Definition claudeFamily (name : list N) : bool :=
  Js.includes name (Js.lit "claude") || Js.includes name (Js.lit "opus")
  || Js.includes name (Js.lit "sonnet") || Js.includes name (Js.lit "haiku").

(** Both cache rates of an entry are numbers other than zero. *)
Definition cacheRatesTruthy {num : Type} `{JsNum num}
    (p : PricingEntry num) : bool :=
  match cache_write p, cache_read p with
  | Some w, Some r => truthyNum w && truthyNum r
  | _, _ => false
  end.

(** The pricing table of the adapter's class. *)
Definition tableOf {num : Type} `{JsNum num} (p : ProviderFactory.provider)
  : gmap (list N) (PricingEntry num) :=
  match p with
  | ProviderFactory.Anthropic _ _ => AnthropicProvider.PRICING_TABLE
  | ProviderFactory.OpenAI _ _ => OpenAIProvider.PRICING_TABLE
  | ProviderFactory.Google _ _ _ _ => GoogleProvider.PRICING_TABLE
  end.

(** A run in which the vendor answers the first attempt with the text of
    scenario 5, and the same configuration as a dry run. *)
Definition scenarioResponse : Response Qc :=
  {| text := scenarioBody; usage := usageWithoutCache; model := SONNET |}.

Definition answeringWorld (changedFiles : list (list N)) : Review.World Qc :=
  {| Review.GITHUB_OUTPUT := Some outputPath;
     Review.validateConfig := Js.Normal tt;
     Review.chdir := Js.Normal tt;
     Review.getPRChanges := Js.Normal (Js.lit "diff", changedFiles);
     Review.readGuidelines := Js.Normal [];
     Review.api := fun _ => Js.Normal scenarioResponse;
     Review.printFindings := Js.Normal tt;
     Review.postReviewComments := Js.Normal tt;
     Review.postSummaryComment := Js.Normal tt;
     Review.appendFileSync := fun _ _ => Js.Normal tt |}.

Definition dryRunConfig : Review.CONFIG.t :=
  {| Review.CONFIG.provider := Js.lit "anthropic";
     Review.CONFIG.apiKey := Some (Js.lit "test-key-0123456789");
     Review.CONFIG.model := None;
     Review.CONFIG.severityThreshold := Js.lit "LOW";
     Review.CONFIG.failOnErrors := false;
     Review.CONFIG.dryRun := true;
     Review.CONFIG.googleProjectId := None;
     Review.CONFIG.googleLocation := Js.lit "us-central1" |}.

(** ** Configurations, messages and file lists *)

Section ValidationSpec.
Import Validation.

(** What a configuration that passes [validateConfig] satisfies: the
    conditions of the checks, all false. *)
Record accepted (c : t) : Prop := {
  acc_apiKey : missing (apiKey c) = false;
  acc_githubToken : missing (githubToken c) = false;
  acc_repository : missing (repository c) = false;
  acc_prNumber_truthy : JsString.truthyInt (prNumber c) = true;
  acc_baseBranch : missing (baseBranch c) = false;
  acc_workspace : missing (workspace c) = false;
  acc_prNumber :
    JsString.isNaN (prNumber c) || JsString.leInt (prNumber c) 0
    || negb (JsString.isInteger (prNumber c)) = false;
  acc_repositoryFormat : repositoryFormat (textOf (repository c)) = true;
  acc_provider :
    listIncludes ProviderFactory.getSupportedProviders
      (Js.toLowerCase (provider c)) = true;
  acc_severity :
    listIncludes validSeverities
      (JsString.toUpperCase (severityThreshold c)) = true;
  acc_maxTokens :
    JsString.ltInt (maxTokens c) 1000 || JsString.gtInt (maxTokens c) 200000
    = false;
  acc_thinkingBudget :
    JsString.ltInt (thinkingBudget c) 0
    || JsString.gtInt (thinkingBudget c) 100000 = false;
  acc_apiKey_short : (List.length (textOf (apiKey c)) <? 10)%nat = false;
  acc_apiKey_long : (500 <? List.length (textOf (apiKey c)))%nat = false;
  acc_apiKey_format : apiKeyFormat (textOf (apiKey c)) = true;
  acc_githubToken_short :
    (List.length (textOf (githubToken c)) <? 10)%nat = false;
  acc_model :
    match Js.whenTruthy (model c) with
    | Some m => (100 <? List.length m)%nat || (List.length m =? 0)%nat
    | None => false
    end = false;
  acc_google :
    Js.strEq (Js.toLowerCase (provider c)) (Js.lit "google") = true ->
    missing (googleProjectId c) = false
    /\ projectIdFormat (textOf (googleProjectId c)) = true;
  acc_workspace_path :
    Js.includes (textOf (workspace c)) (Js.lit "..")
    || negb (isAbsolute (textOf (workspace c))) = false
}.

(** The name of the adapter's class among the supported provider names. *)
Definition supportedName (p : ProviderFactory.provider) : list N :=
  match p with
  | ProviderFactory.Anthropic _ _ => Js.lit "anthropic"
  | ProviderFactory.OpenAI _ _ => Js.lit "openai"
  | ProviderFactory.Google _ _ _ _ => Js.lit "google"
  end.

(** The options [main] passes to the factory. *)
Definition factoryOptions (c : t) : ProviderFactory.FactoryOptions :=
  {| ProviderFactory.projectId := googleProjectId c;
     ProviderFactory.location := Some (googleLocation c) |}.

(** An environment that passes validation. *)
Definition exampleEnv : Env :=
  <[ Js.lit "LLM_API_KEY" := Js.lit "test-key-0123456789" ]>
  (<[ Js.lit "GITHUB_TOKEN" := Js.lit "ghp_0123456789" ]>
  (<[ Js.lit "GITHUB_REPOSITORY" := Js.lit "nssalian/sage" ]>
  (<[ Js.lit "PR_NUMBER" := Js.lit "42" ]>
  (<[ Js.lit "BASE_REF" := Js.lit "main" ]>
  (<[ Js.lit "WORKSPACE" := Js.lit "/github/workspace" ]> ∅))))).

(** [c] with another severity threshold, and with another token budget. *)
Definition withSeverityThreshold (threshold : list N) (c : t) : t :=
  {| provider := provider c; apiKey := apiKey c; model := model c;
     githubToken := githubToken c; repository := repository c;
     prNumber := prNumber c; baseBranch := baseBranch c;
     headSha := headSha c; workspace := workspace c;
     thinkingBudget := thinkingBudget c; maxTokens := maxTokens c;
     guidelinesPath := guidelinesPath c; severityThreshold := threshold;
     failOnErrors := failOnErrors c; dryRun := dryRun c;
     googleProjectId := googleProjectId c;
     googleLocation := googleLocation c |}.

Definition withMaxTokens (n : JsString.int) (c : t) : t :=
  {| provider := provider c; apiKey := apiKey c; model := model c;
     githubToken := githubToken c; repository := repository c;
     prNumber := prNumber c; baseBranch := baseBranch c;
     headSha := headSha c; workspace := workspace c;
     thinkingBudget := thinkingBudget c; maxTokens := n;
     guidelinesPath := guidelinesPath c;
     severityThreshold := severityThreshold c;
     failOnErrors := failOnErrors c; dryRun := dryRun c;
     googleProjectId := googleProjectId c;
     googleLocation := googleLocation c |}.

(** [c] with another base branch. *)
Definition withBaseBranch (branch : option (list N)) (c : t) : t :=
  {| provider := provider c; apiKey := apiKey c; model := model c;
     githubToken := githubToken c; repository := repository c;
     prNumber := prNumber c; baseBranch := branch;
     headSha := headSha c; workspace := workspace c;
     thinkingBudget := thinkingBudget c; maxTokens := maxTokens c;
     guidelinesPath := guidelinesPath c;
     severityThreshold := severityThreshold c;
     failOnErrors := failOnErrors c; dryRun := dryRun c;
     googleProjectId := googleProjectId c;
     googleLocation := googleLocation c |}.

End ValidationSpec.

(** What [git diff --name-only] prints for a list of names: each name and
    a line feed. *)
Definition nameLines (names : list (list N)) : list N :=
  List.concat (List.map (fun name => name ++ [10]) names).

(** A name that [changedFilesOf] gives back as it is: not empty, without a
    line feed, and with no white space at either end. *)
Definition plainName (name : list N) : bool :=
  match name with
  | [] => false
  | first :: _ =>
      negb (JsString.isWhiteSpace first)
      && negb (JsString.isWhiteSpace (List.last name 0))
      && List.forallb (fun c => negb (c =? 10)) name
  end.

Section SanitizeSpec.
Import Sanitize.

(** The number of token characters [s] starts with. *)
Definition tokenRun (s : list N) : nat :=
  List.length (fst (JsString.span isTokenChar s)).

(** The eighth pattern matches somewhere in [s], [before] being the code
    unit before [s]: [pattern.test(s)]. *)
Fixpoint hasToken (before : option N) (s : list N) : bool :=
  match s with
  | [] => false
  | c :: s' =>
      match tokenLength before s with
      | Some _ => true
      | None => hasToken (Some c) s'
      end
  end.

(** The code unit before position [k] of [s]. *)
Definition prevAt (before : option N) (s : list N) (k : nat) : option N :=
  match k with
  | O => before
  | S m => List.nth_error s m
  end.

(** The number of word characters [s] starts with. *)
Definition wordRun (s : list N) : nat :=
  List.length (fst (JsString.span isWord s)).

(** [s] holds 40 word characters in a row. *)
Fixpoint hasWordRun (s : list N) : bool :=
  match s with
  | [] => false
  | _ :: s' => (40 <=? wordRun s)%nat || hasWordRun s'
  end.

(** [s] after the word characters it starts with. *)
Definition afterWord (s : list N) : list N := snd (JsString.span isWord s).

(** The text in which the marker of [p] is looked for. *)
Definition searched (p : pattern) (s : list N) : list N :=
  if ignoreCase p then Js.foldCase s else s.

(** [s] holds none of the seven markers. *)
Definition markerFree (s : list N) : bool :=
  List.forallb (fun p => negb (Js.includes (searched p s) (marker p)))
    PATTERNS.

(** [s] holds 40 token characters in a row. *)
Fixpoint hasTokenRun (s : list N) : bool :=
  match s with
  | [] => false
  | _ :: s' => (40 <=? tokenRun s)%nat || hasTokenRun s'
  end.

(** A message with a secret of 39 characters and no marker. *)
Definition shortSecret : list N :=
  Js.lit "key abcdefghijklmnopqrstuvwxyz0123456789abc rejected".

End SanitizeSpec.

(** ** Review comments *)

Section CommentsSpec.
Import Comments.
Variable numberText : Z -> Z -> list N.
Variable memberText : list N -> list N.

(** The comment lists of the reviews among the requests. *)
Definition reviewsOf (made : list request) : list (list comment) :=
  List.flat_map
    (fun rq =>
       match rq with
       | CreateReview _ comments => [comments]
       | _ => []
       end) made.

(** The file a review is about: the text of the path of its first
    comment. *)
Definition fileOf (review : list comment) : Js.completion (list N) :=
  match review with
  | c :: _ => shown numberText (path c)
  | [] => Js.Normal []
  end.

(** The text of the property [k] of a finding, and of its [file]. *)
Definition fieldText (k : string) (f : Json.value) : Js.completion (list N) :=
  v ← Json.field (Js.lit k) f;
  shown numberText v.

Definition keyOf (finding : Json.value) : Js.completion (list N) :=
  file ← Json.field (Js.lit "file") finding;
  shown numberText file.

(** The number of comments in the requests that GitHub accepted, [before]
    being the requests made before them. *)
Fixpoint acceptedComments (octokit : Octokit) (before made : list request)
  : nat :=
  match made with
  | [] => 0
  | rq :: rest =>
      (match rq, respond octokit before rq with
       | CreateReview _ comments, Js.Normal _ => List.length comments
       | CreateComment _, Js.Normal _ => 1
       | _, _ => 0
       end
       + acceptedComments octokit (before ++ [rq]) rest)%nat
  end.

Definition isFallback (rq : request) : bool :=
  match rq with CreateComment _ => true | _ => false end.

(** The comment of a finding that has one. *)
Definition commentOf (provider : list N) (f : Json.value) : comment :=
  match toComment numberText memberText provider f with
  | Js.Normal c => c
  | Js.Throw _ => {| path := None; line := None; body := [] |}
  end.

(** What the grouping loop keeps: the names are distinct, none is a member
    name of [Object.prototype], and every group is a non-empty list of
    findings of that file. *)
Definition grouped (byFile : groups) : Prop :=
  NoDup (List.map fst byFile)
  /\ List.Forall
       (fun entry =>
          (fst entry ∉ Js.OBJECT_PROTOTYPE)
          /\ snd entry <> []
          /\ List.Forall (fun f => keyOf f = Js.Normal (fst entry))
               (snd entry)) byFile.

(** Texts joined with commas. *)
Definition commaJoined (first : list N) (rest : list (list N)) : list N :=
  first ++ List.concat (List.map (cons (Js.cu ",")) rest).

End CommentsSpec.

(** Whether a property is a string. *)
Definition isString (v : option Json.value) : bool :=
  match v with
  | Some (Json.Str _) => true
  | _ => false
  end.

(** Example texts of the engine, findings and a client that accepts every
    request. *)
Definition sevenText (m e : Z) : list N := Js.lit "7".

Definition nativeText (name : list N) : list N :=
  Js.lit "function " ++ name ++ Js.lit "() { [native code] }".

Definition findingAt (severity file : string) : Json.value :=
  Json.Obj
    [ (Js.lit "severity", Json.Str (Js.lit severity));
      (Js.lit "file", Json.Str (Js.lit file));
      (Js.lit "line", Json.Num 7 0);
      (Js.lit "title", Json.Str (Js.lit "Unchecked input")) ].

Definition describedAt (severity file description : string) : Json.value :=
  Json.Obj
    [ (Js.lit "severity", Json.Str (Js.lit severity));
      (Js.lit "file", Json.Str (Js.lit file));
      (Js.lit "line", Json.Num 7 0);
      (Js.lit "title", Json.Str (Js.lit "Unchecked input"));
      (Js.lit "description", Json.Str (Js.lit description)) ].

Definition acceptingClient : Comments.Octokit :=
  {| Comments.listCommits := Js.Normal [Js.lit "abc123"];
     Comments.respond := fun _ _ => Js.Normal tt |}.

(** * Properties *)


(** ** Pricing fallback *)

Section PricingFallback.
Context {num : Type} `{JsNum num}.

Lemma anthropic_sonnet_entry :
  Js.get AnthropicProvider.PRICING_TABLE (Js.lit "claude-sonnet-4-5-20250929")
  = Js.Own AnthropicProvider.SONNET_4_5.
Proof. reflexivity. Qed.

Lemma openai_turbo_entry :
  Js.get OpenAIProvider.PRICING_TABLE (Js.lit "gpt-4-turbo")
  = Js.Own OpenAIProvider.GPT_4_TURBO.
Proof. reflexivity. Qed.

Lemma google_pro_entry :
  Js.get GoogleProvider.PRICING_TABLE (Js.lit "gemini-1.5-pro")
  = Js.Own GoogleProvider.GEMINI_1_5_PRO.
Proof. reflexivity. Qed.

End PricingFallback.




(** ** Cost *)

Lemma orZero_specTokens (x : option Qc) : orZero x = specTokens x.
Proof.
  destruct x as [v|]; simpl; [ | reflexivity ].
  destruct (Qc_eq_dec v (Q2Qc 0)) as [->|]; reflexivity.
Qed.

(** A cache term of [Review.calculateCost]: added when counter and rate
    are both truthy, and worth zero in every other case. *)
Lemma review_cache_term (cost : Qc) (counter rate : option Qc) :
  match counter, rate with
  | Some n, Some r =>
      if truthyNum n && truthyNum r
      then add cost (mul n (perToken r))
      else cost
  | _, _ => cost
  end = (cost + specCacheTerm counter rate)%Qc.
Proof.
  unfold specCacheTerm, specTokens, specRate, perToken, Qcdiv.
  destruct counter as [n|], rate as [r|]; simpl; try ring.
  destruct (Qc_eq_dec n (Q2Qc 0)) as [Hn|Hn];
    destruct (Qc_eq_dec r (Q2Qc 0)) as [Hr|Hr];
    cbn [andb]; try reflexivity; subst; ring.
Qed.

Lemma review_costWith_spec (prices : PricingEntry Qc) (usage : Usage Qc) :
  Review.costWith prices usage = specCost prices usage.
Proof.
  unfold Review.costWith, specCost.
  rewrite !review_cache_term, !orZero_specTokens.
  unfold perToken, specRate.
  change (@ofZ Qc _ 0%Z) with (Q2Qc 0).
  cbn [add mul div ofZ JsNum_Qc]. ring.
Qed.

Lemma anthropic_cache_term (cost : Qc) (counter : option Qc) (r : Qc) :
  match counter with
  | Some n =>
      if truthyNum n
      then Some (add cost (mul n (perToken r)))
      else Some cost
  | None => Some cost
  end = Some (cost + specCacheTerm counter (Some r))%Qc.
Proof.
  unfold specCacheTerm, specTokens, specRate, perToken, Qcdiv.
  destruct counter as [n|]; simpl; [ | f_equal; ring ].
  destruct (Qc_eq_dec n (Q2Qc 0)) as [Hn|Hn]; f_equal; subst; ring.
Qed.

Lemma anthropic_costWith_spec (prices : PricingEntry Qc) (usage : Usage Qc)
    (w r : Qc) :
  cache_write prices = Some w -> cache_read prices = Some r ->
  AnthropicProvider.costWith prices usage = Some (specCost prices usage).
Proof.
  intros Hw Hr. unfold AnthropicProvider.costWith, specCost.
  rewrite Hw, Hr. cbv zeta. cbn [mbind option_bind].
  rewrite anthropic_cache_term. cbn [mbind option_bind].
  rewrite anthropic_cache_term, !orZero_specTokens.
  f_equal. unfold perToken, specRate.
  change (@ofZ Qc _ 0%Z) with (Q2Qc 0).
  cbn [add mul div ofZ JsNum_Qc]. ring.
Qed.

Lemma anthropic_table_entries (k : list N) (p : PricingEntry Qc) :
  AnthropicProvider.PRICING_TABLE !! k = Some p ->
  p = AnthropicProvider.SONNET_4_5 \/ p = AnthropicProvider.OPUS_4_5
  \/ p = AnthropicProvider.HAIKU_4_5.
Proof.
  unfold AnthropicProvider.PRICING_TABLE.
  rewrite !lookup_insert, lookup_empty.
  repeat case_decide; intros E; inversion E; auto.
Qed.

(** Every entry the Anthropic adapter prices with defines both cache
    rates. *)
Lemma anthropic_pricing_has_cache_rates (modelName : list N)
    (p : PricingEntry Qc) :
  AnthropicProvider.getModelPricing modelName = Js.Own p ->
  exists w r, cache_write p = Some w /\ cache_read p = Some r.
Proof.
  assert (Hentry : p = AnthropicProvider.SONNET_4_5
                   \/ p = AnthropicProvider.OPUS_4_5
                   \/ p = AnthropicProvider.HAIKU_4_5 ->
                   exists w r, cache_write p = Some w /\ cache_read p = Some r).
  { intros [->|[->| ->]]; eexists; eexists; split; reflexivity. }
  unfold AnthropicProvider.getModelPricing. cbv zeta.
  destruct (Js.get AnthropicProvider.PRICING_TABLE _) as [q| |] eqn:Hq.
  - intros E. inversion E. subst q. apply Hentry.
    unfold Js.get in Hq.
    destruct (AnthropicProvider.PRICING_TABLE !! _) as [q|] eqn:Hlook.
    + inversion Hq. subst q. eapply anthropic_table_entries, Hlook.
    + case_bool_decide; discriminate.
  - discriminate.
  - destruct (Js.includes _ (Js.lit "opus"));
      [ | destruct (Js.includes _ (Js.lit "haiku"));
          [ | destruct (Js.includes _ (Js.lit "sonnet")) ] ];
      intros E; apply Hentry; unfold Js.get in E;
      match type of E with
      | context [ ?t !! ?k ] =>
          destruct (t !! k) as [q|] eqn:Hlook;
          [ inversion E; subst q; eapply anthropic_table_entries, Hlook
          | case_bool_decide; discriminate ]
      end.
Qed.

(** *** Binary64

    What the proofs below use of the arithmetic of doubles: adding zero
    changes nothing but [-0], zero times a positive finite rate is zero,
    and sums and products of numbers that are not negative are not
    negative. *)

Lemma round_aux_sign (s : bool) (m e : Z) (l : location) :
  signOf (binary_round_aux prec emax s m e l) = None
  \/ signOf (binary_round_aux prec emax s m e l) = Some s.
Proof.
  unfold binary_round_aux.
  destruct (shr_fexp prec emax m e l) as [mrs' e'].
  destruct (shr_fexp prec emax _ e' loc_Exact) as [mrs'' e''].
  destruct (shr_m mrs''); [ right; reflexivity | | left; reflexivity ].
  destruct (e'' <=? emax - prec)%Z; right; reflexivity.
Qed.

Lemma float_zero : Prim2SF 0%float = S754_zero false.
Proof. reflexivity. Qed.

Lemma add_zero_l (x : float) :
  notNegative x = true -> (0 + x)%float = x.
Proof.
  unfold notNegative. intros Hx. apply Prim2SF_inj.
  rewrite FloatAxioms.add_spec, float_zero. unfold SF64add, SFadd.
  destruct (Prim2SF x) as [[|]| | |]; try reflexivity; discriminate.
Qed.

Lemma add_zero_r (x : float) :
  notNegative x = true -> (x + 0)%float = x.
Proof.
  unfold notNegative. intros Hx. apply Prim2SF_inj.
  rewrite FloatAxioms.add_spec, float_zero. unfold SF64add, SFadd.
  destruct (Prim2SF x) as [[|]| [|] | |]; try reflexivity; discriminate.
Qed.

Lemma mul_zero_l (r : float) :
  positiveRate r = true -> (0 * perToken r)%float = 0%float.
Proof.
  unfold positiveRate. intros Hr. apply Prim2SF_inj.
  rewrite FloatAxioms.mul_spec, float_zero. unfold SF64mul, SFmul.
  destruct (Prim2SF (perToken r)) as [ | | |[|] m e]; try discriminate.
  reflexivity.
Qed.

Lemma mul_notNegative (n r : float) :
  tokenCount n = true -> positiveRate r = true ->
  notNegative (n * perToken r) = true.
Proof.
  unfold tokenCount, positiveRate, notNegative. intros Hn Hr.
  rewrite FloatAxioms.mul_spec. unfold SF64mul, SFmul.
  destruct (Prim2SF (perToken r)) as [ | | |[|] m e]; try discriminate.
  destruct (Prim2SF n) as [[|]|[|]| |[|] mn en]; try discriminate;
    try reflexivity.
  cbn [xorb].
  destruct (round_aux_sign false (Z.pos (mn * m)) (en + e) loc_Exact)
    as [-> | ->]; reflexivity.
Qed.

Lemma add_notNegative (x y : float) :
  notNegative x = true -> notNegative y = true ->
  notNegative (x + y) = true.
Proof.
  unfold notNegative. intros Hx Hy. rewrite FloatAxioms.add_spec.
  unfold SF64add, SFadd.
  destruct (Prim2SF x) as [[|]|[|]| |[|] mx ex]; try discriminate;
    destruct (Prim2SF y) as [[|]|[|]| |[|] my ey]; try discriminate;
    try reflexivity.
  cbv zeta. cbn [cond_Zopp]. unfold binary_normalize, binary_round.
  match goal with
  | |- context [ (Z.pos ?a + Z.pos ?b)%Z ] =>
      change (Z.pos a + Z.pos b)%Z with (Z.pos (a + b))
  end.
  cbv iota.
  match goal with
  | |- context [ shl_align ?m ?e ?f ] =>
      destruct (shl_align m e f) as [mz ez]
  end.
  destruct (round_aux_sign false (Z.pos mz) ez loc_Exact) as [-> | ->];
    reflexivity.
Qed.

Lemma tokenCount_notNegative (n : float) :
  tokenCount n = true -> notNegative n = true.
Proof.
  unfold tokenCount, notNegative.
  destruct (signOf (Prim2SF n)); [ auto | discriminate ].
Qed.

Lemma tokenCount_falsy (n : float) :
  tokenCount n = true -> truthyNum n = false -> n = 0%float.
Proof.
  unfold tokenCount. cbn [truthyNum JsNum_float].
  unfold PrimFloat.is_nan. rewrite !FloatAxioms.eqb_spec.
  change (Prim2SF PrimFloat.zero) with (S754_zero false).
  intros Hn Htruthy. apply Prim2SF_inj. rewrite float_zero.
  destruct (Prim2SF n) as [[|]|[|]| |[|] m e]; try discriminate;
    try reflexivity.
  cbn in Htruthy.
  unfold SFeqb, SFcompare in Htruthy.
  rewrite Z.compare_refl in Htruthy.
  rewrite Pos.compare_cont_refl in Htruthy. discriminate.
Qed.

Lemma orZero_tokens (counter : option float) :
  counted counter = true -> orZero counter = formulaTokens counter.
Proof.
  destruct counter as [n|]; [ | reflexivity ].
  cbn [counted orZero formulaTokens]. intros Hn.
  destruct (truthyNum n) eqn:Htruthy; [ reflexivity | ].
  rewrite (tokenCount_falsy n Hn Htruthy). reflexivity.
Qed.

Lemma tokens_counted (counter : option float) :
  counted counter = true -> tokenCount (formulaTokens counter) = true.
Proof. destruct counter; [ auto | reflexivity ]. Qed.

Lemma cacheTerm_notNegative (counter rate : option float) :
  counted counter = true ->
  match rate with Some r => positiveRate r | None => true end = true ->
  notNegative (formulaCacheTerm counter rate) = true.
Proof.
  intros Hn Hr. destruct rate as [r|]; [ | reflexivity ].
  cbn [formulaCacheTerm].
  apply mul_notNegative; [ apply tokens_counted, Hn | exact Hr ].
Qed.

Lemma cacheRate_positive (rate : option float) :
  cacheRate rate = true ->
  match rate with Some r => positiveRate r | None => true end = true.
Proof.
  destruct rate as [r|]; [ | reflexivity ].
  cbn [cacheRate]. intros Hr. apply andb_true_iff in Hr as [_ Hr]. exact Hr.
Qed.

(** A cache term of the engine's [calculateCost] is the term of the
    formula. *)
Lemma review_cache_term_float (cost : float) (counter rate : option float) :
  notNegative cost = true -> counted counter = true ->
  cacheRate rate = true ->
  match counter, rate with
  | Some n, Some r =>
      if truthyNum n && truthyNum r
      then add cost (mul n (perToken r))
      else cost
  | _, _ => cost
  end = add cost (formulaCacheTerm counter rate).
Proof.
  intros Hcost Hn Hr.
  destruct rate as [r|].
  - cbn [cacheRate] in Hr. apply andb_true_iff in Hr as [Htruthy Hr].
    cbn [formulaCacheTerm].
    destruct counter as [n|]; cbn [formulaTokens].
    + rewrite Htruthy, andb_true_r.
      destruct (truthyNum n) eqn:Hzero; [ reflexivity | ].
      rewrite (tokenCount_falsy n Hn Hzero).
      cbn [add mul JsNum_float]. rewrite (mul_zero_l r Hr).
      symmetry. apply add_zero_r, Hcost.
    + change (@ofZ float _ 0%Z) with 0%float.
      cbn [add mul JsNum_float].
      rewrite (mul_zero_l r Hr). symmetry. apply add_zero_r, Hcost.
  - cbn [formulaCacheTerm]. change (@ofZ float _ 0%Z) with 0%float.
    transitivity cost; [ destruct counter; reflexivity | ].
    symmetry. apply (add_zero_r cost Hcost).
Qed.

Lemma tokenCounts_fields (usage : Usage float) :
  tokenCounts usage = true ->
  counted (input_tokens usage) = true
  /\ counted (output_tokens usage) = true
  /\ counted (cache_creation_input_tokens usage) = true
  /\ counted (cache_read_input_tokens usage) = true.
Proof.
  unfold tokenCounts. cbn [forallb]. rewrite !andb_true_iff.
  intros (Hi & Ho & Hw & Hr & _). auto.
Qed.

Lemma review_costWith_formula (prices : PricingEntry float)
    (usage : Usage float) :
  pricedEntry prices = true -> tokenCounts usage = true ->
  Review.costWith prices usage = formulaCost prices usage.
Proof.
  unfold pricedEntry. rewrite !andb_true_iff.
  intros [[[Hpi Hpo] Hpw] Hpr] Husage.
  destruct (tokenCounts_fields usage Husage) as (Hi & Ho & Hw & Hr).
  unfold Review.costWith, formulaCost. cbv zeta.
  rewrite (orZero_tokens _ Hi), (orZero_tokens _ Ho).
  pose proof (mul_notNegative _ _ (tokens_counted _ Hi) Hpi) as Ha.
  pose proof (mul_notNegative _ _ (tokens_counted _ Ho) Hpo) as Hb.
  change (@ofZ float _ 0%Z) with 0%float.
  cbn [add mul JsNum_float] in *.
  rewrite (add_zero_l _ Ha).
  pose proof (add_notNegative _ _ Ha Hb) as Hab.
  pose proof (review_cache_term_float _ _ _ Hab Hw Hpw) as Hfirst.
  cbn [add mul JsNum_float] in Hfirst. rewrite Hfirst.
  pose proof (add_notNegative _ _ Hab
                (cacheTerm_notNegative _ _ Hw (cacheRate_positive _ Hpw)))
    as Habc.
  pose proof (review_cache_term_float _ _ _ Habc Hr Hpr) as Hsecond.
  cbn [add mul JsNum_float] in Hsecond. rewrite Hsecond.
  reflexivity.
Qed.

(** A cache term of the adapter's [calculateCost], for an entry that
    defines the rate. *)
Lemma anthropic_cache_term_float (cost : float) (counter : option float)
    (r : float) :
  notNegative cost = true -> counted counter = true ->
  positiveRate r = true ->
  match counter with
  | Some n =>
      if truthyNum n
      then Some (add cost (mul n (perToken r)))
      else Some cost
  | None => Some cost
  end = Some (add cost (formulaCacheTerm counter (Some r))).
Proof.
  intros Hcost Hn Hr. cbn [formulaCacheTerm].
  destruct counter as [n|]; cbn [formulaTokens].
  - destruct (truthyNum n) eqn:Hzero; [ reflexivity | ].
    rewrite (tokenCount_falsy n Hn Hzero).
    cbn [add mul JsNum_float]. rewrite (mul_zero_l r Hr).
    f_equal. symmetry. apply add_zero_r, Hcost.
  - change (@ofZ float _ 0%Z) with 0%float.
    cbn [add mul JsNum_float].
    rewrite (mul_zero_l r Hr). f_equal. symmetry. apply add_zero_r, Hcost.
Qed.

Lemma anthropic_costWith_formula (prices : PricingEntry float)
    (usage : Usage float) (w r : float) :
  cache_write prices = Some w -> cache_read prices = Some r ->
  pricedEntry prices = true -> tokenCounts usage = true ->
  AnthropicProvider.costWith prices usage = Some (formulaCost prices usage).
Proof.
  unfold pricedEntry. rewrite !andb_true_iff.
  intros Hcw Hcr [[[Hpi Hpo] Hpw] Hpr] Husage.
  destruct (tokenCounts_fields usage Husage) as (Hi & Ho & Hw & Hr).
  unfold AnthropicProvider.costWith, formulaCost. cbv zeta.
  rewrite (orZero_tokens _ Hi), (orZero_tokens _ Ho).
  pose proof (mul_notNegative _ _ (tokens_counted _ Hi) Hpi) as Ha.
  pose proof (mul_notNegative _ _ (tokens_counted _ Ho) Hpo) as Hb.
  rewrite Hcw, Hcr in *. cbn [mbind option_bind].
  cbn [cacheRate] in Hpw, Hpr.
  apply andb_true_iff in Hpw as [_ Hpw].
  apply andb_true_iff in Hpr as [_ Hpr].
  change (@ofZ float _ 0%Z) with 0%float.
  cbn [add mul JsNum_float] in *.
  rewrite (add_zero_l _ Ha).
  pose proof (add_notNegative _ _ Ha Hb) as Hab.
  pose proof (anthropic_cache_term_float _ _ w Hab Hw Hpw) as Hfirst.
  cbn [add mul JsNum_float] in Hfirst. rewrite Hfirst.
  cbn [mbind option_bind].
  pose proof (add_notNegative _ _ Hab
                (cacheTerm_notNegative _ (Some w) Hw Hpw)) as Habc.
  pose proof (anthropic_cache_term_float _ _ r Habc Hr Hpr) as Hsecond.
  cbn [add mul JsNum_float] in Hsecond. rewrite Hsecond.
  reflexivity.
Qed.

(** *** The entries of the pricing tables *)

Section Tables.
Context {num : Type} `{JsNum num}.

Lemma get_own {A : Type} (o : gmap (list N) A) (k : list N) (p : A) :
  Js.get o k = Js.Own p -> o !! k = Some p.
Proof.
  unfold Js.get. destruct (o !! k) as [q|]; [ congruence | ].
  case_bool_decide; discriminate.
Qed.

Lemma anthropic_entries (k : list N) (p : PricingEntry num) :
  AnthropicProvider.PRICING_TABLE !! k = Some p ->
  In p [ AnthropicProvider.SONNET_4_5; AnthropicProvider.OPUS_4_5;
         AnthropicProvider.HAIKU_4_5 ].
Proof.
  unfold AnthropicProvider.PRICING_TABLE.
  rewrite !lookup_insert, lookup_empty.
  repeat case_decide; intros E; inversion E; simpl; auto.
Qed.

Lemma openai_entries (k : list N) (p : PricingEntry num) :
  OpenAIProvider.PRICING_TABLE !! k = Some p ->
  In p [ OpenAIProvider.GPT_4_TURBO; OpenAIProvider.GPT_4;
         OpenAIProvider.GPT_3_5_TURBO ].
Proof.
  unfold OpenAIProvider.PRICING_TABLE.
  rewrite !lookup_insert, lookup_empty.
  repeat case_decide; intros E; inversion E; simpl; auto.
Qed.

Lemma google_entries (k : list N) (p : PricingEntry num) :
  GoogleProvider.PRICING_TABLE !! k = Some p ->
  In p [ GoogleProvider.GEMINI_1_5_PRO; GoogleProvider.GEMINI_1_5_FLASH;
         GoogleProvider.GEMINI_PRO ].
Proof.
  unfold GoogleProvider.PRICING_TABLE.
  rewrite !lookup_insert, lookup_empty.
  repeat case_decide; intros E; inversion E; simpl; auto.
Qed.

Lemma review_pricing_entries (modelName : list N) (p : PricingEntry num) :
  Review.getModelPricing modelName = Js.Own p -> In p tableEntries.
Proof.
  assert (Ha : forall k, Js.get Review.ANTHROPIC_PRICING k = Js.Own p ->
                         In p tableEntries).
  { intros k E. apply get_own, anthropic_entries in E.
    unfold tableEntries. simpl in *. tauto. }
  assert (Ho : forall k, Js.get Review.OPENAI_PRICING k = Js.Own p ->
                         In p tableEntries).
  { intros k E. apply get_own, openai_entries in E.
    unfold tableEntries. simpl in *. tauto. }
  assert (Hg : forall k, Js.get Review.GOOGLE_PRICING k = Js.Own p ->
                         In p tableEntries).
  { intros k E. apply get_own, google_entries in E.
    unfold tableEntries. simpl in *. tauto. }
  unfold Review.getModelPricing. cbv zeta.
  repeat match goal with
         | |- (if ?b then _ else _) = _ -> _ => destruct b
         end; eauto.
Qed.

Lemma anthropic_pricing_entries (modelName : list N)
    (p : PricingEntry num) :
  AnthropicProvider.getModelPricing modelName = Js.Own p ->
  In p [ AnthropicProvider.SONNET_4_5; AnthropicProvider.OPUS_4_5;
         AnthropicProvider.HAIKU_4_5 ].
Proof.
  unfold AnthropicProvider.getModelPricing. cbv zeta.
  destruct (Js.get AnthropicProvider.PRICING_TABLE _) as [q| |] eqn:Hq.
  - intros E. inversion E. subst q.
    eapply anthropic_entries, get_own, Hq.
  - discriminate.
  - repeat match goal with
           | |- (if ?b then _ else _) = _ -> _ => destruct b
           end;
      intros E; eapply anthropic_entries, get_own, E.
Qed.

End Tables.

Lemma tableEntries_priced :
  Forall (fun p => pricedEntry p = true) (tableEntries (num := float)).
Proof. repeat constructor. Qed.

Lemma review_calculateCost_formula (usage : Usage float) (modelName : list N)
    (prices : PricingEntry float) :
  Review.getModelPricing modelName = Js.Own prices ->
  tokenCounts usage = true ->
  Review.calculateCost usage modelName = Some (formulaCost prices usage).
Proof.
  intros Hp Husage. unfold Review.calculateCost. rewrite Hp. f_equal.
  apply review_costWith_formula; [ | exact Husage ].
  pose proof tableEntries_priced as Hall.
  rewrite List.Forall_forall in Hall.
  apply Hall, (review_pricing_entries modelName), Hp.
Qed.

Lemma anthropic_calculateCost_formula (thisModel : list N)
    (usage : Usage float) (modelName : option (list N))
    (prices : PricingEntry float) :
  AnthropicProvider.getModelPricing (Js.orElse modelName thisModel)
  = Js.Own prices ->
  tokenCounts usage = true ->
  AnthropicProvider.calculateCost thisModel usage modelName
  = Some (formulaCost prices usage).
Proof.
  intros Hp Husage. unfold AnthropicProvider.calculateCost. cbv zeta.
  rewrite Hp.
  pose proof (anthropic_pricing_entries _ _ Hp) as Hin.
  assert (Hcache : exists w r,
             cache_write prices = Some w /\ cache_read prices = Some r).
  { simpl in Hin. destruct Hin as [<-|[<-|[<-|[]]]];
      eexists; eexists; split; reflexivity. }
  destruct Hcache as (w & r & Hw & Hr).
  apply (anthropic_costWith_formula prices usage w r Hw Hr);
    [ | exact Husage ].
  pose proof tableEntries_priced as Hall.
  rewrite List.Forall_forall in Hall. apply Hall.
  unfold tableEntries. simpl in *. tauto.
Qed.

(** C6 (as amended).  [calculateCost] evaluates the specification's
    formula in the arithmetic of the code: input and output tokens at their
    per-million rates, each cache counter at its rate when the pricing entry
    defines it, absent counters counting as zero.  In binary64, for counters
    that are token counts, the result is the formula evaluated from left to
    right with every operation rounded; in exact arithmetic it is the exact
    value of the formula.  This holds for the engine's function and for the
    Anthropic adapter's, whose entries all define the cache rates.  The two
    scenarios give 0.01173 and 0.0105, in exact arithmetic and as the
    doubles JavaScript computes. *)
Theorem calculateCost_is_spec_formula :
  (forall (usage : Usage float) (modelName : list N)
      (prices : PricingEntry float),
      Review.getModelPricing modelName = Js.Own prices ->
      tokenCounts usage = true ->
      Review.calculateCost usage modelName
      = Some (formulaCost prices usage))
  /\ (forall (thisModel : list N) (usage : Usage float)
        (modelName : option (list N)) (prices : PricingEntry float),
      AnthropicProvider.getModelPricing (Js.orElse modelName thisModel)
      = Js.Own prices ->
      tokenCounts usage = true ->
      AnthropicProvider.calculateCost thisModel usage modelName
      = Some (formulaCost prices usage))
  /\ (forall (usage : Usage Qc) (modelName : list N)
        (prices : PricingEntry Qc),
      Review.getModelPricing modelName = Js.Own prices ->
      Review.calculateCost usage modelName = Some (specCost prices usage))
  /\ (forall (thisModel : list N) (usage : Usage Qc)
        (modelName : option (list N)) (prices : PricingEntry Qc),
      AnthropicProvider.getModelPricing (Js.orElse modelName thisModel)
      = Js.Own prices ->
      AnthropicProvider.calculateCost thisModel usage modelName
      = Some (specCost prices usage))
  /\ (forall (prices : PricingEntry Qc) (usage : Usage Qc),
        formulaCost prices usage = specCost prices usage)
  /\ AnthropicProvider.calculateCost (num := Qc) SONNET usageWithCache None
     = Some (dec 1173 5)
  /\ AnthropicProvider.calculateCost (num := Qc) SONNET usageWithoutCache None
     = Some (dec 105 4)
  /\ Review.calculateCost (num := Qc) usageWithCache SONNET
     = Some (dec 1173 5)
  /\ Review.calculateCost (num := Qc) usageWithoutCache SONNET
     = Some (dec 105 4)
  /\ AnthropicProvider.calculateCost (num := float) SONNET usageWithCache None
     = Some (dec 1173 5)
  /\ AnthropicProvider.calculateCost (num := float) SONNET usageWithoutCache
       None = Some (dec 105 4)
  /\ Review.calculateCost (num := float) usageWithCache SONNET
     = Some (dec 1173 5)
  /\ Review.calculateCost (num := float) usageWithoutCache SONNET
     = Some (dec 105 4).
Proof.
  split; [ | split; [ | split; [ | split; [ | split ] ] ] ].
  - apply review_calculateCost_formula.
  - apply anthropic_calculateCost_formula.
  - intros usage modelName prices Hp. unfold Review.calculateCost.
    rewrite Hp. f_equal. apply review_costWith_spec.
  - intros thisModel usage modelName prices Hp.
    unfold AnthropicProvider.calculateCost. cbv zeta. rewrite Hp.
    destruct (anthropic_pricing_has_cache_rates _ _ Hp) as (w & r & Hw & Hr).
    eapply anthropic_costWith_spec; eassumption.
  - intros prices usage. unfold formulaCost, specCost, formulaCacheTerm,
      specCacheTerm, formulaTokens, specTokens, perToken, specRate.
    destruct (cache_write prices), (cache_read prices); reflexivity.
  - repeat split; vm_compute;
      first [ reflexivity | f_equal; apply Qc_is_canon; reflexivity ].
Qed.

Lemma calculateCost_is_spec_formula_witness :
  Review.calculateCost (num := float) sevenTokens SONNET
  = Some (formulaCost AnthropicProvider.SONNET_4_5 sevenTokens)
  /\ Review.calculateCost (num := float) usageWithCache
       (Js.lit "gpt-4-turbo")
     = Some (formulaCost OpenAIProvider.GPT_4_TURBO usageWithCache)
  /\ AnthropicProvider.calculateCost (num := float) SONNET usageWithCache None
     = Some (formulaCost AnthropicProvider.SONNET_4_5 usageWithCache)
  /\ Review.calculateCost (num := Qc) usageWithCache SONNET
     = Some (specCost AnthropicProvider.SONNET_4_5 usageWithCache)
  /\ AnthropicProvider.calculateCost (num := Qc) SONNET usageWithCache None
     = Some (specCost AnthropicProvider.SONNET_4_5 usageWithCache).
Proof.
  pose proof calculateCost_is_spec_formula
    as (Hreview & Hadapter & Hexact & Hexact' & _).
  split; [ | split; [ | split; [ | split ] ] ].
  - apply Hreview; reflexivity.
  - apply Hreview; reflexivity.
  - apply Hadapter; reflexivity.
  - apply Hexact. reflexivity.
  - apply Hexact'. reflexivity.
Defined.

(** C6 (as stated) fails when [equals] is read of the value of the
    formula: for seven input tokens at the Sonnet rates the formula is worth
    21 millionths of a dollar, which is what exact arithmetic gives, while
    the double the code computes is not the double nearest that value but
    the next one up. *)
Lemma calculateCost_rounds_each_operation :
  Review.getModelPricing (num := Qc) SONNET
  = Js.Own AnthropicProvider.SONNET_4_5
  /\ specCost AnthropicProvider.SONNET_4_5 sevenTokens = dec 21 6
  /\ Review.calculateCost (num := Qc) sevenTokens SONNET = Some (dec 21 6)
  /\ Review.calculateCost (num := float) sevenTokens SONNET
     = Some (PrimFloat.next_up (dec 21 6))
  /\ AnthropicProvider.calculateCost (num := float) SONNET sevenTokens None
     = Some (PrimFloat.next_up (dec 21 6))
  /\ PrimFloat.ltb (dec 21 6) (PrimFloat.next_up (dec 21 6)) = true
  /\ Review.calculateCost (num := float) sevenTokens SONNET
     <> Some (dec 21 6).
Proof.
  repeat split;
    try (vm_compute;
         first [ reflexivity | f_equal; apply Qc_is_canon; reflexivity
               | apply Qc_is_canon; reflexivity ]).
  vm_compute. intros E. inversion E.
Qed.

(** ** Strings *)

Lemma startsWith_app (p rest : list N) : Js.startsWith (p ++ rest) p = true.
Proof.
  induction p as [|c p IH]; simpl; [ reflexivity | ].
  rewrite N.eqb_refl. exact IH.
Qed.

Lemma includes_startsWith (s p : list N) :
  Js.startsWith s p = true -> Js.includes s p = true.
Proof. intros Hp. destruct s; simpl; rewrite Hp; reflexivity. Qed.

Lemma includes_cons (c : N) (s p : list N) :
  Js.includes s p = true -> Js.includes (c :: s) p = true.
Proof. intros Hp. simpl. rewrite Hp. apply orb_true_r. Qed.

Lemma includes_app (pre p rest : list N) :
  Js.includes (pre ++ p ++ rest) p = true.
Proof.
  induction pre as [|c pre IH]; simpl app.
  - apply includes_startsWith, startsWith_app.
  - apply includes_cons, IH.
Qed.

Lemma strEq_true (a b : list N) : Js.strEq a b = true <-> a = b.
Proof. unfold Js.strEq. apply bool_decide_eq_true. Qed.

Lemma strEq_false (a b : list N) : Js.strEq a b = false <-> a <> b.
Proof. unfold Js.strEq. apply bool_decide_eq_false. Qed.

Lemma whenTruthy_truthy (s : list N) :
  Js.truthyStr s = true -> Js.whenTruthy (Some s) = Some s.
Proof. intros Hs. unfold Js.whenTruthy. rewrite Hs. reflexivity. Qed.

(** ** Provider factory *)

(** C8.  [createProvider] fails with the credential error whenever the
    API key is absent or empty, whatever the provider name; otherwise the
    lowered name selects the adapter, short aliases included; a name that
    is none of the six fails with [Unknown provider: <name>], the message
    listing the supported providers; and the Google names without a
    project id fail with the [requires projectId] error. *)
Theorem createProvider_error_contract :
  (forall providerName apiKey model options,
      Js.whenTruthy apiKey = None ->
      ProviderFactory.createProvider providerName apiKey model options
      = Js.Throw (Js.lit "API key is required for provider: " ++ providerName))
  /\
  (forall providerName key model options,
      Js.truthyStr key = true ->
      ~ In (Js.toLowerCase providerName) recognizedNames ->
      exists message,
        ProviderFactory.createProvider providerName (Some key) model options
        = Js.Throw message
        /\ message = Js.lit "Unknown provider: " ++ providerName
                     ++ Js.lit ". Supported: anthropic, openai, google"
        /\ Js.includes message (Js.lit "Unknown provider: " ++ providerName)
           = true
        /\ Js.includes message (Js.lit "anthropic, openai, google") = true)
  /\
  (forall providerName key model options,
      Js.truthyStr key = true ->
      Js.toLowerCase providerName = Js.lit "google"
      \/ Js.toLowerCase providerName = Js.lit "gemini" ->
      Js.whenTruthy (ProviderFactory.projectId options) = None ->
      exists message,
        ProviderFactory.createProvider providerName (Some key) model options
        = Js.Throw message
        /\ message = Js.lit "Google provider requires projectId option"
        /\ Js.includes message (Js.lit "requires projectId") = true
        /\ Js.includes message (Js.lit "Unknown provider") = false)
  /\
  (forall providerName key model options,
      Js.truthyStr key = true ->
      (Js.toLowerCase providerName = Js.lit "anthropic"
       \/ Js.toLowerCase providerName = Js.lit "claude" ->
       ProviderFactory.createProvider providerName (Some key) model options
       = Js.Normal
           (ProviderFactory.Anthropic key
              (Js.orElse model (Js.lit "claude-sonnet-4-5-20250929"))))
      /\
      (Js.toLowerCase providerName = Js.lit "openai"
       \/ Js.toLowerCase providerName = Js.lit "gpt" ->
       ProviderFactory.createProvider providerName (Some key) model options
       = Js.Normal
           (ProviderFactory.OpenAI key
              (Js.orElse model (Js.lit "gpt-4-turbo-preview"))))
      /\
      (Js.toLowerCase providerName = Js.lit "google"
       \/ Js.toLowerCase providerName = Js.lit "gemini" ->
       forall project,
         Js.whenTruthy (ProviderFactory.projectId options) = Some project ->
         ProviderFactory.createProvider providerName (Some key) model options
         = Js.Normal
             (ProviderFactory.Google key
                (Js.orElse model (Js.lit "gemini-1.5-pro")) project
                (Js.orElse (ProviderFactory.location options)
                   (Js.lit "us-central1"))))).
Proof.
  split; [ | split; [ | split ] ].
  - intros providerName apiKey model options Hkey.
    unfold ProviderFactory.createProvider. rewrite Hkey. reflexivity.
  - intros providerName key model options Hkey Hname.
    eexists. split; [ | split; [ reflexivity | split ] ].
    + unfold ProviderFactory.createProvider.
      rewrite (whenTruthy_truthy _ Hkey).
      unfold recognizedNames in Hname. simpl in Hname.
      repeat match goal with
             | |- context [ Js.strEq ?a ?b ] =>
                 let E := fresh "E" in
                 destruct (Js.strEq a b) eqn:E;
                 [ apply strEq_true in E; symmetry in E; tauto | clear E ]
             end.
      reflexivity.
    + apply includes_startsWith.
      rewrite (app_assoc (Js.lit "Unknown provider: ")).
      apply startsWith_app.
    + change (Js.lit ". Supported: anthropic, openai, google")
        with (Js.lit ". Supported: " ++ Js.lit "anthropic, openai, google"
              ++ []).
      rewrite !app_assoc, <- app_assoc. apply includes_app.
  - intros providerName key model options Hkey Hname Hproject.
    eexists. split; [ | split; [ reflexivity | split; reflexivity ] ].
    unfold ProviderFactory.createProvider.
    rewrite (whenTruthy_truthy _ Hkey), Hproject.
    destruct Hname as [-> | ->]; reflexivity.
  - intros providerName key model options Hkey.
    unfold ProviderFactory.createProvider.
    rewrite (whenTruthy_truthy _ Hkey).
    split; [ | split ].
    + intros [-> | ->]; reflexivity.
    + intros [-> | ->]; reflexivity.
    + intros Hname project Hproject. rewrite Hproject.
      destruct Hname as [-> | ->]; reflexivity.
Qed.

Lemma createProvider_error_contract_witness :
  let key := Js.lit "test-key" in
  let model := Some (Js.lit "test-model") in
  ProviderFactory.createProvider (Js.lit "anthropic") (Some []) model
    ProviderFactory.noOptions
  = Js.Throw (Js.lit "API key is required for provider: anthropic")
  /\ ProviderFactory.createProvider (Js.lit "unknown") None model
       ProviderFactory.noOptions
     = Js.Throw (Js.lit "API key is required for provider: unknown")
  /\ (exists message,
        ProviderFactory.createProvider (Js.lit "unknown") (Some key) model
          ProviderFactory.noOptions = Js.Throw message
        /\ Js.includes message (Js.lit "Unknown provider: unknown") = true)
  /\ (exists message,
        ProviderFactory.createProvider (Js.lit "google") (Some key) model
          ProviderFactory.noOptions = Js.Throw message
        /\ Js.includes message (Js.lit "requires projectId") = true)
  /\ (exists message,
        ProviderFactory.createProvider (Js.lit "GEMINI") (Some key) model
          ProviderFactory.noOptions = Js.Throw message
        /\ Js.includes message (Js.lit "requires projectId") = true)
  /\ ProviderFactory.createProvider (Js.lit "Claude") (Some key) model
       ProviderFactory.noOptions
     = Js.Normal (ProviderFactory.Anthropic key (Js.lit "test-model")).
Proof.
  cbv zeta.
  pose proof createProvider_error_contract
    as (Hcredential & Hunknown & Hproject & Hmatch).
  split; [ | split; [ | split; [ | split; [ | split ] ] ] ].
  - apply (Hcredential (Js.lit "anthropic")). reflexivity.
  - apply (Hcredential (Js.lit "unknown")). reflexivity.
  - destruct (Hunknown (Js.lit "unknown") (Js.lit "test-key")
                (Some (Js.lit "test-model")) ProviderFactory.noOptions)
      as (message & Hthrow & _ & Hincl & _).
    + reflexivity.
    + vm_compute. intuition discriminate.
    + exists message. split; [ exact Hthrow | exact Hincl ].
  - destruct (Hproject (Js.lit "google") (Js.lit "test-key")
                (Some (Js.lit "test-model")) ProviderFactory.noOptions)
      as (message & Hthrow & _ & Hincl & _).
    + reflexivity.
    + left. reflexivity.
    + reflexivity.
    + exists message. split; [ exact Hthrow | exact Hincl ].
  - destruct (Hproject (Js.lit "GEMINI") (Js.lit "test-key")
                (Some (Js.lit "test-model")) ProviderFactory.noOptions)
      as (message & Hthrow & _ & Hincl & _).
    + reflexivity.
    + right. reflexivity.
    + reflexivity.
    + exists message. split; [ exact Hthrow | exact Hincl ].
  - destruct (Hmatch (Js.lit "Claude") (Js.lit "test-key")
                (Some (Js.lit "test-model")) ProviderFactory.noOptions)
      as (Hanthropic & _).
    + reflexivity.
    + apply Hanthropic. right. reflexivity.
Defined.

(** ** Retry *)

Lemma failTrace_calls (attempt k : nat) :
  Retry.calls (failTrace attempt k) = List.seq attempt (S k).
Proof.
  revert attempt. induction k as [|k IH]; intros attempt; simpl.
  - reflexivity.
  - f_equal. apply IH.
Qed.

Lemma failTrace_sleeps (attempt k : nat) :
  Retry.sleeps (failTrace attempt k)
  = List.map (fun n => (2 ^ n * 1000)%nat) (List.seq attempt k).
Proof.
  revert attempt. induction k as [|k IH]; intros attempt; simpl.
  - reflexivity.
  - f_equal. apply IH.
Qed.

Section RetryLoop.
Context {A : Type} (label : list N) (api : nat -> Js.completion A).

(** With [retries + 2 - attempt] units of fuel or more the loop ends by
    its own condition, so the result does not depend on the fuel. *)
Lemma loop_fuel (retries : nat) :
  forall fuel fuel' attempt,
    (retries + 2 - attempt <= fuel)%nat ->
    (retries + 2 - attempt <= fuel')%nat ->
    Retry.loop label api retries fuel attempt
    = Retry.loop label api retries fuel' attempt.
Proof.
  induction fuel as [|fuel IH]; intros fuel' attempt Hf Hf'.
  - destruct fuel' as [|fuel']; [ reflexivity | ].
    simpl. destruct (Nat.leb_spec attempt retries); [ lia | reflexivity ].
  - destruct fuel' as [|fuel'].
    + simpl. destruct (Nat.leb_spec attempt retries); [ lia | reflexivity ].
    + simpl. destruct (Nat.leb_spec attempt retries); [ | reflexivity ].
      destruct (api attempt); [ reflexivity | ].
      destruct (Nat.eqb_spec attempt retries); [ reflexivity | ].
      rewrite (IH fuel' (S attempt)) by lia. reflexivity.
Qed.

Variable message : nat -> list N.
Hypothesis all_fail : forall n, api n = Js.Throw (message n).

Lemma loop_all_fail (retries : nat) :
  forall k attempt fuel,
    (attempt + k = retries)%nat -> (k < fuel)%nat ->
    Retry.loop label api retries fuel attempt
    = (failTrace attempt k,
       Retry.Rejected (Retry.failure label retries (message retries))).
Proof.
  induction k as [|k IH]; intros attempt fuel Hk Hfuel.
  - destruct fuel as [|fuel]; [ lia | ]. simpl.
    replace attempt with retries by lia.
    rewrite Nat.leb_refl, all_fail, Nat.eqb_refl. reflexivity.
  - destruct fuel as [|fuel]; [ lia | ]. simpl.
    destruct (Nat.leb_spec attempt retries); [ | lia ].
    rewrite all_fail.
    destruct (Nat.eqb_spec attempt retries); [ lia | ].
    rewrite (IH (S attempt) fuel) by lia. reflexivity.
Qed.

End RetryLoop.

(** The part of C3 that holds (X1).  When every attempt fails and
    [retries] is at least one, [review] calls the vendor [retries] times,
    sleeps [2^attempt] seconds after each attempt but the last, and rejects
    with the adapter's label and the message of the last failure. *)
Theorem review_exhausts_retries {A : Type} (p : ProviderFactory.provider)
    (options : Retry.ReviewOptions) (api : nat -> Js.completion A)
    (message : nat -> list N) :
  (forall n, api n = Js.Throw (message n)) ->
  (1 <= Retry.retriesOf options)%nat ->
  let retries := Retry.retriesOf options in
  let r := ProviderFactory.review p options api in
  Retry.calls (fst r) = List.seq 1 retries
  /\ Retry.sleeps (fst r)
     = List.map (fun attempt => (2 ^ attempt * 1000)%nat)
         (List.seq 1 (retries - 1))
  /\ snd r
     = Retry.Rejected
         (errorLabel p ++ Js.lit " API failed after " ++ Js.ofNat retries
          ++ Js.lit " attempts: " ++ message retries).
Proof.
  intros Hfail Hpos. cbv zeta.
  assert (Hr : ProviderFactory.review p options api
               = (failTrace 1 (Retry.retriesOf options - 1),
                  Retry.Rejected
                    (Retry.failure (errorLabel p) (Retry.retriesOf options)
                       (message (Retry.retriesOf options))))).
  { destruct p; simpl;
      unfold AnthropicProvider.review, OpenAIProvider.review,
        GoogleProvider.review, Retry.run;
      revert Hpos; generalize (Retry.retriesOf options); intros n Hpos;
      apply loop_all_fail; try assumption; lia. }
  rewrite Hr. simpl fst. simpl snd.
  rewrite failTrace_calls, failTrace_sleeps.
  revert Hpos. generalize (Retry.retriesOf options). intros n Hpos.
  replace (S (n - 1)) with n by lia.
  repeat split.
Qed.

Lemma review_exhausts_retries_witness :
  let api := fun _ : nat => Js.Throw (A := unit) (Js.lit "boom") in
  let r := ProviderFactory.review
             (ProviderFactory.OpenAI (Js.lit "k") (Js.lit "gpt-4"))
             (withRetries None) api in
  Retry.calls (fst r) = [1; 2; 3]%nat
  /\ Retry.sleeps (fst r) = [2000; 4000]%nat
  /\ snd r = Retry.Rejected (Js.lit "OpenAI API failed after 3 attempts: boom").
Proof.
  cbv zeta.
  apply (review_exhausts_retries
           (ProviderFactory.OpenAI (Js.lit "k") (Js.lit "gpt-4"))
           (withRetries None)
           (fun _ : nat => Js.Throw (A := unit) (Js.lit "boom"))
           (fun _ => Js.lit "boom")).
  - reflexivity.
  - apply Nat.leb_le. reflexivity.
Defined.

(** C3 at [retries = 0]: the loop body never runs, so no attempt is made
    and the promise resolves with [undefined]; no error names the
    provider. *)
Theorem review_zero_retries_resolves_undefined {A : Type}
    (p : ProviderFactory.provider) (api : nat -> Js.completion A) :
  ProviderFactory.review p (withRetries (Some 0%nat)) api
  = ([], Retry.ResolvedUndefined).
Proof. destruct p; reflexivity. Qed.

(** ** Findings: validation and severity *)

Lemma field_not_null (k : list N) (f : Json.value) :
  isNull f = false -> Json.field k f = Js.Normal (propertyOf k f).
Proof. destruct f; simpl; intros E; try reflexivity; discriminate. Qed.

Lemma rankOfName_positive (name : list N) :
  (1 <= rankOfName name)%nat <-> In name severityNames.
Proof.
  unfold rankOfName, severityNames, Js.strEq. simpl.
  repeat case_bool_decide; subst; split; intros; try lia; auto.
  intuition congruence.
Qed.

Lemma severity_levels_lookup (k : list N) :
  Review.SEVERITY_LEVELS !! k
  = match rankOfName k with O => None | S n => Some (S n) end.
Proof.
  unfold Review.SEVERITY_LEVELS, rankOfName, Js.strEq.
  rewrite !lookup_insert, lookup_empty.
  repeat case_decide; repeat case_bool_decide; subst;
    try reflexivity; congruence.
Qed.

Lemma prototype_rank_zero (k : list N) :
  k ∈ Js.OBJECT_PROTOTYPE -> rankOfName k = 0%nat.
Proof.
  unfold Js.OBJECT_PROTOTYPE. rewrite !elem_of_cons.
  intros Hk.
  repeat (destruct Hk as [-> | Hk]; [ reflexivity | ]).
  apply elem_of_nil in Hk. contradiction.
Qed.

(** The operand a threshold text gives: its rank when it is one of the
    four names, the member it names when it is a name of
    [Object.prototype], NaN otherwise. *)
Lemma threshold_operand (t : list N) :
  Review.toPrimitive t (Js.get Review.SEVERITY_LEVELS t)
  = match rankOfName t with
    | S n => Review.Number (S n)
    | O =>
        if bool_decide (t ∈ Js.OBJECT_PROTOTYPE) then Review.Member t
        else Review.NaN
    end.
Proof.
  unfold Js.get. rewrite severity_levels_lookup.
  destruct (rankOfName t); [ | reflexivity ].
  case_bool_decide; reflexivity.
Qed.

(** The operand a severity key gives: the member it names when it is a
    name of [Object.prototype], its rank otherwise. *)
Lemma level_operand (k : list N) :
  Review.toPrimitive k (Review.orZeroLevel (Js.get Review.SEVERITY_LEVELS k))
  = if bool_decide (k ∈ Js.OBJECT_PROTOTYPE) then Review.Member k
    else Review.Number (rankOfName k).
Proof.
  unfold Js.get. rewrite severity_levels_lookup.
  case_bool_decide as Hk.
  - rewrite (prototype_rank_zero _ Hk). reflexivity.
  - destruct (rankOfName k); reflexivity.
Qed.

(** Against a number, a key counts by its rank. *)
Lemma key_rank (key : option (list N)) (n : nat) :
  Review.geq
    match key with
    | Some k =>
        Review.toPrimitive k
          (Review.orZeroLevel (Js.get Review.SEVERITY_LEVELS k))
    | None => Review.Number O
    end
    (Review.Number (S n))
  = (S n <=? match key with Some k => rankOfName k | None => 0 end)%nat.
Proof.
  destruct key as [k|]; [ | reflexivity ].
  rewrite level_operand. case_bool_decide as Hk; [ | reflexivity ].
  rewrite (prototype_rank_zero _ Hk). reflexivity.
Qed.

Lemma geq_nan (x : Review.operand) : Review.geq x Review.NaN = false.
Proof. destruct x; reflexivity. Qed.

Lemma names_not_prototype (t : list N) :
  In t severityNames -> t ∉ Js.OBJECT_PROTOTYPE.
Proof.
  intros Ht Hproto. apply rankOfName_positive in Ht.
  rewrite (prototype_rank_zero _ Hproto) in Ht. lia.
Qed.

(** For a threshold that is no name of [Object.prototype], the callback
    compares ranks. *)
Lemma meetsThreshold_rank (t : list N) (f : Json.value) :
  t ∉ Js.OBJECT_PROTOTYPE ->
  isNull f = false -> hasKeyText f = true ->
  Review.meetsThreshold t f
  = Js.Normal
      (match rankOfName t with
       | O => false
       | S n => (S n <=? severityRank f)%nat
       end).
Proof.
  intros Ht Hf Hkey. unfold Review.meetsThreshold.
  rewrite (field_not_null _ _ Hf). cbn [mbind Js.completion_bind].
  rewrite threshold_operand.
  rewrite (bool_decide_eq_false_2 _ Ht).
  unfold Review.levelAt, Review.keyAt, severityRank.
  unfold hasKeyText in Hkey.
  destruct (propertyOf (Js.lit "severity") f) as [v|].
  - destruct (Json.toString v) as [key|m]; [ | discriminate ].
    cbn [mbind Js.completion_bind].
    destruct (rankOfName t) as [|n].
    + rewrite geq_nan. reflexivity.
    + rewrite key_rank. reflexivity.
  - cbn [mbind Js.completion_bind].
    destruct (rankOfName t) as [|n].
    + rewrite geq_nan. reflexivity.
    + rewrite (key_rank (Some (Js.lit "undefined"))). reflexivity.
Qed.

(** [filter] with a callback that never throws on the list. *)
Lemma filterC_pure {A : Type} (keep : A -> Js.completion bool)
    (g : A -> bool) (l : list A) :
  Forall (fun x => keep x = Js.Normal (g x)) l ->
  Review.filterC keep l = Js.Normal (List.filter g l).
Proof.
  induction 1 as [|x l Hx _ IH]; simpl; [ reflexivity | ].
  rewrite Hx, IH. simpl. reflexivity.
Qed.

(** What [filter] kept, the callback accepted. *)
Lemma filterC_kept {A : Type} (keep : A -> Js.completion bool) (l : list A) :
  forall kept x,
    Review.filterC keep l = Js.Normal kept -> In x kept ->
    In x l /\ keep x = Js.Normal true.
Proof.
  induction l as [|y l IH]; simpl; intros kept x Hrun Hx.
  - inversion Hrun. subst kept. contradiction.
  - destruct (keep y) as [b|] eqn:Hy; simpl in Hrun; [ | discriminate ].
    destruct (Review.filterC keep l) as [rest|] eqn:Hrest; simpl in Hrun;
      [ | discriminate ].
    inversion Hrun. subst kept. clear Hrun.
    destruct b.
    + destruct Hx as [-> | Hx].
      * split; [ left; reflexivity | exact Hy ].
      * destruct (IH rest x eq_refl Hx) as [Hin Hk]. split; auto.
    + destruct (IH rest x eq_refl Hx) as [Hin Hk]. split; auto.
Qed.

Lemma filterBySeverity_by_rank (threshold : list N)
    (findings : list Json.value) :
  In threshold severityNames ->
  Forall (fun f => isNull f = false /\ hasKeyText f = true) findings ->
  Review.filterBySeverity threshold findings
  = Js.Normal
      (List.filter (fun f => (rankOfName threshold <=? severityRank f)%nat)
         findings).
Proof.
  intros Ht Hfindings. unfold Review.filterBySeverity.
  apply filterC_pure.
  eapply Forall_impl; [ exact Hfindings | ].
  intros f [Hf Hkey]. cbv beta.
  rewrite (meetsThreshold_rank _ _ (names_not_prototype _ Ht) Hf Hkey).
  apply rankOfName_positive in Ht.
  destruct (rankOfName threshold); [ lia | reflexivity ].
Qed.

(** A threshold text that is none of the four names and no name of
    [Object.prototype] has no rank: the comparison is with NaN and nothing
    passes.  [validateConfig] tests the upper-cased text, so it lets such a
    text through when only its letter case differs. *)
Lemma unranked_threshold_keeps_nothing (threshold : list N)
    (findings : list Json.value) :
  threshold ∉ Js.OBJECT_PROTOTYPE ->
  ~ In threshold severityNames ->
  Forall (fun f => isNull f = false /\ hasKeyText f = true) findings ->
  Review.filterBySeverity threshold findings = Js.Normal [].
Proof.
  intros Hproto Ht Hfindings. unfold Review.filterBySeverity.
  rewrite (filterC_pure _ (fun _ => false)).
  - f_equal. clear Hfindings.
    induction findings as [|f rest IH]; [ reflexivity | exact IH ].
  - eapply Forall_impl; [ exact Hfindings | ].
    intros f [Hf Hkey]. cbv beta.
    rewrite (meetsThreshold_rank _ _ Hproto Hf Hkey).
    destruct (rankOfName threshold) as [|n] eqn:Hrank; [ reflexivity | ].
    exfalso. apply Ht, rankOfName_positive. lia.
Qed.

(** A threshold that [validateConfig] accepts is no name of
    [Object.prototype]. *)
Lemma valid_threshold_not_prototype (threshold : list N) :
  In (JsString.toUpperCase threshold) Validation.validSeverities ->
  threshold ∉ Js.OBJECT_PROTOTYPE.
Proof.
  intros Hvalid Hproto. revert Hvalid.
  unfold Js.OBJECT_PROTOTYPE in Hproto. rewrite !elem_of_cons in Hproto.
  repeat (destruct Hproto as [-> | Hproto];
          [ vm_compute; intuition discriminate | ]).
  apply elem_of_nil in Hproto. contradiction.
Qed.

(** The callback throws on [null] and on a severity that cannot be turned
    into a property key. *)
Lemma meetsThreshold_throws (threshold : list N) (f : Json.value) :
  isNull f = true \/ hasKeyText f = false ->
  exists m, Review.meetsThreshold threshold f = Js.Throw m.
Proof.
  unfold Review.meetsThreshold, hasKeyText.
  intros [Hnull | Hkey].
  - destruct f; try discriminate. eexists. reflexivity.
  - destruct f as [ | b | m e | s | items | members ]; try discriminate.
    cbn [propertyOf] in Hkey. cbn [Json.field mbind Js.completion_bind].
    destruct (Json.lookupLast (Js.lit "severity") members) as [v|];
      [ | discriminate ].
    unfold Review.levelAt, Review.keyAt.
    destruct (Json.toString v) as [key|m]; [ discriminate | ].
    exists m. reflexivity.
Qed.

Lemma filterC_throws {A : Type} (keep : A -> Js.completion bool)
    (l : list A) :
  Exists (fun x => exists m, keep x = Js.Throw m) l ->
  exists m, Review.filterC keep l = Js.Throw m.
Proof.
  induction l as [|x l IH]; intros Hsome; [ inversion Hsome | ].
  cbn [Review.filterC].
  destruct (keep x) as [b|m] eqn:Hx; [ | exists m; reflexivity ].
  cbn [mbind Js.completion_bind].
  destruct IH as [m Hm].
  { inversion Hsome as [? ? [m Hthrow]|]; subst; [ congruence | assumption ]. }
  rewrite Hm. exists m. reflexivity.
Qed.




(** The comparison of two members of [Object.prototype] is a comparison of
    texts: with the threshold [constructor], which [validateConfig]
    rejects, the severity [toString] passes, its text being the greater. *)
Lemma prototype_threshold_compares_texts :
  Review.filterBySeverity (Js.lit "constructor")
    [ finding (sev "toString") "a.js" 1 "t";
      finding (sev "HIGH") "b.js" 4 "h";
      finding (sev "__proto__") "c.js" 5 "p" ]
  = Js.Normal [finding (sev "toString") "a.js" 1 "t"].
Proof. vm_compute. reflexivity. Qed.

(** C10 (as amended).  Parsing accepts an object whose severity is any
    non-empty string (the other three fields being truthy); and for every
    threshold that [validateConfig] accepts, a finding that
    [filterBySeverity] keeps and whose severity is a string has one of the
    four severity names: the callback of the filter returns [false] on a
    severity string outside the four.  Such a string ranks 0, or names a
    member of [Object.prototype]; an accepted threshold is a rank of at
    least 1, or NaN when it is not in upper case; and the comparison is
    false in each of these cases. *)
Theorem string_severity_outside_enum_is_filtered :
  (forall (f : Json.value) (s : list N),
      propertyOf (Js.lit "severity") f = Some (Json.Str s) ->
      s <> [] ->
      Json.truthyField (propertyOf (Js.lit "file") f) = true ->
      Json.truthyField (propertyOf (Js.lit "line") f) = true ->
      Json.truthyField (propertyOf (Js.lit "title") f) = true ->
      Review.validFinding f = Js.Normal true)
  /\
  (forall (threshold : list N) (findings kept : list Json.value)
      (f : Json.value) (s : list N),
      In (JsString.toUpperCase threshold) Validation.validSeverities ->
      Review.filterBySeverity threshold findings = Js.Normal kept ->
      In f kept ->
      Json.field (Js.lit "severity") f = Js.Normal (Some (Json.Str s)) ->
      In s severityNames)
  /\
  (forall (threshold : list N) (f : Json.value) (s : list N),
      In (JsString.toUpperCase threshold) Validation.validSeverities ->
      Json.field (Js.lit "severity") f = Js.Normal (Some (Json.Str s)) ->
      ~ In s severityNames ->
      Review.meetsThreshold threshold f = Js.Normal false)
  /\
  (forall s : list N,
      ~ In s severityNames ->
      Review.levelAt (Some (Json.Str s))
      = Js.Normal
          (if bool_decide (s ∈ Js.OBJECT_PROTOTYPE)
           then Review.Member s else Review.Number 0))
  /\
  (forall threshold : list N,
      In (JsString.toUpperCase threshold) Validation.validSeverities ->
      Review.toPrimitive threshold
        (Js.get Review.SEVERITY_LEVELS threshold)
      = match rankOfName threshold with
        | S n => Review.Number (S n)
        | O => Review.NaN
        end)
  /\
  (forall (s : list N) (n : nat),
      Review.geq (Review.Number 0) (Review.Number (S n)) = false
      /\ Review.geq (Review.Member s) (Review.Number (S n)) = false
      /\ Review.geq (Review.Number 0) Review.NaN = false
      /\ Review.geq (Review.Member s) Review.NaN = false).
Proof.
  split; [ | split; [ | split; [ | split; [ | split ] ] ] ].
  - intros f s Hsev Hs Hfile Hline Htitle.
    assert (Hf : isNull f = false)
      by (destruct f; try reflexivity; discriminate).
    unfold Review.validFinding.
    rewrite !(field_not_null _ _ Hf). simpl.
    rewrite Hsev, Hfile, Hline, Htitle. simpl.
    destruct s; [ contradiction | reflexivity ].
  - intros threshold findings kept f s Hvalid Hrun Hin Hsev.
    destruct (filterC_kept _ _ _ _ Hrun Hin) as [_ Hkeep].
    assert (Hf : isNull f = false)
      by (destruct f; try reflexivity; discriminate).
    rewrite (field_not_null _ _ Hf) in Hsev. inversion Hsev as [Hprop].
    assert (Hkey : hasKeyText f = true)
      by (unfold hasKeyText; rewrite Hprop; reflexivity).
    rewrite (meetsThreshold_rank _ _
               (valid_threshold_not_prototype _ Hvalid) Hf Hkey) in Hkeep.
    unfold severityRank in Hkeep. rewrite Hprop in Hkeep.
    cbn [Json.toString] in Hkeep.
    apply rankOfName_positive.
    destruct (rankOfName threshold) as [|n]; [ discriminate | ].
    assert (Hle : (S n <=? rankOfName s)%nat = true) by congruence.
    apply Nat.leb_le in Hle. lia.
  - intros threshold f s Hvalid Hsev Hs.
    assert (Hf : isNull f = false)
      by (destruct f; try reflexivity; discriminate).
    rewrite (field_not_null _ _ Hf) in Hsev. inversion Hsev as [Hprop].
    assert (Hkey : hasKeyText f = true)
      by (unfold hasKeyText; rewrite Hprop; reflexivity).
    rewrite (meetsThreshold_rank _ _
               (valid_threshold_not_prototype _ Hvalid) Hf Hkey).
    unfold severityRank. rewrite Hprop. cbn [Json.toString].
    assert (Hrank : rankOfName s = 0%nat).
    { destruct (rankOfName s) eqn:E; [ reflexivity | ].
      destruct Hs. apply rankOfName_positive. lia. }
    rewrite Hrank. destruct (rankOfName threshold); reflexivity.
  - intros s Hs. unfold Review.levelAt, Review.keyAt.
    cbn [Json.toString mbind Js.completion_bind].
    rewrite level_operand.
    assert (Hrank : rankOfName s = 0%nat).
    { destruct (rankOfName s) eqn:E; [ reflexivity | ].
      destruct Hs. apply rankOfName_positive. lia. }
    rewrite Hrank. reflexivity.
  - intros threshold Hvalid. rewrite threshold_operand.
    destruct (rankOfName threshold); [ | reflexivity ].
    rewrite (bool_decide_eq_false_2 _
               (valid_threshold_not_prototype _ Hvalid)).
    reflexivity.
  - intros s n. repeat split.
Qed.

Lemma string_severity_outside_enum_is_filtered_witness :
  Review.validFinding (finding (sev "BLOCKER") "a.js" 3 "x") = Js.Normal true
  /\ In (Js.lit "HIGH") severityNames.
Proof.
  pose proof string_severity_outside_enum_is_filtered
    as (Haccept & Hkept & _).
  split.
  - apply (Haccept _ (Js.lit "BLOCKER")); try reflexivity. discriminate.
  - apply (Hkept (Js.lit "LOW")
             [ finding (sev "BLOCKER") "a.js" 3 "x";
               finding (sev "HIGH") "b.js" 4 "y" ]
             [ finding (sev "HIGH") "b.js" 4 "y" ]
             (finding (sev "HIGH") "b.js" 4 "y")).
    + vm_compute. tauto.
    + reflexivity.
    + left. reflexivity.
    + reflexivity.
Defined.

(** ** Parsing the response *)

Lemma fromFirst_app (c : N) (pre rest : list N) :
  ~ In c pre -> Review.fromFirst c (pre ++ c :: rest) = Some (c :: rest).
Proof.
  induction pre as [|d pre IH]; simpl; intros Hpre.
  - rewrite N.eqb_refl. reflexivity.
  - destruct (N.eqb_spec d c) as [-> | _]; [ tauto | ].
    apply IH. tauto.
Qed.

Lemma fromFirst_none (c : N) (s : list N) :
  Review.fromFirst c s = None <-> ~ In c s.
Proof.
  induction s as [|d s IH]; simpl.
  - tauto.
  - destruct (N.eqb_spec d c) as [-> | Hd].
    + split; [ discriminate | tauto ].
    + rewrite IH. tauto.
Qed.

Lemma uptoLast_none (c : N) (s : list N) :
  Review.uptoLast c s = None <-> ~ In c s.
Proof.
  induction s as [|d s IH]; simpl.
  - tauto.
  - destruct (Review.uptoLast c s) as [p|].
    + split; [ discriminate | ].
      intros Hnot. exfalso. apply Hnot. right.
      destruct (in_dec N.eq_dec c s) as [Hin | Hout]; [ exact Hin | ].
      apply IH in Hout. discriminate.
    + destruct (N.eqb_spec d c) as [-> | Hd].
      * split; [ discriminate | tauto ].
      * split; [ | reflexivity ].
        intros _ [Heq | Hin]; [ congruence | ].
        apply (proj1 IH eq_refl Hin).
Qed.

Lemma uptoLast_app (c : N) (body post : list N) :
  ~ In c post ->
  Review.uptoLast c (body ++ c :: post) = Some (body ++ [c]).
Proof.
  intros Hpost. induction body as [|d body IH]; simpl.
  - apply uptoLast_none in Hpost. rewrite Hpost, N.eqb_refl. reflexivity.
  - rewrite IH. reflexivity.
Qed.

(** The match is the span from the first [[] to the last []]. *)
Lemma matchArray_span (pre body post : list N) :
  ~ In (Js.cu "[") pre -> ~ In (Js.cu "]") post ->
  Review.matchArray (pre ++ Js.cu "[" :: body ++ Js.cu "]" :: post)
  = Some (Js.cu "[" :: body ++ [Js.cu "]"]).
Proof.
  intros Hpre Hpost. unfold Review.matchArray.
  rewrite (fromFirst_app _ _ _ Hpre). simpl.
  rewrite (uptoLast_app _ _ _ Hpost). reflexivity.
Qed.

Lemma fromFirst_keeps (c d : N) (pre rest : list N) :
  In d rest ->
  exists s, Review.fromFirst c (pre ++ c :: rest) = Some (c :: s) /\ In d s.
Proof.
  intros Hd. induction pre as [|e pre IH]; simpl.
  - rewrite N.eqb_refl. exists rest. split; [ reflexivity | exact Hd ].
  - destruct (N.eqb_spec e c) as [-> | _]; [ | exact IH ].
    exists (pre ++ c :: rest). split; [ reflexivity | ].
    apply in_or_app. right. right. exact Hd.
Qed.

Lemma fromFirst_some (c : N) (text s : list N) :
  Review.fromFirst c text = Some s ->
  exists pre rest, text = pre ++ c :: rest /\ s = c :: rest.
Proof.
  revert s. induction text as [|d text IH]; simpl; intros s.
  - discriminate.
  - destruct (N.eqb_spec d c) as [-> | _].
    + intros E. inversion E. exists [], text. split; reflexivity.
    + intros E. destruct (IH s E) as (pre & rest & -> & ->).
      exists (d :: pre), rest. split; reflexivity.
Qed.

(** There is no match exactly when no []] follows a [[]. *)
Lemma matchArray_none (text : list N) :
  Review.matchArray text = None <->
  ~ exists pre body post,
      text = pre ++ Js.cu "[" :: body ++ Js.cu "]" :: post.
Proof.
  split.
  - intros Hnone (pre & body & post & ->).
    destruct (fromFirst_keeps (Js.cu "[") (Js.cu "]") pre
                (body ++ Js.cu "]" :: post)) as (s & Hfirst & Hin).
    { apply in_or_app. right. left. reflexivity. }
    unfold Review.matchArray in Hnone. rewrite Hfirst in Hnone.
    cbn [mbind option_bind] in Hnone.
    destruct (Review.uptoLast (Js.cu "]") s) as [p|] eqn:Hlast;
      [ discriminate | ].
    apply uptoLast_none in Hlast. contradiction.
  - intros Hno. unfold Review.matchArray.
    destruct (Review.fromFirst (Js.cu "[") text) as [s|] eqn:Hfirst;
      [ | reflexivity ].
    destruct (fromFirst_some _ _ _ Hfirst) as (pre & rest & -> & ->).
    cbn [mbind option_bind].
    destruct (Review.uptoLast (Js.cu "]") rest) as [p|] eqn:Hlast;
      [ | reflexivity ].
    exfalso. apply Hno.
    assert (Hin : In (Js.cu "]") rest).
    { destruct (in_dec N.eq_dec (Js.cu "]") rest) as [Hin | Hout];
        [ exact Hin | ].
      apply uptoLast_none in Hout. congruence. }
    apply in_split in Hin as (body & post & ->).
    exists pre, body, post. reflexivity.
Qed.

Lemma filterFindings_value (findings : list Json.value) :
  snd (Review.filterFindings findings)
  = Review.filterC Review.validFinding findings.
Proof.
  induction findings as [|f rest IH]; [ reflexivity | ].
  cbn [Review.filterFindings Review.filterC].
  destruct (Review.validFinding f) as [[|]|m];
    cbn [snd mbind Js.completion_bind]; rewrite ?IH; try reflexivity.
  destruct (Review.filterC Review.validFinding rest); reflexivity.
Qed.

(** The value of [parseFindings], without the log. *)
Lemma parseFindings_value (responseText : list N) :
  Review.parseFindings responseText
  = match Review.matchArray responseText with
    | None => []
    | Some json =>
        match Json.parse json with
        | Some (Json.Arr items) =>
            match Review.filterC Review.validFinding items with
            | Js.Normal validFindings => validFindings
            | Js.Throw _ => []
            end
        | _ => []
        end
    end.
Proof.
  unfold Review.parseFindings, Review.parseFindingsLogged,
    Review.parseFindingsTry.
  destruct (Review.matchArray responseText) as [json|]; [ | reflexivity ].
  destruct (Json.parse json) as [v|]; [ | reflexivity ].
  destruct v; try reflexivity.
  cbv zeta. rewrite filterFindings_value.
  destruct (Review.filterC Review.validFinding items); reflexivity.
Qed.

Lemma validFinding_allTruthy (f : Json.value) :
  isNull f = false -> Review.validFinding f = Js.Normal (allTruthy f).
Proof.
  intros Hf. unfold Review.validFinding, allTruthy.
  rewrite !(field_not_null _ _ Hf). cbn [mbind Js.completion_bind].
  destruct (Json.truthyField (propertyOf (Js.lit "severity") f));
    [ | reflexivity ].
  destruct (Json.truthyField (propertyOf (Js.lit "file") f));
    [ | reflexivity ].
  destruct (Json.truthyField (propertyOf (Js.lit "line") f));
    [ | reflexivity ].
  destruct (Json.truthyField (propertyOf (Js.lit "title") f)); reflexivity.
Qed.

Lemma allTruthy_missing (f : Json.value) (k : list N) :
  In k mandatoryFields -> propertyOf k f = None -> allTruthy f = false.
Proof.
  unfold mandatoryFields, allTruthy. simpl.
  intros [<- | [<- | [<- | [<- | []]]]] Hk; rewrite Hk; simpl;
    rewrite ?andb_false_r; reflexivity.
Qed.

(** On elements that are not [null] the filter never throws: it keeps the
    elements whose four fields are truthy and reports each of the others. *)
Lemma filterFindings_not_null (items : list Json.value) :
  Forall (fun f => isNull f = false) items ->
  Review.filterFindings items
  = (List.map Review.SkippingInvalid
       (List.filter (fun f => negb (allTruthy f)) items),
     Js.Normal (List.filter allTruthy items)).
Proof.
  induction 1 as [|f rest Hf _ IH]; [ reflexivity | ].
  cbn [Review.filterFindings List.filter].
  rewrite (validFinding_allTruthy f Hf), IH.
  destruct (allTruthy f); reflexivity.
Qed.

(** Up to the first [null] the filter reports the elements it drops; at
    the [null] it throws. *)
Lemma filterFindings_null (before after : list Json.value) :
  Forall (fun f => isNull f = false) before ->
  Review.filterFindings (before ++ Json.Null :: after)
  = (List.map Review.SkippingInvalid
       (List.filter (fun f => negb (allTruthy f)) before),
     Js.Throw
       (Js.lit "Cannot read properties of null (reading 'severity')")).
Proof.
  induction 1 as [|f rest Hf _ IH]; [ reflexivity | ].
  cbn [app Review.filterFindings List.filter].
  rewrite (validFinding_allTruthy f Hf), IH.
  destruct (allTruthy f); reflexivity.
Qed.

(** The elements before the first [null] of a list that holds one. *)
Lemma first_null (items : list Json.value) :
  In Json.Null items ->
  exists before after,
    items = before ++ Json.Null :: after
    /\ Forall (fun f => isNull f = false) before.
Proof.
  induction items as [|f rest IH]; intros Hin; [ destruct Hin | ].
  destruct (isNull f) eqn:Hf.
  - destruct f; try discriminate. exists [], rest. split; constructor.
  - destruct Hin as [->|Hin]; [ discriminate | ].
    destruct (IH Hin) as (before & after & -> & Hbefore).
    exists (f :: before), after. split; [ reflexivity | ].
    constructor; assumption.
Qed.

Lemma allTruthy_fields (f : Json.value) :
  allTruthy f = true
  <-> forall k, In k mandatoryFields ->
        exists v, propertyOf k f = Some v /\ Json.truthy v = true.
Proof.
  unfold allTruthy, mandatoryFields. split.
  - intros Hall k Hk.
    rewrite !andb_true_iff in Hall.
    destruct Hall as [[[Hs Hfile] Hline] Htitle].
    simpl in Hk.
    destruct Hk as [<- | [<- | [<- | [<- | []]]]];
      match goal with
      | Hk : Json.truthyField (propertyOf ?k f) = true
        |- exists v, propertyOf ?k f = Some v /\ _ =>
          destruct (propertyOf k f) as [v|];
            [ exists v; split; [ reflexivity | exact Hk ] | discriminate ]
      end.
  - intros Hall. rewrite !andb_true_iff.
    repeat split;
      match goal with
      | |- Json.truthyField (propertyOf ?k f) = true =>
          destruct (Hall k) as (v & -> & Hv); [ simpl; tauto | exact Hv ]
      end.
Qed.







(** C10 (as stated) fails: a finding whose severity is the array holding
    the string HIGH passes validation and passes the filter at threshold
    HIGH, because the array is turned into the key HIGH; its severity is
    none of the four strings, and no severity count includes it. *)
Lemma array_severity_reaches_counting :
  let f := finding (Json.Arr [sev "HIGH"]) "a.js" 1 "t" in
  Review.parseFindings arraySeverityArray = [f]
  /\ Review.filterBySeverity (Js.lit "HIGH") [f] = Js.Normal [f]
  /\ propertyOf (Js.lit "severity") f = Some (Json.Arr [sev "HIGH"])
  /\ Review.countBySeverity [f]
     = Js.Normal {| Review.CRITICAL := 0; Review.HIGH := 0;
                    Review.MEDIUM := 0; Review.LOW := 0 |}.
Proof. cbv zeta. repeat split; vm_compute; reflexivity. Qed.

(** ** The run *)

Section RunProperties.
Context {num : Type} `{JsNum num}.

Lemma outputsOf_app (l1 l2 : list (Review.action num)) :
  Review.outputsOf (l1 ++ l2) = Review.outputsOf l1 ++ Review.outputsOf l2.
Proof. unfold Review.outputsOf. apply flat_map_app. Qed.

Lemma appendsOf_app (l1 l2 : list (Review.action num)) :
  Review.appendsOf (l1 ++ l2) = Review.appendsOf l1 ++ Review.appendsOf l2.
Proof. unfold Review.appendsOf. apply flat_map_app. Qed.

Lemma andThen_quiet_normal {A B : Type} (a : A)
    (k : A -> Review.traced num B) :
  Review.andThen (Review.quiet (Js.Normal a)) k = k a.
Proof. unfold Review.andThen. simpl. destruct (k a); reflexivity. Qed.

Lemma silent_quiet {A : Type} (c : Js.completion A) :
  silent (Review.quiet (num := num) c).
Proof. split; reflexivity. Qed.

Lemma silent_andThen {A B : Type} (t : Review.traced num A)
    (k : A -> Review.traced num B) :
  silent t -> (forall a, silent (k a)) -> silent (Review.andThen t k).
Proof.
  unfold silent, Review.andThen. intros [Ho Ha] Hk.
  destruct (Review.outcome t) as [a|m]; simpl; [ | split; assumption ].
  destruct (Hk a) as [Hko Hka].
  rewrite outputsOf_app, appendsOf_app, Ho, Ha, Hko, Hka.
  split; reflexivity.
Qed.

Lemma silent_callLLM (w : Review.World num) (p : ProviderFactory.provider) :
  silent (Review.callLLM w p).
Proof.
  unfold silent, Review.callLLM. simpl.
  induction (fst (ProviderFactory.review p _ (Review.api w)))
    as [|e l IH]; simpl; [ split; reflexivity | ].
  destruct e; exact IH.
Qed.

(** The steps of the [try] block before its call of [setOutputs]. *)
Lemma failsSilently_throw {A B : Type} (t : Review.traced num A)
    (k : A -> Review.traced num B) :
  silent t -> returns (Review.outcome t) = false ->
  failsSilently (Review.andThen t k).
Proof.
  unfold failsSilently, Review.andThen. intros Ht Hthrow.
  destruct (Review.outcome t) as [a|m]; [ discriminate | ].
  split; [ exact Ht | reflexivity ].
Qed.

Lemma failsSilently_andThen {A B : Type} (t : Review.traced num A)
    (k : A -> Review.traced num B) (a : A) :
  silent t -> Review.outcome t = Js.Normal a ->
  failsSilently (k a) -> failsSilently (Review.andThen t k).
Proof.
  unfold failsSilently, silent, Review.andThen.
  intros [Ho Ha] -> [[Hko Hka] Hthrow]. simpl.
  rewrite outputsOf_app, appendsOf_app, Ho, Ha, Hko, Hka.
  repeat split. exact Hthrow.
Qed.

Lemma reaches_setOutputs (w : Review.World num)
    (r : list (list N * Review.outValue num)) :
  reaches w (Review.setOutputs w r) r.
Proof. exists []. repeat split. Qed.

Lemma reaches_andThen {A : Type} (w : Review.World num)
    (t : Review.traced num A) (k : A -> Review.traced num unit) (a : A)
    (r : list (list N * Review.outValue num)) :
  silent t -> Review.outcome t = Js.Normal a ->
  reaches w (k a) r -> reaches w (Review.andThen t k) r.
Proof.
  unfold reaches, silent, Review.andThen.
  intros [Ho Ha] -> (before & Hbo & Hba & Hlog & Hout). simpl.
  exists (Review.log t ++ before).
  rewrite outputsOf_app, appendsOf_app, Ho, Ha, Hbo, Hba, Hlog, app_assoc.
  repeat split. exact Hout.
Qed.

(** A step of the [try] block that throws ends it. *)
Ltac run_throws :=
  eapply failsSilently_throw;
    [ first [ apply silent_quiet | apply silent_callLLM
            | split; reflexivity ]
    | first [ reflexivity | rewrite_outcome ] ]
with rewrite_outcome :=
  match goal with
  | E : Review.outcome _ = Js.Throw _ |- _ => rewrite E; reflexivity
  end.

(** The no-files outcome reaches [setOutputs] with the four-key record. *)
Lemma noFiles_reaches (w : Review.World num) (c : Review.CONFIG.t) :
  noFilesOutcome w ->
  reaches w (Review.mainTry w c) Review.noFilesOutputs.
Proof.
  intros (Hvalid & Hchdir & diff & changedFiles & Hchanges & Hfiles).
  unfold Review.mainTry.
  rewrite Hvalid, andThen_quiet_normal, Hchdir, andThen_quiet_normal,
    Hchanges, andThen_quiet_normal.
  cbn [snd]. rewrite Hfiles. cbn [List.length Nat.eqb].
  eapply reaches_andThen;
    [ split; reflexivity | reflexivity | apply reaches_setOutputs ].
Qed.

(** A successful review reaches [setOutputs] with the five-key record. *)
Lemma reviewed_reaches (w : Review.World num) (c : Review.CONFIG.t)
    (findings : list Json.value) (counts : Review.Counts)
    (costEstimate : option num) :
  reviewed w c findings counts costEstimate ->
  reaches w (Review.mainTry w c)
    (Review.successOutputs findings counts costEstimate).
Proof.
  intros (diff & changedFiles & guidelines & llmProvider & response
          & Hvalid & Hchdir & Hchanges & Hfiles & Hguide & Hcreate & Hcall
          & Hfilter & Hcount & -> & Hpost).
  unfold Review.mainTry.
  rewrite Hvalid, andThen_quiet_normal, Hchdir, andThen_quiet_normal,
    Hchanges, andThen_quiet_normal.
  cbn [snd].
  destruct (Review.filterFiles changedFiles) as [|file files] eqn:Hlist;
    [ contradiction | ].
  cbn [List.length Nat.eqb].
  rewrite Hguide, andThen_quiet_normal, Hcreate.
  eapply reaches_andThen; [ split; reflexivity | reflexivity | ].
  eapply reaches_andThen; [ apply silent_callLLM | exact Hcall | ].
  rewrite Hfilter, andThen_quiet_normal, Hcount, andThen_quiet_normal.
  destruct (Review.CONFIG.dryRun c).
  - rewrite Hpost.
    eapply reaches_andThen;
      [ split; reflexivity | reflexivity | apply reaches_setOutputs ].
  - destruct Hpost as [Hcomments Hsummary]. rewrite Hsummary.
    destruct (0 <? List.length findings)%nat.
    + rewrite (Hcomments eq_refl).
      eapply reaches_andThen;
        [ split; reflexivity | reflexivity | apply reaches_setOutputs ].
    + eapply reaches_andThen;
        [ split; reflexivity | reflexivity | apply reaches_setOutputs ].
Qed.

(** Every other run throws before it reaches [setOutputs]. *)
Lemma neither_fails (w : Review.World num) (c : Review.CONFIG.t) :
  ~ noFilesOutcome w ->
  (forall findings counts costEstimate,
      ~ reviewed w c findings counts costEstimate) ->
  failsSilently (Review.mainTry w c).
Proof.
  intros HnoFiles Hreviewed. unfold Review.mainTry.
  destruct (Review.validateConfig w) as [[]|m] eqn:Hvalid;
    [ rewrite andThen_quiet_normal | run_throws ].
  destruct (Review.chdir w) as [[]|m] eqn:Hchdir;
    [ rewrite andThen_quiet_normal | run_throws ].
  destruct (Review.getPRChanges w) as [[diff changedFiles]|m] eqn:Hchanges;
    [ rewrite andThen_quiet_normal | run_throws ].
  cbn [snd].
  destruct (Review.filterFiles changedFiles) as [|file files] eqn:Hfiles.
  { destruct HnoFiles. repeat split; try assumption.
    exists diff, changedFiles. split; assumption. }
  cbn [List.length Nat.eqb].
  destruct (Review.readGuidelines w) as [guidelines|m] eqn:Hguide;
    [ rewrite andThen_quiet_normal | run_throws ].
  destruct (ProviderFactory.createProvider _ _ _ _) as [llmProvider|m]
    eqn:Hcreate; [ | run_throws ].
  eapply failsSilently_andThen; [ split; reflexivity | reflexivity | ].
  destruct (Review.outcome (Review.callLLM w llmProvider))
    as [response|m] eqn:Hcall; [ | run_throws ].
  eapply failsSilently_andThen; [ apply silent_callLLM | exact Hcall | ].
  destruct (Review.filterBySeverity _ _) as [findings|m] eqn:Hfilter;
    [ rewrite andThen_quiet_normal | run_throws ].
  destruct (Review.countBySeverity findings) as [counts|m] eqn:Hcount;
    [ rewrite andThen_quiet_normal | run_throws ].
  assert (Hdone : (if Review.CONFIG.dryRun c
                   then Review.printFindings w = Js.Normal tt
                   else ((0 <? List.length findings)%nat = true ->
                         Review.postReviewComments w = Js.Normal tt)
                        /\ Review.postSummaryComment w = Js.Normal tt) ->
                  False).
  { intros Hpost.
    apply (Hreviewed findings counts
             (Review.calculateCost (usage response) (model response))).
    exists diff, changedFiles, guidelines, llmProvider, response.
    rewrite Hfiles. repeat split; try assumption. discriminate. }
  destruct (Review.CONFIG.dryRun c).
  - destruct (Review.printFindings w) as [[]|m];
      [ destruct (Hdone eq_refl) | run_throws ].
  - destruct (0 <? List.length findings)%nat.
    + destruct (Review.postReviewComments w) as [[]|m];
        [ | run_throws ].
      destruct (Review.postSummaryComment w) as [[]|m];
        [ destruct Hdone; split; reflexivity | run_throws ].
    + destruct (Review.postSummaryComment w) as [[]|m];
        [ destruct Hdone; split; [ discriminate | reflexivity ]
        | run_throws ].
Qed.

(** Every run is of one of three kinds. *)
Lemma run_outcomes (w : Review.World num) (c : Review.CONFIG.t) :
  noFilesOutcome w
  \/ (exists findings counts costEstimate,
        reviewed w c findings counts costEstimate)
  \/ (~ noFilesOutcome w
      /\ forall findings counts costEstimate,
           ~ reviewed w c findings counts costEstimate).
Proof.
  destruct (Review.validateConfig w) as [[]|m] eqn:Hvalid.
  2: { right. right. split.
       - intros (E & _). congruence.
       - intros f cs cost (d & fs & g & p & r & E & _). congruence. }
  destruct (Review.chdir w) as [[]|m] eqn:Hchdir.
  2: { right. right. split.
       - intros (_ & E & _). congruence.
       - intros f cs cost (d & fs & g & p & r & _ & E & _). congruence. }
  destruct (Review.getPRChanges w) as [[diff changedFiles]|m] eqn:Hchanges.
  2: { right. right. split.
       - intros (_ & _ & d & fs & E & _). congruence.
       - intros f cs cost (d & fs & g & p & r & _ & _ & E & _).
         congruence. }
  destruct (Review.filterFiles changedFiles) as [|file files] eqn:Hfiles.
  { left. split; [ exact Hvalid | ]. split; [ exact Hchdir | ].
    exists diff, changedFiles. split; assumption. }
  right.
  assert (Hsome : ~ noFilesOutcome w).
  { intros (_ & _ & d & fs & E & F). rewrite Hchanges in E.
    injection E as <- <-. rewrite Hfiles in F. discriminate. }
  destruct (Review.readGuidelines w) as [guidelines|m] eqn:Hguide.
  2: { right. split; [ exact Hsome | ].
       intros f cs cost (d & fs & g & p & r & _ & _ & _ & _ & E & _).
       congruence. }
  destruct (ProviderFactory.createProvider
              (Review.CONFIG.provider c) (Review.CONFIG.apiKey c)
              (Review.CONFIG.model c)
              {| ProviderFactory.projectId := Review.CONFIG.googleProjectId c;
                 ProviderFactory.location :=
                   Some (Review.CONFIG.googleLocation c) |})
    as [llmProvider|m] eqn:Hcreate.
  2: { right. split; [ exact Hsome | ].
       intros f cs cost (d & fs & g & p & r & _ & _ & _ & _ & _ & E & _).
       rewrite Hcreate in E. discriminate. }
  destruct (Review.outcome (Review.callLLM w llmProvider))
    as [response|m] eqn:Hcall.
  2: { right. split; [ exact Hsome | ].
       intros f cs cost
         (d & fs & g & p & r & _ & _ & _ & _ & _ & E & F & _).
       rewrite Hcreate in E. injection E as <-. rewrite Hcall in F.
       discriminate. }
  destruct (Review.filterBySeverity (Review.CONFIG.severityThreshold c)
              (Review.parseFindings (text response)))
    as [findings|m] eqn:Hfilter.
  2: { right. split; [ exact Hsome | ].
       intros f cs cost
         (d & fs & g & p & r & _ & _ & _ & _ & _ & E & F & G & _).
       rewrite Hcreate in E. injection E as <-. rewrite Hcall in F.
       injection F as <-. rewrite Hfilter in G. discriminate. }
  destruct (Review.countBySeverity findings) as [counts|m] eqn:Hcount.
  2: { right. split; [ exact Hsome | ].
       intros f cs cost
         (d & fs & g & p & r & _ & _ & _ & _ & _ & E & F & G & K & _).
       rewrite Hcreate in E. injection E as <-. rewrite Hcall in F.
       injection F as <-. rewrite Hfilter in G. injection G as <-.
       rewrite Hcount in K. discriminate. }
  assert (Hposted :
            forall f cs cost, reviewed w c f cs cost ->
              if Review.CONFIG.dryRun c
              then Review.printFindings w = Js.Normal tt
              else ((0 <? List.length findings)%nat = true ->
                    Review.postReviewComments w = Js.Normal tt)
                   /\ Review.postSummaryComment w = Js.Normal tt).
  { intros f cs cost
      (d & fs & g & p & r & _ & _ & _ & _ & _ & E & F & G & _ & _ & K).
    rewrite Hcreate in E. injection E as <-. rewrite Hcall in F.
    injection F as <-. rewrite Hfilter in G. injection G as <-. exact K. }
  assert (Hreviewed :
            (if Review.CONFIG.dryRun c
             then Review.printFindings w = Js.Normal tt
             else ((0 <? List.length findings)%nat = true ->
                   Review.postReviewComments w = Js.Normal tt)
                  /\ Review.postSummaryComment w = Js.Normal tt) ->
            exists findings counts costEstimate,
              reviewed w c findings counts costEstimate).
  { intros Hpost.
    exists findings, counts,
      (Review.calculateCost (usage response) (model response)).
    exists diff, changedFiles, guidelines, llmProvider, response.
    rewrite Hfiles. repeat split; try assumption. discriminate. }
  destruct (Review.CONFIG.dryRun c) eqn:Hdry.
  - destruct (Review.printFindings w) as [[]|m] eqn:Hprint.
    + left. apply Hreviewed. reflexivity.
    + right. split; [ exact Hsome | ].
      intros f cs cost Hrun. pose proof (Hposted f cs cost Hrun).
      congruence.
  - destruct (Review.postSummaryComment w) as [[]|m] eqn:Hsummary.
    2: { right. split; [ exact Hsome | ].
         intros f cs cost Hrun.
         destruct (Hposted f cs cost Hrun) as [_ E]. congruence. }
    destruct (0 <? List.length findings)%nat eqn:Hany.
    + destruct (Review.postReviewComments w) as [[]|m] eqn:Hcomments.
      * left. apply Hreviewed. split; reflexivity.
      * right. split; [ exact Hsome | ].
        intros f cs cost Hrun.
        destruct (Hposted f cs cost Hrun) as [E _].
        specialize (E eq_refl). congruence.
    + left. apply Hreviewed. split; [ discriminate | reflexivity ].
Qed.

(** The [try] block reaches [setOutputs] with a record of a run that did
    not fail, or it throws before. *)
Lemma mainTry_reaches_or_fails (w : Review.World num) (c : Review.CONFIG.t) :
  (exists r, completedRecord r /\ reaches w (Review.mainTry w c) r)
  \/ failsSilently (Review.mainTry w c).
Proof.
  destruct (run_outcomes w c)
    as [Hrun|[(findings & counts & cost & Hrun)|[HnoFiles Hreviewed]]].
  - left. exists Review.noFilesOutputs. split; [ left; reflexivity | ].
    apply noFiles_reaches, Hrun.
  - left. eexists. split; [ | apply reviewed_reaches, Hrun ].
    right. eexists. eexists. eexists. reflexivity.
  - right. apply neither_fails; assumption.
Qed.

(** The records of [main] when the [try] block reached [setOutputs]. *)
Lemma main_after_reaching (w : Review.World num) (c : Review.CONFIG.t)
    (r : list (list N * Review.outValue num)) :
  reaches w (Review.mainTry w c) r ->
  Review.outputsOf (Review.main w c) = r :: retried w r
  /\ Review.appendsOf (Review.main w c)
     = match Js.whenTruthy (Review.GITHUB_OUTPUT w) with
       | Some outputFile =>
           List.map (fun record => (outputFile, record)) (r :: retried w r)
       | None => []
       end.
Proof.
  intros (before & Hbo & Hba & Hlog & Hout).
  unfold Review.main. cbv zeta. rewrite Hout, Hlog.
  unfold retried, Review.setOutputs.
  destruct (Js.whenTruthy (Review.GITHUB_OUTPUT w)) as [outputFile|].
  - cbn [Review.outcome Review.log].
    destruct (Review.appendFileSync w outputFile r) as [u|m].
    + rewrite outputsOf_app, appendsOf_app, Hbo, Hba.
      split; reflexivity.
    + destruct (Review.appendFileSync w outputFile Review.errorOutputs);
        rewrite !outputsOf_app, !appendsOf_app, Hbo, Hba;
        cbn [Review.outcome Review.log Review.perform];
        destruct (Review.CONFIG.failOnErrors c); split; reflexivity.
  - cbn [Review.outcome Review.log Review.perform].
    rewrite outputsOf_app, appendsOf_app, Hbo, Hba. split; reflexivity.
Qed.

(** The records of [main] when the [try] block threw before. *)
Lemma main_after_failing (w : Review.World num) (c : Review.CONFIG.t) :
  failsSilently (Review.mainTry w c) ->
  Review.outputsOf (Review.main w c) = [Review.errorOutputs]
  /\ Review.appendsOf (Review.main w c)
     = match Js.whenTruthy (Review.GITHUB_OUTPUT w) with
       | Some outputFile => [(outputFile, Review.errorOutputs)]
       | None => []
       end.
Proof.
  intros [[Ho Ha] Hthrow]. unfold Review.main. cbv zeta.
  destruct (Review.outcome (Review.mainTry w c)) as [u|m];
    [ discriminate | ].
  unfold Review.setOutputs.
  destruct (Js.whenTruthy (Review.GITHUB_OUTPUT w)) as [outputFile|].
  - cbn [Review.outcome Review.log].
    destruct (Review.appendFileSync w outputFile Review.errorOutputs);
      rewrite !outputsOf_app, !appendsOf_app, Ho, Ha;
      destruct (Review.CONFIG.failOnErrors c); split; reflexivity.
  - cbn [Review.outcome Review.log Review.perform].
    rewrite !outputsOf_app, !appendsOf_app, Ho, Ha.
    destruct (Review.CONFIG.failOnErrors c); split; reflexivity.
Qed.

(** C2 (as amended).  Every run hands a record to [setOutputs], and every
    record handed over carries the completion flag.  A run is of one of
    three kinds.  The no-files outcome
    hands over [completed=true] with the three counts at zero and no cost
    estimate; a successful review hands over all five keys; every other
    run hands over [completed=false] alone.  That record is the only one,
    unless the append of a [completed=true] record to the output file
    throws: the [catch] block then hands over [completed=false] as a second
    record.  For each record handed over, [fs.appendFileSync] is called
    with the file that [GITHUB_OUTPUT] names, and it is not called without
    that file. *)
Theorem main_sets_outputs_once (w : Review.World num) (c : Review.CONFIG.t) :
  (noFilesOutcome w ->
   Review.outputsOf (Review.main w c)
   = Review.noFilesOutputs :: retried w Review.noFilesOutputs)
  /\ (forall findings counts costEstimate,
        reviewed w c findings counts costEstimate ->
        Review.outputsOf (Review.main w c)
        = Review.successOutputs findings counts costEstimate
            :: retried w (Review.successOutputs findings counts costEstimate))
  /\ (~ noFilesOutcome w ->
      (forall findings counts costEstimate,
          ~ reviewed w c findings counts costEstimate) ->
      Review.outputsOf (Review.main w c) = [Review.errorOutputs])
  /\ (noFilesOutcome w
      \/ (exists findings counts costEstimate,
            reviewed w c findings counts costEstimate)
      \/ (~ noFilesOutcome w
          /\ forall findings counts costEstimate,
               ~ reviewed w c findings counts costEstimate))
  /\ (forall r, In r (Review.outputsOf (Review.main w c)) ->
        exists completed,
          Review.valueOf (Js.lit "completed") r
          = Some (Review.OBool completed))
  /\ Review.valueOf (Js.lit "completed") (Review.errorOutputs (num := num))
     = Some (Review.OBool false)
  /\ Review.valueOf (Js.lit "completed") (Review.noFilesOutputs (num := num))
     = Some (Review.OBool true)
  /\ List.map fst (Review.errorOutputs (num := num))
     = [Js.lit "completed"]
  /\ List.map fst (Review.noFilesOutputs (num := num))
     = [Js.lit "completed"; Js.lit "findings_count";
        Js.lit "critical_count"; Js.lit "high_count"]
  /\ (forall findings counts cost,
        List.map fst (Review.successOutputs (num := num) findings counts cost)
        = [Js.lit "completed"; Js.lit "findings_count";
           Js.lit "critical_count"; Js.lit "high_count";
           Js.lit "cost_estimate"]
        /\ Review.valueOf (Js.lit "completed")
             (Review.successOutputs (num := num) findings counts cost)
           = Some (Review.OBool true))
  /\ Review.appendsOf (Review.main w c)
     = match Js.whenTruthy (Review.GITHUB_OUTPUT w) with
       | Some outputFile =>
           List.map (fun r => (outputFile, r))
             (Review.outputsOf (Review.main w c))
       | None => []
       end.
Proof.
  split; [ | split; [ | split; [ | split; [ | split ] ] ] ].
  - intros Hrun. apply main_after_reaching, noFiles_reaches, Hrun.
  - intros findings counts costEstimate Hrun.
    apply main_after_reaching, reviewed_reaches, Hrun.
  - intros HnoFiles Hreviewed.
    apply main_after_failing, neither_fails; assumption.
  - apply run_outcomes.
  - intros r Hin.
    destruct (mainTry_reaches_or_fails w c) as [(r0 & Hshape & Hrun)|Hrun].
    + destruct (main_after_reaching w c r0 Hrun) as [Hout _].
      rewrite Hout in Hin. destruct Hin as [<-|Hin].
      * destruct Hshape as [-> | (fs & cs & cost & ->)];
          exists true; reflexivity.
      * unfold retried in Hin.
        destruct (Js.whenTruthy (Review.GITHUB_OUTPUT w)) as [outputFile|];
          [ | destruct Hin ].
        destruct (Review.appendFileSync w outputFile r0);
          [ destruct Hin | ].
        destruct Hin as [<-|[]]. exists false. reflexivity.
    + destruct (main_after_failing w c Hrun) as [Hout _].
      rewrite Hout in Hin. destruct Hin as [<-|[]].
      exists false. reflexivity.
  - repeat split.
    destruct (mainTry_reaches_or_fails w c) as [(r0 & Hshape & Hrun)|Hrun].
    + destruct (main_after_reaching w c r0 Hrun) as [Hout Happ].
      rewrite Happ, Hout. reflexivity.
    + destruct (main_after_failing w c Hrun) as [Hout Happ].
      rewrite Happ, Hout. reflexivity.
Qed.

(** C9 (as amended).  When validation and the fetch succeed and no changed
    file is reviewable, the run posts the no-files comment and calls
    [setOutputs] with [completed=true] and [findings_count] 0; no provider
    is constructed or called.  With [GITHUB_OUTPUT] naming a file and the
    append returning, that record is appended and the run does nothing
    else; without [GITHUB_OUTPUT] nothing is appended; when the append
    throws, the run goes on as a failed run. *)
Theorem no_reviewable_files_short_circuits
    (w : Review.World num) (c : Review.CONFIG.t)
    (diff : list N) (changedFiles : list (list N)) :
  Review.validateConfig w = Js.Normal tt ->
  Review.chdir w = Js.Normal tt ->
  Review.getPRChanges w = Js.Normal (diff, changedFiles) ->
  Review.filterFiles changedFiles = [] ->
  List.existsb Review.touchesProvider (Review.main w c) = false
  /\ (exists rest,
        Review.main w c
        = Review.PostNoFilesComment
            :: Review.SetOutputs Review.noFilesOutputs :: rest)
  /\ (forall outputFile,
        Js.whenTruthy (Review.GITHUB_OUTPUT w) = Some outputFile ->
        Review.appendFileSync w outputFile Review.noFilesOutputs
        = Js.Normal tt ->
        Review.main w c
        = [Review.PostNoFilesComment;
           Review.SetOutputs Review.noFilesOutputs;
           Review.AppendFile outputFile Review.noFilesOutputs])
  /\ (Js.whenTruthy (Review.GITHUB_OUTPUT w) = None ->
      Review.main w c
      = [Review.PostNoFilesComment; Review.SetOutputs Review.noFilesOutputs])
  /\ (forall outputFile message,
        Js.whenTruthy (Review.GITHUB_OUTPUT w) = Some outputFile ->
        Review.appendFileSync w outputFile Review.noFilesOutputs
        = Js.Throw message ->
        Review.main w c
        = [Review.PostNoFilesComment;
           Review.SetOutputs Review.noFilesOutputs;
           Review.AppendFile outputFile Review.noFilesOutputs;
           Review.PostErrorComment;
           Review.SetOutputs Review.errorOutputs;
           Review.AppendFile outputFile Review.errorOutputs]
          ++ match Review.appendFileSync w outputFile Review.errorOutputs with
             | Js.Normal _ =>
                 if Review.CONFIG.failOnErrors c
                 then [Review.Exit 1%nat] else []
             | Js.Throw _ => []
             end)
  /\ Review.valueOf (Js.lit "completed") (Review.noFilesOutputs (num := num))
     = Some (Review.OBool true)
  /\ Review.valueOf (Js.lit "findings_count")
       (Review.noFilesOutputs (num := num))
     = Some (Review.OCount 0)
  /\ Review.valueOf (Js.lit "critical_count")
       (Review.noFilesOutputs (num := num))
     = Some (Review.OCount 0)
  /\ Review.valueOf (Js.lit "high_count")
       (Review.noFilesOutputs (num := num))
     = Some (Review.OCount 0).
Proof.
  intros Hvalid Hchdir Hchanges Hfiles.
  assert (Htry : Review.mainTry w c
                 = {| Review.log :=
                        Review.PostNoFilesComment
                          :: Review.log
                               (Review.setOutputs w Review.noFilesOutputs);
                      Review.outcome :=
                        Review.outcome
                          (Review.setOutputs w Review.noFilesOutputs) |}).
  { unfold Review.mainTry.
    rewrite Hvalid, andThen_quiet_normal, Hchdir, andThen_quiet_normal,
      Hchanges, andThen_quiet_normal.
    cbn [snd]. rewrite Hfiles. reflexivity. }
  unfold Review.main. cbv zeta. rewrite Htry.
  cbn [Review.log Review.outcome]. unfold Review.setOutputs.
  destruct (Js.whenTruthy (Review.GITHUB_OUTPUT w)) as [file|].
  - cbn [Review.log Review.outcome].
    destruct (Review.appendFileSync w file Review.noFilesOutputs)
      as [[]|m] eqn:Hfirst.
    + split; [ reflexivity | ]. split; [ eexists; reflexivity | ].
      split; [ intros f E _; injection E as <-; reflexivity | ].
      split; [ discriminate | ].
      split; [ intros f m E Hthrow; injection E as <-; congruence | ].
      repeat split.
    + split.
      { destruct (Review.appendFileSync w file Review.errorOutputs);
          destruct (Review.CONFIG.failOnErrors c); reflexivity. }
      split; [ eexists; reflexivity | ].
      split; [ intros f E Hok; injection E as <-; congruence | ].
      split; [ discriminate | ].
      split; [ intros f m' E _; injection E as <-; reflexivity | ].
      repeat split.
  - cbn [Review.log Review.outcome Review.perform].
    split; [ reflexivity | ]. split; [ eexists; reflexivity | ].
    split; [ discriminate | ].
    split; [ reflexivity | ].
    split; [ discriminate | ].
    repeat split.
Qed.

End RunProperties.

Lemma main_sets_outputs_once_witness :
  let changed := [Js.lit "src/a.js"] in
  Review.outputsOf (Review.main (worldWith lockfilesOnly) exampleConfig)
  = [Review.noFilesOutputs]
  /\ Review.outputsOf
       (Review.main (refusingCompleted (worldWith lockfilesOnly))
          exampleConfig)
     = [Review.noFilesOutputs; Review.errorOutputs]
  /\ Review.outputsOf (Review.main (answeringWorld changed) exampleConfig)
     = [Review.successOutputs [scenarioFinding]
          {| Review.CRITICAL := 0; Review.HIGH := 1;
             Review.MEDIUM := 0; Review.LOW := 0 |}
          (Review.calculateCost usageWithoutCache SONNET)]
  /\ Review.outputsOf (Review.main (worldWith changed) exampleConfig)
     = [Review.errorOutputs].
Proof.
  cbv zeta.
  assert (HnoFiles : forall w, w = worldWith lockfilesOnly
                               \/ w = refusingCompleted
                                        (worldWith lockfilesOnly) ->
                               noFilesOutcome w).
  { intros w [->| ->]; repeat split;
      exists (Js.lit "diff"), lockfilesOnly; split; reflexivity. }
  split; [ | split; [ | split ] ].
  - exact (proj1 (main_sets_outputs_once (worldWith lockfilesOnly)
                    exampleConfig)
             (HnoFiles _ (or_introl eq_refl))).
  - exact (proj1 (main_sets_outputs_once
                    (refusingCompleted (worldWith lockfilesOnly))
                    exampleConfig)
             (HnoFiles _ (or_intror eq_refl))).
  - refine (proj1 (proj2 (main_sets_outputs_once
                            (answeringWorld [Js.lit "src/a.js"])
                            exampleConfig))
              _ _ _ _).
    exists (Js.lit "diff"), [Js.lit "src/a.js"], [],
      (ProviderFactory.Anthropic (Js.lit "test-key-0123456789") SONNET),
      scenarioResponse.
    repeat split; try reflexivity; try (vm_compute; reflexivity);
      vm_compute; discriminate.
  - refine (proj1 (proj2 (proj2 (main_sets_outputs_once
                                   (worldWith [Js.lit "src/a.js"])
                                   exampleConfig)))
              _ _).
    + intros (_ & _ & d & fs & E & F). injection E as <- <-.
      vm_compute in F. discriminate.
    + intros findings counts cost
        (d & fs & g & p & r & _ & _ & _ & _ & _ & E & F & _).
      vm_compute in E. injection E as <-. vm_compute in F. discriminate.
Defined.

Lemma no_reviewable_files_short_circuits_witness :
  Review.main (worldWith lockfilesOnly) exampleConfig
  = [Review.PostNoFilesComment; Review.SetOutputs Review.noFilesOutputs;
     Review.AppendFile outputPath Review.noFilesOutputs]
  /\ Review.main (withoutOutputFile (worldWith lockfilesOnly)) exampleConfig
     = [Review.PostNoFilesComment; Review.SetOutputs Review.noFilesOutputs]
  /\ Review.main (refusingCompleted (worldWith lockfilesOnly)) exampleConfig
     = [Review.PostNoFilesComment; Review.SetOutputs Review.noFilesOutputs;
        Review.AppendFile outputPath Review.noFilesOutputs;
        Review.PostErrorComment; Review.SetOutputs Review.errorOutputs;
        Review.AppendFile outputPath Review.errorOutputs].
Proof.
  split; [ | split ].
  - refine (proj1 (proj2 (proj2 (no_reviewable_files_short_circuits
                                   (worldWith lockfilesOnly) exampleConfig
                                   (Js.lit "diff") lockfilesOnly _ _ _ _)))
              outputPath _ _);
      reflexivity.
  - refine (proj1 (proj2 (proj2 (proj2
              (no_reviewable_files_short_circuits
                 (withoutOutputFile (worldWith lockfilesOnly)) exampleConfig
                 (Js.lit "diff") lockfilesOnly _ _ _ _))))
              _);
      reflexivity.
  - refine (proj1 (proj2 (proj2 (proj2 (proj2
              (no_reviewable_files_short_circuits
                 (refusingCompleted (worldWith lockfilesOnly)) exampleConfig
                 (Js.lit "diff") lockfilesOnly _ _ _ _)))))
              outputPath
              (Js.lit "ENOSPC: no space left on device, write") _ _);
      reflexivity.
Defined.

(** C2 (as stated) fails: a run whose vendor calls all fail hands over
    [completed=false] and nothing else, and the no-files run hands over no
    cost estimate. *)
Lemma failed_run_reports_only_completed :
  let failed := Review.main (worldWith [Js.lit "src/a.js"]) exampleConfig in
  let noFiles := Review.main (worldWith lockfilesOnly) exampleConfig in
  Review.outputsOf failed = [[(Js.lit "completed", Review.OBool false)]]
  /\ List.existsb Review.touchesProvider failed = true
  /\ (forall r, In r (Review.outputsOf failed) ->
        Review.hasKey (Js.lit "findings_count") r = false
        /\ Review.hasKey (Js.lit "critical_count") r = false
        /\ Review.hasKey (Js.lit "high_count") r = false
        /\ Review.hasKey (Js.lit "cost_estimate") r = false)
  /\ (forall r, In r (Review.outputsOf noFiles) ->
        Review.hasKey (Js.lit "cost_estimate") r = false).
Proof.
  cbv zeta.
  assert (Hfailed : Review.outputsOf
                      (Review.main (worldWith [Js.lit "src/a.js"])
                         exampleConfig)
                    = [[(Js.lit "completed", Review.OBool false)]])
    by reflexivity.
  assert (HnoFiles : Review.outputsOf
                       (Review.main (worldWith lockfilesOnly) exampleConfig)
                     = [Review.noFilesOutputs])
    by reflexivity.
  rewrite Hfailed, HnoFiles.
  split; [ reflexivity | split; [ reflexivity | split ] ].
  - intros r [<- | []]. repeat split.
  - intros r [<- | []]. reflexivity.
Qed.

(** C9 (as stated) fails: the record the run hands over reaches the
    workflow only through the file [GITHUB_OUTPUT] names.  Without it the
    no-files run writes nothing; and when the append of its record fails,
    what the file receives is [completed=false]. *)
Lemma no_files_run_may_report_nothing :
  let unset := withoutOutputFile (worldWith lockfilesOnly) in
  let refusing := refusingCompleted (worldWith lockfilesOnly) in
  Review.filterFiles lockfilesOnly = []
  /\ List.existsb Review.touchesProvider (Review.main unset exampleConfig)
     = false
  /\ Review.appendsOf (Review.main unset exampleConfig) = []
  /\ Review.writtenOf unset (Review.main unset exampleConfig) = []
  /\ List.existsb Review.touchesProvider (Review.main refusing exampleConfig)
     = false
  /\ Review.appendsOf (Review.main refusing exampleConfig)
     = [(outputPath, Review.noFilesOutputs);
        (outputPath, Review.errorOutputs)]
  /\ Review.appendFileSync refusing outputPath Review.noFilesOutputs
     = Js.Throw (Js.lit "ENOSPC: no space left on device, write")
  /\ Review.writtenOf refusing (Review.main refusing exampleConfig)
     = [(outputPath, Review.errorOutputs)]
  /\ Review.valueOf (Js.lit "completed") (Review.errorOutputs (num := Qc))
     = Some (Review.OBool false).
Proof. cbv zeta. repeat split; vm_compute; reflexivity. Qed.

(** What [parseFindings] returns is never [null], so the severity filter
    never throws on it. *)
Lemma parseFindings_not_null (responseText : list N) :
  Forall (fun f => isNull f = false) (Review.parseFindings responseText).
Proof.
  rewrite ?parseFindings_value.
  destruct (Review.matchArray responseText) as [json|]; [ | constructor ].
  destruct (Json.parse json) as [v|]; [ | constructor ].
  destruct v; try constructor.
  destruct (Review.filterC Review.validFinding items) as [kept|] eqn:Hrun;
    [ | constructor ].
  apply List.Forall_forall. intros f Hin.
  destruct (filterC_kept _ _ _ _ Hrun Hin) as [_ Hvalid].
  destruct f; try reflexivity. discriminate.
Qed.

(** A severity that is an object with a [toString] member passes
    validation (an object is truthy) and then makes the severity filter
    throw; the filter runs in [main], outside the [try] of [parseFindings],
    so the run ends on its error path. *)
Lemma object_severity_fails_the_filter :
  let text :=
    Js.lit "[{"
    ++ member "severity" (Js.lit "{" ++ member "toString" (Js.lit "1")
                          ++ Js.lit "}")
    ++ Js.lit "," ++ member "file" (quoted "a.js") ++ Js.lit ","
    ++ member "line" (Js.lit "1") ++ Js.lit ","
    ++ member "title" (quoted "t") ++ Js.lit "}]" in
  let f := finding (Json.Obj [(Js.lit "toString", Json.Num 1 0)])
             "a.js" 1 "t" in
  Review.parseFindings text = [f]
  /\ Review.filterBySeverity (Js.lit "LOW") [f]
     = Js.Throw (Js.lit "Cannot convert object to primitive value").
Proof. cbv zeta. split; vm_compute; reflexivity. Qed.

(** A [null] element ends the filter with a [TypeError]; the [catch]
    reports it and every element of the array is lost, the valid ones
    included. *)
Lemma null_element_loses_the_array :
  let text := Js.lit "[null," ++ List.tl scenarioArray in
  Json.parse text = Some (Json.Arr [Json.Null; scenarioFinding])
  /\ Review.parseFindingsLogged text
     = ([Review.FailedToParse
           (Js.lit "Cannot read properties of null (reading 'severity')")],
        []).
Proof. cbv zeta. split; vm_compute; reflexivity. Qed.

(** ** Reviewable files *)

Lemma startsWith_prefixed (s p : list N) :
  Js.startsWith s p = true <-> beginsWith s p.
Proof.
  split.
  - revert s. induction p as [|c p IH]; intros s Hp.
    + exists s. reflexivity.
    + destruct s as [|d s]; [ discriminate | ].
      cbn [Js.startsWith] in Hp. apply andb_true_iff in Hp as [Hc Hp].
      apply N.eqb_eq in Hc. subst d.
      destruct (IH s Hp) as [after ->]. exists after. reflexivity.
  - intros [after ->]. apply startsWith_app.
Qed.

Lemma endsWith_suffixed (s p : list N) :
  Js.endsWith s p = true <-> endsIn s p.
Proof.
  unfold Js.endsWith. rewrite startsWith_prefixed. split.
  - intros [after Hs]. exists (List.rev after).
    rewrite <- (rev_involutive s), Hs, rev_app_distr, rev_involutive.
    reflexivity.
  - intros [before ->]. exists (List.rev before). apply rev_app_distr.
Qed.

Lemma includes_held (s p : list N) :
  Js.includes s p = true <-> holds s p.
Proof.
  split.
  - induction s as [|c s IH]; cbn [Js.includes]; intros Hp.
    + rewrite orb_false_r in Hp.
      apply startsWith_prefixed in Hp as [after Hs].
      exists [], after. exact Hs.
    + apply orb_true_iff in Hp as [Hp|Hp].
      * apply startsWith_prefixed in Hp as [after Hs].
        exists [], after. exact Hs.
      * destruct (IH Hp) as (before & after & ->).
        exists (c :: before), after. reflexivity.
  - intros (before & after & ->). apply includes_app.
Qed.

Lemma includesCI_held (s p : list N) :
  Js.includesCI s p = true <-> holdsAnyCase s p.
Proof.
  unfold Js.includesCI. rewrite includes_held. unfold Js.foldCase. split.
  - intros (before & after & Hs).
    apply map_eq_app in Hs as (s1 & s23 & -> & Hbefore & Hrest).
    apply map_eq_app in Hrest as (s2 & s3 & -> & Hword & Hafter).
    exists s1, s2, s3. split; [ reflexivity | exact Hword ].
  - intros (before & w & after & -> & Hw). unfold Js.foldCase in Hw.
    exists (List.map Js.asciiLower before), (List.map Js.asciiLower after).
    rewrite !map_app, Hw. reflexivity.
Qed.

Lemma shapeTest_holds (file : list N) (p : Review.shape) :
  Review.shapeTest file p = true <-> shapeHolds file p.
Proof.
  destruct p; cbn [Review.shapeTest shapeHolds].
  - apply endsWith_suffixed.
  - apply includes_held.
  - apply includesCI_held.
  - apply startsWith_prefixed.
Qed.

(** A list of patterns matches a path when one of their shapes holds of
    it. *)
Lemma patterns_match (patterns : list (list Review.shape)) (file : list N) :
  List.existsb (fun pattern => Review.test pattern file) patterns = true
  <-> exists p, In p (List.concat patterns) /\ shapeHolds file p.
Proof.
  rewrite existsb_exists. split.
  - intros (pattern & Hin & Htest). unfold Review.test in Htest.
    apply existsb_exists in Htest as (p & Hp & Hheld).
    exists p. split; [ | apply shapeTest_holds, Hheld ].
    apply in_concat. exists pattern. split; assumption.
  - intros (p & Hin & Hheld). apply in_concat in Hin as (pattern & Hin & Hp).
    exists pattern. split; [ exact Hin | ].
    unfold Review.test. apply existsb_exists. exists p.
    split; [ exact Hp | apply shapeTest_holds, Hheld ].
Qed.

Ltac marked_by_shape :=
  match goal with
  | H : shapeHolds _ (Review.Ends ?s) |- _ =>
      left; exists s; split; [ simpl; tauto | exact H ]
  | H : shapeHolds _ (Review.Has ?s) |- _ =>
      right; left; exists s; split; [ simpl; tauto | exact H ]
  | H : shapeHolds _ (Review.HasCI ?s) |- _ =>
      right; right; exists s; split; [ simpl; tauto | exact H ]
  | H : shapeHolds _ (Review.Starts ?s) |- _ =>
      right; right; exact H
  end.

Ltac shape_of_marker shape H :=
  exists shape; split; [ | exact H ];
  cbn [Review.sensitivePatterns Review.excludePatterns List.concat app In];
  unfold Review.ends, Review.has, Review.hasCI; tauto.

Ltac shapes_of_markers make Hin H :=
  simpl in Hin;
  repeat (destruct Hin as [<-|Hin];
          [ match type of H with
            | _ _ ?s => shape_of_marker (make s) H
            end | ]);
  destruct Hin.

Lemma isSensitive_marked (file : list N) :
  Review.isSensitive file = true <-> sensitiveMarked file.
Proof.
  unfold Review.isSensitive. rewrite patterns_match. split.
  - intros (p & Hin & Hheld). unfold sensitiveMarked.
    cbn [Review.sensitivePatterns List.concat app In] in Hin.
    unfold Review.ends, Review.has, Review.hasCI in Hin.
    repeat (destruct Hin as [<-|Hin]; [ marked_by_shape | ]).
    destruct Hin.
  - intros [(s & Hin & Hheld)|[(s & Hin & Hheld)|(s & Hin & Hheld)]].
    + shapes_of_markers Review.Ends Hin Hheld.
    + shapes_of_markers Review.Has Hin Hheld.
    + shapes_of_markers Review.HasCI Hin Hheld.
Qed.

Lemma isExcluded_marked (file : list N) :
  Review.isExcluded file = true <-> generatedMarked file.
Proof.
  unfold Review.isExcluded. rewrite patterns_match. split.
  - intros (p & Hin & Hheld). unfold generatedMarked.
    cbn [Review.excludePatterns List.concat app In] in Hin.
    unfold Review.ends, Review.has, Review.hasCI in Hin.
    repeat (destruct Hin as [<-|Hin]; [ marked_by_shape | ]).
    destruct Hin.
  - intros [(s & Hin & Hheld)|[(s & Hin & Hheld)|Hheld]].
    + shapes_of_markers Review.Ends Hin Hheld.
    + shapes_of_markers Review.Has Hin Hheld.
    + exists (Review.Starts (Js.lit ".github/workflows/")).
      split; [ | exact Hheld ].
      cbn [Review.excludePatterns List.concat app In]. tauto.
Qed.

(** X2.  A changed file is sensitive exactly when its path carries one of
    the markers of secrets, and excluded exactly when it carries one of the
    markers of generated files; [filterFiles] keeps, in order, the files
    that carry neither (it works file by file and list by list), and the
    warning lists the sensitive ones, also those an exclusion pattern
    matches too.  So [filterFiles] returns no file exactly when every
    changed file carries a marker. *)
Theorem filterFiles_blocks_marked_paths :
  (forall file, Review.isSensitive file = true <-> sensitiveMarked file)
  /\ (forall file, Review.isExcluded file = true <-> generatedMarked file)
  /\ (forall files file,
        In file (Review.filterFiles files)
        <-> In file files
            /\ ~ sensitiveMarked file /\ ~ generatedMarked file)
  /\ (forall files file,
        In file (Review.sensitiveFiles files)
        <-> In file files /\ sensitiveMarked file)
  /\ (forall files,
        Review.filterFiles files = []
        <-> forall file, In file files ->
              sensitiveMarked file \/ generatedMarked file)
  /\ (forall a b,
        Review.filterFiles (a ++ b)
        = Review.filterFiles a ++ Review.filterFiles b)
  /\ (forall file,
        (~ sensitiveMarked file /\ ~ generatedMarked file ->
         Review.filterFiles [file] = [file])
        /\ (sensitiveMarked file \/ generatedMarked file ->
            Review.filterFiles [file] = []))
  /\ Review.filterFiles
       [ Js.lit "src/a.js"; Js.lit "src/Tokenizer.js";
         Js.lit "docs/.github/workflows/ci.yml";
         Js.lit ".github/workflows/ci.yml"; Js.lit "dist/.env" ]
     = [ Js.lit "src/a.js"; Js.lit "docs/.github/workflows/ci.yml" ]
  /\ Review.sensitiveFiles
       [ Js.lit "src/a.js"; Js.lit "src/Tokenizer.js";
         Js.lit "docs/.github/workflows/ci.yml";
         Js.lit ".github/workflows/ci.yml"; Js.lit "dist/.env" ]
     = [ Js.lit "src/Tokenizer.js"; Js.lit "dist/.env" ]
  /\ Review.isExcluded (Js.lit "dist/.env") = true.
Proof.
  assert (Hkeep : forall file,
             (if Review.isSensitive file then false
              else negb (Review.isExcluded file)) = true
             <-> ~ sensitiveMarked file /\ ~ generatedMarked file).
  { intros file. rewrite <- isSensitive_marked, <- isExcluded_marked.
    destruct (Review.isSensitive file), (Review.isExcluded file); simpl;
      intuition congruence. }
  split; [ exact isSensitive_marked | ].
  split; [ exact isExcluded_marked | ].
  split.
  { intros files file. unfold Review.filterFiles.
    rewrite filter_In, Hkeep. reflexivity. }
  split.
  { intros files file. unfold Review.sensitiveFiles.
    rewrite filter_In, isSensitive_marked. reflexivity. }
  split.
  { intros files. unfold Review.filterFiles. split.
    - intros Hnone file Hin.
      destruct (Review.isSensitive file) eqn:Hs.
      + left. apply isSensitive_marked, Hs.
      + right. apply isExcluded_marked.
        destruct (Review.isExcluded file) eqn:He; [ reflexivity | ].
        assert (Hkept : In file
                          (List.filter
                             (fun file =>
                                if Review.isSensitive file then false
                                else negb (Review.isExcluded file)) files)).
        { apply filter_In. split; [ exact Hin | ]. rewrite Hs, He.
          reflexivity. }
        rewrite Hnone in Hkept. destruct Hkept.
    - intros Hall.
      induction files as [|file files IH]; [ reflexivity | ].
      cbn [List.filter].
      assert (Hdrop : (if Review.isSensitive file then false
                       else negb (Review.isExcluded file)) = false).
      { destruct (Hall file (or_introl eq_refl)) as [Hs|He].
        - apply isSensitive_marked in Hs. rewrite Hs. reflexivity.
        - apply isExcluded_marked in He. rewrite He.
          destruct (Review.isSensitive file); reflexivity. }
      rewrite Hdrop. apply IH. intros f Hf. apply Hall. right. exact Hf. }
  split.
  { intros a b. unfold Review.filterFiles. apply List.filter_app. }
  split.
  { intros file. unfold Review.filterFiles. cbn [List.filter]. split.
    - intros Hfree. apply Hkeep in Hfree. rewrite Hfree. reflexivity.
    - intros Hmarked.
      destruct (if Review.isSensitive file then false
                else negb (Review.isExcluded file)) eqn:Hkept;
        [ | reflexivity ].
      apply Hkeep in Hkept. tauto. }
  repeat split; vm_compute; reflexivity.
Qed.

(** * Further properties of the code *)

(** ** Retry: the first success *)

Lemma loop_first_success {A : Type} (label : list N)
    (api : nat -> Js.completion A) (retries target : nat) (response : A) :
  (target <= retries)%nat ->
  api target = Js.Normal response ->
  forall k attempt fuel,
    (attempt + k = target)%nat -> (k < fuel)%nat ->
    (forall i, (attempt <= i < target)%nat -> returns (api i) = false) ->
    Retry.loop label api retries fuel attempt
    = (failTrace attempt k, Retry.Resolved response).
Proof.
  intros Hle Hok.
  induction k as [|k IH]; intros attempt fuel Hk Hfuel Hfail.
  - destruct fuel as [|fuel]; [ lia | ]. simpl.
    replace attempt with target by lia.
    destruct (Nat.leb_spec target retries); [ | lia ].
    rewrite Hok. reflexivity.
  - destruct fuel as [|fuel]; [ lia | ]. simpl.
    destruct (Nat.leb_spec attempt retries); [ | lia ].
    pose proof (Hfail attempt ltac:(lia)) as Ha.
    destruct (api attempt) as [?|m]; [ discriminate | ].
    destruct (Nat.eqb_spec attempt retries); [ lia | ].
    rewrite (IH (S attempt) fuel) by (try lia; intros; apply Hfail; lia).
    reflexivity.
Qed.

(** X3.  When the attempts before the [k]-th fail and the [k]-th succeeds,
    with [k] at most [retries], [review] resolves with the response of that
    attempt: it makes exactly the calls 1 to [k], sleeps [2^attempt] seconds
    after each failed one, and makes no call after the success. *)
Theorem review_resolves_at_first_success {A : Type}
    (p : ProviderFactory.provider) (options : Retry.ReviewOptions)
    (api : nat -> Js.completion A) (k : nat) (response : A) :
  (1 <= k <= Retry.retriesOf options)%nat ->
  (forall i, (1 <= i < k)%nat -> returns (api i) = false) ->
  api k = Js.Normal response ->
  let r := ProviderFactory.review p options api in
  Retry.calls (fst r) = List.seq 1 k
  /\ Retry.sleeps (fst r)
     = List.map (fun attempt => (2 ^ attempt * 1000)%nat) (List.seq 1 (k - 1))
  /\ snd r = Retry.Resolved response.
Proof.
  intros Hk Hfail Hok. cbv zeta.
  assert (Hr : ProviderFactory.review p options api
               = (failTrace 1 (k - 1), Retry.Resolved response)).
  { destruct p; simpl;
      unfold AnthropicProvider.review, OpenAIProvider.review,
        GoogleProvider.review, Retry.run;
      apply (loop_first_success _ api _ k response); try assumption; lia. }
  rewrite Hr. simpl fst. simpl snd.
  rewrite failTrace_calls, failTrace_sleeps.
  replace (S (k - 1)) with k by lia.
  repeat split.
Qed.

Lemma review_resolves_at_first_success_witness :
  let r := ProviderFactory.review
             (ProviderFactory.Anthropic (Js.lit "k") SONNET)
             (withRetries None) failsOnceThenAnswers in
  Retry.calls (fst r) = [1; 2]%nat
  /\ Retry.sleeps (fst r) = [2000]%nat
  /\ snd r = Retry.Resolved (Js.lit "[]").
Proof.
  cbv zeta.
  apply (review_resolves_at_first_success
           (ProviderFactory.Anthropic (Js.lit "k") SONNET)
           (withRetries None) failsOnceThenAnswers 2 (Js.lit "[]")).
  - split; apply Nat.leb_le; reflexivity.
  - intros i Hi. assert (i = 1%nat) as -> by lia. reflexivity.
  - reflexivity.
Defined.

(** Whatever the vendor does, the trace of the loop is that of [k + 1]
    attempts, the last of them within [retries]. *)
Lemma loop_trace {A : Type} (label : list N) (api : nat -> Js.completion A)
    (retries : nat) :
  forall fuel attempt,
    (attempt <= retries)%nat -> (retries + 2 - attempt <= fuel)%nat ->
    exists k, (attempt + k <= retries)%nat
              /\ fst (Retry.loop label api retries fuel attempt)
                 = failTrace attempt k.
Proof.
  induction fuel as [|fuel IH]; intros attempt Hle Hfuel; [ lia | ].
  simpl. destruct (Nat.leb_spec attempt retries); [ | lia ].
  destruct (api attempt) as [r|m].
  - exists 0%nat. split; [ lia | reflexivity ].
  - destruct (Nat.eqb_spec attempt retries).
    + exists 0%nat. split; [ lia | reflexivity ].
    + destruct (IH (S attempt)) as (k & Hk & Htrace); try lia.
      exists (S k). split; [ lia | ]. simpl. rewrite Htrace. reflexivity.
Qed.

(** ** The run: what it does and what it never does *)

Section RunTraces.
Context {num : Type} `{JsNum num}.

Lemma everyAction_quiet (Q : Review.action num -> Prop) {A : Type}
    (c : Js.completion A) : everyAction Q (Review.quiet c).
Proof. constructor. Qed.

Lemma everyAction_perform (Q : Review.action num -> Prop) {A : Type}
    (a : Review.action num) (c : Js.completion A) :
  Q a -> everyAction Q (Review.perform a c).
Proof. intros Ha. constructor; [ exact Ha | constructor ]. Qed.

Lemma everyAction_andThen (Q : Review.action num -> Prop) {A B : Type}
    (t : Review.traced num A) (k : A -> Review.traced num B) :
  everyAction Q t ->
  (forall a, Review.outcome t = Js.Normal a -> everyAction Q (k a)) ->
  everyAction Q (Review.andThen t k).
Proof.
  unfold everyAction, Review.andThen. intros Ht Hk.
  destruct (Review.outcome t) as [a|m]; simpl; [ | exact Ht ].
  apply Forall_app. split; [ exact Ht | apply Hk; reflexivity ].
Qed.

Lemma everyAction_callLLM (Q : Review.action num -> Prop)
    (w : Review.World num) (p : ProviderFactory.provider) :
  (forall n, Q (Review.ProviderCall n)) ->
  (forall d, Q (Review.ProviderSleep d)) ->
  everyAction Q (Review.callLLM w p).
Proof.
  intros Hcall Hsleep. unfold everyAction, Review.callLLM. simpl.
  induction (fst (ProviderFactory.review p _ (Review.api w)))
    as [|e l IH]; simpl; constructor; [ | exact IH ].
  destruct e; [ apply Hcall | apply Hsleep ].
Qed.

Lemma everyAction_setOutputs (Q : Review.action num -> Prop)
    (w : Review.World num) (r : list (list N * Review.outValue num)) :
  Q (Review.SetOutputs r) ->
  (forall file, Q (Review.AppendFile file r)) ->
  everyAction Q (Review.setOutputs w r).
Proof.
  intros Hset Happend. unfold everyAction, Review.setOutputs.
  destruct (Js.whenTruthy (Review.GITHUB_OUTPUT w)) as [file|]; simpl;
    repeat constructor; auto.
Qed.

(** What the [try] block of [main] can do, by the mode of the run: a
    property that holds of each action the block can perform holds of all
    the block performs. *)
Lemma everyAction_mainTry (Q : Review.action num -> Prop)
    (w : Review.World num) (c : Review.CONFIG.t) :
  Q Review.PostNoFilesComment ->
  Q (Review.SetOutputs Review.noFilesOutputs) ->
  (forall file, Q (Review.AppendFile file Review.noFilesOutputs)) ->
  (forall p, Q (Review.CreateProvider p)) ->
  (forall n, Q (Review.ProviderCall n)) ->
  (forall d, Q (Review.ProviderSleep d)) ->
  (Review.CONFIG.dryRun c = true -> Q Review.PrintFindings) ->
  (Review.CONFIG.dryRun c = false -> Q Review.PostReviewComments) ->
  (Review.CONFIG.dryRun c = false -> Q Review.PostSummaryComment) ->
  (forall findings counts cost,
      Review.countBySeverity findings = Js.Normal counts ->
      Q (Review.SetOutputs (Review.successOutputs findings counts cost))
      /\ forall file,
           Q (Review.AppendFile file
                (Review.successOutputs findings counts cost))) ->
  everyAction Q (Review.mainTry w c).
Proof.
  intros HnoFiles HnoOut HnoApp Hcreate Hcall Hsleep Hprint Hpost Hsummary
    Hout.
  unfold Review.mainTry.
  apply everyAction_andThen; [ apply everyAction_quiet | intros _ _ ].
  apply everyAction_andThen; [ apply everyAction_quiet | intros _ _ ].
  apply everyAction_andThen; [ apply everyAction_quiet | intros changes _ ].
  destruct (List.length (Review.filterFiles (snd changes)) =? 0)%nat.
  - apply everyAction_andThen;
      [ apply everyAction_perform, HnoFiles | intros _ _ ].
    apply everyAction_setOutputs; assumption.
  - apply everyAction_andThen;
      [ apply everyAction_quiet | intros guidelines _ ].
    apply everyAction_andThen.
    { destruct (ProviderFactory.createProvider _ _ _ _);
        [ apply everyAction_perform, Hcreate | apply everyAction_quiet ]. }
    intros llmProvider _.
    apply everyAction_andThen; [ apply everyAction_callLLM; assumption | ].
    intros response _.
    apply everyAction_andThen;
      [ apply everyAction_quiet | intros findings _ ].
    apply everyAction_andThen;
      [ apply everyAction_quiet | intros counts Hcounts ].
    apply everyAction_andThen.
    { destruct (Review.CONFIG.dryRun c) eqn:Hdry.
      - apply everyAction_perform, Hprint. reflexivity.
      - apply everyAction_andThen.
        + destruct (0 <? List.length findings)%nat;
            [ apply everyAction_perform, Hpost; reflexivity | constructor ].
        + intros _ _. apply everyAction_perform, Hsummary. reflexivity. }
    intros _ _. apply everyAction_setOutputs; apply Hout; exact Hcounts.
Qed.

(** The [catch] block of [main] adds the error comment, the failure record
    with its append and, when that returned and the run is configured to,
    the exit. *)
Lemma everyAction_main (Q : Review.action num -> Prop)
    (w : Review.World num) (c : Review.CONFIG.t) :
  everyAction Q (Review.mainTry w c) ->
  (returns (Review.outcome (Review.mainTry w c)) = false ->
   Q Review.PostErrorComment
   /\ Q (Review.SetOutputs Review.errorOutputs)
   /\ (forall file, Q (Review.AppendFile file Review.errorOutputs))
   /\ (Review.CONFIG.failOnErrors c = true ->
       returns (Review.outcome (Review.setOutputs w Review.errorOutputs))
       = true ->
       Q (Review.Exit 1%nat))) ->
  Forall Q (Review.main w c).
Proof.
  unfold everyAction, Review.main. intros Htry Hcatch. cbv zeta.
  destruct (Review.outcome (Review.mainTry w c)); [ exact Htry | ].
  destruct (Hcatch eq_refl) as (Hpost & Hout & Happend & Hexit).
  apply Forall_app. split; [ exact Htry | ].
  apply Forall_app. split; [ repeat constructor; exact Hpost | ].
  apply Forall_app. split.
  { apply (everyAction_setOutputs Q w); assumption. }
  destruct (Review.outcome (Review.setOutputs w Review.errorOutputs));
    [ | constructor ].
  destruct (Review.CONFIG.failOnErrors c); [ | constructor ].
  constructor; [ apply Hexit; reflexivity | constructor ].
Qed.

Lemma log_andThen {A B : Type} (t : Review.traced num A)
    (k : A -> Review.traced num B) :
  Review.log (Review.andThen t k)
  = Review.log t
    ++ match Review.outcome t with
       | Js.Normal a => Review.log (k a)
       | Js.Throw _ => []
       end.
Proof.
  unfold Review.andThen.
  destruct (Review.outcome t); simpl; [ reflexivity | ].
  symmetry. apply app_nil_r.
Qed.

Lemma providerCalls_app (l1 l2 : list (Review.action num)) :
  providerCalls (l1 ++ l2) = providerCalls l1 ++ providerCalls l2.
Proof. apply flat_map_app. Qed.

Lemma providerSleeps_app (l1 l2 : list (Review.action num)) :
  providerSleeps (l1 ++ l2) = providerSleeps l1 ++ providerSleeps l2.
Proof. apply flat_map_app. Qed.

Lemma providersCreated_app (l1 l2 : list (Review.action num)) :
  providersCreated (l1 ++ l2) = providersCreated l1 ++ providersCreated l2.
Proof. apply flat_map_app. Qed.

Lemma providerCalls_trace (trace : list Retry.event) :
  providerCalls (num := num) (List.map Review.providerAction trace)
  = Retry.calls trace.
Proof.
  induction trace as [|e l IH]; [ reflexivity | ].
  destruct e; simpl; rewrite <- IH; reflexivity.
Qed.

Lemma providerSleeps_trace (trace : list Retry.event) :
  providerSleeps (num := num) (List.map Review.providerAction trace)
  = Retry.sleeps trace.
Proof.
  induction trace as [|e l IH]; [ reflexivity | ].
  destruct e; simpl; rewrite <- IH; reflexivity.
Qed.

Lemma providersCreated_trace (trace : list Retry.event) :
  providersCreated (num := num) (List.map Review.providerAction trace) = [].
Proof.
  induction trace as [|e l IH]; [ reflexivity | ].
  destruct e; simpl; exact IH.
Qed.

(** [callLLM] passes no [retries], so the loop runs with the default of
    three: its trace is that of one to three attempts. *)
Lemma callLLM_trace (w : Review.World num) (p : ProviderFactory.provider) :
  exists k, (k <= 2)%nat
    /\ Review.log (Review.callLLM w p)
       = List.map Review.providerAction (failTrace 1 k).
Proof.
  unfold Review.callLLM. cbn [Review.log].
  assert (Hrun : forall label options,
             Retry.retriesOf options = 3%nat ->
             exists k, (k <= 2)%nat
               /\ fst (Retry.run label options (Review.api w))
                  = failTrace 1 k).
  { intros label options Hretries. unfold Retry.run. rewrite Hretries.
    destruct (loop_trace label (Review.api w) 3 4 1) as (k & Hk & Htrace);
      try lia.
    exists k. split; [ lia | exact Htrace ]. }
  destruct p; cbn [ProviderFactory.review];
    unfold AnthropicProvider.review, OpenAIProvider.review,
      GoogleProvider.review;
    match goal with
    | |- context [ Retry.run ?l ?o _ ] =>
        destruct (Hrun l o eq_refl) as (k & Hk & Htrace)
    end;
    exists k; (split; [ exact Hk | rewrite Htrace; reflexivity ]).
Qed.

Lemma providerFree_projections (l : list (Review.action num)) :
  Forall (fun a => Review.touchesProvider a = false) l ->
  providerCalls l = [] /\ providerSleeps l = [] /\ providersCreated l = [].
Proof.
  induction 1 as [|a l Ha _ IH]; [ repeat split | ].
  destruct IH as (Hc & Hs & Hp).
  destruct a; try discriminate; simpl; repeat split; assumption.
Qed.

(** The [try] block touches no provider, or it constructs one and runs
    [callLLM] right after, and touches no provider again. *)
Lemma mainTry_provider_trace (w : Review.World num) (c : Review.CONFIG.t) :
  Forall (fun a => Review.touchesProvider a = false)
    (Review.log (Review.mainTry w c))
  \/ exists p k tail,
       (k <= 2)%nat
       /\ Review.log (Review.mainTry w c)
          = Review.CreateProvider p
              :: List.map Review.providerAction (failTrace 1 k) ++ tail
       /\ Forall (fun a => Review.touchesProvider a = false) tail.
Proof.
  unfold Review.mainTry.
  destruct (Review.validateConfig w);
    [ rewrite andThen_quiet_normal | left; constructor ].
  destruct (Review.chdir w);
    [ rewrite andThen_quiet_normal | left; constructor ].
  destruct (Review.getPRChanges w) as [changes|];
    [ rewrite andThen_quiet_normal | left; constructor ].
  destruct (List.length (Review.filterFiles (snd changes)) =? 0)%nat.
  { left.
    apply (everyAction_andThen (fun a => Review.touchesProvider a = false));
      [ apply everyAction_perform; reflexivity | intros _ _ ].
    apply everyAction_setOutputs; reflexivity. }
  destruct (Review.readGuidelines w) as [guidelines|];
    [ rewrite andThen_quiet_normal | left; constructor ].
  destruct (ProviderFactory.createProvider _ _ _ _) as [p|m];
    [ | left; constructor ].
  right. exists p.
  destruct (callLLM_trace w p) as (k & Hk & Htrace).
  exists k. rewrite log_andThen. cbn [Review.perform Review.log Review.outcome].
  rewrite log_andThen, Htrace. cbn [app].
  eexists. split; [ exact Hk | ]. split; [ reflexivity | ].
  destruct (Review.outcome (Review.callLLM w p)) as [response|m];
    [ | constructor ].
  apply (everyAction_andThen (fun a => Review.touchesProvider a = false));
    [ apply everyAction_quiet | intros findings _ ].
  apply everyAction_andThen;
    [ apply everyAction_quiet | intros counts Hcounts ].
  apply everyAction_andThen.
  { destruct (Review.CONFIG.dryRun c).
    - apply everyAction_perform. reflexivity.
    - apply everyAction_andThen.
      + destruct (0 <? List.length findings)%nat;
          [ apply everyAction_perform; reflexivity | constructor ].
      + intros _ _. apply everyAction_perform. reflexivity. }
  intros _ _. apply everyAction_setOutputs; reflexivity.
Qed.

(** X4.  Whatever the collaborators do, a run constructs at most one
    provider and calls the vendor at most three times: the attempts are
    numbered 1 to [n] with [n] at most 3, the sleeps between them are of 2
    and then 4 seconds, and a provider is constructed exactly when an
    attempt is made. *)
Theorem main_calls_vendor_at_most_three_times
    (w : Review.World num) (c : Review.CONFIG.t) :
  exists n,
    (n <= 3)%nat
    /\ providerCalls (Review.main w c) = List.seq 1 n
    /\ providerSleeps (Review.main w c)
       = List.map (fun attempt => (2 ^ attempt * 1000)%nat)
           (List.seq 1 (n - 1))
    /\ List.length (providersCreated (Review.main w c)) = Nat.min n 1.
Proof.
  set (written := Review.setOutputs w Review.errorOutputs).
  set (caught :=
         [Review.PostErrorComment] ++ Review.log written
           ++ match Review.outcome written with
              | Js.Normal _ =>
                  if Review.CONFIG.failOnErrors c
                  then [Review.Exit 1%nat] else []
              | Js.Throw _ => []
              end).
  assert (Hcaught : Forall (fun a => Review.touchesProvider a = false)
                      caught).
  { subst caught. apply Forall_app. split; [ repeat constructor | ].
    apply Forall_app. split.
    - apply (everyAction_setOutputs
               (fun a => Review.touchesProvider a = false));
        reflexivity.
    - destruct (Review.outcome written); [ | constructor ].
      destruct (Review.CONFIG.failOnErrors c); repeat constructor. }
  assert (Hcatch : forall l : list (Review.action num),
             Forall (fun a => Review.touchesProvider a = false) l ->
             Forall (fun a => Review.touchesProvider a = false)
               (l ++ caught)).
  { intros l Hl. apply Forall_app. split; assumption. }
  assert (Hmain : Forall (fun a => Review.touchesProvider a = false)
                    (Review.main w c)
                  \/ exists p k tail,
                       (k <= 2)%nat
                       /\ Review.main w c
                          = Review.CreateProvider p
                              :: List.map Review.providerAction (failTrace 1 k)
                                 ++ tail
                       /\ Forall (fun a => Review.touchesProvider a = false)
                            tail).
  { unfold Review.main. cbv zeta. fold written. fold caught.
    destruct (mainTry_provider_trace w c)
      as [Hfree|(p & k & tail & Hk & Hlog & Htail)].
    - left. destruct (Review.outcome (Review.mainTry w c));
        [ exact Hfree | apply Hcatch, Hfree ].
    - right. exists p, k.
      destruct (Review.outcome (Review.mainTry w c)).
      + exists tail. auto.
      + eexists. split; [ exact Hk | ]. rewrite Hlog.
        split; [ cbn [app]; rewrite <- app_assoc; reflexivity | ].
        apply Hcatch, Htail. }
  destruct Hmain as [Hfree|(p & k & tail & Hk & Hlog & Htail)].
  - exists 0%nat.
    destruct (providerFree_projections _ Hfree) as (-> & -> & ->).
    repeat split. lia.
  - exists (S k). rewrite Hlog.
    destruct (providerFree_projections _ Htail) as (Hc & Hs & Hp).
    change (Review.CreateProvider p
              :: List.map Review.providerAction (failTrace 1 k) ++ tail)
      with ([Review.CreateProvider p]
              ++ List.map Review.providerAction (failTrace 1 k) ++ tail).
    rewrite !providerCalls_app, !providerSleeps_app, !providersCreated_app.
    rewrite Hc, Hs, Hp, providerCalls_trace, providerSleeps_trace,
      providersCreated_trace, failTrace_calls, failTrace_sleeps.
    cbn [providerCalls providerSleeps providersCreated flat_map app
           List.length].
    rewrite !app_nil_r. replace (S k - 1)%nat with k by lia.
    repeat split; lia.
Qed.

(** X6.  [main] calls [process.exit], with code 1, exactly when the
    [try] block threw, [failOnErrors] is set and the call of [setOutputs]
    with [completed=false] returned. *)
Theorem exit_only_when_run_failed (w : Review.World num)
    (c : Review.CONFIG.t) (code : nat) :
  In (Review.Exit code) (Review.main w c)
  <-> code = 1%nat /\ Review.CONFIG.failOnErrors c = true
      /\ returns (Review.outcome (Review.mainTry w c)) = false
      /\ returns (Review.outcome (Review.setOutputs w Review.errorOutputs))
         = true.
Proof.
  assert (Htry : everyAction (fun a => forall n, a <> Review.Exit n)
                   (Review.mainTry w c)).
  { apply everyAction_mainTry; intros; try split; intros; discriminate. }
  assert (Hwritten : everyAction (fun a => forall n, a <> Review.Exit n)
                       (Review.setOutputs w Review.errorOutputs)).
  { apply everyAction_setOutputs; intros; discriminate. }
  unfold everyAction in Htry, Hwritten.
  rewrite List.Forall_forall in Htry, Hwritten.
  unfold Review.main. cbv zeta.
  destruct (Review.outcome (Review.mainTry w c)) as [u|m]; simpl returns.
  - split.
    + intros Hin. destruct (Htry _ Hin code eq_refl).
    + intros (_ & _ & E & _). discriminate.
  - split.
    + intros Hin. apply in_app_or in Hin. destruct Hin as [Hin|Hin].
      { destruct (Htry _ Hin code eq_refl). }
      apply in_app_or in Hin. destruct Hin as [[E|[]]|Hin];
        [ discriminate | ].
      apply in_app_or in Hin. destruct Hin as [Hin|Hin].
      { destruct (Hwritten _ Hin code eq_refl). }
      destruct (Review.outcome (Review.setOutputs w Review.errorOutputs));
        [ | destruct Hin ].
      destruct (Review.CONFIG.failOnErrors c); [ | destruct Hin ].
      destruct Hin as [E|[]]. inversion E. repeat split.
    + intros (-> & -> & _ & Hreturned).
      apply in_or_app. right. apply in_or_app. right.
      apply in_or_app. right.
      destruct (Review.outcome (Review.setOutputs w Review.errorOutputs));
        [ left; reflexivity | discriminate ].
Qed.

End RunTraces.

(** X5.  A dry run never posts review comments or the summary, and a run
    that is not dry never prints the findings.  The dry run is not free of
    writes to the pull request: the no-files comment and the error comment
    are posted in a dry run too. *)
Theorem dry_run_posts_no_review :
  (forall {num : Type} `{JsNum num} (w : Review.World num)
      (c : Review.CONFIG.t) (a : Review.action num),
      Review.CONFIG.dryRun c = true -> In a (Review.main w c) ->
      a <> Review.PostReviewComments /\ a <> Review.PostSummaryComment)
  /\ (forall {num : Type} `{JsNum num} (w : Review.World num)
        (c : Review.CONFIG.t),
        Review.CONFIG.dryRun c = false ->
        ~ In Review.PrintFindings (Review.main w c))
  /\ Review.main (worldWith lockfilesOnly) dryRunConfig
     = [Review.PostNoFilesComment; Review.SetOutputs Review.noFilesOutputs;
        Review.AppendFile outputPath Review.noFilesOutputs]
  /\ In Review.PostErrorComment
       (Review.main (worldWith [Js.lit "src/a.js"]) dryRunConfig)
  /\ In Review.PrintFindings
       (Review.main (answeringWorld [Js.lit "src/a.js"]) dryRunConfig).
Proof.
  split; [ | split; [ | split; [ | split ] ] ].
  - intros num Hnum w c a Hdry Hin.
    assert (Hmain : Forall
              (fun a => a <> Review.PostReviewComments
                        /\ a <> Review.PostSummaryComment)
              (Review.main w c)).
    { apply everyAction_main.
      - apply everyAction_mainTry;
          try (intros; split; discriminate);
          try (intros; split; intros; split; discriminate).
        all: rewrite Hdry; discriminate.
      - intros _. repeat split; discriminate. }
    rewrite List.Forall_forall in Hmain. apply Hmain, Hin.
  - intros num Hnum w c Hdry Hin.
    assert (Hmain : Forall (fun a => a <> Review.PrintFindings)
                      (Review.main w c)).
    { apply everyAction_main.
      - apply everyAction_mainTry; try (intros; discriminate);
          try (intros; split; intros; discriminate).
        rewrite Hdry; discriminate.
      - intros _. repeat split; intros; discriminate. }
    rewrite List.Forall_forall in Hmain. exact (Hmain _ Hin eq_refl).
  - reflexivity.
  - vm_compute. auto 10.
  - vm_compute. auto 10.
Qed.

(** ** Counting by severity *)

Lemma severityIs_hasSeverity (name : list N) (f : Json.value) :
  isNull f = false ->
  Review.severityIs name f = Js.Normal (hasSeverity name f).
Proof.
  intros Hf. unfold Review.severityIs, hasSeverity.
  rewrite (field_not_null _ _ Hf). reflexivity.
Qed.

(** A filter that returned ran its callback on every element, and none of
    the calls threw. *)
Lemma filterC_returned {A : Type} (keep : A -> Js.completion bool)
    (l kept : list A) :
  Review.filterC keep l = Js.Normal kept ->
  Forall (fun x => returns (keep x) = true) l.
Proof.
  revert kept. induction l as [|x l IH]; intros kept Hrun; [ constructor | ].
  simpl in Hrun.
  destruct (keep x) as [b|] eqn:Hx; simpl in Hrun; [ | discriminate ].
  destruct (Review.filterC keep l) as [rest|]; simpl in Hrun;
    [ | discriminate ].
  constructor; [ rewrite Hx; reflexivity | eapply IH; reflexivity ].
Qed.

Lemma countBySeverity_not_null (findings : list Json.value)
    (counts : Review.Counts) :
  Review.countBySeverity findings = Js.Normal counts ->
  Forall (fun f => isNull f = false) findings.
Proof.
  unfold Review.countBySeverity. intros Hrun.
  destruct (Review.filterC (Review.severityIs (Js.lit "CRITICAL")) findings)
    as [c|] eqn:Hc; [ | discriminate ].
  eapply Forall_impl; [ exact (filterC_returned _ _ _ Hc) | ].
  intros f. destruct f; try reflexivity. discriminate.
Qed.

Lemma countBySeverity_counts (findings : list Json.value) :
  Forall (fun f => isNull f = false) findings ->
  Review.countBySeverity findings
  = Js.Normal
      {| Review.CRITICAL :=
           List.length (List.filter (hasSeverity (Js.lit "CRITICAL")) findings);
         Review.HIGH :=
           List.length (List.filter (hasSeverity (Js.lit "HIGH")) findings);
         Review.MEDIUM :=
           List.length (List.filter (hasSeverity (Js.lit "MEDIUM")) findings);
         Review.LOW :=
           List.length (List.filter (hasSeverity (Js.lit "LOW")) findings) |}.
Proof.
  intros Hfindings. unfold Review.countBySeverity.
  assert (Hclass : forall name,
             Review.filterC (Review.severityIs name) findings
             = Js.Normal (List.filter (hasSeverity name) findings)).
  { intros name. apply filterC_pure.
    eapply Forall_impl; [ exact Hfindings | ].
    intros f Hf. apply severityIs_hasSeverity, Hf. }
  rewrite !Hclass. reflexivity.
Qed.

(** The four classes are disjoint: a finding is counted once, and only
    when its severity is one of the four names as a string. *)
Lemma hasSeverity_classes (f : Json.value) :
  (Nat.b2n (hasSeverity (Js.lit "CRITICAL") f)
   + Nat.b2n (hasSeverity (Js.lit "HIGH") f)
   + Nat.b2n (hasSeverity (Js.lit "MEDIUM") f)
   + Nat.b2n (hasSeverity (Js.lit "LOW") f))%nat
  = Nat.b2n (stringSeverity f && (1 <=? severityRank f)%nat).
Proof.
  unfold hasSeverity, stringSeverity, severityRank.
  destruct (propertyOf (Js.lit "severity") f) as [v|]; [ | reflexivity ].
  destruct v; try reflexivity.
  cbn [Json.toString andb]. unfold rankOfName, Js.strEq.
  repeat case_bool_decide; subst; try reflexivity; discriminate.
Qed.

Lemma filter_length_b2n {A : Type} (g : A -> bool) (l : list A) :
  List.length (List.filter g l)
  = List.fold_right (fun x n => (Nat.b2n (g x) + n)%nat) 0%nat l.
Proof.
  induction l as [|x l IH]; simpl; [ reflexivity | ].
  destruct (g x); simpl; rewrite IH; reflexivity.
Qed.

Lemma filter_length_le {A : Type} (g : A -> bool) (l : list A) :
  (List.length (List.filter g l) <= List.length l)%nat.
Proof.
  induction l as [|x l IH]; simpl; [ lia | ].
  destruct (g x); simpl; lia.
Qed.

Lemma totalCount_ranked (findings : list Json.value)
    (counts : Review.Counts) :
  Review.countBySeverity findings = Js.Normal counts ->
  totalCount counts
  = List.length
      (List.filter (fun f => stringSeverity f && (1 <=? severityRank f)%nat)
         findings).
Proof.
  intros Hrun.
  pose proof (countBySeverity_not_null _ _ Hrun) as Hfindings.
  rewrite (countBySeverity_counts _ Hfindings) in Hrun.
  inversion Hrun. subst counts. clear Hrun Hfindings.
  unfold totalCount. cbn [Review.CRITICAL Review.HIGH Review.MEDIUM Review.LOW].
  rewrite !filter_length_b2n.
  induction findings as [|f l IH]; [ reflexivity | ].
  cbn [fold_right]. rewrite <- IH, <- hasSeverity_classes. lia.
Qed.

(** X7.  For a threshold that is no name of [Object.prototype]: among the
    findings that [filterBySeverity] kept, [countBySeverity] counts exactly
    those whose severity is a string, each in one class: the four counts
    add up to the number of kept findings whose severity is a string, so to
    the number of kept findings exactly when every severity is a string. *)
Theorem counts_cover_string_severities (threshold : list N)
    (findings kept : list Json.value) (counts : Review.Counts) :
  threshold ∉ Js.OBJECT_PROTOTYPE ->
  Review.filterBySeverity threshold findings = Js.Normal kept ->
  Review.countBySeverity kept = Js.Normal counts ->
  totalCount counts = List.length (List.filter stringSeverity kept)
  /\ (totalCount counts <= List.length kept)%nat
  /\ (totalCount counts = List.length kept
      <-> Forall (fun f => stringSeverity f = true) kept).
Proof.
  intros Hthreshold Hfilter Hcount.
  assert (Htotal : totalCount counts
                   = List.length (List.filter stringSeverity kept)).
  { rewrite (totalCount_ranked _ _ Hcount).
    f_equal. apply filter_ext_in. intros f Hin.
    destruct (stringSeverity f) eqn:Hstr; [ | reflexivity ].
    cbn [andb].
    destruct (filterC_kept _ _ _ _ Hfilter Hin) as [_ Hkeep].
    assert (Hf : isNull f = false).
    { destruct f; try reflexivity. discriminate. }
    assert (Hkey : hasKeyText f = true).
    { unfold hasKeyText. unfold stringSeverity in Hstr.
      destruct (propertyOf (Js.lit "severity") f) as [v|]; [ | reflexivity ].
      destruct v; try discriminate. reflexivity. }
    rewrite (meetsThreshold_rank _ _ Hthreshold Hf Hkey) in Hkeep.
    destruct (rankOfName threshold) as [|n]; [ discriminate | ].
    assert (Hle : (S n <=? severityRank f)%nat = true) by congruence.
    apply Nat.leb_le in Hle. apply Nat.leb_le. lia. }
  split; [ exact Htotal | ].
  split; [ rewrite Htotal; apply filter_length_le | ].
  rewrite Htotal. clear.
  induction kept as [|f l IH]; simpl.
  - split; [ constructor | reflexivity ].
  - pose proof (filter_length_le stringSeverity l) as Hle.
    destruct (stringSeverity f) eqn:Hstr; simpl.
    + split.
      * intros E. constructor; [ exact Hstr | apply IH; lia ].
      * intros Hall. inversion Hall. f_equal. apply IH. assumption.
    + split; [ lia | ].
      intros Hall. inversion Hall. congruence.
Qed.

Lemma counts_cover_string_severities_witness :
  let kept :=
    [ finding (sev "CRITICAL") "a.js" 2 "c";
      finding (Json.Arr [sev "HIGH"]) "b.js" 3 "m";
      finding (sev "HIGH") "b.js" 4 "h" ] in
  let counts :=
    {| Review.CRITICAL := 1; Review.HIGH := 1;
       Review.MEDIUM := 0; Review.LOW := 0 |} in
  totalCount counts = List.length (List.filter stringSeverity kept)
  /\ (totalCount counts <= List.length kept)%nat
  /\ (totalCount counts = List.length kept
      <-> Forall (fun f => stringSeverity f = true) kept).
Proof.
  cbv zeta.
  apply (counts_cover_string_severities (Js.lit "HIGH")
           [ finding (sev "LOW") "a.js" 1 "l";
             finding (sev "CRITICAL") "a.js" 2 "c";
             finding (Json.Arr [sev "HIGH"]) "b.js" 3 "m";
             finding (sev "HIGH") "b.js" 4 "h" ]);
    [ apply names_not_prototype; simpl; tauto | reflexivity | reflexivity ].
Defined.

(** X8.  In every record a run hands to [setOutputs], the critical and
    high counts together do not exceed the number of findings the record
    reports. *)
Theorem outputs_counts_within_findings {num : Type} `{JsNum num}
    (w : Review.World num) (c : Review.CONFIG.t)
    (r : list (list N * Review.outValue num)) (n critical high : nat) :
  In r (Review.outputsOf (Review.main w c)) ->
  Review.valueOf (Js.lit "findings_count") r = Some (Review.OCount n) ->
  Review.valueOf (Js.lit "critical_count") r = Some (Review.OCount critical) ->
  Review.valueOf (Js.lit "high_count") r = Some (Review.OCount high) ->
  (critical + high <= n)%nat.
Proof.
  set (Q := fun a : Review.action num =>
              match a with
              | Review.SetOutputs r =>
                  forall n critical high,
                    Review.valueOf (Js.lit "findings_count") r
                    = Some (Review.OCount n) ->
                    Review.valueOf (Js.lit "critical_count") r
                    = Some (Review.OCount critical) ->
                    Review.valueOf (Js.lit "high_count") r
                    = Some (Review.OCount high) ->
                    (critical + high <= n)%nat
              | _ => True
              end).
  assert (Hmain : Forall Q (Review.main w c)).
  { apply everyAction_main.
    - apply everyAction_mainTry; try exact I; try (intros; exact I).
      + intros n' c' h' Hn Hc Hh. inversion Hn. inversion Hc. inversion Hh.
        lia.
      + intros findings counts cost Hcounts.
        split; [ | intros; exact I ].
        intros n' c' h' Hn Hc Hh.
        inversion Hn. inversion Hc. inversion Hh. subst.
        pose proof (totalCount_ranked _ _ Hcounts) as Htotal.
        pose proof (filter_length_le
                      (fun f => stringSeverity f
                                && (1 <=? severityRank f)%nat)
                      findings).
        unfold totalCount in Htotal. lia.
    - intros _. split; [ exact I | ].
      split; [ | split; intros; exact I ].
      intros n' c' h' Hn. discriminate. }
  intros Hin. unfold Review.outputsOf in Hin. apply in_flat_map in Hin.
  destruct Hin as (a & Ha & Hr).
  rewrite List.Forall_forall in Hmain. specialize (Hmain a Ha).
  destruct a; try contradiction. destruct Hr as [<-|[]].
  apply Hmain.
Qed.

Lemma outputs_counts_within_findings_witness :
  let run := Review.main (answeringWorld [Js.lit "src/a.js"]) exampleConfig in
  let counts :=
    {| Review.CRITICAL := 0; Review.HIGH := 1;
       Review.MEDIUM := 0; Review.LOW := 0 |} in
  let cost := Review.calculateCost usageWithoutCache SONNET in
  Review.outputsOf run = [Review.successOutputs [scenarioFinding] counts cost]
  /\ (0 + 1 <= 1)%nat.
Proof.
  cbv zeta.
  assert (Hrun : Review.outputsOf
                   (Review.main (answeringWorld [Js.lit "src/a.js"])
                      exampleConfig)
                 = [Review.successOutputs [scenarioFinding]
                      {| Review.CRITICAL := 0; Review.HIGH := 1;
                         Review.MEDIUM := 0; Review.LOW := 0 |}
                      (Review.calculateCost usageWithoutCache SONNET)])
    by reflexivity.
  split; [ exact Hrun | ].
  apply (outputs_counts_within_findings
           (answeringWorld [Js.lit "src/a.js"]) exampleConfig
           (Review.successOutputs [scenarioFinding]
              {| Review.CRITICAL := 0; Review.HIGH := 1;
                 Review.MEDIUM := 0; Review.LOW := 0 |}
              (Review.calculateCost usageWithoutCache SONNET))).
  - rewrite Hrun. left. reflexivity.
  - reflexivity.
  - reflexivity.
  - reflexivity.
Defined.

(** ** Prices: the engine and the adapters *)

Lemma startsWith_prefix (s p q : list N) :
  Js.startsWith s (p ++ q) = true -> Js.startsWith s p = true.
Proof.
  revert s. induction p as [|c p IH]; intros s; [ reflexivity | ].
  destruct s as [|d s]; simpl; [ discriminate | ].
  rewrite !andb_true_iff. intros [Hc Hrest]. split; [ exact Hc | ].
  apply IH, Hrest.
Qed.

(** A text that holds [p ++ q] holds [p]. *)
Lemma includes_prefix (s p q : list N) :
  Js.includes s (p ++ q) = true -> Js.includes s p = true.
Proof.
  induction s as [|d s IH].
  - cbn [Js.includes]. rewrite !orb_false_r. apply startsWith_prefix.
  - cbn [Js.includes]. rewrite !orb_true_iff.
    intros [Hs|Hs]; [ left; eapply startsWith_prefix, Hs | right; auto ].
Qed.

Lemma splitHead_without (sep : N) (s : list N) :
  ~ In sep s -> Js.splitHead sep s = s.
Proof.
  induction s as [|c s IH]; [ reflexivity | ].
  intros Hin. simpl.
  destruct (N.eqb_spec c sep) as [->|_].
  - exfalso. apply Hin. left. reflexivity.
  - f_equal. apply IH. intros Hc. apply Hin. right. exact Hc.
Qed.

(** No member of [Object.prototype] looks like a model name. *)
Lemma prototype_names_not_family (k : list N) :
  k ∈ Js.OBJECT_PROTOTYPE ->
  claudeFamily k = false /\ Js.includes k (Js.lit "gpt") = false
  /\ Js.includes k (Js.lit "gemini") = false.
Proof.
  unfold Js.OBJECT_PROTOTYPE. rewrite !elem_of_cons.
  intros Hk.
  repeat (destruct Hk as [-> | Hk]; [ repeat split | ]).
  apply elem_of_nil in Hk. contradiction.
Qed.

Section Tables.
Context {num : Type} `{JsNum num}.

(** What the keys of the three tables hold. *)
Lemma anthropic_keys (k : list N) (p : PricingEntry num) :
  AnthropicProvider.PRICING_TABLE !! k = Some p -> claudeFamily k = true.
Proof.
  unfold AnthropicProvider.PRICING_TABLE.
  rewrite !lookup_insert, lookup_empty.
  repeat case_decide; subst; intros E; try discriminate; reflexivity.
Qed.

Lemma openai_keys (k : list N) (p : PricingEntry num) :
  OpenAIProvider.PRICING_TABLE !! k = Some p ->
  claudeFamily k = false
  /\ Js.includes k (Js.lit "gemini") = false
  /\ (Js.includes k (Js.lit "gpt-4") = true
      \/ Js.includes k (Js.lit "gpt-3.5") = true).
Proof.
  unfold OpenAIProvider.PRICING_TABLE.
  rewrite !lookup_insert, lookup_empty.
  repeat case_decide; subst; intros E; try discriminate;
    (split; [ reflexivity | split; [ reflexivity | ] ]);
    first [ left; reflexivity | right; reflexivity ].
Qed.

Lemma google_keys (k : list N) (p : PricingEntry num) :
  GoogleProvider.PRICING_TABLE !! k = Some p ->
  claudeFamily k = false
  /\ Js.includes k (Js.lit "gpt") = false
  /\ (Js.includes k (Js.lit "flash") = true
      \/ Js.includes k (Js.lit "1.5-pro") = true
      \/ k = Js.lit "gemini-pro").
Proof.
  unfold GoogleProvider.PRICING_TABLE.
  rewrite !lookup_insert, lookup_empty.
  repeat case_decide; subst; intros E; try discriminate;
    (split; [ reflexivity | split; [ reflexivity | ] ]);
    first [ left; reflexivity
          | right; left; reflexivity
          | right; right; reflexivity ].
Qed.

Lemma prototype_names_not_keys (k : list N) :
  k ∈ Js.OBJECT_PROTOTYPE ->
  AnthropicProvider.PRICING_TABLE (num := num) !! k = None
  /\ OpenAIProvider.PRICING_TABLE (num := num) !! k = None
  /\ GoogleProvider.PRICING_TABLE (num := num) !! k = None.
Proof.
  unfold Js.OBJECT_PROTOTYPE. rewrite !elem_of_cons.
  intros Hk.
  repeat (destruct Hk as [-> | Hk]; [ repeat split | ]).
  apply elem_of_nil in Hk. contradiction.
Qed.

(** A read at a name that is no member of [Object.prototype] finds an own
    property or nothing. *)
Lemma get_plain_name {A : Type} (o : gmap (list N) A) (k : list N) :
  k ∉ Js.OBJECT_PROTOTYPE ->
  Js.get o k = match o !! k with
               | Some v => Js.Own v
               | None => Js.Undefined
               end.
Proof.
  intros Hk. unfold Js.get. destruct (o !! k); [ reflexivity | ].
  rewrite bool_decide_eq_false_2 by exact Hk. reflexivity.
Qed.

Lemma anthropic_table_values (k : list N) (p : PricingEntry num) :
  AnthropicProvider.PRICING_TABLE !! k = Some p ->
  p = AnthropicProvider.SONNET_4_5 \/ p = AnthropicProvider.OPUS_4_5
  \/ p = AnthropicProvider.HAIKU_4_5.
Proof.
  unfold AnthropicProvider.PRICING_TABLE.
  rewrite !lookup_insert, lookup_empty.
  repeat case_decide; intros E; inversion E; auto.
Qed.

Lemma anthropic_pricing_values (modelName : list N) (p : PricingEntry num) :
  AnthropicProvider.getModelPricing modelName = Js.Own p ->
  p = AnthropicProvider.SONNET_4_5 \/ p = AnthropicProvider.OPUS_4_5
  \/ p = AnthropicProvider.HAIKU_4_5.
Proof.
  assert (Hget : forall k,
             Js.get AnthropicProvider.PRICING_TABLE k = Js.Own p ->
             p = AnthropicProvider.SONNET_4_5
             \/ p = AnthropicProvider.OPUS_4_5
             \/ p = AnthropicProvider.HAIKU_4_5).
  { intros k. unfold Js.get.
    destruct (AnthropicProvider.PRICING_TABLE !! k) as [q|] eqn:Hk.
    - intros E. inversion E. subst q. eapply anthropic_table_values, Hk.
    - case_bool_decide; discriminate. }
  unfold AnthropicProvider.getModelPricing. cbv zeta.
  destruct (Js.get AnthropicProvider.PRICING_TABLE _) as [q| |] eqn:Hq.
  - intros E. inversion E. subst q. eapply Hget, Hq.
  - discriminate.
  - destruct (Js.includes _ (Js.lit "opus")); [ apply Hget | ].
    destruct (Js.includes _ (Js.lit "haiku")); [ apply Hget | ].
    destruct (Js.includes _ (Js.lit "sonnet")); apply Hget.
Qed.

(** For a name of the Claude families the engine's lookup is the
    Anthropic adapter's. *)
Lemma claude_family_pricing (modelName : list N) :
  claudeFamily (Js.splitHead (Js.cu ":") modelName) = true ->
  Review.getModelPricing (num := num) modelName
  = AnthropicProvider.getModelPricing modelName.
Proof.
  intros Hfamily.
  unfold Review.getModelPricing, AnthropicProvider.getModelPricing.
  cbv zeta.
  set (n := Js.splitHead (Js.cu ":") modelName) in *.
  unfold Review.ANTHROPIC_PRICING, Review.OPENAI_PRICING,
    Review.GOOGLE_PRICING.
  destruct (Js.get AnthropicProvider.PRICING_TABLE n) as [p| |] eqn:Ha;
    cbn [Review.found]; try reflexivity.
  assert (Hproto : n ∉ Js.OBJECT_PROTOTYPE).
  { intros Hin. destruct (prototype_names_not_family _ Hin) as (E & _).
    congruence. }
  rewrite !(get_plain_name _ _ Hproto).
  destruct (OpenAIProvider.PRICING_TABLE !! n) as [p|] eqn:Ho.
  { apply openai_keys in Ho as (E & _). congruence. }
  destruct (GoogleProvider.PRICING_TABLE !! n) as [p|] eqn:Hg.
  { apply google_keys in Hg as (E & _). congruence. }
  cbn [Review.found].
  unfold claudeFamily in Hfamily. rewrite Hfamily.
  destruct (Js.includes n (Js.lit "opus")); [ reflexivity | ].
  destruct (Js.includes n (Js.lit "haiku")); [ reflexivity | ].
  destruct (Js.includes n (Js.lit "sonnet")); reflexivity.
Qed.

(** On an entry whose cache rates are truthy, the adapter and the engine
    run the same arithmetic. *)
Lemma costWith_same_arithmetic (prices : PricingEntry num)
    (usage : Usage num) (w r : num) :
  cache_write prices = Some w -> cache_read prices = Some r ->
  truthyNum w = true -> truthyNum r = true ->
  AnthropicProvider.costWith prices usage
  = Some (Review.costWith prices usage).
Proof.
  intros Hw Hr Htw Htr.
  unfold AnthropicProvider.costWith, Review.costWith. cbv zeta.
  rewrite Hw, Hr.
  destruct (cache_creation_input_tokens usage) as [a|];
    destruct (cache_read_input_tokens usage) as [b|];
    cbn [mbind option_bind];
    repeat match goal with
           | |- context [ truthyNum ?x && _ ] =>
               destruct (truthyNum x) eqn:?; cbn [andb mbind option_bind]
           end;
    try rewrite Htw; try rewrite Htr; try reflexivity.
Qed.

Hypothesis rates_truthy :
  cacheRatesTruthy (num := num) AnthropicProvider.SONNET_4_5 = true
  /\ cacheRatesTruthy (num := num) AnthropicProvider.OPUS_4_5 = true
  /\ cacheRatesTruthy (num := num) AnthropicProvider.HAIKU_4_5 = true.

Lemma claude_family_cost (thisModel modelName : list N) (usage : Usage num) :
  claudeFamily (Js.splitHead (Js.cu ":") modelName) = true ->
  AnthropicProvider.calculateCost thisModel usage (Some modelName)
  = Review.calculateCost usage modelName.
Proof.
  intros Hfamily.
  unfold AnthropicProvider.calculateCost, Review.calculateCost. cbv zeta.
  assert (Hname : Js.orElse (Some modelName) thisModel = modelName).
  { destruct modelName; [ discriminate | reflexivity ]. }
  rewrite Hname, (claude_family_pricing _ Hfamily).
  destruct (AnthropicProvider.getModelPricing modelName) as [p| |] eqn:Hp;
    try reflexivity.
  assert (Hrates : cacheRatesTruthy p = true).
  { destruct rates_truthy as (Hs & Ho & Hh).
    destruct (anthropic_pricing_values _ _ Hp) as [->|[->| ->]]; assumption. }
  unfold cacheRatesTruthy in Hrates.
  destruct (cache_write p) as [w|] eqn:Hw; [ | discriminate ].
  destruct (cache_read p) as [r|] eqn:Hr; [ | discriminate ].
  apply andb_true_iff in Hrates as [Htw Htr].
  eapply costWith_same_arithmetic; eassumption.
Qed.

End Tables.

(** X9.  For a model name that, cut at its first colon, holds one of the
    words claude, opus, sonnet or haiku, the engine's [getModelPricing]
    returns what the Anthropic adapter's returns, and the engine's
    [calculateCost] is the adapter's, in exact arithmetic and bit for bit
    in binary64: the cost in the summary is the cost the adapter would
    report. *)
Theorem claude_models_cost_as_the_adapter_computes :
  (forall {num : Type} `{JsNum num} (modelName : list N),
      claudeFamily (Js.splitHead (Js.cu ":") modelName) = true ->
      Review.getModelPricing (num := num) modelName
      = AnthropicProvider.getModelPricing modelName)
  /\ (forall (thisModel modelName : list N) (usage : Usage Qc),
        claudeFamily (Js.splitHead (Js.cu ":") modelName) = true ->
        AnthropicProvider.calculateCost thisModel usage (Some modelName)
        = Review.calculateCost usage modelName)
  /\ (forall (thisModel modelName : list N) (usage : Usage float),
        claudeFamily (Js.splitHead (Js.cu ":") modelName) = true ->
        AnthropicProvider.calculateCost thisModel usage (Some modelName)
        = Review.calculateCost usage modelName).
Proof.
  split; [ | split ].
  - intros num Hnum modelName. apply claude_family_pricing.
  - intros thisModel modelName usage. apply claude_family_cost.
    repeat split; vm_compute; reflexivity.
  - intros thisModel modelName usage. apply claude_family_cost.
    repeat split; vm_compute; reflexivity.
Qed.

Lemma claude_models_cost_as_the_adapter_computes_witness :
  Review.getModelPricing (num := float) (Js.lit "claude-opus-5:latest")
  = AnthropicProvider.getModelPricing (Js.lit "claude-opus-5:latest")
  /\ AnthropicProvider.calculateCost (num := Qc) SONNET usageWithCache
       (Some (Js.lit "claude-opus-5:latest"))
     = Review.calculateCost usageWithCache (Js.lit "claude-opus-5:latest").
Proof.
  pose proof claude_models_cost_as_the_adapter_computes as (Hp & Hq & _).
  split.
  - apply Hp. reflexivity.
  - apply Hq. reflexivity.
Defined.

(** The engine's price lookup finds a table entry unless the name, cut at
    its first colon, is a member of [Object.prototype]. *)
Lemma review_pricing_found {num : Type} `{JsNum num} (modelName : list N) :
  let n := Js.splitHead (Js.cu ":") modelName in
  if bool_decide (n ∈ Js.OBJECT_PROTOTYPE)
  then Review.getModelPricing (num := num) modelName = Js.Inherited
  else exists p, Review.getModelPricing (num := num) modelName = Js.Own p.
Proof.
  cbv zeta. unfold Review.getModelPricing. cbv zeta.
  set (n := Js.splitHead (Js.cu ":") modelName).
  unfold Review.ANTHROPIC_PRICING, Review.OPENAI_PRICING,
    Review.GOOGLE_PRICING.
  case_bool_decide as Hn.
  - destruct (prototype_names_not_keys (num := num) _ Hn) as (Ha & _).
    unfold Js.get at 1 2. rewrite Ha.
    rewrite bool_decide_eq_true_2 by exact Hn. reflexivity.
  - rewrite !(get_plain_name _ _ Hn).
    destruct (AnthropicProvider.PRICING_TABLE !! n) as [p|];
      cbn [Review.found]; [ eexists; reflexivity | ].
    destruct (OpenAIProvider.PRICING_TABLE !! n) as [p|];
      cbn [Review.found]; [ eexists; reflexivity | ].
    destruct (GoogleProvider.PRICING_TABLE !! n) as [p|];
      cbn [Review.found]; [ eexists; reflexivity | ].
    repeat match goal with
           | |- context [ if ?b then _ else _ ] => destruct b
           end; eexists; reflexivity.
Qed.

(** X10.  The engine's [calculateCost] loses the price, and with it the
    cost (NaN in the source), exactly when the model name, cut at its
    first colon, names a member of [Object.prototype], [constructor] or
    [toString] for instance; for every other name, the empty one included,
    an entry of a table prices the usage. *)
Theorem calculateCost_is_nan_on_prototype_names
    {num : Type} `{JsNum num} (usage : Usage num) (modelName : list N) :
  Review.calculateCost usage modelName = None
  <-> Js.splitHead (Js.cu ":") modelName ∈ Js.OBJECT_PROTOTYPE.
Proof.
  pose proof (review_pricing_found (num := num) modelName) as Hfound.
  cbv zeta in Hfound. unfold Review.calculateCost.
  case_bool_decide as Hn.
  - rewrite Hfound. split; [ intros _; exact Hn | reflexivity ].
  - destruct Hfound as (p & ->). split; [ discriminate | contradiction ].
Qed.

(** X11.  The fallbacks of the engine and of the adapters differ.  A name
    without a colon that holds gpt, but neither gpt-4 nor gpt-3.5 nor a
    Claude word, is priced by the engine at the GPT-3.5 Turbo entry and by
    the OpenAI adapter at the GPT-4 Turbo entry; a name that holds gemini
    and pro, but neither flash nor 1.5-pro nor gpt nor a Claude word, and
    is not gemini-pro itself, is priced by the engine at the Gemini 1.5 Pro
    entry and by the Gemini adapter at the Gemini Pro entry.  The entries
    differ. *)
Theorem unknown_model_priced_two_ways :
  (forall {num : Type} `{JsNum num} (modelName : list N),
      ~ In (Js.cu ":") modelName ->
      claudeFamily modelName = false ->
      Js.includes modelName (Js.lit "gpt") = true ->
      Js.includes modelName (Js.lit "gpt-4") = false ->
      Js.includes modelName (Js.lit "gpt-3.5") = false ->
      Review.getModelPricing (num := num) modelName
      = Js.Own OpenAIProvider.GPT_3_5_TURBO
      /\ OpenAIProvider.getModelPricing (num := num) modelName
         = Js.Own OpenAIProvider.GPT_4_TURBO)
  /\ (forall {num : Type} `{JsNum num} (modelName : list N),
        ~ In (Js.cu ":") modelName ->
        claudeFamily modelName = false ->
        Js.includes modelName (Js.lit "gpt") = false ->
        Js.includes modelName (Js.lit "gemini") = true ->
        Js.includes modelName (Js.lit "flash") = false ->
        Js.includes modelName (Js.lit "1.5-pro") = false ->
        Js.includes modelName (Js.lit "pro") = true ->
        modelName <> Js.lit "gemini-pro" ->
        Review.getModelPricing (num := num) modelName
        = Js.Own GoogleProvider.GEMINI_1_5_PRO
        /\ GoogleProvider.getModelPricing (num := num) modelName
           = Js.Own GoogleProvider.GEMINI_PRO)
  /\ input (num := Qc) OpenAIProvider.GPT_3_5_TURBO
     <> input OpenAIProvider.GPT_4_TURBO
  /\ input (num := Qc) GoogleProvider.GEMINI_1_5_PRO
     <> input GoogleProvider.GEMINI_PRO.
Proof.
  split; [ | split; [ | split ] ].
  - intros num Hnum modelName Hcolon Hfamily Hgpt Hfour Hthree.
    assert (Hturbo : Js.includes modelName (Js.lit "gpt-4-turbo") = false).
    { destruct (Js.includes modelName (Js.lit "gpt-4-turbo")) eqn:E;
        [ | reflexivity ].
      rewrite <- Hfour. symmetry.
      apply (includes_prefix _ (Js.lit "gpt-4") (Js.lit "-turbo")), E. }
    assert (Hproto : modelName ∉ Js.OBJECT_PROTOTYPE).
    { intros Hin. destruct (prototype_names_not_family _ Hin) as (_ & E & _).
      congruence. }
    assert (Ha : AnthropicProvider.PRICING_TABLE (num := num) !! modelName
                 = None).
    { destruct (AnthropicProvider.PRICING_TABLE !! modelName) eqn:E;
        [ | reflexivity ].
      apply anthropic_keys in E. congruence. }
    assert (Ho : OpenAIProvider.PRICING_TABLE (num := num) !! modelName
                 = None).
    { destruct (OpenAIProvider.PRICING_TABLE !! modelName) eqn:E;
        [ | reflexivity ].
      apply openai_keys in E as (_ & _ & [E|E]); congruence. }
    assert (Hg : GoogleProvider.PRICING_TABLE (num := num) !! modelName
                 = None).
    { destruct (GoogleProvider.PRICING_TABLE !! modelName) eqn:E;
        [ | reflexivity ].
      apply google_keys in E as (_ & E & _). congruence. }
    split.
    + unfold Review.getModelPricing. cbv zeta.
      rewrite (splitHead_without _ _ Hcolon).
      unfold Review.ANTHROPIC_PRICING, Review.OPENAI_PRICING,
        Review.GOOGLE_PRICING.
      rewrite !(get_plain_name _ _ Hproto), Ha, Ho, Hg. cbn [Review.found].
      unfold claudeFamily in Hfamily. rewrite Hfamily, Hgpt, Hturbo, Hfour.
      reflexivity.
    + unfold OpenAIProvider.getModelPricing.
      rewrite (get_plain_name _ _ Hproto), Ho, Hturbo, Hfour, Hthree.
      reflexivity.
  - intros num Hnum modelName Hcolon Hfamily Hgpt Hgemini Hflash Hpro15 Hpro
      Hkey.
    assert (Hproto : modelName ∉ Js.OBJECT_PROTOTYPE).
    { intros Hin. destruct (prototype_names_not_family _ Hin) as (_ & _ & E).
      congruence. }
    assert (Ha : AnthropicProvider.PRICING_TABLE (num := num) !! modelName
                 = None).
    { destruct (AnthropicProvider.PRICING_TABLE !! modelName) eqn:E;
        [ | reflexivity ].
      apply anthropic_keys in E. congruence. }
    assert (Ho : OpenAIProvider.PRICING_TABLE (num := num) !! modelName
                 = None).
    { destruct (OpenAIProvider.PRICING_TABLE !! modelName) eqn:E;
        [ | reflexivity ].
      apply openai_keys in E as (_ & E & _). congruence. }
    assert (Hg : GoogleProvider.PRICING_TABLE (num := num) !! modelName
                 = None).
    { destruct (GoogleProvider.PRICING_TABLE !! modelName) eqn:E;
        [ | reflexivity ].
      apply google_keys in E as (_ & _ & [E|[E|E]]); congruence. }
    split.
    + unfold Review.getModelPricing. cbv zeta.
      rewrite (splitHead_without _ _ Hcolon).
      unfold Review.ANTHROPIC_PRICING, Review.OPENAI_PRICING,
        Review.GOOGLE_PRICING.
      rewrite !(get_plain_name _ _ Hproto), Ha, Ho, Hg. cbn [Review.found].
      unfold claudeFamily in Hfamily. rewrite Hfamily, Hgpt, Hgemini, Hflash.
      reflexivity.
    + unfold GoogleProvider.getModelPricing.
      rewrite (get_plain_name _ _ Hproto), Hg, Hflash, Hpro15, Hpro.
      reflexivity.
  - vm_compute. intros E. inversion E.
  - vm_compute. intros E. inversion E.
Qed.

Lemma unknown_model_priced_two_ways_witness :
  (Review.getModelPricing (num := Qc) (Js.lit "gpt-5")
   = Js.Own OpenAIProvider.GPT_3_5_TURBO
   /\ OpenAIProvider.getModelPricing (num := Qc) (Js.lit "gpt-5")
      = Js.Own OpenAIProvider.GPT_4_TURBO)
  /\ (Review.getModelPricing (num := Qc) (Js.lit "gemini-2.0-pro")
      = Js.Own GoogleProvider.GEMINI_1_5_PRO
      /\ GoogleProvider.getModelPricing (num := Qc) (Js.lit "gemini-2.0-pro")
         = Js.Own GoogleProvider.GEMINI_PRO).
Proof.
  pose proof unknown_model_priced_two_ways as (Hgpt & Hgemini & _).
  split.
  - apply Hgpt; try reflexivity. vm_compute. intuition discriminate.
  - apply Hgemini; try reflexivity.
    + vm_compute. intuition discriminate.
    + discriminate.
Defined.

(** ** The factory and its defaults *)

(** X12.  [createProvider] accepts every name that [getSupportedProviders]
    lists, in any letter case, once the key is not empty and, for google,
    the project is given: the adapter it returns holds the key and the
    given model or, without one, the model [getDefaultModels] lists for
    that name, and that default is a key of the adapter's own pricing
    table, so a default run is priced at a table entry and not by a
    fallback. *)
Theorem createProvider_supported_defaults {num : Type} `{JsNum num}
    (providerName key : list N) (model : option (list N))
    (options : ProviderFactory.FactoryOptions) :
  In (Js.toLowerCase providerName) ProviderFactory.getSupportedProviders ->
  key <> [] ->
  (Js.toLowerCase providerName = Js.lit "google" ->
   Js.whenTruthy (ProviderFactory.projectId options) <> None) ->
  exists p,
    ProviderFactory.createProvider providerName (Some key) model options
    = Js.Normal p
    /\ ProviderMethods.apiKeyOf p = key
    /\ Some (ProviderMethods.modelOf p)
       = match Js.whenTruthy model with
         | Some m => Some m
         | None =>
             ProviderFactory.getDefaultModels !! Js.toLowerCase providerName
         end
    /\ (Js.whenTruthy model = None ->
        exists entry,
          tableOf (num := num) p !! ProviderMethods.modelOf p = Some entry
          /\ ProviderMethods.getModelPricing p (ProviderMethods.modelOf p)
             = Js.Own entry).
Proof.
  intros Hname Hkey Hproject.
  unfold ProviderFactory.createProvider.
  assert (Hk : Js.whenTruthy (Some key) = Some key).
  { destruct key; [ contradiction | reflexivity ]. }
  rewrite Hk.
  assert (Hmodel : forall d,
             Some (Js.orElse model d)
             = match Js.whenTruthy model with
               | Some m => Some m
               | None => Some d
               end).
  { intros d. destruct model as [m|]; [ | reflexivity ].
    destruct m; reflexivity. }
  assert (Hdefault : forall d, Js.whenTruthy model = None ->
                               Js.orElse model d = d).
  { intros d. destruct model as [m|]; [ | reflexivity ].
    destruct m; [ reflexivity | discriminate ]. }
  destruct Hname as [E|[E|[E|[]]]]; rewrite <- E in *.
  - eexists. split; [ reflexivity | ]. split; [ reflexivity | ].
    split; [ apply Hmodel | ].
    intros Hnone. cbn [ProviderMethods.modelOf]. rewrite (Hdefault _ Hnone).
    eexists. split; reflexivity.
  - eexists. split; [ reflexivity | ]. split; [ reflexivity | ].
    split; [ apply Hmodel | ].
    intros Hnone. cbn [ProviderMethods.modelOf]. rewrite (Hdefault _ Hnone).
    eexists. split; reflexivity.
  - specialize (Hproject eq_refl).
    change (Js.strEq (Js.lit "google") (Js.lit "anthropic")) with false.
    destruct (Js.whenTruthy (ProviderFactory.projectId options)) as [project|];
      [ | contradiction ].
    eexists. split; [ reflexivity | ]. split; [ reflexivity | ].
    split; [ apply Hmodel | ].
    intros Hnone. cbn [ProviderMethods.modelOf]. rewrite (Hdefault _ Hnone).
    eexists. split; reflexivity.
Qed.

Lemma createProvider_supported_defaults_witness :
  exists p,
    ProviderFactory.createProvider (Js.lit "OpenAI")
      (Some (Js.lit "test-key-0123456789")) None ProviderFactory.noOptions
    = Js.Normal p
    /\ ProviderMethods.modelOf p = Js.lit "gpt-4-turbo-preview"
    /\ ProviderMethods.getModelPricing (num := Qc) p (ProviderMethods.modelOf p)
       = Js.Own OpenAIProvider.GPT_4_TURBO.
Proof.
  destruct (createProvider_supported_defaults (num := Qc) (Js.lit "OpenAI")
              (Js.lit "test-key-0123456789") None ProviderFactory.noOptions)
    as (p & Hcreate & _ & _ & _).
  - right. left. reflexivity.
  - discriminate.
  - discriminate.
  - exists p. split; [ exact Hcreate | ].
    inversion Hcreate. split; reflexivity.
Defined.

(** ** Validation of the configuration *)

Section ValidationProperties.
Import Validation.

Lemma throwIf_valid (b : bool) (e : configError) (rest : verdict) :
  throwIf b e rest = Valid <-> b = false /\ rest = Valid.
Proof.
  unfold throwIf. destruct b; split.
  - discriminate.
  - intros [E _]. discriminate.
  - auto.
  - intros [_ E]. exact E.
Qed.

Lemma validateConfig_accepted (c : t) (env : Env) :
  Js.truthyStr (provider c) = true ->
  (validateConfig c env = Valid <-> accepted c).
Proof.
  intros Hprovider. unfold validateConfig. cbv zeta.
  rewrite !throwIf_valid. rewrite Hprovider. cbn [negb].
  split.
  - intros (_ & H1 & H2 & H3 & H4 & H5 & H6 & H7 & H8 & H9 & H10 & H11 & H12
            & H13 & H14 & H15 & H16 & H17 & Hrest).
    apply negb_false_iff in H4, H8, H9, H10, H15.
    constructor; try assumption.
    + intros Hgoogle. rewrite Hgoogle in Hrest.
      rewrite !throwIf_valid in Hrest.
      destruct Hrest as (Hg1 & Hg2 & _). apply negb_false_iff in Hg2. auto.
    + destruct (Js.strEq (Js.toLowerCase (provider c)) (Js.lit "google"));
        rewrite !throwIf_valid in Hrest; tauto.
  - intros [].
    repeat (split; [ first [ assumption | apply negb_false_iff; assumption
                           | reflexivity ] | ]).
    destruct (Js.strEq (Js.toLowerCase (provider c)) (Js.lit "google")).
    + destruct (acc_google0 eq_refl) as [Hg1 Hg2].
      rewrite !throwIf_valid. rewrite Hg1, Hg2, acc_workspace_path0. auto.
    + rewrite !throwIf_valid. auto.
Qed.

Lemma CONFIG_provider_truthy (env : Env) :
  Js.truthyStr (provider (CONFIG env)) = true.
Proof.
  unfold CONFIG. cbn [provider]. unfold Js.orElse.
  destruct (getenv env "LLM_PROVIDER") as [s|]; [ | reflexivity ].
  destruct (Js.truthyStr s) eqn:E; [ exact E | reflexivity ].
Qed.

Lemma listIncludes_In (l : list (list N)) (s : list N) :
  listIncludes l s = true <-> In s l.
Proof.
  unfold listIncludes. rewrite existsb_exists. split.
  - intros (x & Hin & E). apply strEq_true in E. subst. exact Hin.
  - intros Hin. exists s. split; [ exact Hin | apply strEq_true; reflexivity ].
Qed.

Lemma missing_false (v : option (list N)) :
  missing v = false -> Js.whenTruthy v = Some (textOf v) /\ textOf v <> [].
Proof.
  unfold missing, Js.whenTruthy, textOf.
  destruct v as [s|]; [ | discriminate ].
  destruct s; [ discriminate | ]. intros _. split; [ reflexivity | discriminate ].
Qed.

(** X13.  A configuration read from the environment that passes
    [validateConfig] is one the factory accepts: [createProvider], called
    as [main] calls it, returns an adapter of the configured vendor (the
    name compared without case) that holds the configured key, whose length
    lies between 10 and 500 code units. *)
Theorem validated_config_constructs_provider (env : Env) :
  let c := CONFIG env in
  validateConfig c env = Valid ->
  exists p,
    ProviderFactory.createProvider (provider c) (apiKey c) (model c)
      (factoryOptions c) = Js.Normal p
    /\ supportedName p = Js.toLowerCase (provider c)
    /\ ProviderMethods.apiKeyOf p = textOf (apiKey c)
    /\ (10 <= List.length (ProviderMethods.apiKeyOf p) <= 500)%nat.
Proof.
  cbv zeta. intros Hvalid.
  apply (validateConfig_accepted _ _ (CONFIG_provider_truthy env)) in Hvalid.
  destruct (missing_false _ (acc_apiKey _ Hvalid)) as [Hkey _].
  pose proof (acc_apiKey_short _ Hvalid) as Hshort.
  pose proof (acc_apiKey_long _ Hvalid) as Hlong.
  apply Nat.ltb_ge in Hshort, Hlong.
  pose proof (acc_provider _ Hvalid) as Hprovider.
  pose proof (acc_google _ Hvalid) as Hgoogle.
  apply listIncludes_In in Hprovider.
  unfold ProviderFactory.createProvider. rewrite Hkey.
  destruct Hprovider as [E|[E|[E|[]]]]; rewrite <- E in *.
  - eexists. split; [ reflexivity | ]. repeat split; assumption.
  - eexists. split; [ reflexivity | ]. repeat split; assumption.
  - destruct (Hgoogle eq_refl) as [Hproject _].
    destruct (missing_false _ Hproject) as [Hp _].
    change (Js.strEq (Js.lit "google") (Js.lit "anthropic")) with false.
    cbn [factoryOptions ProviderFactory.projectId orb].
    rewrite Hp.
    eexists. split; [ reflexivity | ]. repeat split; assumption.
Qed.

Lemma exampleEnv_valid : validateConfig (CONFIG exampleEnv) exampleEnv = Valid.
Proof. vm_compute. reflexivity. Qed.

Lemma validated_config_constructs_provider_witness :
  exists p,
    ProviderFactory.createProvider (provider (CONFIG exampleEnv))
      (apiKey (CONFIG exampleEnv)) (model (CONFIG exampleEnv))
      (factoryOptions (CONFIG exampleEnv)) = Js.Normal p
    /\ supportedName p = Js.toLowerCase (provider (CONFIG exampleEnv))
    /\ ProviderMethods.apiKeyOf p = textOf (apiKey (CONFIG exampleEnv))
    /\ (10 <= List.length (ProviderMethods.apiKeyOf p) <= 500)%nat.
Proof.
  apply (validated_config_constructs_provider exampleEnv).
  vm_compute. reflexivity.
Defined.

Lemma span_spec (class : N -> bool) (s : list N) :
  s = fst (JsString.span class s) ++ snd (JsString.span class s)
  /\ List.forallb class (fst (JsString.span class s)) = true.
Proof.
  induction s as [|c s [IH1 IH2]]; [ split; reflexivity | ].
  simpl. destruct (class c) eqn:Hc; simpl.
  - split; [ f_equal; exact IH1 | rewrite Hc; exact IH2 ].
  - split; reflexivity.
Qed.

Lemma split_without (sep : N) (s : list N) :
  ~ In sep s -> JsString.split sep s = [s].
Proof.
  induction s as [|c s IH]; [ reflexivity | ].
  intros Hin. simpl.
  destruct (N.eqb_spec c sep) as [->|_].
  - exfalso. apply Hin. left. reflexivity.
  - rewrite IH; [ reflexivity | ]. intros Hc. apply Hin. right. exact Hc.
Qed.

Lemma split_at_first (sep : N) (a b : list N) :
  ~ In sep a ->
  JsString.split sep (a ++ sep :: b) = a :: JsString.split sep b.
Proof.
  induction a as [|c a IH]; intros Hin.
  - simpl. rewrite N.eqb_refl. reflexivity.
  - simpl. destruct (N.eqb_spec c sep) as [->|_].
    + exfalso. apply Hin. left. reflexivity.
    + rewrite IH; [ reflexivity | ]. intros Hc. apply Hin. right. exact Hc.
Qed.

Lemma repositoryChar_not_slash (l : list N) :
  List.forallb repositoryChar l = true -> ~ In (Js.cu "/") l.
Proof.
  intros Hall Hin. rewrite forallb_forall in Hall.
  specialize (Hall _ Hin). discriminate.
Qed.

Lemma repositoryFormat_parts (s : list N) :
  repositoryFormat s = true ->
  exists owner repo,
    s = owner ++ Js.cu "/" :: repo
    /\ owner <> [] /\ repo <> []
    /\ List.forallb repositoryChar owner = true
    /\ List.forallb repositoryChar repo = true.
Proof.
  unfold repositoryFormat. cbv zeta.
  destruct (span_spec repositoryChar s) as [Hs Hall].
  destruct (JsString.span repositoryChar s) as [owner rest].
  cbn [fst snd] in *.
  destruct owner as [|o owner]; [ discriminate | ].
  destruct rest as [|slash rest]; [ discriminate | ].
  destruct (N.eqb_spec slash (Js.cu "/")) as [->|]; [ | discriminate ].
  cbn [andb].
  destruct (span_spec repositoryChar rest) as [Hr Hrall].
  destruct (JsString.span repositoryChar rest) as [repo tail].
  cbn [fst snd] in *.
  destruct repo as [|r repo]; [ discriminate | ].
  destruct tail; [ | discriminate ].
  intros _. rewrite app_nil_r in Hr. subst rest.
  exists (o :: owner), (r :: repo).
  repeat split; try assumption; discriminate.
Qed.

(** X14.  The repository of a configuration that passes [validateConfig]
    is an owner, one slash and a name, both non-empty: the [split('/')] of
    [main] yields exactly these two parts. *)
Theorem validated_repository_splits_in_two (env : Env) :
  let c := CONFIG env in
  validateConfig c env = Valid ->
  exists owner repo,
    repository c = Some (owner ++ Js.cu "/" :: repo)
    /\ JsString.split (Js.cu "/") (owner ++ Js.cu "/" :: repo) = [owner; repo]
    /\ owner <> [] /\ repo <> [].
Proof.
  cbv zeta. intros Hvalid.
  apply (validateConfig_accepted _ _ (CONFIG_provider_truthy env)) in Hvalid.
  pose proof (acc_repository _ Hvalid) as Hpresent.
  pose proof (acc_repositoryFormat _ Hvalid) as Hformat.
  destruct (repositoryFormat_parts _ Hformat)
    as (owner & repo & Hs & Ho & Hr & Hoc & Hrc).
  exists owner, repo.
  split.
  { destruct (repository (CONFIG env)) as [s|]; [ | discriminate ].
    cbn [textOf] in Hs. rewrite Hs. reflexivity. }
  split; [ | split; assumption ].
  rewrite split_at_first by (apply repositoryChar_not_slash, Hoc).
  rewrite split_without by (apply repositoryChar_not_slash, Hrc).
  reflexivity.
Qed.

Lemma validated_repository_splits_in_two_witness :
  exists owner repo,
    repository (CONFIG exampleEnv) = Some (owner ++ Js.cu "/" :: repo)
    /\ JsString.split (Js.cu "/") (owner ++ Js.cu "/" :: repo) = [owner; repo]
    /\ owner <> [] /\ repo <> [].
Proof.
  apply (validated_repository_splits_in_two exampleEnv).
  vm_compute. reflexivity.
Defined.

Lemma getenv_other (env : Env) (k : list N) (v : list N) (name : string) :
  k <> Js.lit name -> getenv (<[ k := v ]> env) name = getenv env name.
Proof. intros Hk. unfold getenv. apply lookup_insert_ne. exact Hk. Qed.

Lemma getenv_same (env : Env) (v : list N) (name : string) :
  getenv (<[ Js.lit name := v ]> env) name = Some v.
Proof. unfold getenv. apply lookup_insert_eq. Qed.

Ltac config_fields :=
  cbn [provider apiKey model githubToken repository prNumber baseBranch
       headSha workspace thinkingBudget maxTokens guidelinesPath
       severityThreshold failOnErrors dryRun googleProjectId googleLocation].

Lemma CONFIG_set_threshold (env : Env) (threshold : list N) :
  threshold <> [] ->
  CONFIG (<[ Js.lit "SEVERITY_THRESHOLD" := threshold ]> env)
  = withSeverityThreshold threshold (CONFIG env).
Proof.
  intros Ht. unfold CONFIG, withSeverityThreshold. config_fields.
  rewrite getenv_same.
  rewrite !getenv_other by discriminate.
  destruct threshold; [ contradiction | reflexivity ].
Qed.

Lemma CONFIG_set_maxTokens (env : Env) (text : list N) :
  text <> [] ->
  CONFIG (<[ Js.lit "MAX_TOKENS" := text ]> env)
  = withMaxTokens (JsString.parseIntString text) (CONFIG env).
Proof.
  intros Ht. unfold CONFIG, withMaxTokens. config_fields.
  rewrite getenv_same.
  rewrite !getenv_other by discriminate.
  destruct text; [ contradiction | reflexivity ].
Qed.

(** X15.  [validateConfig] upper-cases the severity threshold before it
    compares it with the four names, but [CONFIG] keeps the text as given
    and [filterBySeverity] compares it as it is.  So a threshold that
    differs from a severity name only by case is accepted and stored
    unchanged, and with it the filter keeps no finding at all. *)
Theorem threshold_case_validated_but_not_filtered (env : Env)
    (threshold : list N) :
  validateConfig (CONFIG env) env = Valid ->
  In (JsString.toUpperCase threshold) validSeverities ->
  let env' := <[ Js.lit "SEVERITY_THRESHOLD" := threshold ]> env in
  validateConfig (CONFIG env') env' = Valid
  /\ severityThreshold (CONFIG env') = threshold
  /\ (~ In threshold validSeverities ->
      forall findings,
        Forall (fun f => isNull f = false /\ hasKeyText f = true) findings ->
        Review.filterBySeverity (severityThreshold (CONFIG env')) findings
        = Js.Normal []).
Proof.
  intros Hvalid Hupper. cbv zeta.
  assert (Hne : threshold <> []).
  { intros ->. simpl in Hupper. intuition discriminate. }
  rewrite (CONFIG_set_threshold _ _ Hne).
  split; [ | split ].
  - apply (validateConfig_accepted _ _ (CONFIG_provider_truthy env)) in Hvalid.
    apply validateConfig_accepted.
    { apply (CONFIG_provider_truthy env). }
    destruct Hvalid. constructor; try assumption.
    apply listIncludes_In. exact Hupper.
  - reflexivity.
  - intros Hraw findings Hfindings.
    apply unranked_threshold_keeps_nothing;
      [ apply valid_threshold_not_prototype | | ]; assumption.
Qed.

Lemma threshold_case_validated_but_not_filtered_witness :
  let env' := <[ Js.lit "SEVERITY_THRESHOLD" := Js.lit "high" ]> exampleEnv in
  validateConfig (CONFIG env') env' = Valid
  /\ Review.filterBySeverity (severityThreshold (CONFIG env'))
       [ finding (sev "CRITICAL") "a.js" 2 "c";
         finding (sev "HIGH") "b.js" 4 "h" ]
     = Js.Normal [].
Proof.
  cbv zeta.
  destruct (threshold_case_validated_but_not_filtered exampleEnv
              (Js.lit "high")) as (Hvalid & _ & Hnone).
  - vm_compute. reflexivity.
  - right. left. reflexivity.
  - split; [ exact Hvalid | ].
    apply Hnone.
    + vm_compute. intuition discriminate.
    + repeat constructor.
Defined.

(** X16.  The bounds of [validateConfig] on [maxTokens] are two
    comparisons, both false on NaN: a MAX_TOKENS that [parseInt] cannot
    read passes validation, and the configured budget is NaN. *)
Theorem non_numeric_budget_passes_validation (env : Env) (text : list N) :
  validateConfig (CONFIG env) env = Valid ->
  text <> [] ->
  JsString.parseIntString text = JsString.NotANumber ->
  let env' := <[ Js.lit "MAX_TOKENS" := text ]> env in
  validateConfig (CONFIG env') env' = Valid
  /\ maxTokens (CONFIG env') = JsString.NotANumber.
Proof.
  intros Hvalid Hne Hnan. cbv zeta.
  rewrite (CONFIG_set_maxTokens _ _ Hne), Hnan.
  split; [ | reflexivity ].
  apply (validateConfig_accepted _ _ (CONFIG_provider_truthy env)) in Hvalid.
  apply validateConfig_accepted.
  { apply (CONFIG_provider_truthy env). }
  destruct Hvalid. constructor; try assumption. reflexivity.
Qed.

Lemma non_numeric_budget_passes_validation_witness :
  let env' := <[ Js.lit "MAX_TOKENS" := Js.lit "lots" ]> exampleEnv in
  validateConfig (CONFIG env') env' = Valid
  /\ maxTokens (CONFIG env') = JsString.NotANumber.
Proof.
  apply (non_numeric_budget_passes_validation exampleEnv (Js.lit "lots")).
  - vm_compute. reflexivity.
  - discriminate.
  - reflexivity.
Defined.

Lemma CONFIG_set_baseBranch (env : Env) (branch : list N) :
  CONFIG (<[ Js.lit "BASE_REF" := branch ]> env)
  = withBaseBranch (Some branch) (CONFIG env).
Proof.
  unfold CONFIG, withBaseBranch. config_fields.
  rewrite getenv_same.
  rewrite !getenv_other by discriminate.
  reflexivity.
Qed.

(** X17.  [validateConfig] only asks the base branch to be non-empty, and
    [getPRChanges] puts it into the command line as it is: any non-empty
    BASE_REF passes validation, and the first command handed to [execSync]
    is [git diff origin/<BASE_REF>...HEAD] with that text. *)
Theorem base_branch_reaches_the_shell_unchecked (env : Env)
    (branch : list N) :
  validateConfig (CONFIG env) env = Valid ->
  branch <> [] ->
  let env' := <[ Js.lit "BASE_REF" := branch ]> env in
  validateConfig (CONFIG env') env' = Valid
  /\ forall execSync,
       List.head (fst (ReviewIO.getPRChanges (baseBranch (CONFIG env'))
                         execSync))
       = Some (Js.lit "git diff origin/" ++ branch ++ Js.lit "...HEAD").
Proof.
  intros Hvalid Hne. cbv zeta.
  rewrite CONFIG_set_baseBranch.
  split.
  - apply (validateConfig_accepted _ _ (CONFIG_provider_truthy env)) in Hvalid.
    apply validateConfig_accepted.
    { apply (CONFIG_provider_truthy env). }
    destruct Hvalid. constructor; try assumption.
    destruct branch; [ contradiction | reflexivity ].
  - intros execSync. unfold ReviewIO.getPRChanges. cbv zeta.
    cbn [baseBranch withBaseBranch].
    destruct (execSync (ReviewIO.diffCommand (Some branch))); [ | reflexivity ].
    destruct (execSync (ReviewIO.namesCommand (Some branch))); reflexivity.
Qed.

Lemma base_branch_reaches_the_shell_unchecked_witness :
  let env' := <[ Js.lit "BASE_REF" := Js.lit "main;id" ]> exampleEnv in
  validateConfig (CONFIG env') env' = Valid
  /\ forall execSync,
       List.head (fst (ReviewIO.getPRChanges (baseBranch (CONFIG env'))
                         execSync))
       = Some (Js.lit "git diff origin/main;id...HEAD").
Proof.
  apply (base_branch_reaches_the_shell_unchecked exampleEnv
           (Js.lit "main;id")).
  - vm_compute. reflexivity.
  - discriminate.
Defined.

End ValidationProperties.

(** ** Git output and guidelines *)

Lemma split_pieces_without (sep : N) (s : list N) :
  Forall (fun piece => ~ In sep piece) (JsString.split sep s).
Proof.
  induction s as [|c s IH]; [ repeat constructor; auto | ].
  simpl. destruct (N.eqb_spec c sep) as [->|Hc].
  - constructor; [ auto | exact IH ].
  - destruct (JsString.split sep s) as [|piece pieces];
      [ repeat constructor; simpl; intuition | ].
    inversion IH as [|? ? Hpiece Hpieces]. subst.
    constructor; [ | exact Hpieces ].
    simpl. intuition.
Qed.

Lemma split_join (sep : N) (names : list (list N)) :
  names <> [] -> Forall (fun name => ~ In sep name) names ->
  JsString.split sep (JsString.join sep names) = names.
Proof.
  induction names as [|name rest IH]; [ contradiction | ].
  intros _ Hnames. inversion Hnames as [|? ? Hname Hrest]. subst.
  destruct rest as [|next rest].
  - cbn [JsString.join]. apply split_without, Hname.
  - change (JsString.join sep (name :: next :: rest))
      with (name ++ sep :: JsString.join sep (next :: rest)).
    rewrite (split_at_first _ _ _ Hname), IH; [ reflexivity | discriminate | ].
    exact Hrest.
Qed.

Lemma nameLines_join (names : list (list N)) :
  names <> [] -> nameLines names = JsString.join 10 names ++ [10].
Proof.
  induction names as [|name rest IH]; [ contradiction | ].
  intros _. unfold nameLines in *. cbn [map concat].
  destruct rest as [|next rest].
  - cbn [map concat JsString.join]. rewrite app_nil_r. reflexivity.
  - rewrite IH by discriminate.
    change (JsString.join 10 (name :: next :: rest))
      with (name ++ 10 :: JsString.join 10 (next :: rest)).
    rewrite <- !app_assoc. reflexivity.
Qed.

Lemma trimStart_plain (s : list N) :
  match s with
  | c :: _ => JsString.isWhiteSpace c = false
  | [] => True
  end -> JsString.trimStart s = s.
Proof. destruct s as [|c s]; [ reflexivity | ]. simpl. intros ->. reflexivity. Qed.

Lemma join_ends_with (names : list (list N)) (name : list N) :
  exists pre, JsString.join 10 (names ++ [name]) = pre ++ name.
Proof.
  induction names as [|first rest [pre IH]].
  - exists []. reflexivity.
  - destruct rest as [|next rest].
    + exists (first ++ [10]). cbn [app JsString.join].
      rewrite <- app_assoc. reflexivity.
    + exists (first ++ 10 :: pre).
      change (JsString.join 10 ((first :: next :: rest) ++ [name]))
        with (first ++ 10 :: JsString.join 10 ((next :: rest) ++ [name])).
      rewrite IH, <- app_assoc. reflexivity.
Qed.

Lemma trimEnd_newline (s : list N) :
  JsString.trimEnd (s ++ [10]) = JsString.trimEnd s.
Proof. unfold JsString.trimEnd. rewrite rev_app_distr. reflexivity. Qed.

Lemma trimEnd_plain (pre : list N) (c : N) :
  JsString.isWhiteSpace c = false ->
  JsString.trimEnd (pre ++ [c]) = pre ++ [c].
Proof.
  intros Hc. unfold JsString.trimEnd. rewrite rev_app_distr.
  cbn [rev app JsString.trimStart]. rewrite Hc.
  change (c :: rev pre) with ([c] ++ rev pre).
  rewrite rev_app_distr, rev_involutive. reflexivity.
Qed.

Lemma plainName_spec (name : list N) :
  plainName name = true ->
  name <> [] /\ ~ In 10 name
  /\ JsString.trimStart name = name
  /\ exists pre c, name = pre ++ [c] /\ JsString.isWhiteSpace c = false.
Proof.
  unfold plainName. destruct name as [|first rest]; [ discriminate | ].
  rewrite !andb_true_iff, !negb_true_iff.
  intros [[Hfirst Hlast] Hall].
  split; [ discriminate | ].
  split.
  { intros Hin. rewrite forallb_forall in Hall. specialize (Hall _ Hin).
    discriminate. }
  split; [ cbn [JsString.trimStart]; rewrite Hfirst; reflexivity | ].
  destruct (exists_last (l := first :: rest)) as (pre & c & E);
    [ discriminate | ].
  exists pre, c. split; [ exact E | ].
  rewrite E, last_last in Hlast. exact Hlast.
Qed.

(** X18.  What [getPRChanges] makes of the output of
    [git diff --name-only]: names that are not empty and hold no line feed;
    for names that are non-empty, hold no line feed and neither start nor
    end with white space, exactly the names that git printed, one per line;
    and no name for an empty output. *)
Theorem changedFiles_are_the_names_git_printed :
  (forall output name,
      In name (ReviewIO.changedFilesOf output) ->
      name <> [] /\ ~ In 10 name)
  /\ (forall names,
        Forall (fun name => plainName name = true) names ->
        ReviewIO.changedFilesOf (nameLines names) = names)
  /\ ReviewIO.changedFilesOf [] = [].
Proof.
  split; [ | split; [ | reflexivity ] ].
  - intros output name Hin. unfold ReviewIO.changedFilesOf in Hin.
    apply filter_In in Hin as [Hin Htruthy].
    split; [ destruct name; [ discriminate | discriminate ] | ].
    pose proof (split_pieces_without 10 (JsString.trim output)) as Hall.
    rewrite List.Forall_forall in Hall. apply Hall, Hin.
  - intros names Hnames. unfold ReviewIO.changedFilesOf.
    induction names as [|final rest _] using rev_ind; [ reflexivity | ].
    apply Forall_app in Hnames as [Hrest Hfinal].
    pose proof (Forall_inv Hfinal) as Hplain. cbv beta in Hplain.
    destruct (plainName_spec _ Hplain) as (Hne & _ & _ & pre & c & Hc & Hws).
    assert (Hall : Forall (fun name => plainName name = true)
                     (rest ++ [final])).
    { apply Forall_app. split; assumption. }
    rewrite nameLines_join by (destruct rest; discriminate).
    assert (Htrim : JsString.trim (JsString.join 10 (rest ++ [final]) ++ [10])
                    = JsString.join 10 (rest ++ [final])).
    { unfold JsString.trim.
      assert (Hstart : forall t,
                 JsString.trimStart (JsString.join 10 (rest ++ [final]) ++ t)
                 = JsString.join 10 (rest ++ [final]) ++ t).
      { intros t.
        destruct rest as [|first rest'].
        - cbn [app JsString.join].
          destruct final as [|x final]; [ contradiction | ].
          unfold plainName in Hplain.
          rewrite !andb_true_iff, !negb_true_iff in Hplain.
          destruct Hplain as [[Hx _] _].
          cbn [app JsString.trimStart]. rewrite Hx. reflexivity.
        - pose proof (Forall_inv Hrest) as Hfirst. cbv beta in Hfirst.
          destruct first as [|x first]; [ discriminate | ].
          unfold plainName in Hfirst.
          rewrite !andb_true_iff, !negb_true_iff in Hfirst.
          destruct Hfirst as [[Hx _] _].
          destruct (rest' ++ [final]) as [|next more] eqn:Hmore;
            [ destruct rest'; discriminate | ].
          cbn [app]. rewrite Hmore.
          change (JsString.join 10 ((x :: first) :: next :: more))
            with ((x :: first) ++ 10 :: JsString.join 10 (next :: more)).
          cbn [app JsString.trimStart]. rewrite Hx. reflexivity. }
      rewrite Hstart, trimEnd_newline.
      destruct (join_ends_with rest final) as [before Hjoin].
      rewrite Hjoin, Hc, app_assoc. apply trimEnd_plain, Hws. }
    rewrite Htrim, split_join.
    + apply forallb_filter_id. apply forallb_forall.
      intros name Hin. rewrite List.Forall_forall in Hall.
      destruct (plainName_spec _ (Hall _ Hin)) as (Hn & _).
      destruct name; [ contradiction | reflexivity ].
    + destruct rest; discriminate.
    + eapply Forall_impl; [ exact Hall | ].
      intros name Hp. cbv beta. apply (plainName_spec _ Hp).
Qed.

(** X19.  [readGuidelines] returns at most 50000 code units; the only
    file it reads is the resolved guidelines path, and only when the given
    path holds no [..], is not absolute and resolves below the real path of
    the workspace; a path with [..] or an absolute one gives the empty
    guidelines without touching the file system; and it throws only when
    the real path of the workspace cannot be found. *)
Theorem readGuidelines_is_bounded_and_confined
    (guidelinesPath workspace : list N) (fs : ReviewIO.FileSystem) :
  let r := ReviewIO.readGuidelines guidelinesPath workspace fs in
  (forall guidelines,
      snd r = Js.Normal guidelines ->
      N.of_nat (List.length guidelines) <= 50000)
  /\ (forall p,
        In (ReviewIO.ReadFile p) (fst r) ->
        p = ReviewIO.resolve fs workspace guidelinesPath
        /\ Js.includes guidelinesPath (Js.lit "..") = false
        /\ Validation.isAbsolute guidelinesPath = false
        /\ exists real,
             ReviewIO.realpathSync fs workspace = Js.Normal real
             /\ Js.startsWith p real = true)
  /\ (Js.includes guidelinesPath (Js.lit "..") = true
      \/ Validation.isAbsolute guidelinesPath = true -> r = ([], Js.Normal []))
  /\ (forall message,
        snd r = Js.Throw message ->
        ReviewIO.realpathSync fs workspace = Js.Throw message).
Proof.
  cbv zeta. unfold ReviewIO.readGuidelines.
  destruct (Js.includes guidelinesPath (Js.lit "..")) eqn:Hdots;
    cbn [orb].
  { split; [ | split; [ | split ] ]; cbn [fst snd].
    - intros g E. inversion E. cbn [List.length]; lia.
    - intros p [].
    - reflexivity.
    - discriminate. }
  destruct (Validation.isAbsolute guidelinesPath) eqn:Habs.
  { split; [ | split; [ | split ] ]; cbn [fst snd].
    - intros g E. inversion E. cbn [List.length]; lia.
    - intros p [].
    - reflexivity.
    - discriminate. }
  destruct (ReviewIO.realpathSync fs workspace) as [real|m] eqn:Hreal.
  2:{ split; [ | split; [ | split ] ]; cbn [fst snd].
      - discriminate.
      - intros p [E|[]]. discriminate.
      - intros [E|E]; discriminate.
      - intros message E. exact E. }
  destruct (Js.startsWith (ReviewIO.resolve fs workspace guidelinesPath) real)
    eqn:Hprefix; cbn [negb].
  2:{ split; [ | split; [ | split ] ]; cbn [fst snd].
      - intros g E. inversion E. cbn [List.length]; lia.
      - intros p [E|[]]. discriminate.
      - intros [E|E]; discriminate.
      - discriminate. }
  destruct (ReviewIO.existsSync fs _).
  2:{ split; [ | split; [ | split ] ]; cbn [fst snd].
      - intros g E. inversion E. cbn [List.length]; lia.
      - intros p [E|[E|[]]]; discriminate.
      - intros [E|E]; discriminate.
      - discriminate. }
  destruct (ReviewIO.readFileSync fs _) as [g|m]; cbn [fst snd].
  - split; [ | split; [ | split ] ].
    + intros guidelines E. inversion E. subst guidelines.
      destruct (N.ltb_spec 50000 (N.of_nat (List.length g))).
      * rewrite length_firstn. lia.
      * assumption.
    + intros p [E|[E|[E|[]]]]; try discriminate.
      inversion E. subst p.
      split; [ reflexivity | ]. split; [ reflexivity | ].
      split; [ reflexivity | ]. exists real. auto.
    + intros [E|E]; discriminate.
    + discriminate.
  - split; [ | split; [ | split ] ].
    + intros guidelines E. inversion E. cbn [List.length]; lia.
    + intros p [E|[E|[E|[]]]]; try discriminate.
      inversion E. subst p.
      split; [ reflexivity | ]. split; [ reflexivity | ].
      split; [ reflexivity | ]. exists real. auto.
    + intros [E|E]; discriminate.
    + discriminate.
Qed.

(** ** Redaction *)

Section SanitizeProperties.
Import Sanitize.

Lemma tokenRun_cons (c : N) (s : list N) :
  tokenRun (c :: s) = if isTokenChar c then S (tokenRun s) else 0%nat.
Proof. unfold tokenRun. simpl. destruct (isTokenChar c); reflexivity. Qed.

Lemma tokenLength_some (before : option N) (s : list N) (n : nat) :
  tokenLength before s = Some n ->
  boundary before (List.head s) = true
  /\ (40 <= n <= tokenRun s)%nat /\ boundaryAt s n = true.
Proof.
  unfold tokenLength. fold (tokenRun s).
  destruct (boundary before (List.head s)); [ | discriminate ].
  intros Hfind. apply find_some in Hfind as [Hin Hb].
  apply in_rev, in_seq in Hin. repeat split; try assumption; lia.
Qed.

Lemma tokenLength_none (before : option N) (s : list N) (k : nat) :
  tokenLength before s = None ->
  boundary before (List.head s) = true ->
  (40 <= k <= tokenRun s)%nat -> boundaryAt s k = false.
Proof.
  unfold tokenLength. fold (tokenRun s).
  intros Hfind Hb Hk. rewrite Hb in Hfind.
  apply (find_none _ _ Hfind). apply in_rev. rewrite rev_involutive.
  apply in_seq. lia.
Qed.

Lemma redactFrom_skip (n : nat) :
  forall s before,
    (n <= List.length s)%nat ->
    redactFrom before s n
    = redactFrom (match n with
                  | O => before
                  | S m => List.nth_error s m
                  end) (List.skipn n s) 0.
Proof.
  induction n as [|n IH]; intros s before Hn; [ reflexivity | ].
  destruct s as [|c s]; [ simpl in Hn; lia | ].
  simpl in Hn. cbn [redactFrom skipn]. rewrite IH by lia.
  destruct n; reflexivity.
Qed.

Lemma REDACTED_head : exists rest, REDACTED = 42 :: rest.
Proof. eexists. reflexivity. Qed.

(** As long as the output of the replacement is a run of token
    characters, it is the input: the replacement text starts with a star,
    which is no token character. *)
Lemma redact_prefix (k : nat) :
  forall s before,
    (k <= tokenRun (redactFrom before s 0))%nat ->
    List.firstn k (redactFrom before s 0) = List.firstn k s
    /\ (k <= tokenRun s)%nat
    /\ (List.nth_error (redactFrom before s 0) k = List.nth_error s k
        \/ (List.nth_error (redactFrom before s 0) k = Some 42
            /\ boundary (prevAt before s k) (List.nth_error s k) = true)).
Proof.
  induction k as [|k IH]; intros s before Hk.
  - split; [ reflexivity | ]. split; [ lia | ].
    destruct s as [|c s]; [ left; reflexivity | ].
    cbn [redactFrom].
    destruct (tokenLength before (c :: s)) as [n|] eqn:Hmatch.
    + right. split; [ reflexivity | ].
      apply tokenLength_some in Hmatch as (Hb & _). exact Hb.
    + left. reflexivity.
  - destruct s as [|c s]; [ unfold tokenRun in Hk; simpl in Hk; lia | ].
    cbn [redactFrom] in *.
    destruct (tokenLength before (c :: s)) as [n|] eqn:Hmatch.
    + exfalso. destruct REDACTED_head as [rest Hr]. rewrite Hr in Hk.
      cbn [app] in Hk. rewrite tokenRun_cons in Hk.
      change (isTokenChar 42) with false in Hk. cbv iota in Hk. lia.
    + rewrite tokenRun_cons in Hk.
      destruct (isTokenChar c) eqn:Hc; [ | lia ].
      destruct (IH s (Some c)) as (Hfirst & Hrun & Hnext); [ lia | ].
      split; [ cbn [firstn]; f_equal; exact Hfirst | ].
      split; [ rewrite tokenRun_cons, Hc; lia | ].
      cbn [nth_error prevAt].
      destruct k; exact Hnext.
Qed.

Lemma firstn_nth_error {A : Type} (k : nat) :
  forall (i : nat) (l l' : list A),
    List.firstn k l = List.firstn k l' -> (i < k)%nat ->
    List.nth_error l i = List.nth_error l' i.
Proof.
  induction k as [|k IH]; intros i l l' Hfirst Hi; [ lia | ].
  destruct l as [|x l], l' as [|y l']; try discriminate; [ reflexivity | ].
  cbn [firstn] in Hfirst. inversion Hfirst. subst y.
  destruct i as [|i]; [ reflexivity | ].
  cbn [nth_error]. apply IH; [ assumption | lia ].
Qed.

(** Where the input has no match, the output has none either. *)
Lemma redact_keeps_none (before before' : option N) (s : list N) :
  tokenLength before s = None ->
  (boundary before' (List.head s) = true ->
   boundary before (List.head s) = true) ->
  tokenLength before' (redactFrom before s 0) = None.
Proof.
  intros Hnone Hrel.
  destruct (tokenLength before' (redactFrom before s 0)) as [k|] eqn:Hout;
    [ exfalso | reflexivity ].
  apply tokenLength_some in Hout as (Hstart & Hk & Hend).
  destruct (redact_prefix k s before) as (Hfirst & Hrun & Hnext); [ lia | ].
  assert (Hhead : List.head (redactFrom before s 0) = List.head s).
  { pose proof (firstn_nth_error k 0 _ _ Hfirst ltac:(lia)) as H0.
    destruct (redactFrom before s 0), s; simpl in *; congruence. }
  rewrite Hhead in Hstart. specialize (Hrel Hstart).
  assert (Hprev : List.nth_error (redactFrom before s 0) (k - 1)
                  = List.nth_error s (k - 1)).
  { apply (firstn_nth_error k); [ exact Hfirst | lia ]. }
  assert (Hat : boundaryAt s k = true).
  { unfold boundaryAt in *. rewrite Hprev in Hend.
    destruct Hnext as [Hsame|[Hstar Hb]].
    - rewrite <- Hsame. exact Hend.
    - destruct k as [|k]; [ lia | ].
      cbn [prevAt] in Hb. replace (S k - 1)%nat with k by lia. exact Hb. }
  rewrite (tokenLength_none _ _ k Hnone Hrel) in Hat by lia. discriminate.
Qed.

(** No position of the replacement text starts a match, whatever comes
    before and after it. *)
Lemma hasToken_REDACTED (before : option N) (t : list N) :
  hasToken before (REDACTED ++ t) = hasToken (Some 42) t.
Proof.
  unfold REDACTED.
  change (Js.lit "***REDACTED***")
    with [42; 42; 42; 82; 69; 68; 65; 67; 84; 69; 68; 42; 42; 42].
  cbn [app hasToken].
  assert (Hstar : forall b rest, tokenLength b (42 :: rest) = None).
  { intros b rest. unfold tokenLength. cbn [head].
    destruct (boundary b (Some 42)); reflexivity. }
  rewrite !Hstar.
  assert (Hword : forall b w, tokenLength b w = None ->
                  match tokenLength b w with
                  | Some _ => true
                  | None => hasToken (Some 42) t
                  end = hasToken (Some 42) t).
  { intros b w ->. reflexivity. }
  repeat match goal with
         | |- context [ tokenLength ?b (?c :: ?w) ] =>
             replace (tokenLength b (c :: w)) with (@None nat)
               by (unfold tokenLength; cbn [head];
                   destruct (boundary b (Some c)); reflexivity)
         end.
  reflexivity.
Qed.

Lemma nth_error_skipn_head {A : Type} (n : nat) :
  forall l : list A, List.head (List.skipn n l) = List.nth_error l n.
Proof.
  induction n as [|n IH]; intros l; destruct l as [|x l]; try reflexivity.
  cbn [skipn nth_error]. apply IH.
Qed.

Lemma tokenRun_length (s : list N) : (tokenRun s <= List.length s)%nat.
Proof.
  induction s as [|c s IH]; [ unfold tokenRun; simpl; lia | ].
  rewrite tokenRun_cons. destruct (isTokenChar c); simpl; lia.
Qed.

(** The output of the eighth replacement holds no match of the eighth
    pattern. *)
Lemma redactFrom_clean (n : nat) :
  forall (s : list N) (before before' : option N),
    (List.length s <= n)%nat ->
    (boundary before' (List.head s) = true ->
     boundary before (List.head s) = true) ->
    hasToken before' (redactFrom before s 0) = false.
Proof.
  induction n as [|n IH]; intros s before before' Hlen Hrel.
  - destruct s; [ reflexivity | simpl in Hlen; lia ].
  - destruct s as [|c s]; [ reflexivity | ].
    pose proof (redact_keeps_none before before' (c :: s)) as Hkeep.
    cbn [redactFrom] in *.
    destruct (tokenLength before (c :: s)) as [m|] eqn:Hmatch.
    + rewrite hasToken_REDACTED.
      apply tokenLength_some in Hmatch as (_ & Hm & Hend).
      pose proof (tokenRun_length (c :: s)) as Hrun. simpl in Hrun, Hlen.
      rewrite redactFrom_skip by lia.
      replace (List.skipn (m - 1) s) with (List.skipn m (c :: s))
        by (destruct m; [ lia | cbn [skipn]; f_equal; lia ]).
      apply IH.
      * rewrite length_skipn. simpl. lia.
      * intros _. rewrite nth_error_skipn_head.
        unfold boundaryAt in Hend.
        destruct m as [|[|m]]; try lia.
        replace (S (S m) - 1)%nat with (S m) in * by lia.
        cbn [nth_error] in Hend |- *. exact Hend.
    + cbn [hasToken]. rewrite (Hkeep eq_refl Hrel).
      apply IH; [ simpl in Hlen; lia | auto ].
Qed.

Lemma wordRun_cons (c : N) (s : list N) :
  wordRun (c :: s) = if isWord c then S (wordRun s) else 0%nat.
Proof. unfold wordRun. simpl. destruct (isWord c); reflexivity. Qed.

Lemma afterWord_cons (c : N) (s : list N) :
  afterWord (c :: s) = if isWord c then afterWord s else c :: s.
Proof. unfold afterWord. simpl. destruct (isWord c); reflexivity. Qed.

Lemma isWord_token (c : N) : isWord c = true -> isTokenChar c = true.
Proof. unfold isTokenChar. intros ->. reflexivity. Qed.

Lemma wordRun_tokenRun (s : list N) : (wordRun s <= tokenRun s)%nat.
Proof.
  induction s as [|c s IH]; [ unfold wordRun, tokenRun; simpl; lia | ].
  rewrite wordRun_cons, tokenRun_cons.
  destruct (isWord c) eqn:Hc; [ | lia ].
  rewrite (isWord_token _ Hc). lia.
Qed.

(** The end of the word run is a word boundary. *)
Lemma wordRun_boundary (s : list N) :
  (1 <= wordRun s)%nat -> boundaryAt s (wordRun s) = true.
Proof.
  unfold boundaryAt.
  induction s as [|c s IH]; [ unfold wordRun; simpl; lia | ].
  rewrite wordRun_cons. destruct (isWord c) eqn:Hc; [ | lia ].
  intros _. cbn [Nat.sub nth_error]. rewrite Nat.sub_0_r.
  destruct s as [|d s].
  - unfold wordRun. simpl. unfold boundary. simpl. rewrite Hc. reflexivity.
  - rewrite wordRun_cons in *. destruct (isWord d) eqn:Hd.
    + specialize (IH ltac:(lia)).
      cbn [Nat.sub] in IH. rewrite Nat.sub_0_r in IH. exact IH.
    + unfold boundary. simpl. rewrite Hc, Hd. reflexivity.
Qed.

(** A run of 40 word characters at the head, with no word character
    before it, is a match. *)
Lemma word_run_matches (before : option N) (s : list N) :
  wordBefore before = false -> (40 <= wordRun s)%nat ->
  exists n, tokenLength before s = Some n.
Proof.
  intros Hb Hrun.
  destruct (tokenLength before s) as [n|] eqn:Hmatch; [ eauto | exfalso ].
  assert (Hstart : boundary before (List.head s) = true).
  { unfold boundary. rewrite Hb.
    destruct s as [|c s]; [ unfold wordRun in Hrun; simpl in Hrun; lia | ].
    rewrite wordRun_cons in Hrun. simpl.
    destruct (isWord c); [ reflexivity | lia ]. }
  pose proof (wordRun_tokenRun s) as Hle.
  pose proof (tokenLength_none _ _ (wordRun s) Hmatch Hstart ltac:(lia))
    as Hno.
  pose proof (wordRun_boundary s ltac:(lia)) as Hyes. congruence.
Qed.

Lemma hasWordRun_afterWord (s : list N) :
  hasWordRun s = true -> (wordRun s < 40)%nat ->
  hasWordRun (afterWord s) = true.
Proof.
  induction s as [|c s IH]; [ discriminate | ].
  cbn [hasWordRun]. rewrite wordRun_cons, afterWord_cons.
  destruct (isWord c) eqn:Hc.
  - intros Hhas Hrun. apply orb_true_iff in Hhas as [Hlong|Hhas].
    + apply Nat.leb_le in Hlong. lia.
    + apply IH; [ exact Hhas | lia ].
  - intros Hhas _. cbn [hasWordRun]. rewrite wordRun_cons, Hc. exact Hhas.
Qed.

(** A text with 40 word characters in a row holds a match. *)
Lemma word_run_found (s : list N) :
  forall before,
    hasWordRun (if wordBefore before then afterWord s else s) = true ->
    hasToken before s = true.
Proof.
  induction s as [|c s IH]; intros before Hhas.
  - destruct (wordBefore before); discriminate.
  - cbn [hasToken].
    destruct (tokenLength before (c :: s)) as [n|] eqn:Hmatch;
      [ reflexivity | ].
    apply IH. cbn [wordBefore].
    destruct (wordBefore before) eqn:Hb.
    + rewrite afterWord_cons in Hhas.
      destruct (isWord c) eqn:Hc; [ exact Hhas | ].
      cbn [hasWordRun] in Hhas. rewrite wordRun_cons, Hc in Hhas.
      exact Hhas.
    + cbn [hasWordRun] in Hhas.
      destruct (Nat.leb_spec 40 (wordRun (c :: s))) as [Hlong|Hshort].
      * destruct (word_run_matches before (c :: s) Hb Hlong) as [n Hn].
        congruence.
      * cbn [orb] in Hhas.
        destruct (isWord c) eqn:Hc; [ | exact Hhas ].
        apply hasWordRun_afterWord; [ exact Hhas | ].
        rewrite wordRun_cons, Hc in Hshort. lia.
Qed.

Lemma hasWordRun_app (pre w post : list N) :
  List.forallb isWord w = true -> (40 <= List.length w)%nat ->
  hasWordRun (pre ++ w ++ post) = true.
Proof.
  intros Hw Hlen.
  assert (Hrun : forall t, (List.length w <= wordRun (w ++ t))%nat).
  { intros t. clear Hlen. induction w as [|c w IH]; [ simpl; lia | ].
    cbn [forallb] in Hw. apply andb_true_iff in Hw as [Hc Hw].
    cbn [app]. rewrite wordRun_cons, Hc. simpl. specialize (IH Hw). lia. }
  induction pre as [|c pre IH].
  - destruct w as [|c w]; [ simpl in Hlen; lia | ].
    cbn [app hasWordRun]. apply orb_true_iff. left.
    apply Nat.leb_le. specialize (Hrun post). cbn [app] in Hrun. lia.
  - cbn [app hasWordRun]. rewrite IH. apply orb_true_r.
Qed.

(** X20.  Whatever the message, the text [sanitizeErrorMessage] returns
    has no match of the last pattern left, and no run of 40 or more letters,
    digits and underscores anywhere in it. *)
Theorem sanitized_message_holds_no_long_token (message : option (list N)) :
  hasToken None (sanitizeErrorMessage message) = false
  /\ (forall pre w post,
        sanitizeErrorMessage message = pre ++ w ++ post ->
        List.forallb isWord w = true -> (List.length w < 40)%nat).
Proof.
  assert (Hclean : hasToken None (sanitizeErrorMessage message) = false).
  { unfold sanitizeErrorMessage.
    destruct (Js.whenTruthy message) as [text|]; [ | reflexivity ].
    unfold redactTokens. eapply redactFrom_clean; [ reflexivity | auto ]. }
  split; [ exact Hclean | ].
  intros pre w post Hout Hw.
  destruct (Nat.lt_ge_cases (List.length w) 40) as [Hlt|Hge]; [ exact Hlt | ].
  exfalso. rewrite Hout in Hclean.
  rewrite (word_run_found _ None) in Hclean; [ discriminate | ].
  cbn [wordBefore]. apply hasWordRun_app; assumption.
Qed.

Lemma replaceAll_unmarked (p : pattern) (s : list N) :
  Js.includes (searched p s) (marker p) = false -> replaceAll p s = s.
Proof.
  unfold replaceAll, searched.
  induction s as [|c s IH]; [ reflexivity | ].
  intros Hfree. cbn [replaceFrom]. unfold matchLength.
  assert (Hparts : Js.startsWith
                     (if ignoreCase p then Js.foldCase (c :: s) else c :: s)
                     (marker p) = false
                   /\ Js.includes (if ignoreCase p then Js.foldCase s else s)
                        (marker p) = false).
  { destruct (ignoreCase p); cbn [Js.foldCase map Js.includes] in Hfree;
      apply orb_false_iff in Hfree; exact Hfree. }
  destruct Hparts as [Hstart Hrest].
  rewrite Hstart. f_equal. apply IH, Hrest.
Qed.

Lemma redactFrom_short (s : list N) :
  hasTokenRun s = false -> forall before, redactFrom before s 0 = s.
Proof.
  induction s as [|c s IH]; [ reflexivity | ].
  cbn [hasTokenRun]. intros Hshort before.
  apply orb_false_iff in Hshort as [Hrun Hrest].
  apply Nat.leb_gt in Hrun.
  cbn [redactFrom].
  assert (Hnone : tokenLength before (c :: s) = None).
  { unfold tokenLength. fold (tokenRun (c :: s)).
    replace (tokenRun (c :: s) + 1 - 40)%nat with 0%nat by lia.
    destruct (boundary before (List.head (c :: s))); reflexivity. }
  rewrite Hnone. f_equal. apply IH, Hrest.
Qed.

(** X21.  A non-empty message that holds none of the seven markers (the
    case-insensitive ones compared without case) and no run of 40 token
    characters is returned unchanged: a secret of 39 characters without a
    known prefix is not redacted. *)
Theorem unmarked_short_text_is_not_redacted (message : list N) :
  message <> [] ->
  markerFree message = true ->
  hasTokenRun message = false ->
  sanitizeErrorMessage (Some message) = message.
Proof.
  intros Hne Hfree Hshort. unfold sanitizeErrorMessage.
  assert (Htruthy : Js.whenTruthy (Some message) = Some message).
  { destruct message; [ contradiction | reflexivity ]. }
  rewrite Htruthy.
  assert (Hstages : List.fold_left (fun sanitized p => replaceAll p sanitized)
                      PATTERNS message = message).
  { unfold markerFree in Hfree. revert Hfree.
    induction PATTERNS as [|p ps IH]; [ reflexivity | ].
    cbn [forallb fold_left]. intros Hfree.
    apply andb_true_iff in Hfree as [Hp Hps].
    apply negb_true_iff in Hp.
    rewrite (replaceAll_unmarked _ _ Hp). apply IH, Hps. }
  rewrite Hstages. unfold redactTokens. apply redactFrom_short, Hshort.
Qed.

Lemma unmarked_short_text_is_not_redacted_witness :
  sanitizeErrorMessage (Some shortSecret) = shortSecret.
Proof.
  apply (unmarked_short_text_is_not_redacted shortSecret).
  - discriminate.
  - vm_compute. reflexivity.
  - vm_compute. reflexivity.
Defined.

End SanitizeProperties.

(** ** Review comments and the dry run *)

Section CommentsProperties.
Import Comments.
Variable numberText : Z -> Z -> list N.
Variable memberText : list N -> list N.


Lemma mapC_normal {A B : Type} (g : A -> Js.completion B) (d : B)
    (l : list A) (ys : list B) :
  mapC g l = Js.Normal ys ->
  ys = List.map (fun x => match g x with Js.Normal y => y | Js.Throw _ => d end) l
  /\ List.Forall (fun x => exists y, g x = Js.Normal y) l.
Proof.
  revert ys. induction l as [|x l IH]; intros ys Hmap.
  - inversion Hmap. split; [ reflexivity | constructor ].
  - cbn [mapC] in Hmap.
    destruct (g x) as [y|m] eqn:Hx; [ | discriminate ].
    cbn in Hmap.
    destruct (mapC g l) as [ys'|m] eqn:Hl; [ | discriminate ].
    cbn in Hmap. inversion Hmap; subst ys.
    destruct (IH ys' eq_refl) as [Hys Hall].
    split.
    + cbn [List.map]. rewrite Hx. f_equal. exact Hys.
    + constructor; [ exists y; exact Hx | exact Hall ].
Qed.

Lemma mapC_all {A B : Type} (g : A -> Js.completion B) (d : B) (l : list A) :
  List.Forall (fun x => exists y, g x = Js.Normal y) l ->
  mapC g l
  = Js.Normal
      (List.map (fun x => match g x with Js.Normal y => y | Js.Throw _ => d end) l).
Proof.
  induction 1 as [|x l [y Hx] _ IH]; [ reflexivity | ].
  cbn [mapC List.map]. rewrite Hx. cbn. rewrite IH. reflexivity.
Qed.

Lemma reviewsOf_app (a b : list request) :
  reviewsOf (a ++ b) = reviewsOf a ++ reviewsOf b.
Proof. unfold reviewsOf. apply flat_map_app. Qed.

Lemma acceptedComments_app (octokit : Octokit) (before a b : list request) :
  acceptedComments octokit before (a ++ b)
  = (acceptedComments octokit before a
     + acceptedComments octokit (before ++ a) b)%nat.
Proof.
  revert before. induction a as [|rq a IH]; intros before.
  - cbn. rewrite app_nil_r. reflexivity.
  - cbn [app acceptedComments]. rewrite IH, <- app_assoc. cbn [app]. lia.
Qed.

(** The fallback loop only adds fallback comments, and counts the accepted
    ones. *)
Lemma fallback_spec (octokit : Octokit) (comments : list comment) :
  forall made posted,
  exists more,
    fst (fallback numberText octokit made comments posted) = made ++ more
    /\ List.forallb isFallback more = true
    /\ snd (fallback numberText octokit made comments posted)
       = (posted + acceptedComments octokit made more)%nat
    /\ (List.length more <= List.length comments)%nat
    /\ (acceptedComments octokit made more <= List.length comments)%nat.
Proof.
  induction comments as [|c comments IH]; intros made posted.
  - exists []. cbn. rewrite app_nil_r. repeat split; lia.
  - cbn [fallback].
    destruct (fallbackBody numberText c) as [text|m].
    + destruct (IH (made ++ [CreateComment text])
                  (match respond octokit made (CreateComment text) with
                   | Js.Normal _ => S posted
                   | Js.Throw _ => posted
                   end)) as (more & Hmade & Hfb & Hposted & Hlen & Hacc).
      exists (CreateComment text :: more).
      rewrite Hmade, Hposted, <- app_assoc.
      cbn [app forallb isFallback acceptedComments List.length andb].
      split; [ reflexivity | ]. split; [ exact Hfb | ].
      destruct (respond octokit made (CreateComment text));
        repeat split; lia.
    + destruct (IH made posted) as (more & Hmade & Hfb & Hposted & Hlen & Hacc).
      exists more. cbn [List.length]. repeat split; try assumption; lia.
Qed.

Lemma reviewsOf_fallback (more : list request) :
  List.forallb isFallback more = true -> reviewsOf more = [].
Proof.
  induction more as [|rq more IH]; [ reflexivity | ].
  cbn [forallb]. intros Hall. apply andb_true_iff in Hall as [Hrq Hmore].
  destruct rq; try discriminate. cbn. apply IH, Hmore.
Qed.

(** The loop over the files. *)
Lemma postFiles_spec (octokit : Octokit) (provider commitId : list N)
    (files : groups) :
  forall made posted posted',
  snd (postFiles numberText memberText octokit provider commitId made files
         posted) = Js.Normal posted' ->
  exists more,
    fst (postFiles numberText memberText octokit provider commitId made files
           posted) = made ++ more
    /\ reviewsOf more
       = List.map (fun entry => List.map (commentOf numberText memberText provider) (snd entry))
           files
    /\ List.Forall
         (fun entry =>
            List.Forall (fun f => exists c, toComment numberText memberText provider f = Js.Normal c)
              (snd entry)) files
    /\ posted' = (posted + acceptedComments octokit made more)%nat
    /\ (acceptedComments octokit made more
        <= List.length (List.concat (List.map snd files)))%nat.
Proof.
  induction files as [|[file fileFindings] files IH];
    intros made posted posted' Hrun.
  - cbn in Hrun. inversion Hrun; subst posted'.
    exists []. cbn. rewrite app_nil_r. repeat split; try lia. constructor.
  - cbn [postFiles] in Hrun |- *.
    destruct (mapC (toComment numberText memberText provider) fileFindings) as [comments|m] eqn:Hmap;
      [ | discriminate ].
    destruct (mapC_normal _ {| path := None; line := None; body := [] |}
                _ _ Hmap) as [Hcomments Hall].
    fold (commentOf numberText memberText provider) in Hcomments.
    assert (Hlen : List.length comments = List.length fileFindings).
    { rewrite Hcomments. apply length_map. }
    cbn [List.map List.concat snd].
    destruct (respond octokit made (CreateReview commitId comments))
      as [[]|m] eqn:Hanswer.
    + destruct (IH _ _ _ Hrun) as (more & Hmade & Hreviews & Hfiles & Hposted & Hacc).
      exists (CreateReview commitId comments :: more).
      rewrite Hmade, <- app_assoc. cbn [app].
      split; [ reflexivity | ].
      split.
      { change (reviewsOf (CreateReview commitId comments :: more))
          with (comments :: reviewsOf more).
        rewrite Hreviews, Hcomments. reflexivity. }
      split; [ constructor; assumption | ].
      cbn [acceptedComments]. rewrite Hanswer, length_app.
      split; lia.
    + destruct (fallback_spec octokit comments
                  (made ++ [CreateReview commitId comments]) posted)
        as (fb & Hfbmade & Hfb & Hfbposted & Hfblen & Hfbacc).
      rewrite Hfbmade, Hfbposted in Hrun |- *.
      destruct (IH _ _ _ Hrun) as (more & Hmade & Hreviews & Hfiles & Hposted & Hacc).
      exists (CreateReview commitId comments :: fb ++ more).
      rewrite Hmade, <- !app_assoc. cbn [app].
      split; [ reflexivity | ].
      split.
      { change (CreateReview commitId comments :: fb ++ more)
          with ([CreateReview commitId comments] ++ fb ++ more).
        rewrite !reviewsOf_app, (reviewsOf_fallback _ Hfb), Hreviews, Hcomments.
        reflexivity. }
      split; [ constructor; assumption | ].
      cbn [acceptedComments]. rewrite Hanswer.
      rewrite acceptedComments_app, length_app.
      split; lia.
Qed.
End CommentsProperties.

Section GroupingProperties.
Import Comments.
Variable numberText : Z -> Z -> list N.
Variable memberText : list N -> list N.

Lemma hasOwn_In (k : list N) (byFile : groups) :
  hasOwn k byFile = true <-> In k (List.map fst byFile).
Proof.
  unfold hasOwn. rewrite existsb_exists, in_map_iff.
  split.
  - intros [entry [Hin Heq]]. exists entry. split; [ | exact Hin ].
    unfold Js.strEq in Heq. apply bool_decide_eq_true in Heq. exact Heq.
  - intros [entry [Heq Hin]]. exists entry. split; [ exact Hin | ].
    unfold Js.strEq. apply bool_decide_eq_true. exact Heq.
Qed.

Lemma pushTo_keys (k : list N) (f : Json.value) (byFile : groups) :
  List.map fst (pushTo k f byFile) = List.map fst byFile.
Proof.
  induction byFile as [|[k' fs] byFile IH]; [ reflexivity | ].
  cbn [pushTo]. destruct (Js.strEq k' k); cbn [List.map fst]; [ reflexivity | ].
  rewrite IH. reflexivity.
Qed.

Lemma pushTo_findings (k : list N) (f : Json.value) (byFile : groups) :
  In k (List.map fst byFile) ->
  Permutation (List.concat (List.map snd (pushTo k f byFile)))
    (List.concat (List.map snd byFile) ++ [f]).
Proof.
  induction byFile as [|[k' fs] byFile IH]; [ intros [] | ].
  cbn [pushTo List.map fst In]. intros Hin.
  destruct (Js.strEq k' k) eqn:Heq.
  - cbn [List.map List.concat snd].
    rewrite <- !app_assoc. apply Permutation_app_head.
    apply Permutation_app_comm.
  - cbn [List.map List.concat snd].
    rewrite <- app_assoc. apply Permutation_app_head.
    apply IH. destruct Hin as [E|Hin]; [ | exact Hin ].
    unfold Js.strEq in Heq. apply bool_decide_eq_false in Heq.
    contradiction.
Qed.

Lemma pushTo_grouped (k : list N) (f : Json.value) (byFile : groups) :
  keyOf numberText f = Js.Normal k ->
  List.Forall
    (fun entry =>
       (fst entry ∉ Js.OBJECT_PROTOTYPE)
       /\ snd entry <> []
       /\ List.Forall (fun f => keyOf numberText f = Js.Normal (fst entry))
            (snd entry)) byFile ->
  List.Forall
    (fun entry =>
       (fst entry ∉ Js.OBJECT_PROTOTYPE)
       /\ snd entry <> []
       /\ List.Forall (fun f => keyOf numberText f = Js.Normal (fst entry))
            (snd entry)) (pushTo k f byFile).
Proof.
  intros Hkey. induction 1 as [|[k' fs] byFile (Hproto & Hne & Hfs) Hall IH];
    [ constructor | ].
  cbn [pushTo]. destruct (Js.strEq k' k) eqn:Heq.
  - constructor; [ | exact Hall ]. cbn [fst snd] in *.
    split; [ exact Hproto | ].
    split; [ destruct fs; discriminate | ].
    apply Forall_app. split; [ exact Hfs | ].
    constructor; [ | constructor ].
    unfold Js.strEq in Heq. apply bool_decide_eq_true in Heq.
    subst k'. exact Hkey.
  - constructor; [ | exact IH ]. repeat split; assumption.
Qed.

Lemma groupStep_spec (byFile byFile' : groups) (f : Json.value) :
  grouped numberText byFile ->
  groupStep numberText byFile f = Js.Normal byFile' ->
  grouped numberText byFile'
  /\ Permutation (List.concat (List.map snd byFile'))
       (List.concat (List.map snd byFile) ++ [f]).
Proof.
  intros [Hnodup Hall]. unfold groupStep.
  destruct (Json.field (Js.lit "file") f) as [file|m] eqn:Hfile;
    [ | discriminate ].
  cbn. destruct (shown numberText file) as [key|m] eqn:Hshown;
    [ | discriminate ].
  cbn.
  assert (Hkey : keyOf numberText f = Js.Normal key).
  { unfold keyOf. rewrite Hfile. cbn. exact Hshown. }
  destruct (hasOwn key byFile) eqn:Hown.
  - intros E. inversion E; subst byFile'. apply hasOwn_In in Hown.
    split; [ split | ].
    + rewrite pushTo_keys. exact Hnodup.
    + apply pushTo_grouped; assumption.
    + apply pushTo_findings, Hown.
  - destruct (bool_decide (key ∈ Js.OBJECT_PROTOTYPE)) eqn:Hproto;
      [ discriminate | ].
    intros E. inversion E; subst byFile'.
    apply bool_decide_eq_false in Hproto.
    split; [ split | ].
    + rewrite map_app. cbn [List.map fst].
      apply NoDup_app. split; [ exact Hnodup | ].
      split; [ | apply NoDup_singleton ].
      intros k Hk Hin. apply list_elem_of_singleton in Hin. subst k.
      apply list_elem_of_In, hasOwn_In in Hk. congruence.
    + apply Forall_app. split; [ exact Hall | ].
      constructor; [ | constructor ]. cbn [fst snd].
      split; [ exact Hproto | ].
      split; [ discriminate | ].
      constructor; [ exact Hkey | constructor ].
    + rewrite map_app, concat_app. cbn [List.map List.concat snd].
      rewrite app_nil_r. reflexivity.
Qed.

Lemma groupFindings_spec (findings : list Json.value) :
  forall byFile byFile',
  grouped numberText byFile ->
  groupFindings numberText byFile findings = Js.Normal byFile' ->
  grouped numberText byFile'
  /\ Permutation (List.concat (List.map snd byFile'))
       (List.concat (List.map snd byFile) ++ findings).
Proof.
  induction findings as [|f findings IH]; intros byFile byFile' Hgrouped.
  - cbn. intros E. inversion E; subst byFile'.
    split; [ exact Hgrouped | ]. rewrite app_nil_r. reflexivity.
  - cbn [groupFindings].
    destruct (groupStep numberText byFile f) as [step|m] eqn:Hstep;
      [ | discriminate ].
    cbn. intros Hrest.
    destruct (groupStep_spec _ _ _ Hgrouped Hstep) as [Hgrouped' Hperm].
    destruct (IH _ _ Hgrouped' Hrest) as [Hfinal Hperm'].
    split; [ exact Hfinal | ].
    rewrite Hperm', Hperm, <- app_assoc. reflexivity.
Qed.

(** [Object.entries] lists every own property once. *)
Lemma insertByIndex_perm (e : N * (list N * list Json.value))
    (sorted : list (N * (list N * list Json.value))) :
  Permutation (insertByIndex e sorted) (e :: sorted).
Proof.
  induction sorted as [|e' sorted IH]; [ reflexivity | ].
  cbn [insertByIndex]. destruct (fst e <=? fst e'); [ reflexivity | ].
  rewrite IH. apply perm_swap.
Qed.

Lemma entries_perm (byFile : groups) : Permutation (entries byFile) byFile.
Proof.
  unfold entries.
  induction byFile as [|entry byFile IH]; [ reflexivity | ].
  cbn [flat_map List.filter].
  destruct (arrayIndex (fst entry)) as [i|].
  - cbn [app fold_right].
    rewrite insertByIndex_perm. cbn [List.map snd app].
    apply perm_skip. exact IH.
  - cbn [app]. rewrite <- Permutation_middle. apply perm_skip. exact IH.
Qed.

End GroupingProperties.

Section PostingProperties.
Import Comments.
Variable numberText : Z -> Z -> list N.
Variable memberText : list N -> list N.

Lemma grouped_nil : grouped numberText [].
Proof. split; constructor. Qed.

Lemma toComment_path (provider : list N) (f : Json.value) (c : comment) :
  toComment numberText memberText provider f = Js.Normal c ->
  Json.field (Js.lit "file") f = Js.Normal (path c).
Proof.
  unfold toComment.
  destruct (Json.field (Js.lit "file") f) as [file|]; [ | discriminate ].
  cbn [mbind Js.completion_bind].
  destruct (Json.field (Js.lit "line") f); [ | discriminate ].
  cbn [mbind Js.completion_bind].
  destruct (formatComment numberText memberText provider f);
    [ | discriminate ].
  cbn [mbind Js.completion_bind]. intros E. inversion E. reflexivity.
Qed.

Lemma commentOf_path (provider : list N) (f : Json.value) (k : list N) :
  (exists c, toComment numberText memberText provider f = Js.Normal c) ->
  keyOf numberText f = Js.Normal k ->
  shown numberText (path (commentOf numberText memberText provider f))
  = Js.Normal k.
Proof.
  intros [c Hc] Hkey. unfold commentOf. rewrite Hc.
  unfold keyOf in Hkey. rewrite (toComment_path _ _ _ Hc) in Hkey.
  exact Hkey.
Qed.

Lemma listCommits_first (octokit : Octokit) (headSha : option (list N))
    (provider : list N) (findings : list Json.value) :
  List.head
    (fst (postReviewComments numberText memberText octokit headSha provider
            findings)) = Some ListCommits.
Proof.
  unfold postReviewComments.
  destruct (listCommits octokit); [ | reflexivity ].
  destruct (commitIdOf headSha _); [ | reflexivity ].
  destruct (groupFindings numberText [] findings) as [byFile|];
    [ | reflexivity ].
  cbn [fst].
  assert (Hgen : forall files made posted,
             List.head made = Some ListCommits ->
             List.head
               (fst (postFiles numberText memberText octokit provider a0 made
                       files posted)) = Some ListCommits).
  { induction files as [|[file fs] files IH]; intros made posted Hmade;
      [ exact Hmade | ].
    cbn [postFiles].
    destruct (mapC _ fs) as [comments|]; [ | exact Hmade ].
    destruct (respond octokit made _).
    - apply IH. destruct made; [ discriminate | exact Hmade ].
    - apply IH.
      destruct (fallback_spec numberText octokit comments
                  (made ++ [CreateReview a0 comments]) posted)
        as (more & Hfb & _).
      rewrite Hfb. destruct made; [ discriminate | exact Hmade ]. }
  apply Hgen. reflexivity.
Qed.

(** What a call that returned has done. *)
Lemma postReviewComments_returned (octokit : Octokit)
    (headSha : option (list N)) (provider : list N)
    (findings : list Json.value) (posted : nat) :
  snd (postReviewComments numberText memberText octokit headSha provider
         findings) = Js.Normal posted ->
  exists byFile more,
    grouped numberText byFile
    /\ Permutation (List.concat (List.map snd byFile)) findings
    /\ fst (postReviewComments numberText memberText octokit headSha provider
              findings) = ListCommits :: more
    /\ reviewsOf more
       = List.map
           (fun entry =>
              List.map (commentOf numberText memberText provider) (snd entry))
           (entries byFile)
    /\ List.Forall
         (fun entry =>
            List.Forall
              (fun f =>
                 exists c,
                   toComment numberText memberText provider f = Js.Normal c)
              (snd entry)) (entries byFile)
    /\ posted = acceptedComments octokit [ListCommits] more
    /\ (posted <= List.length findings)%nat.
Proof.
  unfold postReviewComments.
  destruct (listCommits octokit) as [commits|]; [ | discriminate ].
  destruct (commitIdOf headSha commits) as [commitId|]; [ | discriminate ].
  destruct (groupFindings numberText [] findings) as [byFile|] eqn:Hgroup;
    [ | discriminate ].
  cbn [fst snd].
  destruct (snd (postFiles numberText memberText octokit provider commitId
                   [ListCommits] (entries byFile) 0)) as [n|] eqn:Hrun;
    [ | discriminate ].
  intros E. inversion E; subst n.
  destruct (groupFindings_spec numberText _ _ _ grouped_nil Hgroup)
    as [Hgrouped Hperm].
  cbn [List.map List.concat app] in Hperm.
  destruct (postFiles_spec numberText memberText _ _ _ _ _ _ _ Hrun)
    as (more & Hmade & Hreviews & Hfiles & Hposted & Hacc).
  exists byFile, more.
  split; [ exact Hgrouped | ]. split; [ exact Hperm | ].
  split; [ exact Hmade | ]. split; [ exact Hreviews | ].
  split; [ exact Hfiles | ]. split; [ exact Hposted | ].
  rewrite Hposted. cbn [Nat.add].
  rewrite <- (Permutation_length Hperm).
  rewrite <- flat_map_concat_map in Hacc |- *.
  rewrite <- (Permutation_length
                (Permutation_flat_map snd (entries_perm byFile))).
  exact Hacc.
Qed.

Lemma NoDup_map_Normal {A : Type} (l : list A) :
  NoDup l -> NoDup (List.map (@Js.Normal A) l).
Proof.
  induction 1 as [|x l Hx _ IH]; cbn [List.map]; constructor;
    [ | exact IH ].
  rewrite list_elem_of_In, in_map_iff. intros [y [E Hy]].
  inversion E; subst y. apply Hx, list_elem_of_In, Hy.
Qed.

(** X22.  When [postReviewComments] returns, every finding has been
    offered to GitHub in exactly one review: the comments of the reviews it
    requested, taken together, are the comments of the findings, each once.
    Every review is about one file, which is not named like a member of
    [Object.prototype], and no two reviews are about the same file. *)
Theorem each_finding_is_offered_in_one_review (octokit : Octokit)
    (headSha : option (list N)) (provider : list N)
    (findings : list Json.value) (posted : nat) :
  let r :=
    postReviewComments numberText memberText octokit headSha provider
      findings in
  snd r = Js.Normal posted ->
  exists comments,
    mapC (toComment numberText memberText provider) findings
    = Js.Normal comments
    /\ Permutation (List.concat (reviewsOf (fst r))) comments
    /\ NoDup (List.map (fileOf numberText) (reviewsOf (fst r)))
    /\ List.Forall
         (fun review =>
            review <> []
            /\ exists file,
                 (file ∉ Js.OBJECT_PROTOTYPE)
                 /\ List.Forall
                      (fun c => shown numberText (path c) = Js.Normal file)
                      review) (reviewsOf (fst r)).
Proof.
  cbv zeta. intros Hrun.
  destruct (postReviewComments_returned _ _ _ _ _ Hrun)
    as (byFile & more & [Hnodup Hgroups] & Hperm & Hmade & Hreviews & Hfiles
        & _ & _).
  rewrite Hmade.
  change (reviewsOf (ListCommits :: more)) with (reviewsOf more).
  rewrite Hreviews.
  pose proof (entries_perm byFile) as Hentries.
  assert (Hall : List.Forall
                   (fun f =>
                      exists c,
                        toComment numberText memberText provider f
                        = Js.Normal c) findings).
  { rewrite <- Hperm, <- flat_map_concat_map.
    rewrite <- (Permutation_flat_map snd Hentries).
    rewrite flat_map_concat_map. apply Forall_concat.
    apply Forall_map. exact Hfiles. }
  exists (List.map (commentOf numberText memberText provider) findings).
  split; [ apply mapC_all, Hall | ].
  split.
  { rewrite <- (map_map snd (List.map (commentOf numberText memberText provider))).
    rewrite <- concat_map. apply Permutation_map.
    rewrite <- Hperm, <- !flat_map_concat_map.
    apply Permutation_flat_map, Hentries. }
  assert (Hkeys : List.Forall
                    (fun entry =>
                       (fst entry ∉ Js.OBJECT_PROTOTYPE)
                       /\ snd entry <> []
                       /\ List.Forall
                            (fun c =>
                               shown numberText (path c)
                               = Js.Normal (fst entry))
                            (List.map
                               (commentOf numberText memberText provider)
                               (snd entry))) (entries byFile)).
  { rewrite <- Hentries in Hgroups.
    apply List.Forall_forall. intros e He.
    pose proof (proj1 (List.Forall_forall _ _) Hgroups e He)
      as (Hproto & Hne & Hsame).
    pose proof (proj1 (List.Forall_forall _ _) Hfiles e He) as Hconv.
    split; [ exact Hproto | ]. split; [ exact Hne | ].
    apply List.Forall_forall. intros c Hc.
    apply in_map_iff in Hc as [f [<- Hf]].
    apply commentOf_path.
    - exact (proj1 (List.Forall_forall _ _) Hconv f Hf).
    - exact (proj1 (List.Forall_forall _ _) Hsame f Hf). }
  split.
  - rewrite map_map.
    assert (Hfile : List.map
                      (fun entry =>
                         fileOf numberText
                           (List.map
                              (commentOf numberText memberText provider)
                              (snd entry))) (entries byFile)
                    = List.map (fun entry => Js.Normal (fst entry))
                        (entries byFile)).
    { apply map_ext_Forall. eapply List.Forall_impl; [ | exact Hkeys ].
      intros [k fs] (_ & Hne & Hsame). cbn [fst snd] in *.
      destruct fs as [|f fs]; [ contradiction | ].
      cbn [List.map fileOf] in *. apply (Forall_inv Hsame). }
    rewrite Hfile, <- (map_map fst Js.Normal).
    apply NoDup_map_Normal.
    rewrite Hentries. exact Hnodup.
  - apply Forall_map. eapply List.Forall_impl; [ | exact Hkeys ].
    intros [k fs] (Hproto & Hne & Hsame). cbn [fst snd] in *.
    split; [ destruct fs; [ contradiction | discriminate ] | ].
    exists k. split; assumption.
Qed.

End PostingProperties.

Section CountingProperties.
Import Comments.
Variable numberText : Z -> Z -> list N.
Variable memberText : list N -> list N.

Lemma postFiles_accepted (octokit : Octokit) (provider commitId : list N)
    (files : groups) :
  (forall made id comments,
      respond octokit made (CreateReview id comments) = Js.Normal tt) ->
  forall made posted posted',
  snd (postFiles numberText memberText octokit provider commitId made files
         posted) = Js.Normal posted' ->
  exists more,
    fst (postFiles numberText memberText octokit provider commitId made files
           posted) = made ++ more
    /\ List.existsb isFallback more = false
    /\ posted'
       = (posted + List.length (List.concat (List.map snd files)))%nat.
Proof.
  intros Haccept.
  induction files as [|[file fileFindings] files IH];
    intros made posted posted' Hrun.
  - cbn in Hrun. inversion Hrun; subst posted'.
    exists []. cbn. rewrite app_nil_r. repeat split; lia.
  - cbn [postFiles] in Hrun |- *.
    destruct (mapC (toComment numberText memberText provider) fileFindings)
      as [comments|m] eqn:Hmap; [ | discriminate ].
    destruct (mapC_normal _ {| path := None; line := None; body := [] |}
                _ _ Hmap) as [Hcomments _].
    assert (Hlen : List.length comments = List.length fileFindings).
    { rewrite Hcomments. apply length_map. }
    rewrite Haccept in Hrun |- *.
    destruct (IH _ _ _ Hrun) as (more & Hmade & Hnone & Hposted).
    exists (CreateReview commitId comments :: more).
    rewrite Hmade, <- app_assoc. cbn [app existsb isFallback orb].
    split; [ reflexivity | ]. split; [ exact Hnone | ].
    cbn [List.map List.concat snd]. rewrite length_app. lia.
Qed.

(** X23.  The count [postReviewComments] logs as posted is the number of
    comments in the requests GitHub accepted, reviews and fallback comments
    together; it never exceeds the number of findings, and when GitHub
    accepts every review it is the number of findings and no fallback
    comment is sent. *)
Theorem posted_counts_the_accepted_comments (octokit : Octokit)
    (headSha : option (list N)) (provider : list N)
    (findings : list Json.value) (posted : nat) :
  let r :=
    postReviewComments numberText memberText octokit headSha provider
      findings in
  snd r = Js.Normal posted ->
  posted = acceptedComments octokit [] (fst r)
  /\ (posted <= List.length findings)%nat
  /\ ((forall made id comments,
          respond octokit made (CreateReview id comments) = Js.Normal tt) ->
      posted = List.length findings
      /\ List.existsb isFallback (fst r) = false).
Proof.
  cbv zeta. intros Hrun.
  destruct (postReviewComments_returned numberText memberText _ _ _ _ _ Hrun)
    as (byFile & more & _ & Hperm & Hmade & _ & _ & Hposted & Hle).
  split; [ rewrite Hmade; exact Hposted | ].
  split; [ exact Hle | ].
  intros Haccept. revert Hrun. unfold postReviewComments.
  destruct (listCommits octokit) as [commits|]; [ | discriminate ].
  destruct (commitIdOf headSha commits) as [commitId|]; [ | discriminate ].
  destruct (groupFindings numberText [] findings) as [grouped|] eqn:Hgroup;
    [ | discriminate ].
  cbn [fst snd].
  destruct (snd (postFiles numberText memberText octokit provider commitId
                   [ListCommits] (entries grouped) 0)) as [n|] eqn:Hfiles;
    [ | discriminate ].
  intros E. inversion E; subst n.
  destruct (postFiles_accepted _ _ _ _ Haccept _ _ _ Hfiles)
    as (sent & Hsent & Hnone & Hcount).
  destruct (groupFindings_spec numberText _ _ _ (grouped_nil numberText)
              Hgroup) as [_ Hall].
  cbn [List.map List.concat app] in Hall.
  split.
  - rewrite Hcount. cbn [Nat.add].
    rewrite <- (Permutation_length Hall), <- !flat_map_concat_map.
    apply Permutation_length, Permutation_flat_map, entries_perm.
  - rewrite Hsent. cbn [app existsb isFallback orb]. exact Hnone.
Qed.

Lemma groupStep_key (byFile : groups) (f : Json.value) (k : list N) :
  keyOf numberText f = Js.Normal k ->
  groupStep numberText byFile f
  = if hasOwn k byFile then Js.Normal (pushTo k f byFile)
    else if bool_decide (k ∈ Js.OBJECT_PROTOTYPE) then
      Js.Throw (Js.lit "byFile[finding.file].push is not a function")
    else Js.Normal (byFile ++ [(k, [f])]).
Proof.
  unfold keyOf, groupStep.
  destruct (Json.field (Js.lit "file") f) as [file|]; [ | discriminate ].
  cbn [mbind Js.completion_bind]. intros Hk. rewrite Hk. reflexivity.
Qed.

Lemma groupFindings_prototype (findings : list Json.value) :
  forall byFile,
  List.Forall (fun entry => fst entry ∉ Js.OBJECT_PROTOTYPE) byFile ->
  List.Forall (fun f => exists k, keyOf numberText f = Js.Normal k) findings ->
  List.Exists
    (fun f =>
       exists k, keyOf numberText f = Js.Normal k /\ k ∈ Js.OBJECT_PROTOTYPE)
    findings ->
  groupFindings numberText byFile findings
  = Js.Throw (Js.lit "byFile[finding.file].push is not a function").
Proof.
  induction findings as [|f findings IH]; intros byFile Hown Hall Hsome.
  - inversion Hsome.
  - cbn [groupFindings].
    pose proof (Forall_inv Hall) as [k Hk].
    pose proof (Forall_inv_tail Hall) as Hrest.
    rewrite (groupStep_key _ _ _ Hk).
    destruct (hasOwn k byFile) eqn:Hhas.
    + cbn [mbind Js.completion_bind]. apply IH.
      * apply hasOwn_In in Hhas.
        assert (Hkeys : forall key,
                   In key (List.map fst (pushTo k f byFile)) ->
                   key ∉ Js.OBJECT_PROTOTYPE).
        { rewrite pushTo_keys. intros key Hkey.
          apply in_map_iff in Hkey as [entry [<- Hentry]].
          exact (proj1 (List.Forall_forall _ _) Hown entry Hentry). }
        apply List.Forall_forall. intros entry Hentry.
        apply Hkeys, in_map, Hentry.
      * exact Hrest.
      * inversion Hsome as [? ? [k' [Hk' Hproto]]|]; subst; [ | assumption ].
        exfalso. rewrite Hk in Hk'. inversion Hk'; subst k'.
        apply hasOwn_In, in_map_iff in Hhas as [entry [E Hentry]].
        apply (proj1 (List.Forall_forall _ _) Hown entry Hentry).
        rewrite E. exact Hproto.
    + case_bool_decide as Hproto; [ reflexivity | ].
      cbn [mbind Js.completion_bind]. apply IH.
      * apply Forall_app. split; [ exact Hown | ].
        constructor; [ exact Hproto | constructor ].
      * exact Hrest.
      * inversion Hsome as [? ? [k' [Hk' Hp]]|]; subst; [ | assumption ].
        exfalso. rewrite Hk in Hk'. inversion Hk'; subst k'. contradiction.
Qed.

(** X24.  A finding whose [file] reads as the name of a member of
    [Object.prototype] ([constructor], say) stops the grouping loop: with
    the commits listed and a commit id at hand, [postReviewComments] throws
    after the one request that lists the commits, and no comment of any
    finding is posted. *)
Theorem prototype_named_file_stops_all_comments (octokit : Octokit)
    (headSha : option (list N)) (provider : list N)
    (findings : list Json.value) (commits : list (list N))
    (commitId : list N) :
  listCommits octokit = Js.Normal commits ->
  commitIdOf headSha commits = Js.Normal commitId ->
  List.Forall (fun f => exists k, keyOf numberText f = Js.Normal k) findings ->
  List.Exists
    (fun f =>
       exists k, keyOf numberText f = Js.Normal k /\ k ∈ Js.OBJECT_PROTOTYPE)
    findings ->
  postReviewComments numberText memberText octokit headSha provider findings
  = ([ListCommits],
     Js.Throw
       (Js.lit "Failed to post comments: "
        ++ Js.lit "byFile[finding.file].push is not a function")).
Proof.
  intros Hcommits Hid Hall Hsome. unfold postReviewComments.
  rewrite Hcommits, Hid.
  rewrite (groupFindings_prototype _ [] (List.Forall_nil _) Hall Hsome).
  reflexivity.
Qed.

End CountingProperties.

Lemma each_finding_is_offered_in_one_review_witness :
  let findings :=
    [findingAt "HIGH" "src/a.js"; findingAt "LOW" "10";
     findingAt "LOW" "src/a.js"; findingAt "MEDIUM" "9"] in
  let r :=
    Comments.postReviewComments sevenText nativeText acceptingClient None
      (Js.lit "anthropic") findings in
  exists comments,
    Comments.mapC (Comments.toComment sevenText nativeText (Js.lit "anthropic"))
      findings = Js.Normal comments
    /\ Permutation (List.concat (reviewsOf (fst r))) comments
    /\ NoDup (List.map (fileOf sevenText) (reviewsOf (fst r)))
    /\ List.Forall
         (fun review =>
            review <> []
            /\ exists file,
                 (file ∉ Js.OBJECT_PROTOTYPE)
                 /\ List.Forall
                      (fun c =>
                         Comments.shown sevenText (Comments.path c)
                         = Js.Normal file) review) (reviewsOf (fst r)).
Proof.
  apply (each_finding_is_offered_in_one_review sevenText nativeText
           acceptingClient None (Js.lit "anthropic") _ 4%nat).
  vm_compute. reflexivity.
Defined.

Lemma posted_counts_the_accepted_comments_witness :
  let findings :=
    [findingAt "HIGH" "src/a.js"; findingAt "LOW" "10";
     findingAt "LOW" "src/a.js"; findingAt "MEDIUM" "9"] in
  let r :=
    Comments.postReviewComments sevenText nativeText acceptingClient None
      (Js.lit "anthropic") findings in
  4%nat = acceptedComments acceptingClient [] (fst r)
  /\ (4 <= List.length findings)%nat
  /\ ((forall made id comments,
          Comments.respond acceptingClient made
            (Comments.CreateReview id comments) = Js.Normal tt) ->
      4%nat = List.length findings
      /\ List.existsb isFallback (fst r) = false).
Proof.
  apply (posted_counts_the_accepted_comments sevenText nativeText
           acceptingClient None (Js.lit "anthropic") _ 4%nat).
  vm_compute. reflexivity.
Defined.

Lemma prototype_named_file_stops_all_comments_witness :
  Comments.postReviewComments sevenText nativeText acceptingClient None
    (Js.lit "anthropic")
    [findingAt "HIGH" "src/a.js"; findingAt "LOW" "constructor"]
  = ([Comments.ListCommits],
     Js.Throw
       (Js.lit "Failed to post comments: "
        ++ Js.lit "byFile[finding.file].push is not a function")).
Proof.
  apply (prototype_named_file_stops_all_comments sevenText nativeText
           acceptingClient None (Js.lit "anthropic") _ [Js.lit "abc123"]
           (Js.lit "abc123")).
  - reflexivity.
  - reflexivity.
  - repeat constructor; eexists; vm_compute; reflexivity.
  - apply Exists_cons_tl, Exists_cons_hd.
    exists (Js.lit "constructor"). split; [ vm_compute; reflexivity | ].
    unfold Js.OBJECT_PROTOTYPE. constructor.
Defined.

Lemma value_nested_ind (P : Json.value -> Prop) :
  P Json.Null ->
  (forall b, P (Json.Bool b)) ->
  (forall m e, P (Json.Num m e)) ->
  (forall s, P (Json.Str s)) ->
  (forall items, List.Forall P items -> P (Json.Arr items)) ->
  (forall members, P (Json.Obj members)) ->
  forall v, P v.
Proof.
  intros HNull HBool HNum HStr HArr HObj.
  fix IH 1. intros [ | b | m e | s | items | members ].
  - exact HNull.
  - apply HBool.
  - apply HNum.
  - apply HStr.
  - apply HArr. induction items as [|item items IHitems]; constructor.
    + apply IH.
    + exact IHitems.
  - apply HObj.
Qed.

Section LabelProperties.
Import Comments.
Variable numberText : Z -> Z -> list N.
Variable memberText : list N -> list N.

Lemma joinComma_fold (rest : list (Js.completion (option (list N)))) :
  forall acc k,
  List.fold_left
    (fun acc part =>
       a ← acc;
       p ← part;
       Js.Normal (x ← a; y ← p; Some (x ++ Js.cu "," :: y)))
    rest acc = Js.Normal (Some k) ->
  exists a xs,
    acc = Js.Normal (Some a)
    /\ rest = List.map (fun x => Js.Normal (Some x)) xs
    /\ k = commaJoined a xs.
Proof.
  induction rest as [|part rest IH]; intros acc k Hfold.
  - exists k, []. unfold commaJoined. cbn. rewrite app_nil_r. auto.
  - cbn [fold_left] in Hfold.
    destruct (IH _ _ Hfold) as (a' & xs & Hstep & Hrest & Hk).
    destruct acc as [[a|]|]; cbn in Hstep; try discriminate.
    + destruct part as [[p|]|]; cbn in Hstep; try discriminate.
      inversion Hstep; subst a'.
      exists a, (p :: xs). split; [ reflexivity | ].
      split; [ cbn; rewrite Hrest; reflexivity | ].
      rewrite Hk. unfold commaJoined. cbn [List.map List.concat].
      rewrite <- app_assoc. reflexivity.
    + destruct part as [[p|]|]; cbn in Hstep; discriminate.
Qed.

Lemma joinTexts_normal (xs : list (list N)) :
  forall a,
  joinTexts (Js.Normal a :: List.map Js.Normal xs)
  = Js.Normal (commaJoined a xs).
Proof.
  induction xs as [|x xs IH]; intros a.
  - unfold commaJoined. cbn. rewrite app_nil_r. reflexivity.
  - change (joinTexts (Js.Normal a :: List.map Js.Normal (x :: xs)))
      with (y ← joinTexts (Js.Normal x :: List.map Js.Normal xs);
            Js.Normal (a ++ Js.cu "," :: y)).
    rewrite IH. reflexivity.
Qed.

(** Where [Json.toString] computes a text, it is the text of the value. *)
Lemma toString_text (v : Json.value) :
  forall k,
  Json.toString v = Js.Normal (Some k) -> text numberText v = Js.Normal k.
Proof.
  induction v as [ | b | m e | s | items IH | members ] using value_nested_ind;
    intros k Hk.
  - inversion Hk. reflexivity.
  - destruct b; inversion Hk; reflexivity.
  - discriminate.
  - inversion Hk. reflexivity.
  - cbn [Json.toString text] in Hk |- *.
    destruct items as [|item items].
    + inversion Hk. reflexivity.
    + cbn [List.map Json.joinComma] in Hk.
      destruct (joinComma_fold _ _ _ Hk) as (a & xs & Hitem & Hrest & ->).
      cbn [List.map].
      assert (Helement : forall i x,
                 (forall k, Json.toString i = Js.Normal (Some k) ->
                            text numberText i = Js.Normal k) ->
                 match i with
                 | Json.Null => Js.Normal (Some [])
                 | _ => Json.toString i
                 end = Js.Normal (Some x) ->
                 match i with
                 | Json.Null => Js.Normal []
                 | _ => text numberText i
                 end = Js.Normal x).
      { intros i x Hi Hx. destruct i; try (apply Hi, Hx).
        inversion Hx. reflexivity. }
      rewrite (Helement _ _ (Forall_inv IH) Hitem).
      assert (Htail : List.map
                        (fun i =>
                           match i with
                           | Json.Null => Js.Normal []
                           | _ => text numberText i
                           end) items
                      = List.map Js.Normal xs).
      { pose proof (Forall_inv_tail IH) as IHitems.
        clear Hitem Hk IH. revert xs Hrest.
        induction items as [|i items IHl]; intros xs Hrest.
        - destruct xs; [ reflexivity | discriminate ].
        - destruct xs as [|x xs]; [ discriminate | ].
          cbn [List.map] in Hrest |- *. inversion Hrest as [[Hi Hl]].
          rewrite (Helement _ _ (Forall_inv IHitems) Hi).
          f_equal. apply IHl; [ exact (Forall_inv_tail IHitems) | exact Hl ]. }
      rewrite Htail. apply joinTexts_normal.
  - cbn [Json.toString text] in Hk |- *.
    destruct (Json.lookupLast (Js.lit "toString") members);
      [ discriminate | ].
    inversion Hk. reflexivity.
Qed.

(** What the filter kept has a severity whose text is one of the four
    names. *)
Lemma kept_severity (threshold : list N) (f : Json.value) :
  threshold ∉ Js.OBJECT_PROTOTYPE ->
  Review.meetsThreshold threshold f = Js.Normal true ->
  isNull f = false
  /\ exists name,
       In name severityNames
       /\ fieldText numberText "severity" f = Js.Normal name.
Proof.
  intros Hthreshold Hkeep.
  assert (Hf : isNull f = false).
  { destruct f; try reflexivity. discriminate. }
  split; [ exact Hf | ].
  assert (Hkey : hasKeyText f = true).
  { destruct (hasKeyText f) eqn:E; [ reflexivity | ].
    destruct (meetsThreshold_throws threshold f (or_intror E)) as [m Hm].
    congruence. }
  rewrite (meetsThreshold_rank _ _ Hthreshold Hf Hkey) in Hkeep.
  destruct (rankOfName threshold) as [|n]; [ discriminate | ].
  assert (Hle : (S n <=? severityRank f)%nat = true) by congruence.
  apply Nat.leb_le in Hle.
  unfold severityRank in Hle. unfold fieldText.
  rewrite (field_not_null _ _ Hf). cbn [mbind Js.completion_bind].
  destruct (propertyOf (Js.lit "severity") f) as [v|]; [ | lia ].
  destruct (Json.toString v) as [[k|]|] eqn:Hk; try lia.
  exists k. split.
  { apply rankOfName_positive. lia. }
  cbn [shown]. apply toString_text, Hk.
Qed.

Lemma LABELS_own (name : list N) :
  In name severityNames ->
  Js.get LABELS name = Js.Own (Js.lit "[" ++ name ++ Js.lit "]").
Proof.
  intros [<-|[<-|[<-|[<-|[]]]]]; reflexivity.
Qed.

(** The comment of a finding whose severity reads as one of the four
    names. *)
Lemma formatComment_labelled (provider : list N) (f : Json.value)
    (name title description suggested : list N) :
  In name severityNames ->
  fieldText numberText "severity" f = Js.Normal name ->
  fieldText numberText "title" f = Js.Normal title ->
  fieldText numberText "description" f = Js.Normal description ->
  (suggestion ← Json.field (Js.lit "suggestion") f;
   suggestedFix numberText suggestion) = Js.Normal suggested ->
  formatComment numberText memberText provider f
  = Js.Normal
      (Js.lit "[" ++ name ++ Js.lit "]"
       ++ Js.lit " **Sage Review** [" ++ name ++ Js.lit "]"
       ++ LF ++ LF
       ++ Js.lit "**" ++ title ++ Js.lit "**" ++ LF ++ LF
       ++ description ++ LF ++ LF
       ++ suggested ++ LF ++ LF
       ++ Js.lit "---" ++ LF
       ++ Js.lit "*Reviewed with Sage using " ++ provider
       ++ Js.lit "*").
Proof.
  intros Hname Hseverity Htitle Hdescription Hsuggested.
  assert (Hobject : isNull f = false).
  { destruct f; try reflexivity. discriminate. }
  unfold fieldText in *. unfold formatComment.
  rewrite (field_not_null _ _ Hobject) in Hseverity.
  rewrite (field_not_null _ _ Hobject) in Htitle.
  rewrite (field_not_null _ _ Hobject) in Hdescription.
  rewrite (field_not_null _ _ Hobject) in Hsuggested.
  rewrite !(field_not_null _ _ Hobject).
  cbn [mbind Js.completion_bind] in *.
  rewrite Hseverity. cbn [mbind Js.completion_bind].
  rewrite (LABELS_own _ Hname), Htitle. cbn [mbind Js.completion_bind].
  rewrite Hdescription. cbn [mbind Js.completion_bind].
  rewrite Hsuggested. cbn [mbind Js.completion_bind].
  assert (Htruthy : Js.truthyStr (Js.lit "[" ++ name ++ Js.lit "]") = true)
    by reflexivity.
  rewrite Htruthy. rewrite <- !app_assoc. reflexivity.
Qed.

(** X25.  For a threshold that is no name of [Object.prototype]: a finding
    that [filterBySeverity] kept has a severity that reads as one of the
    four names, and [formatComment] labels it with that name: the [[INFO]]
    label is never written for a finding that is posted.  Given the texts
    of its title, description and suggestion, the comment is the one
    below. *)
Theorem kept_finding_is_labelled_with_its_severity (threshold : list N)
    (findings kept : list Json.value) (f : Json.value) (provider : list N) :
  threshold ∉ Js.OBJECT_PROTOTYPE ->
  Review.filterBySeverity threshold findings = Js.Normal kept ->
  In f kept ->
  exists name,
    In name severityNames
    /\ fieldText numberText "severity" f = Js.Normal name
    /\ forall title description suggested,
         fieldText numberText "title" f = Js.Normal title ->
         fieldText numberText "description" f = Js.Normal description ->
         (suggestion ← Json.field (Js.lit "suggestion") f;
          suggestedFix numberText suggestion) = Js.Normal suggested ->
         formatComment numberText memberText provider f
         = Js.Normal
             (Js.lit "[" ++ name ++ Js.lit "]"
              ++ Js.lit " **Sage Review** [" ++ name ++ Js.lit "]"
              ++ LF ++ LF
              ++ Js.lit "**" ++ title ++ Js.lit "**" ++ LF ++ LF
              ++ description ++ LF ++ LF
              ++ suggested ++ LF ++ LF
              ++ Js.lit "---" ++ LF
              ++ Js.lit "*Reviewed with Sage using " ++ provider
              ++ Js.lit "*").
Proof.
  intros Hthreshold Hfilter Hin.
  destruct (filterC_kept _ _ _ _ Hfilter Hin) as [_ Hkeep].
  destruct (kept_severity _ _ Hthreshold Hkeep)
    as [_ (name & Hname & Hseverity)].
  exists name. split; [ exact Hname | ]. split; [ exact Hseverity | ].
  intros title description suggested.
  apply formatComment_labelled; assumption.
Qed.

End LabelProperties.

Lemma kept_finding_is_labelled_with_its_severity_witness :
  exists name,
    In name severityNames
    /\ fieldText sevenText "severity" (findingAt "HIGH" "src/a.js")
       = Js.Normal name
    /\ forall title description suggested,
         fieldText sevenText "title" (findingAt "HIGH" "src/a.js")
         = Js.Normal title ->
         fieldText sevenText "description" (findingAt "HIGH" "src/a.js")
         = Js.Normal description ->
         (suggestion ←
            Json.field (Js.lit "suggestion") (findingAt "HIGH" "src/a.js");
          Comments.suggestedFix sevenText suggestion) = Js.Normal suggested ->
         Comments.formatComment sevenText nativeText (Js.lit "anthropic")
           (findingAt "HIGH" "src/a.js")
         = Js.Normal
             (Js.lit "[" ++ name ++ Js.lit "]"
              ++ Js.lit " **Sage Review** [" ++ name ++ Js.lit "]"
              ++ Comments.LF ++ Comments.LF
              ++ Js.lit "**" ++ title ++ Js.lit "**"
              ++ Comments.LF ++ Comments.LF
              ++ description ++ Comments.LF ++ Comments.LF
              ++ suggested ++ Comments.LF ++ Comments.LF
              ++ Js.lit "---" ++ Comments.LF
              ++ Js.lit "*Reviewed with Sage using " ++ Js.lit "anthropic"
              ++ Js.lit "*").
Proof.
  apply (kept_finding_is_labelled_with_its_severity sevenText nativeText
           (Js.lit "LOW")
           [findingAt "LOW" "b.js"; findingAt "HIGH" "src/a.js"]
           [findingAt "LOW" "b.js"; findingAt "HIGH" "src/a.js"]).
  - apply names_not_prototype. simpl. tauto.
  - vm_compute. reflexivity.
  - right. left. reflexivity.
Defined.

Section DryRunProperties.
Import Comments.
Variable numberText : Z -> Z -> list N.
Variable memberText : list N -> list N.

Lemma filterC_keeps {A : Type} (keep : A -> Js.completion bool)
    (l kept : list A) (x : A) :
  Review.filterC keep l = Js.Normal kept ->
  In x l -> keep x = Js.Normal true -> In x kept.
Proof.
  revert kept. induction l as [|y l IH]; intros kept Hrun Hx Hkeep;
    [ contradiction | ].
  cbn [Review.filterC] in Hrun.
  destruct (keep y) as [b|] eqn:Hy; [ | discriminate ].
  cbn [mbind Js.completion_bind] in Hrun.
  destruct (Review.filterC keep l) as [rest|]; [ | discriminate ].
  cbn [mbind Js.completion_bind] in Hrun. inversion Hrun; subst kept.
  destruct Hx as [->|Hx].
  - rewrite Hkeep in Hy. inversion Hy; subst b. left. reflexivity.
  - specialize (IH rest eq_refl Hx Hkeep).
    destruct b; [ right | ]; exact IH.
Qed.

Lemma forEachC_throws {A : Type} (g : A -> Js.completion unit) (l : list A)
    (x : A) :
  In x l -> (exists m, g x = Js.Throw m) ->
  exists m, forEachC g l = Js.Throw m.
Proof.
  intros Hx Hthrow. induction l as [|y l IH]; [ contradiction | ].
  cbn [forEachC]. destruct (g y) as [[]|m] eqn:Hy.
  - cbn [mbind Js.completion_bind]. apply IH.
    destruct Hx as [->|Hx]; [ | exact Hx ].
    destruct Hthrow as [m Hm]. congruence.
  - exists m. reflexivity.
Qed.

Lemma printFinding_throws (f : Json.value) :
  isString (propertyOf (Js.lit "description") f) = false ->
  exists m, printFinding numberText f = Js.Throw m.
Proof.
  intros Hdescription. unfold printFinding.
  destruct f as [ | b | n e | s | items | members ].
  1: eexists; reflexivity.
  all: cbn [Json.field mbind Js.completion_bind shown propertyOf] in *.
  1-4: eexists; reflexivity.
  destruct (shown numberText (Json.lookupLast (Js.lit "file") members));
    [ | eexists; reflexivity ].
  cbn [mbind Js.completion_bind].
  destruct (shown numberText (Json.lookupLast (Js.lit "line") members));
    [ | eexists; reflexivity ].
  cbn [mbind Js.completion_bind].
  destruct (shown numberText (Json.lookupLast (Js.lit "title") members));
    [ | eexists; reflexivity ].
  cbn [mbind Js.completion_bind].
  destruct (Json.lookupLast (Js.lit "description") members) as [[]|];
    try discriminate; eexists; reflexivity.
Qed.

(** X26.  A finding with one of the four severities as a string and a
    description that is not a string makes [printFindings] throw, whatever
    the other findings are; [formatComment] writes the comment of the same
    finding, a missing description reading [undefined]. *)
Theorem dry_run_throws_where_a_comment_is_written
    (findings : list Json.value) (f : Json.value) (name : list N)
    (provider : list N) :
  In f findings ->
  propertyOf (Js.lit "severity") f = Some (Json.Str name) ->
  In name severityNames ->
  isString (propertyOf (Js.lit "description") f) = false ->
  (exists m, printFindings numberText findings = Js.Throw m)
  /\ forall title description suggested,
       fieldText numberText "title" f = Js.Normal title ->
       fieldText numberText "description" f = Js.Normal description ->
       (suggestion ← Json.field (Js.lit "suggestion") f;
        suggestedFix numberText suggestion) = Js.Normal suggested ->
       formatComment numberText memberText provider f
       = Js.Normal
           (Js.lit "[" ++ name ++ Js.lit "]"
            ++ Js.lit " **Sage Review** [" ++ name ++ Js.lit "]"
            ++ LF ++ LF
            ++ Js.lit "**" ++ title ++ Js.lit "**" ++ LF ++ LF
            ++ description ++ LF ++ LF
            ++ suggested ++ LF ++ LF
            ++ Js.lit "---" ++ LF
            ++ Js.lit "*Reviewed with Sage using " ++ provider
            ++ Js.lit "*").
Proof.
  intros Hin Hseverity Hname Hdescription.
  assert (Hobject : isNull f = false).
  { destruct f; try reflexivity. discriminate. }
  split.
  - unfold printFindings.
    destruct (Review.countBySeverity findings); [ | eexists; reflexivity ].
    cbn [mbind Js.completion_bind].
    destruct (Review.filterC (Review.severityIs (Js.lit "CRITICAL")) findings)
      as [critical|] eqn:Hcritical; [ | eexists; reflexivity ].
    cbn [mbind Js.completion_bind].
    destruct (Review.filterC (Review.severityIs (Js.lit "HIGH")) findings)
      as [high|] eqn:Hhigh; [ | eexists; reflexivity ].
    cbn [mbind Js.completion_bind].
    destruct findings as [|g findings]; [ contradiction | ].
    change (List.length (g :: findings) =? 0)%nat with false. cbv iota.
    set (all := g :: findings) in *.
    destruct (Review.filterC (Review.severityIs (Js.lit "MEDIUM")) all)
      as [medium|] eqn:Hmedium; [ | eexists; reflexivity ].
    cbn [mbind Js.completion_bind].
    destruct (Review.filterC (Review.severityIs (Js.lit "LOW")) all)
      as [low|] eqn:Hlow; [ | eexists; reflexivity ].
    cbn [mbind Js.completion_bind].
    assert (His : forall n, Review.severityIs n f = Js.Normal (Js.strEq name n)).
    { intros n. unfold Review.severityIs.
      rewrite (field_not_null _ _ Hobject), Hseverity. reflexivity. }
    assert (Hgroup : exists items,
               In items [critical; high; medium; low] /\ In f items).
    { destruct Hname as [<-|[<-|[<-|[<-|[]]]]].
      - exists critical. split; [ left; reflexivity | ].
        eapply filterC_keeps; [ exact Hcritical | exact Hin | ].
        rewrite His. reflexivity.
      - exists high. split; [ right; left; reflexivity | ].
        eapply filterC_keeps; [ exact Hhigh | exact Hin | ].
        rewrite His. reflexivity.
      - exists medium. split; [ do 2 right; left; reflexivity | ].
        eapply filterC_keeps; [ exact Hmedium | exact Hin | ].
        rewrite His. reflexivity.
      - exists low. split; [ do 3 right; left; reflexivity | ].
        eapply filterC_keeps; [ exact Hlow | exact Hin | ].
        rewrite His. reflexivity. }
    destruct Hgroup as (items & Hitems & Hf).
    apply (forEachC_throws _ _ items Hitems).
    apply (forEachC_throws _ _ f Hf).
    apply printFinding_throws, Hdescription.
  - intros title description suggested.
    apply formatComment_labelled; [ exact Hname | ].
    unfold fieldText. rewrite (field_not_null _ _ Hobject), Hseverity.
    reflexivity.
Qed.

End DryRunProperties.

Lemma dry_run_throws_where_a_comment_is_written_witness :
  (exists m,
      Comments.printFindings sevenText
        [describedAt "LOW" "b.js" "Validate it."; findingAt "HIGH" "src/a.js"]
      = Js.Throw m)
  /\ forall title description suggested,
       fieldText sevenText "title" (findingAt "HIGH" "src/a.js")
       = Js.Normal title ->
       fieldText sevenText "description" (findingAt "HIGH" "src/a.js")
       = Js.Normal description ->
       (suggestion ←
          Json.field (Js.lit "suggestion") (findingAt "HIGH" "src/a.js");
        Comments.suggestedFix sevenText suggestion) = Js.Normal suggested ->
       Comments.formatComment sevenText nativeText (Js.lit "anthropic")
         (findingAt "HIGH" "src/a.js")
       = Js.Normal
           (Js.lit "[" ++ Js.lit "HIGH" ++ Js.lit "]"
            ++ Js.lit " **Sage Review** [" ++ Js.lit "HIGH" ++ Js.lit "]"
            ++ Comments.LF ++ Comments.LF
            ++ Js.lit "**" ++ title ++ Js.lit "**"
            ++ Comments.LF ++ Comments.LF
            ++ description ++ Comments.LF ++ Comments.LF
            ++ suggested ++ Comments.LF ++ Comments.LF
            ++ Js.lit "---" ++ Comments.LF
            ++ Js.lit "*Reviewed with Sage using " ++ Js.lit "anthropic"
            ++ Js.lit "*").
Proof.
  apply (dry_run_throws_where_a_comment_is_written sevenText nativeText
           [describedAt "LOW" "b.js" "Validate it.";
            findingAt "HIGH" "src/a.js"]
           (findingAt "HIGH" "src/a.js") (Js.lit "HIGH") (Js.lit "anthropic")).
  - right. left. reflexivity.
  - reflexivity.
  - right. left. reflexivity.
  - reflexivity.
Defined.

(** ** The error comment *)

Section ErrorCommentProperties.
Import Sanitize.

Lemma sanitized_no_word_run (message : option (list N)) :
  hasWordRun (sanitizeErrorMessage message) = false.
Proof.
  destruct (hasWordRun (sanitizeErrorMessage message)) eqn:Hrun;
    [ | reflexivity ].
  assert (Hclean : hasToken None (sanitizeErrorMessage message) = false).
  { unfold sanitizeErrorMessage.
    destruct (Js.whenTruthy message) as [text|]; [ | reflexivity ].
    unfold redactTokens. eapply redactFrom_clean; [ reflexivity | auto ]. }
  rewrite (word_run_found _ None) in Hclean; [ discriminate | exact Hrun ].
Qed.

(** A character that is not a word character ends the runs before it. *)
Lemma wordRun_stop (a b : list N) (c : N) :
  isWord c = false -> wordRun (a ++ c :: b) = wordRun a.
Proof.
  intros Hc. induction a as [|x a IH].
  - cbn [app]. rewrite wordRun_cons, Hc. reflexivity.
  - cbn [app]. rewrite !wordRun_cons. destruct (isWord x); [ | reflexivity ].
    rewrite IH. reflexivity.
Qed.

Lemma hasWordRun_stop (a b : list N) (c : N) :
  isWord c = false ->
  hasWordRun (a ++ c :: b) = hasWordRun a || hasWordRun b.
Proof.
  intros Hc. induction a as [|x a IH].
  - cbn [app hasWordRun]. rewrite wordRun_cons, Hc. reflexivity.
  - change (hasWordRun ((x :: a) ++ c :: b))
      with ((40 <=? wordRun ((x :: a) ++ c :: b))%nat
            || hasWordRun (a ++ c :: b)).
    rewrite (wordRun_stop (x :: a) b c Hc), IH.
    cbn [hasWordRun]. rewrite orb_assoc. reflexivity.
Qed.

(** The body is the message between two fixed texts, a line feed on either
    side of it. *)
Lemma body_parts (m : list N) :
  ErrorComment.body m
  = ErrorComment.joinWith [10] ErrorComment.linesBefore
    ++ 10 :: m ++ 10 :: ErrorComment.joinWith [10] ErrorComment.linesAfter.
Proof. vm_compute. reflexivity. Qed.

(** X27.  The error comment that the [catch] of [main] posts is built from
    the sanitized message: whatever the error message, the body of the
    comment holds no run of 40 or more letters, digits and underscores. *)
Theorem error_comment_holds_no_long_token (message : option (list N)) :
  hasWordRun (ErrorComment.ofError message) = false
  /\ (forall pre w post,
        ErrorComment.ofError message = pre ++ w ++ post ->
        List.forallb isWord w = true -> (List.length w < 40)%nat).
Proof.
  assert (Hclean : hasWordRun (ErrorComment.ofError message) = false).
  { unfold ErrorComment.ofError.
    rewrite body_parts.
    rewrite hasWordRun_stop by reflexivity.
    rewrite hasWordRun_stop by reflexivity.
    rewrite sanitized_no_word_run. vm_compute. reflexivity. }
  split; [ exact Hclean | ].
  intros pre w post Hout Hw.
  destruct (Nat.lt_ge_cases (List.length w) 40) as [Hlt|Hge]; [ exact Hlt | ].
  exfalso. rewrite Hout, (hasWordRun_app _ _ _ Hw Hge) in Hclean.
  discriminate.
Qed.

End ErrorCommentProperties.
